(** * A shallow embedding of op_crates/web/08_text_encoding.js

    The text codecs of the module (UTF-8, UTF-16, Big5, the single-byte
    encodings, base64) as functions on lists of bytes and of UTF-16 code
    units, and the properties proved of them. *)

From Equations Require Import Equations.
From Stdlib Require Import ZArith List String Ascii Bool Lia.
From Stdlib.Strings Require Import Byte.
Import ListNotations.
Local Open Scope Z_scope.

(** * The static tables of the module *)

(** [encodingMap]: the labels of every encoding. *)
Definition encodingMap : list (string * list string) :=
  [
   ("utf-8", ["unicode-1-1-utf-8"; "unicode11utf8"; "unicode20utf8"; "utf-8"; "utf8"; "x-unicode20utf8"]);
   ("ibm866", ["866"; "cp866"; "csibm866"; "ibm866"]);
   ("iso-8859-2", ["csisolatin2"; "iso-8859-2"; "iso-ir-101"; "iso8859-2"; "iso88592"; "iso_8859-2"; "iso_8859-2:1987"; "l2"; "latin2"]);
   ("iso-8859-3", ["csisolatin3"; "iso-8859-3"; "iso-ir-109"; "iso8859-3"; "iso88593"; "iso_8859-3"; "iso_8859-3:1988"; "l3"; "latin3"]);
   ("iso-8859-4", ["csisolatin4"; "iso-8859-4"; "iso-ir-110"; "iso8859-4"; "iso88594"; "iso_8859-4"; "iso_8859-4:1988"; "l4"; "latin4"]);
   ("iso-8859-5", ["csisolatincyrillic"; "cyrillic"; "iso-8859-5"; "iso-ir-144"; "iso8859-5"; "iso88595"; "iso_8859-5"; "iso_8859-5:1988"]);
   ("iso-8859-6", ["arabic"; "asmo-708"; "csiso88596e"; "csiso88596i"; "csisolatinarabic"; "ecma-114"; "iso-8859-6"; "iso-8859-6-e"; "iso-8859-6-i"; "iso-ir-127"; "iso8859-6"; "iso88596"; "iso_8859-6"; "iso_8859-6:1987"]);
   ("iso-8859-7", ["csisolatingreek"; "ecma-118"; "elot_928"; "greek"; "greek8"; "iso-8859-7"; "iso-ir-126"; "iso8859-7"; "iso88597"; "iso_8859-7"; "iso_8859-7:1987"; "sun_eu_greek"]);
   ("iso-8859-8", ["csiso88598e"; "csisolatinhebrew"; "hebrew"; "iso-8859-8"; "iso-8859-8-e"; "iso-ir-138"; "iso8859-8"; "iso88598"; "iso_8859-8"; "iso_8859-8:1988"; "visual"]);
   ("iso-8859-8-i", ["csiso88598i"; "iso-8859-8-i"; "logical"]);
   ("iso-8859-10", ["csisolatin6"; "iso-8859-10"; "iso-ir-157"; "iso8859-10"; "iso885910"; "l6"; "latin6"]);
   ("iso-8859-13", ["iso-8859-13"; "iso8859-13"; "iso885913"]);
   ("iso-8859-14", ["iso-8859-14"; "iso8859-14"; "iso885914"]);
   ("iso-8859-15", ["csisolatin9"; "iso-8859-15"; "iso8859-15"; "iso885915"; "iso_8859-15"; "l9"]);
   ("iso-8859-16", ["iso-8859-16"]);
   ("koi8-r", ["cskoi8r"; "koi"; "koi8"; "koi8-r"; "koi8_r"]);
   ("koi8-u", ["koi8-ru"; "koi8-u"]);
   ("macintosh", ["csmacintosh"; "mac"; "macintosh"; "x-mac-roman"]);
   ("windows-874", ["dos-874"; "iso-8859-11"; "iso8859-11"; "iso885911"; "tis-620"; "windows-874"]);
   ("windows-1250", ["cp1250"; "windows-1250"; "x-cp1250"]);
   ("windows-1251", ["cp1251"; "windows-1251"; "x-cp1251"]);
   ("windows-1252", ["ansi_x3.4-1968"; "ascii"; "cp1252"; "cp819"; "csisolatin1"; "ibm819"; "iso-8859-1"; "iso-ir-100"; "iso8859-1"; "iso88591"; "iso_8859-1"; "iso_8859-1:1987"; "l1"; "latin1"; "us-ascii"; "windows-1252"; "x-cp1252"]);
   ("windows-1253", ["cp1253"; "windows-1253"; "x-cp1253"]);
   ("windows-1254", ["cp1254"; "csisolatin5"; "iso-8859-9"; "iso-ir-148"; "iso8859-9"; "iso88599"; "iso_8859-9"; "iso_8859-9:1989"; "l5"; "latin5"; "windows-1254"; "x-cp1254"]);
   ("windows-1255", ["cp1255"; "windows-1255"; "x-cp1255"]);
   ("windows-1256", ["cp1256"; "windows-1256"; "x-cp1256"]);
   ("windows-1257", ["cp1257"; "windows-1257"; "x-cp1257"]);
   ("windows-1258", ["cp1258"; "windows-1258"; "x-cp1258"]);
   ("x-mac-cyrillic", ["x-mac-cyrillic"; "x-mac-ukrainian"]);
   ("gbk", ["chinese"; "csgb2312"; "csiso58gb231280"; "gb2312"; "gb_2312"; "gb_2312-80"; "gbk"; "iso-ir-58"; "x-gbk"]);
   ("gb18030", ["gb18030"]);
   ("big5", ["big5"; "big5-hkscs"; "cn-big5"; "csbig5"; "x-x-big5"]);
   ("utf-16be", ["unicodefffe"; "utf-16be"]);
   ("utf-16le", ["csunicode"; "iso-10646-ucs-2"; "ucs-2"; "unicode"; "unicodefeff"; "utf-16"; "utf-16le"])
  ]%string.

(** [encodingIndexes]: the index of every single-byte encoding and of Big5. *)
Definition index_windows_1252 : list (option Z) :=
  [
   Some 8364; Some 129; Some 8218; Some 402; Some 8222; Some 8230; Some 8224; Some 8225;
   Some 710; Some 8240; Some 352; Some 8249; Some 338; Some 141; Some 381; Some 143;
   Some 144; Some 8216; Some 8217; Some 8220; Some 8221; Some 8226; Some 8211; Some 8212;
   Some 732; Some 8482; Some 353; Some 8250; Some 339; Some 157; Some 382; Some 376;
   Some 160; Some 161; Some 162; Some 163; Some 164; Some 165; Some 166; Some 167;
   Some 168; Some 169; Some 170; Some 171; Some 172; Some 173; Some 174; Some 175;
   Some 176; Some 177; Some 178; Some 179; Some 180; Some 181; Some 182; Some 183;
   Some 184; Some 185; Some 186; Some 187; Some 188; Some 189; Some 190; Some 191;
   Some 192; Some 193; Some 194; Some 195; Some 196; Some 197; Some 198; Some 199;
   Some 200; Some 201; Some 202; Some 203; Some 204; Some 205; Some 206; Some 207;
   Some 208; Some 209; Some 210; Some 211; Some 212; Some 213; Some 214; Some 215;
   Some 216; Some 217; Some 218; Some 219; Some 220; Some 221; Some 222; Some 223;
   Some 224; Some 225; Some 226; Some 227; Some 228; Some 229; Some 230; Some 231;
   Some 232; Some 233; Some 234; Some 235; Some 236; Some 237; Some 238; Some 239;
   Some 240; Some 241; Some 242; Some 243; Some 244; Some 245; Some 246; Some 247;
   Some 248; Some 249; Some 250; Some 251; Some 252; Some 253; Some 254; Some 255
  ].

Definition index_ibm866 : list (option Z) :=
  [
   Some 1040; Some 1041; Some 1042; Some 1043; Some 1044; Some 1045; Some 1046; Some 1047;
   Some 1048; Some 1049; Some 1050; Some 1051; Some 1052; Some 1053; Some 1054; Some 1055;
   Some 1056; Some 1057; Some 1058; Some 1059; Some 1060; Some 1061; Some 1062; Some 1063;
   Some 1064; Some 1065; Some 1066; Some 1067; Some 1068; Some 1069; Some 1070; Some 1071;
   Some 1072; Some 1073; Some 1074; Some 1075; Some 1076; Some 1077; Some 1078; Some 1079;
   Some 1080; Some 1081; Some 1082; Some 1083; Some 1084; Some 1085; Some 1086; Some 1087;
   Some 9617; Some 9618; Some 9619; Some 9474; Some 9508; Some 9569; Some 9570; Some 9558;
   Some 9557; Some 9571; Some 9553; Some 9559; Some 9565; Some 9564; Some 9563; Some 9488;
   Some 9492; Some 9524; Some 9516; Some 9500; Some 9472; Some 9532; Some 9566; Some 9567;
   Some 9562; Some 9556; Some 9577; Some 9574; Some 9568; Some 9552; Some 9580; Some 9575;
   Some 9576; Some 9572; Some 9573; Some 9561; Some 9560; Some 9554; Some 9555; Some 9579;
   Some 9578; Some 9496; Some 9484; Some 9608; Some 9604; Some 9612; Some 9616; Some 9600;
   Some 1088; Some 1089; Some 1090; Some 1091; Some 1092; Some 1093; Some 1094; Some 1095;
   Some 1096; Some 1097; Some 1098; Some 1099; Some 1100; Some 1101; Some 1102; Some 1103;
   Some 1025; Some 1105; Some 1028; Some 1108; Some 1031; Some 1111; Some 1038; Some 1118;
   Some 176; Some 8729; Some 183; Some 8730; Some 8470; Some 164; Some 9632; Some 160
  ].

Definition index_iso_8859_2 : list (option Z) :=
  [
   Some 128; Some 129; Some 130; Some 131; Some 132; Some 133; Some 134; Some 135;
   Some 136; Some 137; Some 138; Some 139; Some 140; Some 141; Some 142; Some 143;
   Some 144; Some 145; Some 146; Some 147; Some 148; Some 149; Some 150; Some 151;
   Some 152; Some 153; Some 154; Some 155; Some 156; Some 157; Some 158; Some 159;
   Some 160; Some 260; Some 728; Some 321; Some 164; Some 317; Some 346; Some 167;
   Some 168; Some 352; Some 350; Some 356; Some 377; Some 173; Some 381; Some 379;
   Some 176; Some 261; Some 731; Some 322; Some 180; Some 318; Some 347; Some 711;
   Some 184; Some 353; Some 351; Some 357; Some 378; Some 733; Some 382; Some 380;
   Some 340; Some 193; Some 194; Some 258; Some 196; Some 313; Some 262; Some 199;
   Some 268; Some 201; Some 280; Some 203; Some 282; Some 205; Some 206; Some 270;
   Some 272; Some 323; Some 327; Some 211; Some 212; Some 336; Some 214; Some 215;
   Some 344; Some 366; Some 218; Some 368; Some 220; Some 221; Some 354; Some 223;
   Some 341; Some 225; Some 226; Some 259; Some 228; Some 314; Some 263; Some 231;
   Some 269; Some 233; Some 281; Some 235; Some 283; Some 237; Some 238; Some 271;
   Some 273; Some 324; Some 328; Some 243; Some 244; Some 337; Some 246; Some 247;
   Some 345; Some 367; Some 250; Some 369; Some 252; Some 253; Some 355; Some 729
  ].

Definition index_iso_8859_3 : list (option Z) :=
  [
   Some 128; Some 129; Some 130; Some 131; Some 132; Some 133; Some 134; Some 135;
   Some 136; Some 137; Some 138; Some 139; Some 140; Some 141; Some 142; Some 143;
   Some 144; Some 145; Some 146; Some 147; Some 148; Some 149; Some 150; Some 151;
   Some 152; Some 153; Some 154; Some 155; Some 156; Some 157; Some 158; Some 159;
   Some 160; Some 294; Some 728; Some 163; Some 164; None; Some 292; Some 167;
   Some 168; Some 304; Some 350; Some 286; Some 308; Some 173; None; Some 379;
   Some 176; Some 295; Some 178; Some 179; Some 180; Some 181; Some 293; Some 183;
   Some 184; Some 305; Some 351; Some 287; Some 309; Some 189; None; Some 380;
   Some 192; Some 193; Some 194; None; Some 196; Some 266; Some 264; Some 199;
   Some 200; Some 201; Some 202; Some 203; Some 204; Some 205; Some 206; Some 207;
   None; Some 209; Some 210; Some 211; Some 212; Some 288; Some 214; Some 215;
   Some 284; Some 217; Some 218; Some 219; Some 220; Some 364; Some 348; Some 223;
   Some 224; Some 225; Some 226; None; Some 228; Some 267; Some 265; Some 231;
   Some 232; Some 233; Some 234; Some 235; Some 236; Some 237; Some 238; Some 239;
   None; Some 241; Some 242; Some 243; Some 244; Some 289; Some 246; Some 247;
   Some 285; Some 249; Some 250; Some 251; Some 252; Some 365; Some 349; Some 729
  ].

Definition index_iso_8859_4 : list (option Z) :=
  [
   Some 128; Some 129; Some 130; Some 131; Some 132; Some 133; Some 134; Some 135;
   Some 136; Some 137; Some 138; Some 139; Some 140; Some 141; Some 142; Some 143;
   Some 144; Some 145; Some 146; Some 147; Some 148; Some 149; Some 150; Some 151;
   Some 152; Some 153; Some 154; Some 155; Some 156; Some 157; Some 158; Some 159;
   Some 160; Some 260; Some 312; Some 342; Some 164; Some 296; Some 315; Some 167;
   Some 168; Some 352; Some 274; Some 290; Some 358; Some 173; Some 381; Some 175;
   Some 176; Some 261; Some 731; Some 343; Some 180; Some 297; Some 316; Some 711;
   Some 184; Some 353; Some 275; Some 291; Some 359; Some 330; Some 382; Some 331;
   Some 256; Some 193; Some 194; Some 195; Some 196; Some 197; Some 198; Some 302;
   Some 268; Some 201; Some 280; Some 203; Some 278; Some 205; Some 206; Some 298;
   Some 272; Some 325; Some 332; Some 310; Some 212; Some 213; Some 214; Some 215;
   Some 216; Some 370; Some 218; Some 219; Some 220; Some 360; Some 362; Some 223;
   Some 257; Some 225; Some 226; Some 227; Some 228; Some 229; Some 230; Some 303;
   Some 269; Some 233; Some 281; Some 235; Some 279; Some 237; Some 238; Some 299;
   Some 273; Some 326; Some 333; Some 311; Some 244; Some 245; Some 246; Some 247;
   Some 248; Some 371; Some 250; Some 251; Some 252; Some 361; Some 363; Some 729
  ].

Definition index_iso_8859_5 : list (option Z) :=
  [
   Some 128; Some 129; Some 130; Some 131; Some 132; Some 133; Some 134; Some 135;
   Some 136; Some 137; Some 138; Some 139; Some 140; Some 141; Some 142; Some 143;
   Some 144; Some 145; Some 146; Some 147; Some 148; Some 149; Some 150; Some 151;
   Some 152; Some 153; Some 154; Some 155; Some 156; Some 157; Some 158; Some 159;
   Some 160; Some 1025; Some 1026; Some 1027; Some 1028; Some 1029; Some 1030; Some 1031;
   Some 1032; Some 1033; Some 1034; Some 1035; Some 1036; Some 173; Some 1038; Some 1039;
   Some 1040; Some 1041; Some 1042; Some 1043; Some 1044; Some 1045; Some 1046; Some 1047;
   Some 1048; Some 1049; Some 1050; Some 1051; Some 1052; Some 1053; Some 1054; Some 1055;
   Some 1056; Some 1057; Some 1058; Some 1059; Some 1060; Some 1061; Some 1062; Some 1063;
   Some 1064; Some 1065; Some 1066; Some 1067; Some 1068; Some 1069; Some 1070; Some 1071;
   Some 1072; Some 1073; Some 1074; Some 1075; Some 1076; Some 1077; Some 1078; Some 1079;
   Some 1080; Some 1081; Some 1082; Some 1083; Some 1084; Some 1085; Some 1086; Some 1087;
   Some 1088; Some 1089; Some 1090; Some 1091; Some 1092; Some 1093; Some 1094; Some 1095;
   Some 1096; Some 1097; Some 1098; Some 1099; Some 1100; Some 1101; Some 1102; Some 1103;
   Some 8470; Some 1105; Some 1106; Some 1107; Some 1108; Some 1109; Some 1110; Some 1111;
   Some 1112; Some 1113; Some 1114; Some 1115; Some 1116; Some 167; Some 1118; Some 1119
  ].

Definition index_iso_8859_6 : list (option Z) :=
  [
   Some 128; Some 129; Some 130; Some 131; Some 132; Some 133; Some 134; Some 135;
   Some 136; Some 137; Some 138; Some 139; Some 140; Some 141; Some 142; Some 143;
   Some 144; Some 145; Some 146; Some 147; Some 148; Some 149; Some 150; Some 151;
   Some 152; Some 153; Some 154; Some 155; Some 156; Some 157; Some 158; Some 159;
   Some 160; None; None; None; Some 164; None; None; None;
   None; None; None; None; Some 1548; Some 173; None; None;
   None; None; None; None; None; None; None; None;
   None; None; None; Some 1563; None; None; None; Some 1567;
   None; Some 1569; Some 1570; Some 1571; Some 1572; Some 1573; Some 1574; Some 1575;
   Some 1576; Some 1577; Some 1578; Some 1579; Some 1580; Some 1581; Some 1582; Some 1583;
   Some 1584; Some 1585; Some 1586; Some 1587; Some 1588; Some 1589; Some 1590; Some 1591;
   Some 1592; Some 1593; Some 1594; None; None; None; None; None;
   Some 1600; Some 1601; Some 1602; Some 1603; Some 1604; Some 1605; Some 1606; Some 1607;
   Some 1608; Some 1609; Some 1610; Some 1611; Some 1612; Some 1613; Some 1614; Some 1615;
   Some 1616; Some 1617; Some 1618; None; None; None; None; None;
   None; None; None; None; None; None; None; None
  ].

Definition index_iso_8859_7 : list (option Z) :=
  [
   Some 128; Some 129; Some 130; Some 131; Some 132; Some 133; Some 134; Some 135;
   Some 136; Some 137; Some 138; Some 139; Some 140; Some 141; Some 142; Some 143;
   Some 144; Some 145; Some 146; Some 147; Some 148; Some 149; Some 150; Some 151;
   Some 152; Some 153; Some 154; Some 155; Some 156; Some 157; Some 158; Some 159;
   Some 160; Some 8216; Some 8217; Some 163; Some 8364; Some 8367; Some 166; Some 167;
   Some 168; Some 169; Some 890; Some 171; Some 172; Some 173; None; Some 8213;
   Some 176; Some 177; Some 178; Some 179; Some 900; Some 901; Some 902; Some 183;
   Some 904; Some 905; Some 906; Some 187; Some 908; Some 189; Some 910; Some 911;
   Some 912; Some 913; Some 914; Some 915; Some 916; Some 917; Some 918; Some 919;
   Some 920; Some 921; Some 922; Some 923; Some 924; Some 925; Some 926; Some 927;
   Some 928; Some 929; None; Some 931; Some 932; Some 933; Some 934; Some 935;
   Some 936; Some 937; Some 938; Some 939; Some 940; Some 941; Some 942; Some 943;
   Some 944; Some 945; Some 946; Some 947; Some 948; Some 949; Some 950; Some 951;
   Some 952; Some 953; Some 954; Some 955; Some 956; Some 957; Some 958; Some 959;
   Some 960; Some 961; Some 962; Some 963; Some 964; Some 965; Some 966; Some 967;
   Some 968; Some 969; Some 970; Some 971; Some 972; Some 973; Some 974; None
  ].

Definition index_iso_8859_8 : list (option Z) :=
  [
   Some 128; Some 129; Some 130; Some 131; Some 132; Some 133; Some 134; Some 135;
   Some 136; Some 137; Some 138; Some 139; Some 140; Some 141; Some 142; Some 143;
   Some 144; Some 145; Some 146; Some 147; Some 148; Some 149; Some 150; Some 151;
   Some 152; Some 153; Some 154; Some 155; Some 156; Some 157; Some 158; Some 159;
   Some 160; None; Some 162; Some 163; Some 164; Some 165; Some 166; Some 167;
   Some 168; Some 169; Some 215; Some 171; Some 172; Some 173; Some 174; Some 175;
   Some 176; Some 177; Some 178; Some 179; Some 180; Some 181; Some 182; Some 183;
   Some 184; Some 185; Some 247; Some 187; Some 188; Some 189; Some 190; None;
   None; None; None; None; None; None; None; None;
   None; None; None; None; None; None; None; None;
   None; None; None; None; None; None; None; None;
   None; None; None; None; None; None; None; Some 8215;
   Some 1488; Some 1489; Some 1490; Some 1491; Some 1492; Some 1493; Some 1494; Some 1495;
   Some 1496; Some 1497; Some 1498; Some 1499; Some 1500; Some 1501; Some 1502; Some 1503;
   Some 1504; Some 1505; Some 1506; Some 1507; Some 1508; Some 1509; Some 1510; Some 1511;
   Some 1512; Some 1513; Some 1514; None; None; Some 8206; Some 8207; None
  ].

Definition index_iso_8859_8_i : list (option Z) :=
  [
   Some 128; Some 129; Some 130; Some 131; Some 132; Some 133; Some 134; Some 135;
   Some 136; Some 137; Some 138; Some 139; Some 140; Some 141; Some 142; Some 143;
   Some 144; Some 145; Some 146; Some 147; Some 148; Some 149; Some 150; Some 151;
   Some 152; Some 153; Some 154; Some 155; Some 156; Some 157; Some 158; Some 159;
   Some 160; None; Some 162; Some 163; Some 164; Some 165; Some 166; Some 167;
   Some 168; Some 169; Some 215; Some 171; Some 172; Some 173; Some 174; Some 175;
   Some 176; Some 177; Some 178; Some 179; Some 180; Some 181; Some 182; Some 183;
   Some 184; Some 185; Some 247; Some 187; Some 188; Some 189; Some 190; None;
   None; None; None; None; None; None; None; None;
   None; None; None; None; None; None; None; None;
   None; None; None; None; None; None; None; None;
   None; None; None; None; None; None; None; Some 8215;
   Some 1488; Some 1489; Some 1490; Some 1491; Some 1492; Some 1493; Some 1494; Some 1495;
   Some 1496; Some 1497; Some 1498; Some 1499; Some 1500; Some 1501; Some 1502; Some 1503;
   Some 1504; Some 1505; Some 1506; Some 1507; Some 1508; Some 1509; Some 1510; Some 1511;
   Some 1512; Some 1513; Some 1514; None; None; Some 8206; Some 8207; None
  ].

Definition index_iso_8859_10 : list (option Z) :=
  [
   Some 128; Some 129; Some 130; Some 131; Some 132; Some 133; Some 134; Some 135;
   Some 136; Some 137; Some 138; Some 139; Some 140; Some 141; Some 142; Some 143;
   Some 144; Some 145; Some 146; Some 147; Some 148; Some 149; Some 150; Some 151;
   Some 152; Some 153; Some 154; Some 155; Some 156; Some 157; Some 158; Some 159;
   Some 160; Some 260; Some 274; Some 290; Some 298; Some 296; Some 310; Some 167;
   Some 315; Some 272; Some 352; Some 358; Some 381; Some 173; Some 362; Some 330;
   Some 176; Some 261; Some 275; Some 291; Some 299; Some 297; Some 311; Some 183;
   Some 316; Some 273; Some 353; Some 359; Some 382; Some 8213; Some 363; Some 331;
   Some 256; Some 193; Some 194; Some 195; Some 196; Some 197; Some 198; Some 302;
   Some 268; Some 201; Some 280; Some 203; Some 278; Some 205; Some 206; Some 207;
   Some 208; Some 325; Some 332; Some 211; Some 212; Some 213; Some 214; Some 360;
   Some 216; Some 370; Some 218; Some 219; Some 220; Some 221; Some 222; Some 223;
   Some 257; Some 225; Some 226; Some 227; Some 228; Some 229; Some 230; Some 303;
   Some 269; Some 233; Some 281; Some 235; Some 279; Some 237; Some 238; Some 239;
   Some 240; Some 326; Some 333; Some 243; Some 244; Some 245; Some 246; Some 361;
   Some 248; Some 371; Some 250; Some 251; Some 252; Some 253; Some 254; Some 312
  ].

Definition index_iso_8859_13 : list (option Z) :=
  [
   Some 128; Some 129; Some 130; Some 131; Some 132; Some 133; Some 134; Some 135;
   Some 136; Some 137; Some 138; Some 139; Some 140; Some 141; Some 142; Some 143;
   Some 144; Some 145; Some 146; Some 147; Some 148; Some 149; Some 150; Some 151;
   Some 152; Some 153; Some 154; Some 155; Some 156; Some 157; Some 158; Some 159;
   Some 160; Some 8221; Some 162; Some 163; Some 164; Some 8222; Some 166; Some 167;
   Some 216; Some 169; Some 342; Some 171; Some 172; Some 173; Some 174; Some 198;
   Some 176; Some 177; Some 178; Some 179; Some 8220; Some 181; Some 182; Some 183;
   Some 248; Some 185; Some 343; Some 187; Some 188; Some 189; Some 190; Some 230;
   Some 260; Some 302; Some 256; Some 262; Some 196; Some 197; Some 280; Some 274;
   Some 268; Some 201; Some 377; Some 278; Some 290; Some 310; Some 298; Some 315;
   Some 352; Some 323; Some 325; Some 211; Some 332; Some 213; Some 214; Some 215;
   Some 370; Some 321; Some 346; Some 362; Some 220; Some 379; Some 381; Some 223;
   Some 261; Some 303; Some 257; Some 263; Some 228; Some 229; Some 281; Some 275;
   Some 269; Some 233; Some 378; Some 279; Some 291; Some 311; Some 299; Some 316;
   Some 353; Some 324; Some 326; Some 243; Some 333; Some 245; Some 246; Some 247;
   Some 371; Some 322; Some 347; Some 363; Some 252; Some 380; Some 382; Some 8217
  ].

Definition index_iso_8859_14 : list (option Z) :=
  [
   Some 128; Some 129; Some 130; Some 131; Some 132; Some 133; Some 134; Some 135;
   Some 136; Some 137; Some 138; Some 139; Some 140; Some 141; Some 142; Some 143;
   Some 144; Some 145; Some 146; Some 147; Some 148; Some 149; Some 150; Some 151;
   Some 152; Some 153; Some 154; Some 155; Some 156; Some 157; Some 158; Some 159;
   Some 160; Some 7682; Some 7683; Some 163; Some 266; Some 267; Some 7690; Some 167;
   Some 7808; Some 169; Some 7810; Some 7691; Some 7922; Some 173; Some 174; Some 376;
   Some 7710; Some 7711; Some 288; Some 289; Some 7744; Some 7745; Some 182; Some 7766;
   Some 7809; Some 7767; Some 7811; Some 7776; Some 7923; Some 7812; Some 7813; Some 7777;
   Some 192; Some 193; Some 194; Some 195; Some 196; Some 197; Some 198; Some 199;
   Some 200; Some 201; Some 202; Some 203; Some 204; Some 205; Some 206; Some 207;
   Some 372; Some 209; Some 210; Some 211; Some 212; Some 213; Some 214; Some 7786;
   Some 216; Some 217; Some 218; Some 219; Some 220; Some 221; Some 374; Some 223;
   Some 224; Some 225; Some 226; Some 227; Some 228; Some 229; Some 230; Some 231;
   Some 232; Some 233; Some 234; Some 235; Some 236; Some 237; Some 238; Some 239;
   Some 373; Some 241; Some 242; Some 243; Some 244; Some 245; Some 246; Some 7787;
   Some 248; Some 249; Some 250; Some 251; Some 252; Some 253; Some 375; Some 255
  ].

Definition index_iso_8859_15 : list (option Z) :=
  [
   Some 128; Some 129; Some 130; Some 131; Some 132; Some 133; Some 134; Some 135;
   Some 136; Some 137; Some 138; Some 139; Some 140; Some 141; Some 142; Some 143;
   Some 144; Some 145; Some 146; Some 147; Some 148; Some 149; Some 150; Some 151;
   Some 152; Some 153; Some 154; Some 155; Some 156; Some 157; Some 158; Some 159;
   Some 160; Some 161; Some 162; Some 163; Some 8364; Some 165; Some 352; Some 167;
   Some 353; Some 169; Some 170; Some 171; Some 172; Some 173; Some 174; Some 175;
   Some 176; Some 177; Some 178; Some 179; Some 381; Some 181; Some 182; Some 183;
   Some 382; Some 185; Some 186; Some 187; Some 338; Some 339; Some 376; Some 191;
   Some 192; Some 193; Some 194; Some 195; Some 196; Some 197; Some 198; Some 199;
   Some 200; Some 201; Some 202; Some 203; Some 204; Some 205; Some 206; Some 207;
   Some 208; Some 209; Some 210; Some 211; Some 212; Some 213; Some 214; Some 215;
   Some 216; Some 217; Some 218; Some 219; Some 220; Some 221; Some 222; Some 223;
   Some 224; Some 225; Some 226; Some 227; Some 228; Some 229; Some 230; Some 231;
   Some 232; Some 233; Some 234; Some 235; Some 236; Some 237; Some 238; Some 239;
   Some 240; Some 241; Some 242; Some 243; Some 244; Some 245; Some 246; Some 247;
   Some 248; Some 249; Some 250; Some 251; Some 252; Some 253; Some 254; Some 255
  ].

Definition index_iso_8859_16 : list (option Z) :=
  [
   Some 128; Some 129; Some 130; Some 131; Some 132; Some 133; Some 134; Some 135;
   Some 136; Some 137; Some 138; Some 139; Some 140; Some 141; Some 142; Some 143;
   Some 144; Some 145; Some 146; Some 147; Some 148; Some 149; Some 150; Some 151;
   Some 152; Some 153; Some 154; Some 155; Some 156; Some 157; Some 158; Some 159;
   Some 160; Some 260; Some 261; Some 321; Some 8364; Some 8222; Some 352; Some 167;
   Some 353; Some 169; Some 536; Some 171; Some 377; Some 173; Some 378; Some 379;
   Some 176; Some 177; Some 268; Some 322; Some 381; Some 8221; Some 182; Some 183;
   Some 382; Some 269; Some 537; Some 187; Some 338; Some 339; Some 376; Some 380;
   Some 192; Some 193; Some 194; Some 258; Some 196; Some 262; Some 198; Some 199;
   Some 200; Some 201; Some 202; Some 203; Some 204; Some 205; Some 206; Some 207;
   Some 272; Some 323; Some 210; Some 211; Some 212; Some 336; Some 214; Some 346;
   Some 368; Some 217; Some 218; Some 219; Some 220; Some 280; Some 538; Some 223;
   Some 224; Some 225; Some 226; Some 259; Some 228; Some 263; Some 230; Some 231;
   Some 232; Some 233; Some 234; Some 235; Some 236; Some 237; Some 238; Some 239;
   Some 273; Some 324; Some 242; Some 243; Some 244; Some 337; Some 246; Some 347;
   Some 369; Some 249; Some 250; Some 251; Some 252; Some 281; Some 539; Some 255
  ].

Definition index_koi8_r : list (option Z) :=
  [
   Some 9472; Some 9474; Some 9484; Some 9488; Some 9492; Some 9496; Some 9500; Some 9508;
   Some 9516; Some 9524; Some 9532; Some 9600; Some 9604; Some 9608; Some 9612; Some 9616;
   Some 9617; Some 9618; Some 9619; Some 8992; Some 9632; Some 8729; Some 8730; Some 8776;
   Some 8804; Some 8805; Some 160; Some 8993; Some 176; Some 178; Some 183; Some 247;
   Some 9552; Some 9553; Some 9554; Some 1105; Some 9555; Some 9556; Some 9557; Some 9558;
   Some 9559; Some 9560; Some 9561; Some 9562; Some 9563; Some 9564; Some 9565; Some 9566;
   Some 9567; Some 9568; Some 9569; Some 1025; Some 9570; Some 9571; Some 9572; Some 9573;
   Some 9574; Some 9575; Some 9576; Some 9577; Some 9578; Some 9579; Some 9580; Some 169;
   Some 1102; Some 1072; Some 1073; Some 1094; Some 1076; Some 1077; Some 1092; Some 1075;
   Some 1093; Some 1080; Some 1081; Some 1082; Some 1083; Some 1084; Some 1085; Some 1086;
   Some 1087; Some 1103; Some 1088; Some 1089; Some 1090; Some 1091; Some 1078; Some 1074;
   Some 1100; Some 1099; Some 1079; Some 1096; Some 1101; Some 1097; Some 1095; Some 1098;
   Some 1070; Some 1040; Some 1041; Some 1062; Some 1044; Some 1045; Some 1060; Some 1043;
   Some 1061; Some 1048; Some 1049; Some 1050; Some 1051; Some 1052; Some 1053; Some 1054;
   Some 1055; Some 1071; Some 1056; Some 1057; Some 1058; Some 1059; Some 1046; Some 1042;
   Some 1068; Some 1067; Some 1047; Some 1064; Some 1069; Some 1065; Some 1063; Some 1066
  ].

Definition index_koi8_u : list (option Z) :=
  [
   Some 9472; Some 9474; Some 9484; Some 9488; Some 9492; Some 9496; Some 9500; Some 9508;
   Some 9516; Some 9524; Some 9532; Some 9600; Some 9604; Some 9608; Some 9612; Some 9616;
   Some 9617; Some 9618; Some 9619; Some 8992; Some 9632; Some 8729; Some 8730; Some 8776;
   Some 8804; Some 8805; Some 160; Some 8993; Some 176; Some 178; Some 183; Some 247;
   Some 9552; Some 9553; Some 9554; Some 1105; Some 1108; Some 9556; Some 1110; Some 1111;
   Some 9559; Some 9560; Some 9561; Some 9562; Some 9563; Some 1169; Some 1118; Some 9566;
   Some 9567; Some 9568; Some 9569; Some 1025; Some 1028; Some 9571; Some 1030; Some 1031;
   Some 9574; Some 9575; Some 9576; Some 9577; Some 9578; Some 1168; Some 1038; Some 169;
   Some 1102; Some 1072; Some 1073; Some 1094; Some 1076; Some 1077; Some 1092; Some 1075;
   Some 1093; Some 1080; Some 1081; Some 1082; Some 1083; Some 1084; Some 1085; Some 1086;
   Some 1087; Some 1103; Some 1088; Some 1089; Some 1090; Some 1091; Some 1078; Some 1074;
   Some 1100; Some 1099; Some 1079; Some 1096; Some 1101; Some 1097; Some 1095; Some 1098;
   Some 1070; Some 1040; Some 1041; Some 1062; Some 1044; Some 1045; Some 1060; Some 1043;
   Some 1061; Some 1048; Some 1049; Some 1050; Some 1051; Some 1052; Some 1053; Some 1054;
   Some 1055; Some 1071; Some 1056; Some 1057; Some 1058; Some 1059; Some 1046; Some 1042;
   Some 1068; Some 1067; Some 1047; Some 1064; Some 1069; Some 1065; Some 1063; Some 1066
  ].

Definition index_macintosh : list (option Z) :=
  [
   Some 196; Some 197; Some 199; Some 201; Some 209; Some 214; Some 220; Some 225;
   Some 224; Some 226; Some 228; Some 227; Some 229; Some 231; Some 233; Some 232;
   Some 234; Some 235; Some 237; Some 236; Some 238; Some 239; Some 241; Some 243;
   Some 242; Some 244; Some 246; Some 245; Some 250; Some 249; Some 251; Some 252;
   Some 8224; Some 176; Some 162; Some 163; Some 167; Some 8226; Some 182; Some 223;
   Some 174; Some 169; Some 8482; Some 180; Some 168; Some 8800; Some 198; Some 216;
   Some 8734; Some 177; Some 8804; Some 8805; Some 165; Some 181; Some 8706; Some 8721;
   Some 8719; Some 960; Some 8747; Some 170; Some 186; Some 937; Some 230; Some 248;
   Some 191; Some 161; Some 172; Some 8730; Some 402; Some 8776; Some 8710; Some 171;
   Some 187; Some 8230; Some 160; Some 192; Some 195; Some 213; Some 338; Some 339;
   Some 8211; Some 8212; Some 8220; Some 8221; Some 8216; Some 8217; Some 247; Some 9674;
   Some 255; Some 376; Some 8260; Some 8364; Some 8249; Some 8250; Some 64257; Some 64258;
   Some 8225; Some 183; Some 8218; Some 8222; Some 8240; Some 194; Some 202; Some 193;
   Some 203; Some 200; Some 205; Some 206; Some 207; Some 204; Some 211; Some 212;
   Some 63743; Some 210; Some 218; Some 219; Some 217; Some 305; Some 710; Some 732;
   Some 175; Some 728; Some 729; Some 730; Some 184; Some 733; Some 731; Some 711
  ].

Definition index_windows_874 : list (option Z) :=
  [
   Some 8364; Some 129; Some 130; Some 131; Some 132; Some 8230; Some 134; Some 135;
   Some 136; Some 137; Some 138; Some 139; Some 140; Some 141; Some 142; Some 143;
   Some 144; Some 8216; Some 8217; Some 8220; Some 8221; Some 8226; Some 8211; Some 8212;
   Some 152; Some 153; Some 154; Some 155; Some 156; Some 157; Some 158; Some 159;
   Some 160; Some 3585; Some 3586; Some 3587; Some 3588; Some 3589; Some 3590; Some 3591;
   Some 3592; Some 3593; Some 3594; Some 3595; Some 3596; Some 3597; Some 3598; Some 3599;
   Some 3600; Some 3601; Some 3602; Some 3603; Some 3604; Some 3605; Some 3606; Some 3607;
   Some 3608; Some 3609; Some 3610; Some 3611; Some 3612; Some 3613; Some 3614; Some 3615;
   Some 3616; Some 3617; Some 3618; Some 3619; Some 3620; Some 3621; Some 3622; Some 3623;
   Some 3624; Some 3625; Some 3626; Some 3627; Some 3628; Some 3629; Some 3630; Some 3631;
   Some 3632; Some 3633; Some 3634; Some 3635; Some 3636; Some 3637; Some 3638; Some 3639;
   Some 3640; Some 3641; Some 3642; None; None; None; None; Some 3647;
   Some 3648; Some 3649; Some 3650; Some 3651; Some 3652; Some 3653; Some 3654; Some 3655;
   Some 3656; Some 3657; Some 3658; Some 3659; Some 3660; Some 3661; Some 3662; Some 3663;
   Some 3664; Some 3665; Some 3666; Some 3667; Some 3668; Some 3669; Some 3670; Some 3671;
   Some 3672; Some 3673; Some 3674; Some 3675; None; None; None; None
  ].

Definition index_windows_1250 : list (option Z) :=
  [
   Some 8364; Some 129; Some 8218; Some 131; Some 8222; Some 8230; Some 8224; Some 8225;
   Some 136; Some 8240; Some 352; Some 8249; Some 346; Some 356; Some 381; Some 377;
   Some 144; Some 8216; Some 8217; Some 8220; Some 8221; Some 8226; Some 8211; Some 8212;
   Some 152; Some 8482; Some 353; Some 8250; Some 347; Some 357; Some 382; Some 378;
   Some 160; Some 711; Some 728; Some 321; Some 164; Some 260; Some 166; Some 167;
   Some 168; Some 169; Some 350; Some 171; Some 172; Some 173; Some 174; Some 379;
   Some 176; Some 177; Some 731; Some 322; Some 180; Some 181; Some 182; Some 183;
   Some 184; Some 261; Some 351; Some 187; Some 317; Some 733; Some 318; Some 380;
   Some 340; Some 193; Some 194; Some 258; Some 196; Some 313; Some 262; Some 199;
   Some 268; Some 201; Some 280; Some 203; Some 282; Some 205; Some 206; Some 270;
   Some 272; Some 323; Some 327; Some 211; Some 212; Some 336; Some 214; Some 215;
   Some 344; Some 366; Some 218; Some 368; Some 220; Some 221; Some 354; Some 223;
   Some 341; Some 225; Some 226; Some 259; Some 228; Some 314; Some 263; Some 231;
   Some 269; Some 233; Some 281; Some 235; Some 283; Some 237; Some 238; Some 271;
   Some 273; Some 324; Some 328; Some 243; Some 244; Some 337; Some 246; Some 247;
   Some 345; Some 367; Some 250; Some 369; Some 252; Some 253; Some 355; Some 729
  ].

Definition index_windows_1251 : list (option Z) :=
  [
   Some 1026; Some 1027; Some 8218; Some 1107; Some 8222; Some 8230; Some 8224; Some 8225;
   Some 8364; Some 8240; Some 1033; Some 8249; Some 1034; Some 1036; Some 1035; Some 1039;
   Some 1106; Some 8216; Some 8217; Some 8220; Some 8221; Some 8226; Some 8211; Some 8212;
   Some 152; Some 8482; Some 1113; Some 8250; Some 1114; Some 1116; Some 1115; Some 1119;
   Some 160; Some 1038; Some 1118; Some 1032; Some 164; Some 1168; Some 166; Some 167;
   Some 1025; Some 169; Some 1028; Some 171; Some 172; Some 173; Some 174; Some 1031;
   Some 176; Some 177; Some 1030; Some 1110; Some 1169; Some 181; Some 182; Some 183;
   Some 1105; Some 8470; Some 1108; Some 187; Some 1112; Some 1029; Some 1109; Some 1111;
   Some 1040; Some 1041; Some 1042; Some 1043; Some 1044; Some 1045; Some 1046; Some 1047;
   Some 1048; Some 1049; Some 1050; Some 1051; Some 1052; Some 1053; Some 1054; Some 1055;
   Some 1056; Some 1057; Some 1058; Some 1059; Some 1060; Some 1061; Some 1062; Some 1063;
   Some 1064; Some 1065; Some 1066; Some 1067; Some 1068; Some 1069; Some 1070; Some 1071;
   Some 1072; Some 1073; Some 1074; Some 1075; Some 1076; Some 1077; Some 1078; Some 1079;
   Some 1080; Some 1081; Some 1082; Some 1083; Some 1084; Some 1085; Some 1086; Some 1087;
   Some 1088; Some 1089; Some 1090; Some 1091; Some 1092; Some 1093; Some 1094; Some 1095;
   Some 1096; Some 1097; Some 1098; Some 1099; Some 1100; Some 1101; Some 1102; Some 1103
  ].

Definition index_windows_1253 : list (option Z) :=
  [
   Some 8364; Some 129; Some 8218; Some 402; Some 8222; Some 8230; Some 8224; Some 8225;
   Some 136; Some 8240; Some 138; Some 8249; Some 140; Some 141; Some 142; Some 143;
   Some 144; Some 8216; Some 8217; Some 8220; Some 8221; Some 8226; Some 8211; Some 8212;
   Some 152; Some 8482; Some 154; Some 8250; Some 156; Some 157; Some 158; Some 159;
   Some 160; Some 901; Some 902; Some 163; Some 164; Some 165; Some 166; Some 167;
   Some 168; Some 169; None; Some 171; Some 172; Some 173; Some 174; Some 8213;
   Some 176; Some 177; Some 178; Some 179; Some 900; Some 181; Some 182; Some 183;
   Some 904; Some 905; Some 906; Some 187; Some 908; Some 189; Some 910; Some 911;
   Some 912; Some 913; Some 914; Some 915; Some 916; Some 917; Some 918; Some 919;
   Some 920; Some 921; Some 922; Some 923; Some 924; Some 925; Some 926; Some 927;
   Some 928; Some 929; None; Some 931; Some 932; Some 933; Some 934; Some 935;
   Some 936; Some 937; Some 938; Some 939; Some 940; Some 941; Some 942; Some 943;
   Some 944; Some 945; Some 946; Some 947; Some 948; Some 949; Some 950; Some 951;
   Some 952; Some 953; Some 954; Some 955; Some 956; Some 957; Some 958; Some 959;
   Some 960; Some 961; Some 962; Some 963; Some 964; Some 965; Some 966; Some 967;
   Some 968; Some 969; Some 970; Some 971; Some 972; Some 973; Some 974; None
  ].

Definition index_windows_1254 : list (option Z) :=
  [
   Some 8364; Some 129; Some 8218; Some 402; Some 8222; Some 8230; Some 8224; Some 8225;
   Some 710; Some 8240; Some 352; Some 8249; Some 338; Some 141; Some 142; Some 143;
   Some 144; Some 8216; Some 8217; Some 8220; Some 8221; Some 8226; Some 8211; Some 8212;
   Some 732; Some 8482; Some 353; Some 8250; Some 339; Some 157; Some 158; Some 376;
   Some 160; Some 161; Some 162; Some 163; Some 164; Some 165; Some 166; Some 167;
   Some 168; Some 169; Some 170; Some 171; Some 172; Some 173; Some 174; Some 175;
   Some 176; Some 177; Some 178; Some 179; Some 180; Some 181; Some 182; Some 183;
   Some 184; Some 185; Some 186; Some 187; Some 188; Some 189; Some 190; Some 191;
   Some 192; Some 193; Some 194; Some 195; Some 196; Some 197; Some 198; Some 199;
   Some 200; Some 201; Some 202; Some 203; Some 204; Some 205; Some 206; Some 207;
   Some 286; Some 209; Some 210; Some 211; Some 212; Some 213; Some 214; Some 215;
   Some 216; Some 217; Some 218; Some 219; Some 220; Some 304; Some 350; Some 223;
   Some 224; Some 225; Some 226; Some 227; Some 228; Some 229; Some 230; Some 231;
   Some 232; Some 233; Some 234; Some 235; Some 236; Some 237; Some 238; Some 239;
   Some 287; Some 241; Some 242; Some 243; Some 244; Some 245; Some 246; Some 247;
   Some 248; Some 249; Some 250; Some 251; Some 252; Some 305; Some 351; Some 255
  ].

Definition index_windows_1255 : list (option Z) :=
  [
   Some 8364; Some 129; Some 8218; Some 402; Some 8222; Some 8230; Some 8224; Some 8225;
   Some 710; Some 8240; Some 138; Some 8249; Some 140; Some 141; Some 142; Some 143;
   Some 144; Some 8216; Some 8217; Some 8220; Some 8221; Some 8226; Some 8211; Some 8212;
   Some 732; Some 8482; Some 154; Some 8250; Some 156; Some 157; Some 158; Some 159;
   Some 160; Some 161; Some 162; Some 163; Some 8362; Some 165; Some 166; Some 167;
   Some 168; Some 169; Some 215; Some 171; Some 172; Some 173; Some 174; Some 175;
   Some 176; Some 177; Some 178; Some 179; Some 180; Some 181; Some 182; Some 183;
   Some 184; Some 185; Some 247; Some 187; Some 188; Some 189; Some 190; Some 191;
   Some 1456; Some 1457; Some 1458; Some 1459; Some 1460; Some 1461; Some 1462; Some 1463;
   Some 1464; Some 1465; Some 1466; Some 1467; Some 1468; Some 1469; Some 1470; Some 1471;
   Some 1472; Some 1473; Some 1474; Some 1475; Some 1520; Some 1521; Some 1522; Some 1523;
   Some 1524; None; None; None; None; None; None; None;
   Some 1488; Some 1489; Some 1490; Some 1491; Some 1492; Some 1493; Some 1494; Some 1495;
   Some 1496; Some 1497; Some 1498; Some 1499; Some 1500; Some 1501; Some 1502; Some 1503;
   Some 1504; Some 1505; Some 1506; Some 1507; Some 1508; Some 1509; Some 1510; Some 1511;
   Some 1512; Some 1513; Some 1514; None; None; Some 8206; Some 8207; None
  ].

Definition index_windows_1256 : list (option Z) :=
  [
   Some 8364; Some 1662; Some 8218; Some 402; Some 8222; Some 8230; Some 8224; Some 8225;
   Some 710; Some 8240; Some 1657; Some 8249; Some 338; Some 1670; Some 1688; Some 1672;
   Some 1711; Some 8216; Some 8217; Some 8220; Some 8221; Some 8226; Some 8211; Some 8212;
   Some 1705; Some 8482; Some 1681; Some 8250; Some 339; Some 8204; Some 8205; Some 1722;
   Some 160; Some 1548; Some 162; Some 163; Some 164; Some 165; Some 166; Some 167;
   Some 168; Some 169; Some 1726; Some 171; Some 172; Some 173; Some 174; Some 175;
   Some 176; Some 177; Some 178; Some 179; Some 180; Some 181; Some 182; Some 183;
   Some 184; Some 185; Some 1563; Some 187; Some 188; Some 189; Some 190; Some 1567;
   Some 1729; Some 1569; Some 1570; Some 1571; Some 1572; Some 1573; Some 1574; Some 1575;
   Some 1576; Some 1577; Some 1578; Some 1579; Some 1580; Some 1581; Some 1582; Some 1583;
   Some 1584; Some 1585; Some 1586; Some 1587; Some 1588; Some 1589; Some 1590; Some 215;
   Some 1591; Some 1592; Some 1593; Some 1594; Some 1600; Some 1601; Some 1602; Some 1603;
   Some 224; Some 1604; Some 226; Some 1605; Some 1606; Some 1607; Some 1608; Some 231;
   Some 232; Some 233; Some 234; Some 235; Some 1609; Some 1610; Some 238; Some 239;
   Some 1611; Some 1612; Some 1613; Some 1614; Some 244; Some 1615; Some 1616; Some 247;
   Some 1617; Some 249; Some 1618; Some 251; Some 252; Some 8206; Some 8207; Some 1746
  ].

Definition index_windows_1257 : list (option Z) :=
  [
   Some 8364; Some 129; Some 8218; Some 131; Some 8222; Some 8230; Some 8224; Some 8225;
   Some 136; Some 8240; Some 138; Some 8249; Some 140; Some 168; Some 711; Some 184;
   Some 144; Some 8216; Some 8217; Some 8220; Some 8221; Some 8226; Some 8211; Some 8212;
   Some 152; Some 8482; Some 154; Some 8250; Some 156; Some 175; Some 731; Some 159;
   Some 160; None; Some 162; Some 163; Some 164; None; Some 166; Some 167;
   Some 216; Some 169; Some 342; Some 171; Some 172; Some 173; Some 174; Some 198;
   Some 176; Some 177; Some 178; Some 179; Some 180; Some 181; Some 182; Some 183;
   Some 248; Some 185; Some 343; Some 187; Some 188; Some 189; Some 190; Some 230;
   Some 260; Some 302; Some 256; Some 262; Some 196; Some 197; Some 280; Some 274;
   Some 268; Some 201; Some 377; Some 278; Some 290; Some 310; Some 298; Some 315;
   Some 352; Some 323; Some 325; Some 211; Some 332; Some 213; Some 214; Some 215;
   Some 370; Some 321; Some 346; Some 362; Some 220; Some 379; Some 381; Some 223;
   Some 261; Some 303; Some 257; Some 263; Some 228; Some 229; Some 281; Some 275;
   Some 269; Some 233; Some 378; Some 279; Some 291; Some 311; Some 299; Some 316;
   Some 353; Some 324; Some 326; Some 243; Some 333; Some 245; Some 246; Some 247;
   Some 371; Some 322; Some 347; Some 363; Some 252; Some 380; Some 382; Some 729
  ].

Definition index_windows_1258 : list (option Z) :=
  [
   Some 8364; Some 129; Some 8218; Some 402; Some 8222; Some 8230; Some 8224; Some 8225;
   Some 710; Some 8240; Some 138; Some 8249; Some 338; Some 141; Some 142; Some 143;
   Some 144; Some 8216; Some 8217; Some 8220; Some 8221; Some 8226; Some 8211; Some 8212;
   Some 732; Some 8482; Some 154; Some 8250; Some 339; Some 157; Some 158; Some 376;
   Some 160; Some 161; Some 162; Some 163; Some 164; Some 165; Some 166; Some 167;
   Some 168; Some 169; Some 170; Some 171; Some 172; Some 173; Some 174; Some 175;
   Some 176; Some 177; Some 178; Some 179; Some 180; Some 181; Some 182; Some 183;
   Some 184; Some 185; Some 186; Some 187; Some 188; Some 189; Some 190; Some 191;
   Some 192; Some 193; Some 194; Some 258; Some 196; Some 197; Some 198; Some 199;
   Some 200; Some 201; Some 202; Some 203; Some 768; Some 205; Some 206; Some 207;
   Some 272; Some 209; Some 777; Some 211; Some 212; Some 416; Some 214; Some 215;
   Some 216; Some 217; Some 218; Some 219; Some 220; Some 431; Some 771; Some 223;
   Some 224; Some 225; Some 226; Some 259; Some 228; Some 229; Some 230; Some 231;
   Some 232; Some 233; Some 234; Some 235; Some 769; Some 237; Some 238; Some 239;
   Some 273; Some 241; Some 803; Some 243; Some 244; Some 417; Some 246; Some 247;
   Some 248; Some 249; Some 250; Some 251; Some 252; Some 432; Some 8363; Some 255
  ].

Definition index_x_mac_cyrillic : list (option Z) :=
  [
   Some 1040; Some 1041; Some 1042; Some 1043; Some 1044; Some 1045; Some 1046; Some 1047;
   Some 1048; Some 1049; Some 1050; Some 1051; Some 1052; Some 1053; Some 1054; Some 1055;
   Some 1056; Some 1057; Some 1058; Some 1059; Some 1060; Some 1061; Some 1062; Some 1063;
   Some 1064; Some 1065; Some 1066; Some 1067; Some 1068; Some 1069; Some 1070; Some 1071;
   Some 8224; Some 176; Some 1168; Some 163; Some 167; Some 8226; Some 182; Some 1030;
   Some 174; Some 169; Some 8482; Some 1026; Some 1106; Some 8800; Some 1027; Some 1107;
   Some 8734; Some 177; Some 8804; Some 8805; Some 1110; Some 181; Some 1169; Some 1032;
   Some 1028; Some 1108; Some 1031; Some 1111; Some 1033; Some 1113; Some 1034; Some 1114;
   Some 1112; Some 1029; Some 172; Some 8730; Some 402; Some 8776; Some 8710; Some 171;
   Some 187; Some 8230; Some 160; Some 1035; Some 1115; Some 1036; Some 1116; Some 1109;
   Some 8211; Some 8212; Some 8220; Some 8221; Some 8216; Some 8217; Some 247; Some 8222;
   Some 1038; Some 1118; Some 1039; Some 1119; Some 8470; Some 1025; Some 1105; Some 1103;
   Some 1072; Some 1073; Some 1074; Some 1075; Some 1076; Some 1077; Some 1078; Some 1079;
   Some 1080; Some 1081; Some 1082; Some 1083; Some 1084; Some 1085; Some 1086; Some 1087;
   Some 1088; Some 1089; Some 1090; Some 1091; Some 1092; Some 1093; Some 1094; Some 1095;
   Some 1096; Some 1097; Some 1098; Some 1099; Some 1100; Some 1101; Some 1102; Some 8364
  ].

Definition index_big5_00 : list (option Z) :=
  [
   None; None; None; None; None; None; None; None; None; None;
   None; None; None; None; None; None; None; None; None; None;
   None; None; None; None; None; None; None; None; None; None;
   None; None; None; None; None; None; None; None; None; None;
   None; None; None; None; None; None; None; None; None; None;
   None; None; None; None; None; None; None; None; None; None;
   None; None; None; None; None; None; None; None; None; None;
   None; None; None; None; None; None; None; None; None; None;
   None; None; None; None; None; None; None; None; None; None;
   None; None; None; None; None; None; None; None; None; None;
   None; None; None; None; None; None; None; None; None; None;
   None; None; None; None; None; None; None; None; None; None;
   None; None; None; None; None; None; None; None; None; None;
   None; None; None; None; None; None; None; None; None; None;
   None; None; None; None; None; None; None; None; None; None;
   None; None; None; None; None; None; None; None; None; None;
   None; None; None; None; None; None; None; None; None; None;
   None; None; None; None; None; None; None; None; None; None;
   None; None; None; None; None; None; None; None; None; None;
   None; None; None; None; None; None; None; None; None; None;
   None; None; None; None; None; None; None; None; None; None;
   None; None; None; None; None; None; None; None; None; None;
   None; None; None; None; None; None; None; None; None; None;
   None; None; None; None; None; None; None; None; None; None;
   None; None; None; None; None; None; None; None; None; None;
   None; None; None; None; None; None; None; None; None; None;
   None; None; None; None; None; None; None; None; None; None;
   None; None; None; None; None; None; None; None; None; None;
   None; None; None; None; None; None; None; None; None; None;
   None; None; None; None; None; None; None; None; None; None;
   None; None; None; None; None; None; None; None; None; None;
   None; None; None; None; None; None; None; None; None; None;
   None; None; None; None; None; None; None; None; None; None;
   None; None; None; None; None; None; None; None; None; None;
   None; None; None; None; None; None; None; None; None; None;
   None; None; None; None; None; None; None; None; None; None;
   None; None; None; None; None; None; None; None; None; None;
   None; None; None; None; None; None; None; None; None; None;
   None; None; None; None; None; None; None; None; None; None;
   None; None; None; None; None; None; None; None; None; None;
   None; None; None; None; None; None; None; None; None; None;
   None; None; None; None; None; None; None; None; None; None;
   None; None; None; None; None; None; None; None; None; None;
   None; None; None; None; None; None; None; None; None; None;
   None; None; None; None; None; None; None; None; None; None;
   None; None; None; None; None; None; None; None; None; None;
   None; None; None; None; None; None; None; None; None; None;
   None; None; None; None; None; None; None; None; None; None;
   None; None; None; None; None; None; None; None; None; None;
   None; None; None; None; None; None; None; None; None; None;
   None; None; None; None; None; None; None; None; None; None;
   None; None; None; None; None; None; None; None; None; None;
   None; None; None; None; None; None; None; None; None; None;
   None; None; None; None; None; None; None; None; None; None;
   None; None; None; None; None; None; None; None; None; None;
   None; None; None; None; None; None; None; None; None; None;
   None; None; None; None; None; None; None; None; None; None;
   None; None; None; None; None; None; None; None; None; None;
   None; None; None; None; None; None; None; None; None; None;
   None; None; None; None; None; None; None; None; None; None;
   None; None; None; None; None; None; None; None; None; None;
   None; None; None; None; None; None; None; None; None; None;
   None; None; None; None; None; None; None; None; None; None;
   None; None; None; None; None; None; None; None; None; None;
   None; None; None; None; None; None; None; None; None; None;
   None; None; None; None; None; None; None; None; None; None;
   None; None; None; None; None; None; None; None; None; None;
   None; None; None; None; None; None; None; None; None; None;
   None; None; None; None; None; None; None; None; None; None;
   None; None; None; None; None; None; None; None; None; None;
   None; None; None; None; None; None; None; None; None; None;
   None; None; None; None; None; None; None; None; None; None;
   None; None; None; None; None; None; None; None; None; None;
   None; None; None; None; None; None; None; None; None; None;
   None; None; None; None; None; None; None; None; None; None;
   None; None; None; None; None; None; None; None; None; None;
   None; None; None; None; None; None; None; None; None; None;
   None; None; None; None; None; None; None; None; None; None;
   None; None; None; None; None; None; None; None; None; None;
   None; None; None; None; None; None; None; None; None; None;
   None; None; None; None; None; None; None; None; None; None;
   None; None; None; None; None; None; None; None; None; None;
   None; None; None; None; None; None; None; None; None; None;
   None; None; None; None; None; None; None; None; None; None;
   None; None; None; None; None; None; None; None; None; None;
   None; None; None; None; None; None; None; None; None; None;
   None; None; None; None; None; None; None; None; None; None;
   None; None; None; None; None; None; None; None; None; None;
   None; None; None; None; None; None; None; None; None; None;
   None; None; None; None; None; None; None; None; None; None;
   None; None; None; None; None; None; None; None; None; None;
   None; None; None; None; None; None; None; None; None; None;
   None; None; None; None; None; None; None; None; None; None;
   None; None; None; None; None; None; None; None; None; None;
   None; None; Some 17392; Some 19506; Some 17923; Some 17830; Some 17784; Some 160359; Some 19831; Some 17843;
   Some 162993; Some 19682; Some 163013; Some 15253; Some 18230; Some 18244; Some 19527; Some 19520; Some 148159; Some 144919;
   Some 160594; Some 159371; Some 159954; Some 19543; Some 172881; Some 18255; Some 17882; Some 19589; Some 162924; Some 19719;
   Some 19108; Some 18081; Some 158499; Some 29221; Some 154196; Some 137827; Some 146950; Some 147297; Some 26189; Some 22267;
   None; Some 32149; Some 22813; Some 166841; Some 15860; Some 38708; Some 162799; Some 23515; Some 138590; Some 23204;
   Some 13861; Some 171696; Some 23249; Some 23479; Some 23804; Some 26478; Some 34195; Some 170309; Some 29793; Some 29853
  ].

Definition index_big5_01 : list (option Z) :=
  [
   Some 14453; Some 138579; Some 145054; Some 155681; Some 16108; Some 153822; Some 15093; Some 31484; Some 40855; Some 147809;
   Some 166157; Some 143850; Some 133770; Some 143966; Some 17162; Some 33924; Some 40854; Some 37935; Some 18736; Some 34323;
   Some 22678; Some 38730; Some 37400; Some 31184; Some 31282; Some 26208; Some 27177; Some 34973; Some 29772; Some 31685;
   Some 26498; Some 31276; Some 21071; Some 36934; Some 13542; Some 29636; Some 155065; Some 29894; Some 40903; Some 22451;
   Some 18735; Some 21580; Some 16689; Some 145038; Some 22552; Some 31346; Some 162661; Some 35727; Some 18094; Some 159368;
   Some 16769; Some 155033; Some 31662; Some 140476; Some 40904; Some 140481; Some 140489; Some 140492; Some 40905; Some 34052;
   Some 144827; Some 16564; Some 40906; Some 17633; Some 175615; Some 25281; Some 28782; Some 40907; None; None;
   None; None; None; None; None; None; None; None; None; None;
   None; None; None; None; None; None; None; None; None; None;
   None; None; None; None; None; None; None; None; None; Some 12736;
   Some 12737; Some 12738; Some 12739; Some 12740; Some 131340; Some 12741; Some 131281; Some 131277; Some 12742; Some 12743;
   Some 131275; Some 139240; Some 12744; Some 131274; Some 12745; Some 12746; Some 12747; Some 12748; Some 131342; Some 12749;
   Some 12750; Some 256; Some 193; Some 461; Some 192; Some 274; Some 201; Some 282; Some 200; Some 332;
   Some 211; Some 465; Some 210; None; Some 7870; None; Some 7872; Some 202; Some 257; Some 225;
   Some 462; Some 224; Some 593; Some 275; Some 233; Some 283; Some 232; Some 299; Some 237; Some 464;
   Some 236; Some 333; Some 243; Some 466; Some 242; Some 363; Some 250; Some 468; Some 249; Some 470;
   Some 472; Some 474; Some 476; Some 252; None; Some 7871; None; Some 7873; Some 234; Some 609;
   Some 9178; Some 9179; None; None; None; None; None; None; None; None;
   None; None; None; None; None; None; None; None; None; None;
   None; None; None; None; None; None; None; None; None; None;
   None; None; None; None; None; None; None; None; None; None;
   None; None; None; None; None; None; None; None; None; None;
   None; None; None; None; None; None; None; None; None; None;
   None; None; None; None; None; None; None; None; None; None;
   None; None; None; None; None; None; None; None; None; None;
   None; None; None; None; None; None; Some 172969; Some 135493; None; Some 25866;
   None; None; Some 20029; Some 28381; Some 40270; Some 37343; None; None; Some 161589; Some 25745;
   Some 20250; Some 20264; Some 20392; Some 20822; Some 20852; Some 20892; Some 20964; Some 21153; Some 21160; Some 21307;
   Some 21326; Some 21457; Some 21464; Some 22242; Some 22768; Some 22788; Some 22791; Some 22834; Some 22836; Some 23398;
   Some 23454; Some 23455; Some 23706; Some 24198; Some 24635; Some 25993; Some 26622; Some 26628; Some 26725; Some 27982;
   Some 28860; Some 30005; Some 32420; Some 32428; Some 32442; Some 32455; Some 32463; Some 32479; Some 32518; Some 32567;
   Some 33402; Some 33487; Some 33647; Some 35270; Some 35774; Some 35810; Some 36710; Some 36711; Some 36718; Some 29713;
   Some 31996; Some 32205; Some 26950; Some 31433; Some 21031; None; None; None; None; Some 37260;
   Some 30904; Some 37214; Some 32956; None; Some 36107; Some 33014; Some 133607; None; None; Some 32927;
   Some 40647; Some 19661; Some 40393; Some 40460; Some 19518; Some 171510; Some 159758; Some 40458; Some 172339; Some 13761;
   None; Some 28314; Some 33342; Some 29977; None; Some 18705; Some 39532; Some 39567; Some 40857; Some 31111;
   Some 164972; Some 138698; Some 132560; Some 142054; Some 20004; Some 20097; Some 20096; Some 20103; Some 20159; Some 20203;
   Some 20279; Some 13388; Some 20413; Some 15944; Some 20483; Some 20616; Some 13437; Some 13459; Some 13477; Some 20870;
   Some 22789; Some 20955; Some 20988; Some 20997; Some 20105; Some 21113; Some 21136; Some 21287; Some 13767; Some 21417;
   Some 13649; Some 21424; Some 13651; Some 21442; Some 21539; Some 13677; Some 13682; Some 13953; Some 21651; Some 21667;
   Some 21684; Some 21689; Some 21712; Some 21743; Some 21784; Some 21795; Some 21800; Some 13720; Some 21823; Some 13733;
   Some 13759; Some 21975; Some 13765; Some 163204; Some 21797; None; Some 134210; Some 134421; Some 151851; Some 21904;
   Some 142534; Some 14828; Some 131905; Some 36422; Some 150968; Some 169189; Some 16467; Some 164030; Some 30586; Some 142392;
   Some 14900; Some 18389; Some 164189; Some 158194; Some 151018; Some 25821; Some 134524; Some 135092; Some 134357; Some 135412;
   Some 25741; Some 36478; Some 134806; Some 134155; Some 135012; Some 142505; Some 164438; Some 148691; None; Some 134470;
   Some 170573; Some 164073; Some 18420; Some 151207; Some 142530; Some 39602; Some 14951; Some 169460; Some 16365; Some 13574;
   Some 152263; Some 169940; Some 161992; Some 142660; Some 40302; Some 38933; None; Some 17369; Some 155813; Some 25780;
   Some 21731; Some 142668; Some 142282; Some 135287; Some 14843; Some 135279; Some 157402; Some 157462; Some 162208; Some 25834;
   Some 151634; Some 134211; Some 36456; Some 139681; Some 166732; Some 132913; None; Some 18443; Some 131497; Some 16378;
   Some 22643; Some 142733; None; Some 148936; Some 132348; Some 155799; Some 134988; Some 134550; Some 21881; Some 16571;
   Some 17338; None; Some 19124; Some 141926; Some 135325; Some 33194; Some 39157; Some 134556; Some 25465; Some 14846;
   Some 141173; Some 36288; Some 22177; Some 25724; Some 15939; None; Some 173569; Some 134665; Some 142031; Some 142537;
   None; Some 135368; Some 145858; Some 14738; Some 14854; Some 164507; Some 13688; Some 155209; Some 139463; Some 22098;
   Some 134961; Some 142514; Some 169760; Some 13500; Some 27709; Some 151099; None; None; Some 161140; Some 142987;
   Some 139784; Some 173659; Some 167117; Some 134778; Some 134196; Some 157724; Some 32659; Some 135375; Some 141315; Some 141625;
   Some 13819; Some 152035; Some 134796; Some 135053; Some 134826; Some 16275; Some 134960; Some 134471; Some 135503; Some 134732;
   None; Some 134827; Some 134057; Some 134472; Some 135360; Some 135485; Some 16377; Some 140950; Some 25650; Some 135085;
   Some 144372; Some 161337; Some 142286; Some 134526; Some 134527; Some 142417; Some 142421; Some 14872; Some 134808; Some 135367;
   Some 134958; Some 173618; Some 158544; Some 167122; Some 167321; Some 167114; Some 38314; Some 21708; Some 33476; Some 21945;
   None; Some 171715; Some 39974; Some 39606; Some 161630; Some 142830; Some 28992; Some 33133; Some 33004; Some 23580;
   Some 157042; Some 33076; Some 14231; Some 21343; Some 164029; Some 37302; Some 134906; Some 134671; Some 134775; Some 134907;
   Some 13789; Some 151019; Some 13833; Some 134358; Some 22191; Some 141237; Some 135369; Some 134672; Some 134776; Some 135288;
   Some 135496; Some 164359; Some 136277; Some 134777; Some 151120; Some 142756; Some 23124; Some 135197; Some 135198; Some 135413;
   Some 135414; Some 22428; Some 134673; Some 161428; Some 164557; Some 135093; Some 134779; Some 151934; Some 14083; Some 135094;
   Some 135552; Some 152280; Some 172733; Some 149978; Some 137274; Some 147831; Some 164476; Some 22681; Some 21096; Some 13850;
   Some 153405; Some 31666; Some 23400; Some 18432; Some 19244; Some 40743; Some 18919; Some 39967; Some 39821; Some 154484;
   Some 143677; Some 22011; Some 13810; Some 22153; Some 20008; Some 22786; Some 138177; Some 194680; Some 38737; Some 131206;
   Some 20059; Some 20155; Some 13630; Some 23587; Some 24401; Some 24516; Some 14586; Some 25164; Some 25909; Some 27514;
   Some 27701; Some 27706; Some 28780; Some 29227; Some 20012; Some 29357; Some 149737; Some 32594; Some 31035; Some 31993;
   Some 32595; Some 156266; Some 13505; None; Some 156491; Some 32770; Some 32896; Some 157202; Some 158033; Some 21341;
   Some 34916; Some 35265; Some 161970; Some 35744; Some 36125; Some 38021; Some 38264; Some 38271; Some 38376; Some 167439;
   Some 38886; Some 39029; Some 39118; Some 39134; Some 39267; Some 170000; Some 40060; Some 40479; Some 40644; Some 27503;
   Some 63751; Some 20023; Some 131207; Some 38429; Some 25143; Some 38050; None; Some 20539; Some 28158; Some 171123;
   Some 40870; Some 15817; Some 34959; Some 147790; Some 28791; Some 23797; Some 19232; Some 152013; Some 13657; Some 154928;
   Some 24866; Some 166450; Some 36775; Some 37366; Some 29073; Some 26393; Some 29626; Some 144001; Some 172295; Some 15499;
   Some 137600; Some 19216; Some 30948; Some 29698; Some 20910; Some 165647; Some 16393; Some 27235; Some 172730; Some 16931;
   Some 34319; Some 133743; Some 31274; Some 170311; Some 166634; Some 38741; Some 28749; Some 21284; Some 139390; Some 37876;
   Some 30425; Some 166371; Some 40871; Some 30685; Some 20131; Some 20464; Some 20668; Some 20015; Some 20247; Some 40872;
   Some 21556; Some 32139; Some 22674; Some 22736; Some 138678; Some 24210; Some 24217; Some 24514; Some 141074; Some 25995;
   Some 144377; Some 26905; Some 27203; Some 146531; Some 27903; None; Some 29184; Some 148741; Some 29580; Some 16091;
   Some 150035; Some 23317; Some 29881; Some 35715; Some 154788; Some 153237; Some 31379; Some 31724; Some 31939; Some 32364;
   Some 33528; Some 34199; Some 40873; Some 34960; Some 40874; Some 36537; Some 40875; Some 36815; Some 34143; Some 39392;
   Some 37409; Some 40876; Some 167353; Some 136255; Some 16497; Some 17058; Some 23066; None; None; None;
   Some 39016; Some 26475; Some 17014; Some 22333; None; Some 34262; Some 149883; Some 33471; Some 160013; Some 19585;
   Some 159092; Some 23931; Some 158485; Some 159678; Some 40877; Some 40878; Some 23446; Some 40879; Some 26343; Some 32347;
   Some 28247; Some 31178; Some 15752; Some 17603; Some 143958; Some 141206; Some 17306; Some 17718; None; Some 23765;
   Some 146202; Some 35577; Some 23672; Some 15634; Some 144721; Some 23928; Some 40882; Some 29015; Some 17752; Some 147692;
   Some 138787; Some 19575; Some 14712; Some 13386; Some 131492; Some 158785; Some 35532; Some 20404; Some 131641; Some 22975;
   Some 33132; Some 38998; Some 170234; Some 24379; Some 134047; None; Some 139713; Some 166253; Some 16642; Some 18107;
   Some 168057; Some 16135; Some 40883; Some 172469; Some 16632; Some 14294; Some 18167; Some 158790; Some 16764; Some 165554;
   Some 160767; Some 17773; Some 14548; Some 152730; Some 17761; Some 17691; Some 19849; Some 19579; Some 19830; Some 17898;
   Some 16328; Some 150287; Some 13921; Some 17630; Some 17597; Some 16877; Some 23870; Some 23880; Some 23894; Some 15868;
   Some 14351; Some 23972; Some 23993; Some 14368; Some 14392; Some 24130; Some 24253; Some 24357; Some 24451; Some 14600;
   Some 14612; Some 14655; Some 14669; Some 24791; Some 24893; Some 23781; Some 14729; Some 25015; Some 25017; Some 25039;
   Some 14776; Some 25132; Some 25232; Some 25317; Some 25368; Some 14840; Some 22193; Some 14851; Some 25570; Some 25595;
   Some 25607; Some 25690; Some 14923; Some 25792; Some 23829; Some 22049; Some 40863; Some 14999; Some 25990; Some 15037;
   Some 26111; Some 26195; Some 15090; Some 26258; Some 15138; Some 26390; Some 15170; Some 26532; Some 26624; Some 15192;
   Some 26698; Some 26756; Some 15218; Some 15217; Some 15227; Some 26889; Some 26947; Some 29276; Some 26980; Some 27039;
   Some 27013; Some 15292; Some 27094; Some 15325; Some 27237; Some 27252; Some 27249; Some 27266; Some 15340; Some 27289;
   Some 15346; Some 27307; Some 27317; Some 27348; Some 27382; Some 27521; Some 27585; Some 27626; Some 27765; Some 27818
  ].

Definition index_big5_02 : list (option Z) :=
  [
   Some 15563; Some 27906; Some 27910; Some 27942; Some 28033; Some 15599; Some 28068; Some 28081; Some 28181; Some 28184;
   Some 28201; Some 28294; Some 166336; Some 28347; Some 28386; Some 28378; Some 40831; Some 28392; Some 28393; Some 28452;
   Some 28468; Some 15686; Some 147265; Some 28545; Some 28606; Some 15722; Some 15733; Some 29111; Some 23705; Some 15754;
   Some 28716; Some 15761; Some 28752; Some 28756; Some 28783; Some 28799; Some 28809; Some 131877; Some 17345; Some 13809;
   Some 134872; Some 147159; Some 22462; Some 159443; Some 28990; Some 153568; Some 13902; Some 27042; Some 166889; Some 23412;
   Some 31305; Some 153825; Some 169177; Some 31333; Some 31357; Some 154028; Some 31419; Some 31408; Some 31426; Some 31427;
   Some 29137; Some 156813; Some 16842; Some 31450; Some 31453; Some 31466; Some 16879; Some 21682; Some 154625; Some 31499;
   Some 31573; Some 31529; Some 152334; Some 154878; Some 31650; Some 31599; Some 33692; Some 154548; Some 158847; Some 31696;
   Some 33825; Some 31634; Some 31672; Some 154912; Some 15789; Some 154725; Some 33938; Some 31738; Some 31750; Some 31797;
   Some 154817; Some 31812; Some 31875; Some 149634; Some 31910; Some 26237; Some 148856; Some 31945; Some 31943; Some 31974;
   Some 31860; Some 31987; Some 31989; Some 31950; Some 32359; Some 17693; Some 159300; Some 32093; Some 159446; Some 29837;
   Some 32137; Some 32171; Some 28981; Some 32179; Some 32210; Some 147543; Some 155689; Some 32228; Some 15635; Some 32245;
   Some 137209; Some 32229; Some 164717; Some 32285; Some 155937; Some 155994; Some 32366; Some 32402; Some 17195; Some 37996;
   Some 32295; Some 32576; Some 32577; Some 32583; Some 31030; Some 156368; Some 39393; Some 32663; Some 156497; Some 32675;
   Some 136801; Some 131176; Some 17756; Some 145254; Some 17667; Some 164666; Some 32762; Some 156809; Some 32773; Some 32776;
   Some 32797; Some 32808; Some 32815; Some 172167; Some 158915; Some 32827; Some 32828; Some 32865; Some 141076; Some 18825;
   Some 157222; Some 146915; Some 157416; Some 26405; Some 32935; Some 166472; Some 33031; Some 33050; Some 22704; Some 141046;
   Some 27775; Some 156824; Some 151480; Some 25831; Some 136330; Some 33304; Some 137310; Some 27219; Some 150117; Some 150165;
   Some 17530; Some 33321; Some 133901; Some 158290; Some 146814; Some 20473; Some 136445; Some 34018; Some 33634; Some 158474;
   Some 149927; Some 144688; Some 137075; Some 146936; Some 33450; Some 26907; Some 194964; Some 16859; Some 34123; Some 33488;
   Some 33562; Some 134678; Some 137140; Some 14017; Some 143741; Some 144730; Some 33403; Some 33506; Some 33560; Some 147083;
   Some 159139; Some 158469; Some 158615; Some 144846; Some 15807; Some 33565; Some 21996; Some 33669; Some 17675; Some 159141;
   Some 33708; Some 33729; Some 33747; Some 13438; Some 159444; Some 27223; Some 34138; Some 13462; Some 159298; Some 143087;
   Some 33880; Some 154596; Some 33905; Some 15827; Some 17636; Some 27303; Some 33866; Some 146613; Some 31064; Some 33960;
   Some 158614; Some 159351; Some 159299; Some 34014; Some 33807; Some 33681; Some 17568; Some 33939; Some 34020; Some 154769;
   Some 16960; Some 154816; Some 17731; Some 34100; Some 23282; Some 159385; Some 17703; Some 34163; Some 17686; Some 26559;
   Some 34326; Some 165413; Some 165435; Some 34241; Some 159880; Some 34306; Some 136578; Some 159949; Some 194994; Some 17770;
   Some 34344; Some 13896; Some 137378; Some 21495; Some 160666; Some 34430; Some 34673; Some 172280; Some 34798; Some 142375;
   Some 34737; Some 34778; Some 34831; Some 22113; Some 34412; Some 26710; Some 17935; Some 34885; Some 34886; Some 161248;
   Some 146873; Some 161252; Some 34910; Some 34972; Some 18011; Some 34996; Some 34997; Some 25537; Some 35013; Some 30583;
   Some 161551; Some 35207; Some 35210; Some 35238; Some 35241; Some 35239; Some 35260; Some 166437; Some 35303; Some 162084;
   Some 162493; Some 35484; Some 30611; Some 37374; Some 35472; Some 162393; Some 31465; Some 162618; Some 147343; Some 18195;
   Some 162616; Some 29052; Some 35596; Some 35615; Some 152624; Some 152933; Some 35647; Some 35660; Some 35661; Some 35497;
   Some 150138; Some 35728; Some 35739; Some 35503; Some 136927; Some 17941; Some 34895; Some 35995; Some 163156; Some 163215;
   Some 195028; Some 14117; Some 163155; Some 36054; Some 163224; Some 163261; Some 36114; Some 36099; Some 137488; Some 36059;
   Some 28764; Some 36113; Some 150729; Some 16080; Some 36215; Some 36265; Some 163842; Some 135188; Some 149898; Some 15228;
   Some 164284; Some 160012; Some 31463; Some 36525; Some 36534; Some 36547; Some 37588; Some 36633; Some 36653; Some 164709;
   Some 164882; Some 36773; Some 37635; Some 172703; Some 133712; Some 36787; Some 18730; Some 166366; Some 165181; Some 146875;
   Some 24312; Some 143970; Some 36857; Some 172052; Some 165564; Some 165121; Some 140069; Some 14720; Some 159447; Some 36919;
   Some 165180; Some 162494; Some 36961; Some 165228; Some 165387; Some 37032; Some 165651; Some 37060; Some 165606; Some 37038;
   Some 37117; Some 37223; Some 15088; Some 37289; Some 37316; Some 31916; Some 166195; Some 138889; Some 37390; Some 27807;
   Some 37441; Some 37474; Some 153017; Some 37561; Some 166598; Some 146587; Some 166668; Some 153051; Some 134449; Some 37676;
   Some 37739; Some 166625; Some 166891; Some 28815; Some 23235; Some 166626; Some 166629; Some 18789; Some 37444; Some 166892;
   Some 166969; Some 166911; Some 37747; Some 37979; Some 36540; Some 38277; Some 38310; Some 37926; Some 38304; Some 28662;
   Some 17081; Some 140922; Some 165592; Some 135804; Some 146990; Some 18911; Some 27676; Some 38523; Some 38550; Some 16748;
   Some 38563; Some 159445; Some 25050; Some 38582; Some 30965; Some 166624; Some 38589; Some 21452; Some 18849; Some 158904;
   Some 131700; Some 156688; Some 168111; Some 168165; Some 150225; Some 137493; Some 144138; Some 38705; Some 34370; Some 38710;
   Some 18959; Some 17725; Some 17797; Some 150249; Some 28789; Some 23361; Some 38683; Some 38748; Some 168405; Some 38743;
   Some 23370; Some 168427; Some 38751; Some 37925; Some 20688; Some 143543; Some 143548; Some 38793; Some 38815; Some 38833;
   Some 38846; Some 38848; Some 38866; Some 38880; Some 152684; Some 38894; Some 29724; Some 169011; Some 38911; Some 38901;
   Some 168989; Some 162170; Some 19153; Some 38964; Some 38963; Some 38987; Some 39014; Some 15118; Some 160117; Some 15697;
   Some 132656; Some 147804; Some 153350; Some 39114; Some 39095; Some 39112; Some 39111; Some 19199; Some 159015; Some 136915;
   Some 21936; Some 39137; Some 39142; Some 39148; Some 37752; Some 39225; Some 150057; Some 19314; Some 170071; Some 170245;
   Some 39413; Some 39436; Some 39483; Some 39440; Some 39512; Some 153381; Some 14020; Some 168113; Some 170965; Some 39648;
   Some 39650; Some 170757; Some 39668; Some 19470; Some 39700; Some 39725; Some 165376; Some 20532; Some 39732; Some 158120;
   Some 14531; Some 143485; Some 39760; Some 39744; Some 171326; Some 23109; Some 137315; Some 39822; Some 148043; Some 39938;
   Some 39935; Some 39948; Some 171624; Some 40404; Some 171959; Some 172434; Some 172459; Some 172257; Some 172323; Some 172511;
   Some 40318; Some 40323; Some 172340; Some 40462; Some 26760; Some 40388; Some 139611; Some 172435; Some 172576; Some 137531;
   Some 172595; Some 40249; Some 172217; Some 172724; Some 40592; Some 40597; Some 40606; Some 40610; Some 19764; Some 40618;
   Some 40623; Some 148324; Some 40641; Some 15200; Some 14821; Some 15645; Some 20274; Some 14270; Some 166955; Some 40706;
   Some 40712; Some 19350; Some 37924; Some 159138; Some 40727; Some 40726; Some 40761; Some 22175; Some 22154; Some 40773;
   Some 39352; Some 168075; Some 38898; Some 33919; Some 40802; Some 40809; Some 31452; Some 40846; Some 29206; Some 19390;
   Some 149877; Some 149947; Some 29047; Some 150008; Some 148296; Some 150097; Some 29598; Some 166874; Some 137466; Some 31135;
   Some 166270; Some 167478; Some 37737; Some 37875; Some 166468; Some 37612; Some 37761; Some 37835; Some 166252; Some 148665;
   Some 29207; Some 16107; Some 30578; Some 31299; Some 28880; Some 148595; Some 148472; Some 29054; Some 137199; Some 28835;
   Some 137406; Some 144793; Some 16071; Some 137349; Some 152623; Some 137208; Some 14114; Some 136955; Some 137273; Some 14049;
   Some 137076; Some 137425; Some 155467; Some 14115; Some 136896; Some 22363; Some 150053; Some 136190; Some 135848; Some 136134;
   Some 136374; Some 34051; Some 145062; Some 34051; Some 33877; Some 149908; Some 160101; Some 146993; Some 152924; Some 147195;
   Some 159826; Some 17652; Some 145134; Some 170397; Some 159526; Some 26617; Some 14131; Some 15381; Some 15847; Some 22636;
   Some 137506; Some 26640; Some 16471; Some 145215; Some 147681; Some 147595; Some 147727; Some 158753; Some 21707; Some 22174;
   Some 157361; Some 22162; Some 135135; Some 134056; Some 134669; Some 37830; Some 166675; Some 37788; Some 20216; Some 20779;
   Some 14361; Some 148534; Some 20156; Some 132197; Some 131967; Some 20299; Some 20362; Some 153169; Some 23144; Some 131499;
   Some 132043; Some 14745; Some 131850; Some 132116; Some 13365; Some 20265; Some 131776; Some 167603; Some 131701; Some 35546;
   Some 131596; Some 20120; Some 20685; Some 20749; Some 20386; Some 20227; Some 150030; Some 147082; Some 20290; Some 20526;
   Some 20588; Some 20609; Some 20428; Some 20453; Some 20568; Some 20732; Some 20825; Some 20827; Some 20829; Some 20830;
   Some 28278; Some 144789; Some 147001; Some 147135; Some 28018; Some 137348; Some 147081; Some 20904; Some 20931; Some 132576;
   Some 17629; Some 132259; Some 132242; Some 132241; Some 36218; Some 166556; Some 132878; Some 21081; Some 21156; Some 133235;
   Some 21217; Some 37742; Some 18042; Some 29068; Some 148364; Some 134176; Some 149932; Some 135396; Some 27089; Some 134685;
   Some 29817; Some 16094; Some 29849; Some 29716; Some 29782; Some 29592; Some 19342; Some 150204; Some 147597; Some 21456;
   Some 13700; Some 29199; Some 147657; Some 21940; Some 131909; Some 21709; Some 134086; Some 22301; Some 37469; Some 38644;
   Some 37734; Some 22493; Some 22413; Some 22399; Some 13886; Some 22731; Some 23193; Some 166470; Some 136954; Some 137071;
   Some 136976; Some 23084; Some 22968; Some 37519; Some 23166; Some 23247; Some 23058; Some 153926; Some 137715; Some 137313;
   Some 148117; Some 14069; Some 27909; Some 29763; Some 23073; Some 155267; Some 23169; Some 166871; Some 132115; Some 37856;
   Some 29836; Some 135939; Some 28933; Some 18802; Some 37896; Some 166395; Some 37821; Some 14240; Some 23582; Some 23710;
   Some 24158; Some 24136; Some 137622; Some 137596; Some 146158; Some 24269; Some 23375; Some 137475; Some 137476; Some 14081;
   Some 137376; Some 14045; Some 136958; Some 14035; Some 33066; Some 166471; Some 138682; Some 144498; Some 166312; Some 24332;
   Some 24334; Some 137511; Some 137131; Some 23147; Some 137019; Some 23364; Some 34324; Some 161277; Some 34912; Some 24702;
   Some 141408; Some 140843; Some 24539; Some 16056; Some 140719; Some 140734; Some 168072; Some 159603; Some 25024; Some 131134;
   Some 131142; Some 140827; Some 24985; Some 24984; Some 24693; Some 142491; Some 142599; Some 149204; Some 168269; Some 25713;
   Some 149093; Some 142186; Some 14889; Some 142114; Some 144464; Some 170218; Some 142968; Some 25399; Some 173147; Some 25782;
   Some 25393; Some 25553; Some 149987; Some 142695; Some 25252; Some 142497; Some 25659; Some 25963; Some 26994; Some 15348;
   Some 143502; Some 144045; Some 149897; Some 144043; Some 21773; Some 144096; Some 137433; Some 169023; Some 26318; Some 144009;
   Some 143795; Some 15072; Some 16784; Some 152964; Some 166690; Some 152975; Some 136956; Some 152923; Some 152613; Some 30958;
   Some 143619; Some 137258; Some 143924; Some 13412; Some 143887; Some 143746; Some 148169; Some 26254; Some 159012; Some 26219;
   Some 19347; Some 26160; Some 161904; Some 138731; Some 26211; Some 144082; Some 144097; Some 26142; Some 153714; Some 14545;
   Some 145466; Some 145340; Some 15257; Some 145314; Some 144382; Some 29904; Some 15254; Some 26511; Some 149034; Some 26806;
   Some 26654; Some 15300; Some 27326; Some 14435; Some 145365; Some 148615; Some 27187; Some 27218; Some 27337; Some 27397;
   Some 137490; Some 25873; Some 26776; Some 27212; Some 15319; Some 27258; Some 27479; Some 147392; Some 146586; Some 37792;
   Some 37618; Some 166890; Some 166603; Some 37513; Some 163870; Some 166364; Some 37991; Some 28069; Some 28427; Some 149996;
   Some 28007; Some 147327; Some 15759; Some 28164; Some 147516; Some 23101; Some 28170; Some 22599; Some 27940; Some 30786
  ].

Definition index_big5_03 : list (option Z) :=
  [
   Some 28987; Some 148250; Some 148086; Some 28913; Some 29264; Some 29319; Some 29332; Some 149391; Some 149285; Some 20857;
   Some 150180; Some 132587; Some 29818; Some 147192; Some 144991; Some 150090; Some 149783; Some 155617; Some 16134; Some 16049;
   Some 150239; Some 166947; Some 147253; Some 24743; Some 16115; Some 29900; Some 29756; Some 37767; Some 29751; Some 17567;
   Some 159210; Some 17745; Some 30083; Some 16227; Some 150745; Some 150790; Some 16216; Some 30037; Some 30323; Some 173510;
   Some 15129; Some 29800; Some 166604; Some 149931; Some 149902; Some 15099; Some 15821; Some 150094; Some 16127; Some 149957;
   Some 149747; Some 37370; Some 22322; Some 37698; Some 166627; Some 137316; Some 20703; Some 152097; Some 152039; Some 30584;
   Some 143922; Some 30478; Some 30479; Some 30587; Some 149143; Some 145281; Some 14942; Some 149744; Some 29752; Some 29851;
   Some 16063; Some 150202; Some 150215; Some 16584; Some 150166; Some 156078; Some 37639; Some 152961; Some 30750; Some 30861;
   Some 30856; Some 30930; Some 29648; Some 31065; Some 161601; Some 153315; Some 16654; Some 31131; Some 33942; Some 31141;
   Some 27181; Some 147194; Some 31290; Some 31220; Some 16750; Some 136934; Some 16690; Some 37429; Some 31217; Some 134476;
   Some 149900; Some 131737; Some 146874; Some 137070; Some 13719; Some 21867; Some 13680; Some 13994; Some 131540; Some 134157;
   Some 31458; Some 23129; Some 141045; Some 154287; Some 154268; Some 23053; Some 131675; Some 30960; Some 23082; Some 154566;
   Some 31486; Some 16889; Some 31837; Some 31853; Some 16913; Some 154547; Some 155324; Some 155302; Some 31949; Some 150009;
   Some 137136; Some 31886; Some 31868; Some 31918; Some 27314; Some 32220; Some 32263; Some 32211; Some 32590; Some 156257;
   Some 155996; Some 162632; Some 32151; Some 155266; Some 17002; Some 158581; Some 133398; Some 26582; Some 131150; Some 144847;
   Some 22468; Some 156690; Some 156664; Some 149858; Some 32733; Some 31527; Some 133164; Some 154345; Some 154947; Some 31500;
   Some 155150; Some 39398; Some 34373; Some 39523; Some 27164; Some 144447; Some 14818; Some 150007; Some 157101; Some 39455;
   Some 157088; Some 33920; Some 160039; Some 158929; Some 17642; Some 33079; Some 17410; Some 32966; Some 33033; Some 33090;
   Some 157620; Some 39107; Some 158274; Some 33378; Some 33381; Some 158289; Some 33875; Some 159143; Some 34320; Some 160283;
   Some 23174; Some 16767; Some 137280; Some 23339; Some 137377; Some 23268; Some 137432; Some 34464; Some 195004; Some 146831;
   Some 34861; Some 160802; Some 23042; Some 34926; Some 20293; Some 34951; Some 35007; Some 35046; Some 35173; Some 35149;
   Some 153219; Some 35156; Some 161669; Some 161668; Some 166901; Some 166873; Some 166812; Some 166393; Some 16045; Some 33955;
   Some 18165; Some 18127; Some 14322; Some 35389; Some 35356; Some 169032; Some 24397; Some 37419; Some 148100; Some 26068;
   Some 28969; Some 28868; Some 137285; Some 40301; Some 35999; Some 36073; Some 163292; Some 22938; Some 30659; Some 23024;
   Some 17262; Some 14036; Some 36394; Some 36519; Some 150537; Some 36656; Some 36682; Some 17140; Some 27736; Some 28603;
   Some 140065; Some 18587; Some 28537; Some 28299; Some 137178; Some 39913; Some 14005; Some 149807; Some 37051; Some 37015;
   Some 21873; Some 18694; Some 37307; Some 37892; Some 166475; Some 16482; Some 166652; Some 37927; Some 166941; Some 166971;
   Some 34021; Some 35371; Some 38297; Some 38311; Some 38295; Some 38294; Some 167220; Some 29765; Some 16066; Some 149759;
   Some 150082; Some 148458; Some 16103; Some 143909; Some 38543; Some 167655; Some 167526; Some 167525; Some 16076; Some 149997;
   Some 150136; Some 147438; Some 29714; Some 29803; Some 16124; Some 38721; Some 168112; Some 26695; Some 18973; Some 168083;
   Some 153567; Some 38749; Some 37736; Some 166281; Some 166950; Some 166703; Some 156606; Some 37562; Some 23313; Some 35689;
   Some 18748; Some 29689; Some 147995; Some 38811; Some 38769; Some 39224; Some 134950; Some 24001; Some 166853; Some 150194;
   Some 38943; Some 169178; Some 37622; Some 169431; Some 37349; Some 17600; Some 166736; Some 150119; Some 166756; Some 39132;
   Some 166469; Some 16128; Some 37418; Some 18725; Some 33812; Some 39227; Some 39245; Some 162566; Some 15869; Some 39323;
   Some 19311; Some 39338; Some 39516; Some 166757; Some 153800; Some 27279; Some 39457; Some 23294; Some 39471; Some 170225;
   Some 19344; Some 170312; Some 39356; Some 19389; Some 19351; Some 37757; Some 22642; Some 135938; Some 22562; Some 149944;
   Some 136424; Some 30788; Some 141087; Some 146872; Some 26821; Some 15741; Some 37976; Some 14631; Some 24912; Some 141185;
   Some 141675; Some 24839; Some 40015; Some 40019; Some 40059; Some 39989; Some 39952; Some 39807; Some 39887; Some 171565;
   Some 39839; Some 172533; Some 172286; Some 40225; Some 19630; Some 147716; Some 40472; Some 19632; Some 40204; Some 172468;
   Some 172269; Some 172275; Some 170287; Some 40357; Some 33981; Some 159250; Some 159711; Some 158594; Some 34300; Some 17715;
   Some 159140; Some 159364; Some 159216; Some 33824; Some 34286; Some 159232; Some 145367; Some 155748; Some 31202; Some 144796;
   Some 144960; Some 18733; Some 149982; Some 15714; Some 37851; Some 37566; Some 37704; Some 131775; Some 30905; Some 37495;
   Some 37965; Some 20452; Some 13376; Some 36964; Some 152925; Some 30781; Some 30804; Some 30902; Some 30795; Some 137047;
   Some 143817; Some 149825; Some 13978; Some 20338; Some 28634; Some 28633; Some 28702; Some 28702; Some 21524; Some 147893;
   Some 22459; Some 22771; Some 22410; Some 40214; Some 22487; Some 28980; Some 13487; Some 147884; Some 29163; Some 158784;
   Some 151447; Some 23336; Some 137141; Some 166473; Some 24844; Some 23246; Some 23051; Some 17084; Some 148616; Some 14124;
   Some 19323; Some 166396; Some 37819; Some 37816; Some 137430; Some 134941; Some 33906; Some 158912; Some 136211; Some 148218;
   Some 142374; Some 148417; Some 22932; Some 146871; Some 157505; Some 32168; Some 155995; Some 155812; Some 149945; Some 149899;
   Some 166394; Some 37605; Some 29666; Some 16105; Some 29876; Some 166755; Some 137375; Some 16097; Some 150195; Some 27352;
   Some 29683; Some 29691; Some 16086; Some 150078; Some 150164; Some 137177; Some 150118; Some 132007; Some 136228; Some 149989;
   Some 29768; Some 149782; Some 28837; Some 149878; Some 37508; Some 29670; Some 37727; Some 132350; Some 37681; Some 166606;
   Some 166422; Some 37766; Some 166887; Some 153045; Some 18741; Some 166530; Some 29035; Some 149827; Some 134399; Some 22180;
   Some 132634; Some 134123; Some 134328; Some 21762; Some 31172; Some 137210; Some 32254; Some 136898; Some 150096; Some 137298;
   Some 17710; Some 37889; Some 14090; Some 166592; Some 149933; Some 22960; Some 137407; Some 137347; Some 160900; Some 23201;
   Some 14050; Some 146779; Some 14000; Some 37471; Some 23161; Some 166529; Some 137314; Some 37748; Some 15565; Some 133812;
   Some 19094; Some 14730; Some 20724; Some 15721; Some 15692; Some 136092; Some 29045; Some 17147; Some 164376; Some 28175;
   Some 168164; Some 17643; Some 27991; Some 163407; Some 28775; Some 27823; Some 15574; Some 147437; Some 146989; Some 28162;
   Some 28428; Some 15727; Some 132085; Some 30033; Some 14012; Some 13512; Some 18048; Some 16090; Some 18545; Some 22980;
   Some 37486; Some 18750; Some 36673; Some 166940; Some 158656; Some 22546; Some 22472; Some 14038; Some 136274; Some 28926;
   Some 148322; Some 150129; Some 143331; Some 135856; Some 140221; Some 26809; Some 26983; Some 136088; Some 144613; Some 162804;
   Some 145119; Some 166531; Some 145366; Some 144378; Some 150687; Some 27162; Some 145069; Some 158903; Some 33854; Some 17631;
   Some 17614; Some 159014; Some 159057; Some 158850; Some 159710; Some 28439; Some 160009; Some 33597; Some 137018; Some 33773;
   Some 158848; Some 159827; Some 137179; Some 22921; Some 23170; Some 137139; Some 23137; Some 23153; Some 137477; Some 147964;
   Some 14125; Some 23023; Some 137020; Some 14023; Some 29070; Some 37776; Some 26266; Some 148133; Some 23150; Some 23083;
   Some 148115; Some 27179; Some 147193; Some 161590; Some 148571; Some 148170; Some 28957; Some 148057; Some 166369; Some 20400;
   Some 159016; Some 23746; Some 148686; Some 163405; Some 148413; Some 27148; Some 148054; Some 135940; Some 28838; Some 28979;
   Some 148457; Some 15781; Some 27871; Some 194597; Some 150095; Some 32357; Some 23019; Some 23855; Some 15859; Some 24412;
   Some 150109; Some 137183; Some 32164; Some 33830; Some 21637; Some 146170; Some 144128; Some 131604; Some 22398; Some 133333;
   Some 132633; Some 16357; Some 139166; Some 172726; Some 28675; Some 168283; Some 23920; Some 29583; Some 31955; Some 166489;
   Some 168992; Some 20424; Some 32743; Some 29389; Some 29456; Some 162548; Some 29496; Some 29497; Some 153334; Some 29505;
   Some 29512; Some 16041; Some 162584; Some 36972; Some 29173; Some 149746; Some 29665; Some 33270; Some 16074; Some 30476;
   Some 16081; Some 27810; Some 22269; Some 29721; Some 29726; Some 29727; Some 16098; Some 16112; Some 16116; Some 16122;
   Some 29907; Some 16142; Some 16211; Some 30018; Some 30061; Some 30066; Some 30093; Some 16252; Some 30152; Some 30172;
   Some 16320; Some 30285; Some 16343; Some 30324; Some 16348; Some 30330; Some 151388; Some 29064; Some 22051; Some 35200;
   Some 22633; Some 16413; Some 30531; Some 16441; Some 26465; Some 16453; Some 13787; Some 30616; Some 16490; Some 16495;
   Some 23646; Some 30654; Some 30667; Some 22770; Some 30744; Some 28857; Some 30748; Some 16552; Some 30777; Some 30791;
   Some 30801; Some 30822; Some 33864; Some 152885; Some 31027; Some 26627; Some 31026; Some 16643; Some 16649; Some 31121;
   Some 31129; Some 36795; Some 31238; Some 36796; Some 16743; Some 31377; Some 16818; Some 31420; Some 33401; Some 16836;
   Some 31439; Some 31451; Some 16847; Some 20001; Some 31586; Some 31596; Some 31611; Some 31762; Some 31771; Some 16992;
   Some 17018; Some 31867; Some 31900; Some 17036; Some 31928; Some 17044; Some 31981; Some 36755; Some 28864; Some 134351;
   Some 32207; Some 32212; Some 32208; Some 32253; Some 32686; Some 32692; Some 29343; Some 17303; Some 32800; Some 32805;
   Some 31545; Some 32814; Some 32817; Some 32852; Some 15820; Some 22452; Some 28832; Some 32951; Some 33001; Some 17389;
   Some 33036; Some 29482; Some 33038; Some 33042; Some 30048; Some 33044; Some 17409; Some 15161; Some 33110; Some 33113;
   Some 33114; Some 17427; Some 22586; Some 33148; Some 33156; Some 17445; Some 33171; Some 17453; Some 33189; Some 22511;
   Some 33217; Some 33252; Some 33364; Some 17551; Some 33446; Some 33398; Some 33482; Some 33496; Some 33535; Some 17584;
   Some 33623; Some 38505; Some 27018; Some 33797; Some 28917; Some 33892; Some 24803; Some 33928; Some 17668; Some 33982;
   Some 34017; Some 34040; Some 34064; Some 34104; Some 34130; Some 17723; Some 34159; Some 34160; Some 34272; Some 17783;
   Some 34418; Some 34450; Some 34482; Some 34543; Some 38469; Some 34699; Some 17926; Some 17943; Some 34990; Some 35071;
   Some 35108; Some 35143; Some 35217; Some 162151; Some 35369; Some 35384; Some 35476; Some 35508; Some 35921; Some 36052;
   Some 36082; Some 36124; Some 18328; Some 22623; Some 36291; Some 18413; Some 20206; Some 36410; Some 21976; Some 22356;
   Some 36465; Some 22005; Some 36528; Some 18487; Some 36558; Some 36578; Some 36580; Some 36589; Some 36594; Some 36791;
   Some 36801; Some 36810; Some 36812; Some 36915; Some 39364; Some 18605; Some 39136; Some 37395; Some 18718; Some 37416;
   Some 37464; Some 37483; Some 37553; Some 37550; Some 37567; Some 37603; Some 37611; Some 37619; Some 37620; Some 37629;
   Some 37699; Some 37764; Some 37805; Some 18757; Some 18769; Some 40639; Some 37911; Some 21249; Some 37917; Some 37933;
   Some 37950; Some 18794; Some 37972; Some 38009; Some 38189; Some 38306; Some 18855; Some 38388; Some 38451; Some 18917;
   Some 26528; Some 18980; Some 38720; Some 18997; Some 38834; Some 38850; Some 22100; Some 19172; Some 24808; Some 39097;
   Some 19225; Some 39153; Some 22596; Some 39182; Some 39193; Some 20916; Some 39196; Some 39223; Some 39234; Some 39261;
   Some 39266; Some 19312; Some 39365; Some 19357; Some 39484; Some 39695; Some 31363; Some 39785; Some 39809; Some 39901;
   Some 39921; Some 39924; Some 19565; Some 39968; Some 14191; Some 138178; Some 40265; Some 39994; Some 40702; Some 22096;
   Some 40339; Some 40381; Some 40384; Some 40444; Some 38134; Some 36790; Some 40571; Some 40620; Some 40625; Some 40637
  ].

Definition index_big5_04 : list (option Z) :=
  [
   Some 40646; Some 38108; Some 40674; Some 40689; Some 40696; Some 31432; Some 40772; Some 131220; Some 131767; Some 132000;
   Some 26906; Some 38083; Some 22956; Some 132311; Some 22592; Some 38081; Some 14265; Some 132565; Some 132629; Some 132726;
   Some 136890; Some 22359; Some 29043; Some 133826; Some 133837; Some 134079; Some 21610; Some 194619; Some 134091; Some 21662;
   Some 134139; Some 134203; Some 134227; Some 134245; Some 134268; Some 24807; Some 134285; Some 22138; Some 134325; Some 134365;
   Some 134381; Some 134511; Some 134578; Some 134600; Some 26965; Some 39983; Some 34725; Some 134660; Some 134670; Some 134871;
   Some 135056; Some 134957; Some 134771; Some 23584; Some 135100; Some 24075; Some 135260; Some 135247; Some 135286; Some 26398;
   Some 135291; Some 135304; Some 135318; Some 13895; Some 135359; Some 135379; Some 135471; Some 135483; Some 21348; Some 33965;
   Some 135907; Some 136053; Some 135990; Some 35713; Some 136567; Some 136729; Some 137155; Some 137159; Some 20088; Some 28859;
   Some 137261; Some 137578; Some 137773; Some 137797; Some 138282; Some 138352; Some 138412; Some 138952; Some 25283; Some 138965;
   Some 139029; Some 29080; Some 26709; Some 139333; Some 27113; Some 14024; Some 139900; Some 140247; Some 140282; Some 141098;
   Some 141425; Some 141647; Some 33533; Some 141671; Some 141715; Some 142037; Some 35237; Some 142056; Some 36768; Some 142094;
   Some 38840; Some 142143; Some 38983; Some 39613; Some 142412; None; Some 142472; Some 142519; Some 154600; Some 142600;
   Some 142610; Some 142775; Some 142741; Some 142914; Some 143220; Some 143308; Some 143411; Some 143462; Some 144159; Some 144350;
   Some 24497; Some 26184; Some 26303; Some 162425; Some 144743; Some 144883; Some 29185; Some 149946; Some 30679; Some 144922;
   Some 145174; Some 32391; Some 131910; Some 22709; Some 26382; Some 26904; Some 146087; Some 161367; Some 155618; Some 146961;
   Some 147129; Some 161278; Some 139418; Some 18640; Some 19128; Some 147737; Some 166554; Some 148206; Some 148237; Some 147515;
   Some 148276; Some 148374; Some 150085; Some 132554; Some 20946; Some 132625; Some 22943; Some 138920; Some 15294; Some 146687;
   Some 148484; Some 148694; Some 22408; Some 149108; Some 14747; Some 149295; Some 165352; Some 170441; Some 14178; Some 139715;
   Some 35678; Some 166734; Some 39382; Some 149522; Some 149755; Some 150037; Some 29193; Some 150208; Some 134264; Some 22885;
   Some 151205; Some 151430; Some 132985; Some 36570; Some 151596; Some 21135; Some 22335; Some 29041; Some 152217; Some 152601;
   Some 147274; Some 150183; Some 21948; Some 152646; Some 152686; Some 158546; Some 37332; Some 13427; Some 152895; Some 161330;
   Some 152926; Some 18200; Some 152930; Some 152934; Some 153543; Some 149823; Some 153693; Some 20582; Some 13563; Some 144332;
   Some 24798; Some 153859; Some 18300; Some 166216; Some 154286; Some 154505; Some 154630; Some 138640; Some 22433; Some 29009;
   Some 28598; Some 155906; Some 162834; Some 36950; Some 156082; Some 151450; Some 35682; Some 156674; Some 156746; Some 23899;
   Some 158711; Some 36662; Some 156804; Some 137500; Some 35562; Some 150006; Some 156808; Some 147439; Some 156946; Some 19392;
   Some 157119; Some 157365; Some 141083; Some 37989; Some 153569; Some 24981; Some 23079; Some 194765; Some 20411; Some 22201;
   Some 148769; Some 157436; Some 20074; Some 149812; Some 38486; Some 28047; Some 158909; Some 13848; Some 35191; Some 157593;
   Some 157806; Some 156689; Some 157790; Some 29151; Some 157895; Some 31554; Some 168128; Some 133649; Some 157990; Some 37124;
   Some 158009; Some 31301; Some 40432; Some 158202; Some 39462; Some 158253; Some 13919; Some 156777; Some 131105; Some 31107;
   Some 158260; Some 158555; Some 23852; Some 144665; Some 33743; Some 158621; Some 18128; Some 158884; Some 30011; Some 34917;
   Some 159150; Some 22710; Some 14108; Some 140685; Some 159819; Some 160205; Some 15444; Some 160384; Some 160389; Some 37505;
   Some 139642; Some 160395; Some 37680; Some 160486; Some 149968; Some 27705; Some 38047; Some 160848; Some 134904; Some 34855;
   Some 35061; Some 141606; Some 164979; Some 137137; Some 28344; Some 150058; Some 137248; Some 14756; Some 14009; Some 23568;
   Some 31203; Some 17727; Some 26294; Some 171181; Some 170148; Some 35139; Some 161740; Some 161880; Some 22230; Some 16607;
   Some 136714; Some 14753; Some 145199; Some 164072; Some 136133; Some 29101; Some 33638; Some 162269; Some 168360; Some 23143;
   Some 19639; Some 159919; Some 166315; Some 162301; Some 162314; Some 162571; Some 163174; Some 147834; Some 31555; Some 31102;
   Some 163849; Some 28597; Some 172767; Some 27139; Some 164632; Some 21410; Some 159239; Some 37823; Some 26678; Some 38749;
   Some 164207; Some 163875; Some 158133; Some 136173; Some 143919; Some 163912; Some 23941; Some 166960; Some 163971; Some 22293;
   Some 38947; Some 166217; Some 23979; Some 149896; Some 26046; Some 27093; Some 21458; Some 150181; Some 147329; Some 15377;
   Some 26422; Some 163984; Some 164084; Some 164142; Some 139169; Some 164175; Some 164233; Some 164271; Some 164378; Some 164614;
   Some 164655; Some 164746; Some 13770; Some 164968; Some 165546; Some 18682; Some 25574; Some 166230; Some 30728; Some 37461;
   Some 166328; Some 17394; Some 166375; Some 17375; Some 166376; Some 166726; Some 166868; Some 23032; Some 166921; Some 36619;
   Some 167877; Some 168172; Some 31569; Some 168208; Some 168252; Some 15863; Some 168286; Some 150218; Some 36816; Some 29327;
   Some 22155; Some 169191; Some 169449; Some 169392; Some 169400; Some 169778; Some 170193; Some 170313; Some 170346; Some 170435;
   Some 170536; Some 170766; Some 171354; Some 171419; Some 32415; Some 171768; Some 171811; Some 19620; Some 38215; Some 172691;
   Some 29090; Some 172799; Some 19857; Some 36882; Some 173515; Some 19868; Some 134300; Some 36798; Some 21953; Some 36794;
   Some 140464; Some 36793; Some 150163; Some 17673; Some 32383; Some 28502; Some 27313; Some 20202; Some 13540; Some 166700;
   Some 161949; Some 14138; Some 36480; Some 137205; Some 163876; Some 166764; Some 166809; Some 162366; Some 157359; Some 15851;
   Some 161365; Some 146615; Some 153141; Some 153942; Some 20122; Some 155265; Some 156248; Some 22207; Some 134765; Some 36366;
   Some 23405; Some 147080; Some 150686; Some 25566; Some 25296; Some 137206; Some 137339; Some 25904; Some 22061; Some 154698;
   Some 21530; Some 152337; Some 15814; Some 171416; Some 19581; Some 22050; Some 22046; Some 32585; Some 155352; Some 22901;
   Some 146752; Some 34672; Some 19996; Some 135146; Some 134473; Some 145082; Some 33047; Some 40286; Some 36120; Some 30267;
   Some 40005; Some 30286; Some 30649; Some 37701; Some 21554; Some 33096; Some 33527; Some 22053; Some 33074; Some 33816;
   Some 32957; Some 21994; Some 31074; Some 22083; Some 21526; Some 134813; Some 13774; Some 22021; Some 22001; Some 26353;
   Some 164578; Some 13869; Some 30004; Some 22000; Some 21946; Some 21655; Some 21874; Some 134209; Some 134294; Some 24272;
   Some 151880; Some 134774; Some 142434; Some 134818; Some 40619; Some 32090; Some 21982; Some 135285; Some 25245; Some 38765;
   Some 21652; Some 36045; Some 29174; Some 37238; Some 25596; Some 25529; Some 25598; Some 21865; Some 142147; Some 40050;
   Some 143027; Some 20890; Some 13535; Some 134567; Some 20903; Some 21581; Some 21790; Some 21779; Some 30310; Some 36397;
   Some 157834; Some 30129; Some 32950; Some 34820; Some 34694; Some 35015; Some 33206; Some 33820; Some 135361; Some 17644;
   Some 29444; Some 149254; Some 23440; Some 33547; Some 157843; Some 22139; Some 141044; Some 163119; Some 147875; Some 163187;
   Some 159440; Some 160438; Some 37232; Some 135641; Some 37384; Some 146684; Some 173737; Some 134828; Some 134905; Some 29286;
   Some 138402; Some 18254; Some 151490; Some 163833; Some 135147; Some 16634; Some 40029; Some 25887; Some 142752; Some 18675;
   Some 149472; Some 171388; Some 135148; Some 134666; Some 24674; Some 161187; Some 135149; None; Some 155720; Some 135559;
   Some 29091; Some 32398; Some 40272; Some 19994; Some 19972; Some 13687; Some 23309; Some 27826; Some 21351; Some 13996;
   Some 14812; Some 21373; Some 13989; Some 149016; Some 22682; Some 150382; Some 33325; Some 21579; Some 22442; Some 154261;
   Some 133497; None; Some 14930; Some 140389; Some 29556; Some 171692; Some 19721; Some 39917; Some 146686; Some 171824;
   Some 19547; Some 151465; Some 169374; Some 171998; Some 33884; Some 146870; Some 160434; Some 157619; Some 145184; Some 25390;
   Some 32037; Some 147191; Some 146988; Some 14890; Some 36872; Some 21196; Some 15988; Some 13946; Some 17897; Some 132238;
   Some 30272; Some 23280; Some 134838; Some 30842; Some 163630; Some 22695; Some 16575; Some 22140; Some 39819; Some 23924;
   Some 30292; Some 173108; Some 40581; Some 19681; Some 30201; Some 14331; Some 24857; Some 143578; Some 148466; None;
   Some 22109; Some 135849; Some 22439; Some 149859; Some 171526; Some 21044; Some 159918; Some 13741; Some 27722; Some 40316;
   Some 31830; Some 39737; Some 22494; Some 137068; Some 23635; Some 25811; Some 169168; Some 156469; Some 160100; Some 34477;
   Some 134440; Some 159010; Some 150242; Some 134513; None; Some 20990; Some 139023; Some 23950; Some 38659; Some 138705;
   Some 40577; Some 36940; Some 31519; Some 39682; Some 23761; Some 31651; Some 25192; Some 25397; Some 39679; Some 31695;
   Some 39722; Some 31870; Some 39726; Some 31810; Some 31878; Some 39957; Some 31740; Some 39689; Some 40727; Some 39963;
   Some 149822; Some 40794; Some 21875; Some 23491; Some 20477; Some 40600; Some 20466; Some 21088; Some 15878; Some 21201;
   Some 22375; Some 20566; Some 22967; Some 24082; Some 38856; Some 40363; Some 36700; Some 21609; Some 38836; Some 39232;
   Some 38842; Some 21292; Some 24880; Some 26924; Some 21466; Some 39946; Some 40194; Some 19515; Some 38465; Some 27008;
   Some 20646; Some 30022; Some 137069; Some 39386; Some 21107; None; Some 37209; Some 38529; Some 37212; None;
   Some 37201; Some 167575; Some 25471; Some 159011; Some 27338; Some 22033; Some 37262; Some 30074; Some 25221; Some 132092;
   Some 29519; Some 31856; Some 154657; Some 146685; None; Some 149785; Some 30422; Some 39837; Some 20010; Some 134356;
   Some 33726; Some 34882; None; Some 23626; Some 27072; Some 20717; Some 22394; Some 21023; Some 24053; Some 20174;
   Some 27697; Some 131570; Some 20281; Some 21660; Some 21722; Some 21146; Some 36226; Some 13822; Some 24332; Some 13811;
   None; Some 27474; Some 37244; Some 40869; Some 39831; Some 38958; Some 39092; Some 39610; Some 40616; Some 40580;
   Some 29050; Some 31508; None; Some 27642; Some 34840; Some 32632; None; Some 22048; Some 173642; Some 36471;
   Some 40787; None; Some 36308; Some 36431; Some 40476; Some 36353; Some 25218; Some 164733; Some 36392; Some 36469;
   Some 31443; Some 150135; Some 31294; Some 30936; Some 27882; Some 35431; Some 30215; Some 166490; Some 40742; Some 27854;
   Some 34774; Some 30147; Some 172722; Some 30803; Some 194624; Some 36108; Some 29410; Some 29553; Some 35629; Some 29442;
   Some 29937; Some 36075; Some 150203; Some 34351; Some 24506; Some 34976; Some 17591; None; Some 137275; Some 159237;
   None; Some 35454; Some 140571; None; Some 24829; Some 30311; Some 39639; Some 40260; Some 37742; Some 39823;
   Some 34805; None; Some 34831; Some 36087; Some 29484; Some 38689; Some 39856; Some 13782; Some 29362; Some 19463;
   Some 31825; Some 39242; Some 155993; Some 24921; Some 19460; Some 40598; Some 24957; None; Some 22367; Some 24943;
   Some 25254; Some 25145; Some 25294; Some 14940; Some 25058; Some 21418; Some 144373; Some 25444; Some 26626; Some 13778;
   Some 23895; Some 166850; Some 36826; Some 167481; None; Some 20697; Some 138566; Some 30982; Some 21298; Some 38456;
   Some 134971; Some 16485; None; Some 30718; None; Some 31938; Some 155418; Some 31962; Some 31277; Some 32870;
   Some 32867; Some 32077; Some 29957; Some 29938; Some 35220; Some 33306; Some 26380; Some 32866; Some 160902; Some 32859;
   Some 29936; Some 33027; Some 30500; Some 35209; Some 157644; Some 30035; Some 159441; Some 34729; Some 34766; Some 33224;
   Some 34700; Some 35401; Some 36013; Some 35651; Some 30507; Some 29944; Some 34010; Some 13877; Some 27058; Some 36262;
   None; Some 35241; Some 29800; Some 28089; Some 34753; Some 147473; Some 29927; Some 15835; Some 29046; Some 24740;
   Some 24988; Some 15569; Some 29026; Some 24695; None; Some 32625; Some 166701; Some 29264; Some 24809; Some 19326
  ].

Definition index_big5_05 : list (option Z) :=
  [
   Some 21024; Some 15384; Some 146631; Some 155351; Some 161366; Some 152881; Some 137540; Some 135934; Some 170243; Some 159196;
   Some 159917; Some 23745; Some 156077; Some 166415; Some 145015; Some 131310; Some 157766; Some 151310; Some 17762; Some 23327;
   Some 156492; Some 40784; Some 40614; Some 156267; Some 12288; Some 65292; Some 12289; Some 12290; Some 65294; Some 8231;
   Some 65307; Some 65306; Some 65311; Some 65281; Some 65072; Some 8230; Some 8229; Some 65104; Some 65105; Some 65106;
   Some 183; Some 65108; Some 65109; Some 65110; Some 65111; Some 65372; Some 8211; Some 65073; Some 8212; Some 65075;
   Some 9588; Some 65076; Some 65103; Some 65288; Some 65289; Some 65077; Some 65078; Some 65371; Some 65373; Some 65079;
   Some 65080; Some 12308; Some 12309; Some 65081; Some 65082; Some 12304; Some 12305; Some 65083; Some 65084; Some 12298;
   Some 12299; Some 65085; Some 65086; Some 12296; Some 12297; Some 65087; Some 65088; Some 12300; Some 12301; Some 65089;
   Some 65090; Some 12302; Some 12303; Some 65091; Some 65092; Some 65113; Some 65114; Some 65115; Some 65116; Some 65117;
   Some 65118; Some 8216; Some 8217; Some 8220; Some 8221; Some 12317; Some 12318; Some 8245; Some 8242; Some 65283;
   Some 65286; Some 65290; Some 8251; Some 167; Some 12291; Some 9675; Some 9679; Some 9651; Some 9650; Some 9678;
   Some 9734; Some 9733; Some 9671; Some 9670; Some 9633; Some 9632; Some 9661; Some 9660; Some 12963; Some 8453;
   Some 175; Some 65507; Some 65343; Some 717; Some 65097; Some 65098; Some 65101; Some 65102; Some 65099; Some 65100;
   Some 65119; Some 65120; Some 65121; Some 65291; Some 65293; Some 215; Some 247; Some 177; Some 8730; Some 65308;
   Some 65310; Some 65309; Some 8806; Some 8807; Some 8800; Some 8734; Some 8786; Some 8801; Some 65122; Some 65123;
   Some 65124; Some 65125; Some 65126; Some 65374; Some 8745; Some 8746; Some 8869; Some 8736; Some 8735; Some 8895;
   Some 13266; Some 13265; Some 8747; Some 8750; Some 8757; Some 8756; Some 9792; Some 9794; Some 8853; Some 8857;
   Some 8593; Some 8595; Some 8592; Some 8594; Some 8598; Some 8599; Some 8601; Some 8600; Some 8741; Some 8739;
   Some 65295; Some 65340; Some 8725; Some 65128; Some 65284; Some 65509; Some 12306; Some 65504; Some 65505; Some 65285;
   Some 65312; Some 8451; Some 8457; Some 65129; Some 65130; Some 65131; Some 13269; Some 13212; Some 13213; Some 13214;
   Some 13262; Some 13217; Some 13198; Some 13199; Some 13252; Some 176; Some 20825; Some 20827; Some 20830; Some 20829;
   Some 20833; Some 20835; Some 21991; Some 29929; Some 31950; Some 9601; Some 9602; Some 9603; Some 9604; Some 9605;
   Some 9606; Some 9607; Some 9608; Some 9615; Some 9614; Some 9613; Some 9612; Some 9611; Some 9610; Some 9609;
   Some 9532; Some 9524; Some 9516; Some 9508; Some 9500; Some 9620; Some 9472; Some 9474; Some 9621; Some 9484;
   Some 9488; Some 9492; Some 9496; Some 9581; Some 9582; Some 9584; Some 9583; Some 9552; Some 9566; Some 9578;
   Some 9569; Some 9698; Some 9699; Some 9701; Some 9700; Some 9585; Some 9586; Some 9587; Some 65296; Some 65297;
   Some 65298; Some 65299; Some 65300; Some 65301; Some 65302; Some 65303; Some 65304; Some 65305; Some 8544; Some 8545;
   Some 8546; Some 8547; Some 8548; Some 8549; Some 8550; Some 8551; Some 8552; Some 8553; Some 12321; Some 12322;
   Some 12323; Some 12324; Some 12325; Some 12326; Some 12327; Some 12328; Some 12329; Some 21313; Some 21316; Some 21317;
   Some 65313; Some 65314; Some 65315; Some 65316; Some 65317; Some 65318; Some 65319; Some 65320; Some 65321; Some 65322;
   Some 65323; Some 65324; Some 65325; Some 65326; Some 65327; Some 65328; Some 65329; Some 65330; Some 65331; Some 65332;
   Some 65333; Some 65334; Some 65335; Some 65336; Some 65337; Some 65338; Some 65345; Some 65346; Some 65347; Some 65348;
   Some 65349; Some 65350; Some 65351; Some 65352; Some 65353; Some 65354; Some 65355; Some 65356; Some 65357; Some 65358;
   Some 65359; Some 65360; Some 65361; Some 65362; Some 65363; Some 65364; Some 65365; Some 65366; Some 65367; Some 65368;
   Some 65369; Some 65370; Some 913; Some 914; Some 915; Some 916; Some 917; Some 918; Some 919; Some 920;
   Some 921; Some 922; Some 923; Some 924; Some 925; Some 926; Some 927; Some 928; Some 929; Some 931;
   Some 932; Some 933; Some 934; Some 935; Some 936; Some 937; Some 945; Some 946; Some 947; Some 948;
   Some 949; Some 950; Some 951; Some 952; Some 953; Some 954; Some 955; Some 956; Some 957; Some 958;
   Some 959; Some 960; Some 961; Some 963; Some 964; Some 965; Some 966; Some 967; Some 968; Some 969;
   Some 12549; Some 12550; Some 12551; Some 12552; Some 12553; Some 12554; Some 12555; Some 12556; Some 12557; Some 12558;
   Some 12559; Some 12560; Some 12561; Some 12562; Some 12563; Some 12564; Some 12565; Some 12566; Some 12567; Some 12568;
   Some 12569; Some 12570; Some 12571; Some 12572; Some 12573; Some 12574; Some 12575; Some 12576; Some 12577; Some 12578;
   Some 12579; Some 12580; Some 12581; Some 12582; Some 12583; Some 12584; Some 12585; Some 729; Some 713; Some 714;
   Some 711; Some 715; Some 9216; Some 9217; Some 9218; Some 9219; Some 9220; Some 9221; Some 9222; Some 9223;
   Some 9224; Some 9225; Some 9226; Some 9227; Some 9228; Some 9229; Some 9230; Some 9231; Some 9232; Some 9233;
   Some 9234; Some 9235; Some 9236; Some 9237; Some 9238; Some 9239; Some 9240; Some 9241; Some 9242; Some 9243;
   Some 9244; Some 9245; Some 9246; Some 9247; Some 9249; Some 8364; None; None; None; None;
   None; None; None; None; None; None; None; None; None; None;
   None; None; None; None; None; None; None; None; None; None;
   None; None; None; None; None; Some 19968; Some 20057; Some 19969; Some 19971; Some 20035;
   Some 20061; Some 20102; Some 20108; Some 20154; Some 20799; Some 20837; Some 20843; Some 20960; Some 20992; Some 20993;
   Some 21147; Some 21269; Some 21313; Some 21340; Some 21448; Some 19977; Some 19979; Some 19976; Some 19978; Some 20011;
   Some 20024; Some 20961; Some 20037; Some 20040; Some 20063; Some 20062; Some 20110; Some 20129; Some 20800; Some 20995;
   Some 21242; Some 21315; Some 21449; Some 21475; Some 22303; Some 22763; Some 22805; Some 22823; Some 22899; Some 23376;
   Some 23377; Some 23379; Some 23544; Some 23567; Some 23586; Some 23608; Some 23665; Some 24029; Some 24037; Some 24049;
   Some 24050; Some 24051; Some 24062; Some 24178; Some 24318; Some 24331; Some 24339; Some 25165; Some 19985; Some 19984;
   Some 19981; Some 20013; Some 20016; Some 20025; Some 20043; Some 23609; Some 20104; Some 20113; Some 20117; Some 20114;
   Some 20116; Some 20130; Some 20161; Some 20160; Some 20163; Some 20166; Some 20167; Some 20173; Some 20170; Some 20171;
   Some 20164; Some 20803; Some 20801; Some 20839; Some 20845; Some 20846; Some 20844; Some 20887; Some 20982; Some 20998;
   Some 20999; Some 21000; Some 21243; Some 21246; Some 21247; Some 21270; Some 21305; Some 21320; Some 21319; Some 21317;
   Some 21342; Some 21380; Some 21451; Some 21450; Some 21453; Some 22764; Some 22825; Some 22827; Some 22826; Some 22829;
   Some 23380; Some 23569; Some 23588; Some 23610; Some 23663; Some 24052; Some 24187; Some 24319; Some 24340; Some 24341;
   Some 24515; Some 25096; Some 25142; Some 25163; Some 25166; Some 25903; Some 25991; Some 26007; Some 26020; Some 26041;
   Some 26085; Some 26352; Some 26376; Some 26408; Some 27424; Some 27490; Some 27513; Some 27595; Some 27604; Some 27611;
   Some 27663; Some 27700; Some 28779; Some 29226; Some 29238; Some 29243; Some 29255; Some 29273; Some 29275; Some 29356;
   Some 29579; Some 19993; Some 19990; Some 19989; Some 19988; Some 19992; Some 20027; Some 20045; Some 20047; Some 20046;
   Some 20197; Some 20184; Some 20180; Some 20181; Some 20182; Some 20183; Some 20195; Some 20196; Some 20185; Some 20190;
   Some 20805; Some 20804; Some 20873; Some 20874; Some 20908; Some 20985; Some 20986; Some 20984; Some 21002; Some 21152;
   Some 21151; Some 21253; Some 21254; Some 21271; Some 21277; Some 20191; Some 21322; Some 21321; Some 21345; Some 21344;
   Some 21359; Some 21358; Some 21435; Some 21487; Some 21476; Some 21491; Some 21484; Some 21486; Some 21481; Some 21480;
   Some 21500; Some 21496; Some 21493; Some 21483; Some 21478; Some 21482; Some 21490; Some 21489; Some 21488; Some 21477;
   Some 21485; Some 21499; Some 22235; Some 22234; Some 22806; Some 22830; Some 22833; Some 22900; Some 22902; Some 23381;
   Some 23427; Some 23612; Some 24040; Some 24039; Some 24038; Some 24066; Some 24067; Some 24179; Some 24188; Some 24321;
   Some 24344; Some 24343; Some 24517; Some 25098; Some 25171; Some 25172; Some 25170; Some 25169; Some 26021; Some 26086;
   Some 26414; Some 26412; Some 26410; Some 26411; Some 26413; Some 27491; Some 27597; Some 27665; Some 27664; Some 27704;
   Some 27713; Some 27712; Some 27710; Some 29359; Some 29572; Some 29577; Some 29916; Some 29926; Some 29976; Some 29983;
   Some 29992; Some 29993; Some 30000; Some 30001; Some 30002; Some 30003; Some 30091; Some 30333; Some 30382; Some 30399;
   Some 30446; Some 30683; Some 30690; Some 30707; Some 31034; Some 31166; Some 31348; Some 31435; Some 19998; Some 19999;
   Some 20050; Some 20051; Some 20073; Some 20121; Some 20132; Some 20134; Some 20133; Some 20223; Some 20233; Some 20249;
   Some 20234; Some 20245; Some 20237; Some 20240; Some 20241; Some 20239; Some 20210; Some 20214; Some 20219; Some 20208;
   Some 20211; Some 20221; Some 20225; Some 20235; Some 20809; Some 20807; Some 20806; Some 20808; Some 20840; Some 20849;
   Some 20877; Some 20912; Some 21015; Some 21009; Some 21010; Some 21006; Some 21014; Some 21155; Some 21256; Some 21281;
   Some 21280; Some 21360; Some 21361; Some 21513; Some 21519; Some 21516; Some 21514; Some 21520; Some 21505; Some 21515;
   Some 21508; Some 21521; Some 21517; Some 21512; Some 21507; Some 21518; Some 21510; Some 21522; Some 22240; Some 22238;
   Some 22237; Some 22323; Some 22320; Some 22312; Some 22317; Some 22316; Some 22319; Some 22313; Some 22809; Some 22810;
   Some 22839; Some 22840; Some 22916; Some 22904; Some 22915; Some 22909; Some 22905; Some 22914; Some 22913; Some 23383;
   Some 23384; Some 23431; Some 23432; Some 23429; Some 23433; Some 23546; Some 23574; Some 23673; Some 24030; Some 24070;
   Some 24182; Some 24180; Some 24335; Some 24347; Some 24537; Some 24534; Some 25102; Some 25100; Some 25101; Some 25104;
   Some 25187; Some 25179; Some 25176; Some 25910; Some 26089; Some 26088; Some 26092; Some 26093; Some 26354; Some 26355;
   Some 26377; Some 26429; Some 26420; Some 26417; Some 26421; Some 27425; Some 27492; Some 27515; Some 27670; Some 27741;
   Some 27735; Some 27737; Some 27743; Some 27744; Some 27728; Some 27733; Some 27745; Some 27739; Some 27725; Some 27726;
   Some 28784; Some 29279; Some 29277; Some 30334; Some 31481; Some 31859; Some 31992; Some 32566; Some 32650; Some 32701;
   Some 32769; Some 32771; Some 32780; Some 32786; Some 32819; Some 32895; Some 32905; Some 32907; Some 32908; Some 33251;
   Some 33258; Some 33267; Some 33276; Some 33292; Some 33307; Some 33311; Some 33390; Some 33394; Some 33406; Some 34411;
   Some 34880; Some 34892; Some 34915; Some 35199; Some 38433; Some 20018; Some 20136; Some 20301; Some 20303; Some 20295;
   Some 20311; Some 20318; Some 20276; Some 20315; Some 20309; Some 20272; Some 20304; Some 20305; Some 20285; Some 20282;
   Some 20280; Some 20291; Some 20308; Some 20284; Some 20294; Some 20323; Some 20316; Some 20320; Some 20271; Some 20302;
   Some 20278; Some 20313; Some 20317; Some 20296; Some 20314; Some 20812; Some 20811; Some 20813; Some 20853; Some 20918;
   Some 20919; Some 21029; Some 21028; Some 21033; Some 21034; Some 21032; Some 21163; Some 21161; Some 21162; Some 21164;
   Some 21283; Some 21363; Some 21365; Some 21533; Some 21549; Some 21534; Some 21566; Some 21542; Some 21582; Some 21543
  ].

Definition index_big5_06 : list (option Z) :=
  [
   Some 21574; Some 21571; Some 21555; Some 21576; Some 21570; Some 21531; Some 21545; Some 21578; Some 21561; Some 21563;
   Some 21560; Some 21550; Some 21557; Some 21558; Some 21536; Some 21564; Some 21568; Some 21553; Some 21547; Some 21535;
   Some 21548; Some 22250; Some 22256; Some 22244; Some 22251; Some 22346; Some 22353; Some 22336; Some 22349; Some 22343;
   Some 22350; Some 22334; Some 22352; Some 22351; Some 22331; Some 22767; Some 22846; Some 22941; Some 22930; Some 22952;
   Some 22942; Some 22947; Some 22937; Some 22934; Some 22925; Some 22948; Some 22931; Some 22922; Some 22949; Some 23389;
   Some 23388; Some 23386; Some 23387; Some 23436; Some 23435; Some 23439; Some 23596; Some 23616; Some 23617; Some 23615;
   Some 23614; Some 23696; Some 23697; Some 23700; Some 23692; Some 24043; Some 24076; Some 24207; Some 24199; Some 24202;
   Some 24311; Some 24324; Some 24351; Some 24420; Some 24418; Some 24439; Some 24441; Some 24536; Some 24524; Some 24535;
   Some 24525; Some 24561; Some 24555; Some 24568; Some 24554; Some 25106; Some 25105; Some 25220; Some 25239; Some 25238;
   Some 25216; Some 25206; Some 25225; Some 25197; Some 25226; Some 25212; Some 25214; Some 25209; Some 25203; Some 25234;
   Some 25199; Some 25240; Some 25198; Some 25237; Some 25235; Some 25233; Some 25222; Some 25913; Some 25915; Some 25912;
   Some 26097; Some 26356; Some 26463; Some 26446; Some 26447; Some 26448; Some 26449; Some 26460; Some 26454; Some 26462;
   Some 26441; Some 26438; Some 26464; Some 26451; Some 26455; Some 27493; Some 27599; Some 27714; Some 27742; Some 27801;
   Some 27777; Some 27784; Some 27785; Some 27781; Some 27803; Some 27754; Some 27770; Some 27792; Some 27760; Some 27788;
   Some 27752; Some 27798; Some 27794; Some 27773; Some 27779; Some 27762; Some 27774; Some 27764; Some 27782; Some 27766;
   Some 27789; Some 27796; Some 27800; Some 27778; Some 28790; Some 28796; Some 28797; Some 28792; Some 29282; Some 29281;
   Some 29280; Some 29380; Some 29378; Some 29590; Some 29996; Some 29995; Some 30007; Some 30008; Some 30338; Some 30447;
   Some 30691; Some 31169; Some 31168; Some 31167; Some 31350; Some 31995; Some 32597; Some 32918; Some 32915; Some 32925;
   Some 32920; Some 32923; Some 32922; Some 32946; Some 33391; Some 33426; Some 33419; Some 33421; Some 35211; Some 35282;
   Some 35328; Some 35895; Some 35910; Some 35925; Some 35997; Some 36196; Some 36208; Some 36275; Some 36523; Some 36554;
   Some 36763; Some 36784; Some 36802; Some 36806; Some 36805; Some 36804; Some 24033; Some 37009; Some 37026; Some 37034;
   Some 37030; Some 37027; Some 37193; Some 37318; Some 37324; Some 38450; Some 38446; Some 38449; Some 38442; Some 38444;
   Some 20006; Some 20054; Some 20083; Some 20107; Some 20123; Some 20126; Some 20139; Some 20140; Some 20335; Some 20381;
   Some 20365; Some 20339; Some 20351; Some 20332; Some 20379; Some 20363; Some 20358; Some 20355; Some 20336; Some 20341;
   Some 20360; Some 20329; Some 20347; Some 20374; Some 20350; Some 20367; Some 20369; Some 20346; Some 20820; Some 20818;
   Some 20821; Some 20841; Some 20855; Some 20854; Some 20856; Some 20925; Some 20989; Some 21051; Some 21048; Some 21047;
   Some 21050; Some 21040; Some 21038; Some 21046; Some 21057; Some 21182; Some 21179; Some 21330; Some 21332; Some 21331;
   Some 21329; Some 21350; Some 21367; Some 21368; Some 21369; Some 21462; Some 21460; Some 21463; Some 21619; Some 21621;
   Some 21654; Some 21624; Some 21653; Some 21632; Some 21627; Some 21623; Some 21636; Some 21650; Some 21638; Some 21628;
   Some 21648; Some 21617; Some 21622; Some 21644; Some 21658; Some 21602; Some 21608; Some 21643; Some 21629; Some 21646;
   Some 22266; Some 22403; Some 22391; Some 22378; Some 22377; Some 22369; Some 22374; Some 22372; Some 22396; Some 22812;
   Some 22857; Some 22855; Some 22856; Some 22852; Some 22868; Some 22974; Some 22971; Some 22996; Some 22969; Some 22958;
   Some 22993; Some 22982; Some 22992; Some 22989; Some 22987; Some 22995; Some 22986; Some 22959; Some 22963; Some 22994;
   Some 22981; Some 23391; Some 23396; Some 23395; Some 23447; Some 23450; Some 23448; Some 23452; Some 23449; Some 23451;
   Some 23578; Some 23624; Some 23621; Some 23622; Some 23735; Some 23713; Some 23736; Some 23721; Some 23723; Some 23729;
   Some 23731; Some 24088; Some 24090; Some 24086; Some 24085; Some 24091; Some 24081; Some 24184; Some 24218; Some 24215;
   Some 24220; Some 24213; Some 24214; Some 24310; Some 24358; Some 24359; Some 24361; Some 24448; Some 24449; Some 24447;
   Some 24444; Some 24541; Some 24544; Some 24573; Some 24565; Some 24575; Some 24591; Some 24596; Some 24623; Some 24629;
   Some 24598; Some 24618; Some 24597; Some 24609; Some 24615; Some 24617; Some 24619; Some 24603; Some 25110; Some 25109;
   Some 25151; Some 25150; Some 25152; Some 25215; Some 25289; Some 25292; Some 25284; Some 25279; Some 25282; Some 25273;
   Some 25298; Some 25307; Some 25259; Some 25299; Some 25300; Some 25291; Some 25288; Some 25256; Some 25277; Some 25276;
   Some 25296; Some 25305; Some 25287; Some 25293; Some 25269; Some 25306; Some 25265; Some 25304; Some 25302; Some 25303;
   Some 25286; Some 25260; Some 25294; Some 25918; Some 26023; Some 26044; Some 26106; Some 26132; Some 26131; Some 26124;
   Some 26118; Some 26114; Some 26126; Some 26112; Some 26127; Some 26133; Some 26122; Some 26119; Some 26381; Some 26379;
   Some 26477; Some 26507; Some 26517; Some 26481; Some 26524; Some 26483; Some 26487; Some 26503; Some 26525; Some 26519;
   Some 26479; Some 26480; Some 26495; Some 26505; Some 26494; Some 26512; Some 26485; Some 26522; Some 26515; Some 26492;
   Some 26474; Some 26482; Some 27427; Some 27494; Some 27495; Some 27519; Some 27667; Some 27675; Some 27875; Some 27880;
   Some 27891; Some 27825; Some 27852; Some 27877; Some 27827; Some 27837; Some 27838; Some 27836; Some 27874; Some 27819;
   Some 27861; Some 27859; Some 27832; Some 27844; Some 27833; Some 27841; Some 27822; Some 27863; Some 27845; Some 27889;
   Some 27839; Some 27835; Some 27873; Some 27867; Some 27850; Some 27820; Some 27887; Some 27868; Some 27862; Some 27872;
   Some 28821; Some 28814; Some 28818; Some 28810; Some 28825; Some 29228; Some 29229; Some 29240; Some 29256; Some 29287;
   Some 29289; Some 29376; Some 29390; Some 29401; Some 29399; Some 29392; Some 29609; Some 29608; Some 29599; Some 29611;
   Some 29605; Some 30013; Some 30109; Some 30105; Some 30106; Some 30340; Some 30402; Some 30450; Some 30452; Some 30693;
   Some 30717; Some 31038; Some 31040; Some 31041; Some 31177; Some 31176; Some 31354; Some 31353; Some 31482; Some 31998;
   Some 32596; Some 32652; Some 32651; Some 32773; Some 32954; Some 32933; Some 32930; Some 32945; Some 32929; Some 32939;
   Some 32937; Some 32948; Some 32938; Some 32943; Some 33253; Some 33278; Some 33293; Some 33459; Some 33437; Some 33433;
   Some 33453; Some 33469; Some 33439; Some 33465; Some 33457; Some 33452; Some 33445; Some 33455; Some 33464; Some 33443;
   Some 33456; Some 33470; Some 33463; Some 34382; Some 34417; Some 21021; Some 34920; Some 36555; Some 36814; Some 36820;
   Some 36817; Some 37045; Some 37048; Some 37041; Some 37046; Some 37319; Some 37329; Some 38263; Some 38272; Some 38428;
   Some 38464; Some 38463; Some 38459; Some 38468; Some 38466; Some 38585; Some 38632; Some 38738; Some 38750; Some 20127;
   Some 20141; Some 20142; Some 20449; Some 20405; Some 20399; Some 20415; Some 20448; Some 20433; Some 20431; Some 20445;
   Some 20419; Some 20406; Some 20440; Some 20447; Some 20426; Some 20439; Some 20398; Some 20432; Some 20420; Some 20418;
   Some 20442; Some 20430; Some 20446; Some 20407; Some 20823; Some 20882; Some 20881; Some 20896; Some 21070; Some 21059;
   Some 21066; Some 21069; Some 21068; Some 21067; Some 21063; Some 21191; Some 21193; Some 21187; Some 21185; Some 21261;
   Some 21335; Some 21371; Some 21402; Some 21467; Some 21676; Some 21696; Some 21672; Some 21710; Some 21705; Some 21688;
   Some 21670; Some 21683; Some 21703; Some 21698; Some 21693; Some 21674; Some 21697; Some 21700; Some 21704; Some 21679;
   Some 21675; Some 21681; Some 21691; Some 21673; Some 21671; Some 21695; Some 22271; Some 22402; Some 22411; Some 22432;
   Some 22435; Some 22434; Some 22478; Some 22446; Some 22419; Some 22869; Some 22865; Some 22863; Some 22862; Some 22864;
   Some 23004; Some 23000; Some 23039; Some 23011; Some 23016; Some 23043; Some 23013; Some 23018; Some 23002; Some 23014;
   Some 23041; Some 23035; Some 23401; Some 23459; Some 23462; Some 23460; Some 23458; Some 23461; Some 23553; Some 23630;
   Some 23631; Some 23629; Some 23627; Some 23769; Some 23762; Some 24055; Some 24093; Some 24101; Some 24095; Some 24189;
   Some 24224; Some 24230; Some 24314; Some 24328; Some 24365; Some 24421; Some 24456; Some 24453; Some 24458; Some 24459;
   Some 24455; Some 24460; Some 24457; Some 24594; Some 24605; Some 24608; Some 24613; Some 24590; Some 24616; Some 24653;
   Some 24688; Some 24680; Some 24674; Some 24646; Some 24643; Some 24684; Some 24683; Some 24682; Some 24676; Some 25153;
   Some 25308; Some 25366; Some 25353; Some 25340; Some 25325; Some 25345; Some 25326; Some 25341; Some 25351; Some 25329;
   Some 25335; Some 25327; Some 25324; Some 25342; Some 25332; Some 25361; Some 25346; Some 25919; Some 25925; Some 26027;
   Some 26045; Some 26082; Some 26149; Some 26157; Some 26144; Some 26151; Some 26159; Some 26143; Some 26152; Some 26161;
   Some 26148; Some 26359; Some 26623; Some 26579; Some 26609; Some 26580; Some 26576; Some 26604; Some 26550; Some 26543;
   Some 26613; Some 26601; Some 26607; Some 26564; Some 26577; Some 26548; Some 26586; Some 26597; Some 26552; Some 26575;
   Some 26590; Some 26611; Some 26544; Some 26585; Some 26594; Some 26589; Some 26578; Some 27498; Some 27523; Some 27526;
   Some 27573; Some 27602; Some 27607; Some 27679; Some 27849; Some 27915; Some 27954; Some 27946; Some 27969; Some 27941;
   Some 27916; Some 27953; Some 27934; Some 27927; Some 27963; Some 27965; Some 27966; Some 27958; Some 27931; Some 27893;
   Some 27961; Some 27943; Some 27960; Some 27945; Some 27950; Some 27957; Some 27918; Some 27947; Some 28843; Some 28858;
   Some 28851; Some 28844; Some 28847; Some 28845; Some 28856; Some 28846; Some 28836; Some 29232; Some 29298; Some 29295;
   Some 29300; Some 29417; Some 29408; Some 29409; Some 29623; Some 29642; Some 29627; Some 29618; Some 29645; Some 29632;
   Some 29619; Some 29978; Some 29997; Some 30031; Some 30028; Some 30030; Some 30027; Some 30123; Some 30116; Some 30117;
   Some 30114; Some 30115; Some 30328; Some 30342; Some 30343; Some 30344; Some 30408; Some 30406; Some 30403; Some 30405;
   Some 30465; Some 30457; Some 30456; Some 30473; Some 30475; Some 30462; Some 30460; Some 30471; Some 30684; Some 30722;
   Some 30740; Some 30732; Some 30733; Some 31046; Some 31049; Some 31048; Some 31047; Some 31161; Some 31162; Some 31185;
   Some 31186; Some 31179; Some 31359; Some 31361; Some 31487; Some 31485; Some 31869; Some 32002; Some 32005; Some 32000;
   Some 32009; Some 32007; Some 32004; Some 32006; Some 32568; Some 32654; Some 32703; Some 32772; Some 32784; Some 32781;
   Some 32785; Some 32822; Some 32982; Some 32997; Some 32986; Some 32963; Some 32964; Some 32972; Some 32993; Some 32987;
   Some 32974; Some 32990; Some 32996; Some 32989; Some 33268; Some 33314; Some 33511; Some 33539; Some 33541; Some 33507;
   Some 33499; Some 33510; Some 33540; Some 33509; Some 33538; Some 33545; Some 33490; Some 33495; Some 33521; Some 33537;
   Some 33500; Some 33492; Some 33489; Some 33502; Some 33491; Some 33503; Some 33519; Some 33542; Some 34384; Some 34425;
   Some 34427; Some 34426; Some 34893; Some 34923; Some 35201; Some 35284; Some 35336; Some 35330; Some 35331; Some 35998;
   Some 36000; Some 36212; Some 36211; Some 36276; Some 36557; Some 36556; Some 36848; Some 36838; Some 36834; Some 36842;
   Some 36837; Some 36845; Some 36843; Some 36836; Some 36840; Some 37066; Some 37070; Some 37057; Some 37059; Some 37195;
   Some 37194; Some 37325; Some 38274; Some 38480; Some 38475; Some 38476; Some 38477; Some 38754; Some 38761; Some 38859;
   Some 38893; Some 38899; Some 38913; Some 39080; Some 39131; Some 39135; Some 39318; Some 39321; Some 20056; Some 20147
  ].

Definition index_big5_07 : list (option Z) :=
  [
   Some 20492; Some 20493; Some 20515; Some 20463; Some 20518; Some 20517; Some 20472; Some 20521; Some 20502; Some 20486;
   Some 20540; Some 20511; Some 20506; Some 20498; Some 20497; Some 20474; Some 20480; Some 20500; Some 20520; Some 20465;
   Some 20513; Some 20491; Some 20505; Some 20504; Some 20467; Some 20462; Some 20525; Some 20522; Some 20478; Some 20523;
   Some 20489; Some 20860; Some 20900; Some 20901; Some 20898; Some 20941; Some 20940; Some 20934; Some 20939; Some 21078;
   Some 21084; Some 21076; Some 21083; Some 21085; Some 21290; Some 21375; Some 21407; Some 21405; Some 21471; Some 21736;
   Some 21776; Some 21761; Some 21815; Some 21756; Some 21733; Some 21746; Some 21766; Some 21754; Some 21780; Some 21737;
   Some 21741; Some 21729; Some 21769; Some 21742; Some 21738; Some 21734; Some 21799; Some 21767; Some 21757; Some 21775;
   Some 22275; Some 22276; Some 22466; Some 22484; Some 22475; Some 22467; Some 22537; Some 22799; Some 22871; Some 22872;
   Some 22874; Some 23057; Some 23064; Some 23068; Some 23071; Some 23067; Some 23059; Some 23020; Some 23072; Some 23075;
   Some 23081; Some 23077; Some 23052; Some 23049; Some 23403; Some 23640; Some 23472; Some 23475; Some 23478; Some 23476;
   Some 23470; Some 23477; Some 23481; Some 23480; Some 23556; Some 23633; Some 23637; Some 23632; Some 23789; Some 23805;
   Some 23803; Some 23786; Some 23784; Some 23792; Some 23798; Some 23809; Some 23796; Some 24046; Some 24109; Some 24107;
   Some 24235; Some 24237; Some 24231; Some 24369; Some 24466; Some 24465; Some 24464; Some 24665; Some 24675; Some 24677;
   Some 24656; Some 24661; Some 24685; Some 24681; Some 24687; Some 24708; Some 24735; Some 24730; Some 24717; Some 24724;
   Some 24716; Some 24709; Some 24726; Some 25159; Some 25331; Some 25352; Some 25343; Some 25422; Some 25406; Some 25391;
   Some 25429; Some 25410; Some 25414; Some 25423; Some 25417; Some 25402; Some 25424; Some 25405; Some 25386; Some 25387;
   Some 25384; Some 25421; Some 25420; Some 25928; Some 25929; Some 26009; Some 26049; Some 26053; Some 26178; Some 26185;
   Some 26191; Some 26179; Some 26194; Some 26188; Some 26181; Some 26177; Some 26360; Some 26388; Some 26389; Some 26391;
   Some 26657; Some 26680; Some 26696; Some 26694; Some 26707; Some 26681; Some 26690; Some 26708; Some 26665; Some 26803;
   Some 26647; Some 26700; Some 26705; Some 26685; Some 26612; Some 26704; Some 26688; Some 26684; Some 26691; Some 26666;
   Some 26693; Some 26643; Some 26648; Some 26689; Some 27530; Some 27529; Some 27575; Some 27683; Some 27687; Some 27688;
   Some 27686; Some 27684; Some 27888; Some 28010; Some 28053; Some 28040; Some 28039; Some 28006; Some 28024; Some 28023;
   Some 27993; Some 28051; Some 28012; Some 28041; Some 28014; Some 27994; Some 28020; Some 28009; Some 28044; Some 28042;
   Some 28025; Some 28037; Some 28005; Some 28052; Some 28874; Some 28888; Some 28900; Some 28889; Some 28872; Some 28879;
   Some 29241; Some 29305; Some 29436; Some 29433; Some 29437; Some 29432; Some 29431; Some 29574; Some 29677; Some 29705;
   Some 29678; Some 29664; Some 29674; Some 29662; Some 30036; Some 30045; Some 30044; Some 30042; Some 30041; Some 30142;
   Some 30149; Some 30151; Some 30130; Some 30131; Some 30141; Some 30140; Some 30137; Some 30146; Some 30136; Some 30347;
   Some 30384; Some 30410; Some 30413; Some 30414; Some 30505; Some 30495; Some 30496; Some 30504; Some 30697; Some 30768;
   Some 30759; Some 30776; Some 30749; Some 30772; Some 30775; Some 30757; Some 30765; Some 30752; Some 30751; Some 30770;
   Some 31061; Some 31056; Some 31072; Some 31071; Some 31062; Some 31070; Some 31069; Some 31063; Some 31066; Some 31204;
   Some 31203; Some 31207; Some 31199; Some 31206; Some 31209; Some 31192; Some 31364; Some 31368; Some 31449; Some 31494;
   Some 31505; Some 31881; Some 32033; Some 32023; Some 32011; Some 32010; Some 32032; Some 32034; Some 32020; Some 32016;
   Some 32021; Some 32026; Some 32028; Some 32013; Some 32025; Some 32027; Some 32570; Some 32607; Some 32660; Some 32709;
   Some 32705; Some 32774; Some 32792; Some 32789; Some 32793; Some 32791; Some 32829; Some 32831; Some 33009; Some 33026;
   Some 33008; Some 33029; Some 33005; Some 33012; Some 33030; Some 33016; Some 33011; Some 33032; Some 33021; Some 33034;
   Some 33020; Some 33007; Some 33261; Some 33260; Some 33280; Some 33296; Some 33322; Some 33323; Some 33320; Some 33324;
   Some 33467; Some 33579; Some 33618; Some 33620; Some 33610; Some 33592; Some 33616; Some 33609; Some 33589; Some 33588;
   Some 33615; Some 33586; Some 33593; Some 33590; Some 33559; Some 33600; Some 33585; Some 33576; Some 33603; Some 34388;
   Some 34442; Some 34474; Some 34451; Some 34468; Some 34473; Some 34444; Some 34467; Some 34460; Some 34928; Some 34935;
   Some 34945; Some 34946; Some 34941; Some 34937; Some 35352; Some 35344; Some 35342; Some 35340; Some 35349; Some 35338;
   Some 35351; Some 35347; Some 35350; Some 35343; Some 35345; Some 35912; Some 35962; Some 35961; Some 36001; Some 36002;
   Some 36215; Some 36524; Some 36562; Some 36564; Some 36559; Some 36785; Some 36865; Some 36870; Some 36855; Some 36864;
   Some 36858; Some 36852; Some 36867; Some 36861; Some 36869; Some 36856; Some 37013; Some 37089; Some 37085; Some 37090;
   Some 37202; Some 37197; Some 37196; Some 37336; Some 37341; Some 37335; Some 37340; Some 37337; Some 38275; Some 38498;
   Some 38499; Some 38497; Some 38491; Some 38493; Some 38500; Some 38488; Some 38494; Some 38587; Some 39138; Some 39340;
   Some 39592; Some 39640; Some 39717; Some 39730; Some 39740; Some 20094; Some 20602; Some 20605; Some 20572; Some 20551;
   Some 20547; Some 20556; Some 20570; Some 20553; Some 20581; Some 20598; Some 20558; Some 20565; Some 20597; Some 20596;
   Some 20599; Some 20559; Some 20495; Some 20591; Some 20589; Some 20828; Some 20885; Some 20976; Some 21098; Some 21103;
   Some 21202; Some 21209; Some 21208; Some 21205; Some 21264; Some 21263; Some 21273; Some 21311; Some 21312; Some 21310;
   Some 21443; Some 26364; Some 21830; Some 21866; Some 21862; Some 21828; Some 21854; Some 21857; Some 21827; Some 21834;
   Some 21809; Some 21846; Some 21839; Some 21845; Some 21807; Some 21860; Some 21816; Some 21806; Some 21852; Some 21804;
   Some 21859; Some 21811; Some 21825; Some 21847; Some 22280; Some 22283; Some 22281; Some 22495; Some 22533; Some 22538;
   Some 22534; Some 22496; Some 22500; Some 22522; Some 22530; Some 22581; Some 22519; Some 22521; Some 22816; Some 22882;
   Some 23094; Some 23105; Some 23113; Some 23142; Some 23146; Some 23104; Some 23100; Some 23138; Some 23130; Some 23110;
   Some 23114; Some 23408; Some 23495; Some 23493; Some 23492; Some 23490; Some 23487; Some 23494; Some 23561; Some 23560;
   Some 23559; Some 23648; Some 23644; Some 23645; Some 23815; Some 23814; Some 23822; Some 23835; Some 23830; Some 23842;
   Some 23825; Some 23849; Some 23828; Some 23833; Some 23844; Some 23847; Some 23831; Some 24034; Some 24120; Some 24118;
   Some 24115; Some 24119; Some 24247; Some 24248; Some 24246; Some 24245; Some 24254; Some 24373; Some 24375; Some 24407;
   Some 24428; Some 24425; Some 24427; Some 24471; Some 24473; Some 24478; Some 24472; Some 24481; Some 24480; Some 24476;
   Some 24703; Some 24739; Some 24713; Some 24736; Some 24744; Some 24779; Some 24756; Some 24806; Some 24765; Some 24773;
   Some 24763; Some 24757; Some 24796; Some 24764; Some 24792; Some 24789; Some 24774; Some 24799; Some 24760; Some 24794;
   Some 24775; Some 25114; Some 25115; Some 25160; Some 25504; Some 25511; Some 25458; Some 25494; Some 25506; Some 25509;
   Some 25463; Some 25447; Some 25496; Some 25514; Some 25457; Some 25513; Some 25481; Some 25475; Some 25499; Some 25451;
   Some 25512; Some 25476; Some 25480; Some 25497; Some 25505; Some 25516; Some 25490; Some 25487; Some 25472; Some 25467;
   Some 25449; Some 25448; Some 25466; Some 25949; Some 25942; Some 25937; Some 25945; Some 25943; Some 21855; Some 25935;
   Some 25944; Some 25941; Some 25940; Some 26012; Some 26011; Some 26028; Some 26063; Some 26059; Some 26060; Some 26062;
   Some 26205; Some 26202; Some 26212; Some 26216; Some 26214; Some 26206; Some 26361; Some 21207; Some 26395; Some 26753;
   Some 26799; Some 26786; Some 26771; Some 26805; Some 26751; Some 26742; Some 26801; Some 26791; Some 26775; Some 26800;
   Some 26755; Some 26820; Some 26797; Some 26758; Some 26757; Some 26772; Some 26781; Some 26792; Some 26783; Some 26785;
   Some 26754; Some 27442; Some 27578; Some 27627; Some 27628; Some 27691; Some 28046; Some 28092; Some 28147; Some 28121;
   Some 28082; Some 28129; Some 28108; Some 28132; Some 28155; Some 28154; Some 28165; Some 28103; Some 28107; Some 28079;
   Some 28113; Some 28078; Some 28126; Some 28153; Some 28088; Some 28151; Some 28149; Some 28101; Some 28114; Some 28186;
   Some 28085; Some 28122; Some 28139; Some 28120; Some 28138; Some 28145; Some 28142; Some 28136; Some 28102; Some 28100;
   Some 28074; Some 28140; Some 28095; Some 28134; Some 28921; Some 28937; Some 28938; Some 28925; Some 28911; Some 29245;
   Some 29309; Some 29313; Some 29468; Some 29467; Some 29462; Some 29459; Some 29465; Some 29575; Some 29701; Some 29706;
   Some 29699; Some 29702; Some 29694; Some 29709; Some 29920; Some 29942; Some 29943; Some 29980; Some 29986; Some 30053;
   Some 30054; Some 30050; Some 30064; Some 30095; Some 30164; Some 30165; Some 30133; Some 30154; Some 30157; Some 30350;
   Some 30420; Some 30418; Some 30427; Some 30519; Some 30526; Some 30524; Some 30518; Some 30520; Some 30522; Some 30827;
   Some 30787; Some 30798; Some 31077; Some 31080; Some 31085; Some 31227; Some 31378; Some 31381; Some 31520; Some 31528;
   Some 31515; Some 31532; Some 31526; Some 31513; Some 31518; Some 31534; Some 31890; Some 31895; Some 31893; Some 32070;
   Some 32067; Some 32113; Some 32046; Some 32057; Some 32060; Some 32064; Some 32048; Some 32051; Some 32068; Some 32047;
   Some 32066; Some 32050; Some 32049; Some 32573; Some 32670; Some 32666; Some 32716; Some 32718; Some 32722; Some 32796;
   Some 32842; Some 32838; Some 33071; Some 33046; Some 33059; Some 33067; Some 33065; Some 33072; Some 33060; Some 33282;
   Some 33333; Some 33335; Some 33334; Some 33337; Some 33678; Some 33694; Some 33688; Some 33656; Some 33698; Some 33686;
   Some 33725; Some 33707; Some 33682; Some 33674; Some 33683; Some 33673; Some 33696; Some 33655; Some 33659; Some 33660;
   Some 33670; Some 33703; Some 34389; Some 24426; Some 34503; Some 34496; Some 34486; Some 34500; Some 34485; Some 34502;
   Some 34507; Some 34481; Some 34479; Some 34505; Some 34899; Some 34974; Some 34952; Some 34987; Some 34962; Some 34966;
   Some 34957; Some 34955; Some 35219; Some 35215; Some 35370; Some 35357; Some 35363; Some 35365; Some 35377; Some 35373;
   Some 35359; Some 35355; Some 35362; Some 35913; Some 35930; Some 36009; Some 36012; Some 36011; Some 36008; Some 36010;
   Some 36007; Some 36199; Some 36198; Some 36286; Some 36282; Some 36571; Some 36575; Some 36889; Some 36877; Some 36890;
   Some 36887; Some 36899; Some 36895; Some 36893; Some 36880; Some 36885; Some 36894; Some 36896; Some 36879; Some 36898;
   Some 36886; Some 36891; Some 36884; Some 37096; Some 37101; Some 37117; Some 37207; Some 37326; Some 37365; Some 37350;
   Some 37347; Some 37351; Some 37357; Some 37353; Some 38281; Some 38506; Some 38517; Some 38515; Some 38520; Some 38512;
   Some 38516; Some 38518; Some 38519; Some 38508; Some 38592; Some 38634; Some 38633; Some 31456; Some 31455; Some 38914;
   Some 38915; Some 39770; Some 40165; Some 40565; Some 40575; Some 40613; Some 40635; Some 20642; Some 20621; Some 20613;
   Some 20633; Some 20625; Some 20608; Some 20630; Some 20632; Some 20634; Some 26368; Some 20977; Some 21106; Some 21108;
   Some 21109; Some 21097; Some 21214; Some 21213; Some 21211; Some 21338; Some 21413; Some 21883; Some 21888; Some 21927;
   Some 21884; Some 21898; Some 21917; Some 21912; Some 21890; Some 21916; Some 21930; Some 21908; Some 21895; Some 21899;
   Some 21891; Some 21939; Some 21934; Some 21919; Some 21822; Some 21938; Some 21914; Some 21947; Some 21932; Some 21937;
   Some 21886; Some 21897; Some 21931; Some 21913; Some 22285; Some 22575; Some 22570; Some 22580; Some 22564; Some 22576
  ].

Definition index_big5_08 : list (option Z) :=
  [
   Some 22577; Some 22561; Some 22557; Some 22560; Some 22777; Some 22778; Some 22880; Some 23159; Some 23194; Some 23167;
   Some 23186; Some 23195; Some 23207; Some 23411; Some 23409; Some 23506; Some 23500; Some 23507; Some 23504; Some 23562;
   Some 23563; Some 23601; Some 23884; Some 23888; Some 23860; Some 23879; Some 24061; Some 24133; Some 24125; Some 24128;
   Some 24131; Some 24190; Some 24266; Some 24257; Some 24258; Some 24260; Some 24380; Some 24429; Some 24489; Some 24490;
   Some 24488; Some 24785; Some 24801; Some 24754; Some 24758; Some 24800; Some 24860; Some 24867; Some 24826; Some 24853;
   Some 24816; Some 24827; Some 24820; Some 24936; Some 24817; Some 24846; Some 24822; Some 24841; Some 24832; Some 24850;
   Some 25119; Some 25161; Some 25507; Some 25484; Some 25551; Some 25536; Some 25577; Some 25545; Some 25542; Some 25549;
   Some 25554; Some 25571; Some 25552; Some 25569; Some 25558; Some 25581; Some 25582; Some 25462; Some 25588; Some 25578;
   Some 25563; Some 25682; Some 25562; Some 25593; Some 25950; Some 25958; Some 25954; Some 25955; Some 26001; Some 26000;
   Some 26031; Some 26222; Some 26224; Some 26228; Some 26230; Some 26223; Some 26257; Some 26234; Some 26238; Some 26231;
   Some 26366; Some 26367; Some 26399; Some 26397; Some 26874; Some 26837; Some 26848; Some 26840; Some 26839; Some 26885;
   Some 26847; Some 26869; Some 26862; Some 26855; Some 26873; Some 26834; Some 26866; Some 26851; Some 26827; Some 26829;
   Some 26893; Some 26898; Some 26894; Some 26825; Some 26842; Some 26990; Some 26875; Some 27454; Some 27450; Some 27453;
   Some 27544; Some 27542; Some 27580; Some 27631; Some 27694; Some 27695; Some 27692; Some 28207; Some 28216; Some 28244;
   Some 28193; Some 28210; Some 28263; Some 28234; Some 28192; Some 28197; Some 28195; Some 28187; Some 28251; Some 28248;
   Some 28196; Some 28246; Some 28270; Some 28205; Some 28198; Some 28271; Some 28212; Some 28237; Some 28218; Some 28204;
   Some 28227; Some 28189; Some 28222; Some 28363; Some 28297; Some 28185; Some 28238; Some 28259; Some 28228; Some 28274;
   Some 28265; Some 28255; Some 28953; Some 28954; Some 28966; Some 28976; Some 28961; Some 28982; Some 29038; Some 28956;
   Some 29260; Some 29316; Some 29312; Some 29494; Some 29477; Some 29492; Some 29481; Some 29754; Some 29738; Some 29747;
   Some 29730; Some 29733; Some 29749; Some 29750; Some 29748; Some 29743; Some 29723; Some 29734; Some 29736; Some 29989;
   Some 29990; Some 30059; Some 30058; Some 30178; Some 30171; Some 30179; Some 30169; Some 30168; Some 30174; Some 30176;
   Some 30331; Some 30332; Some 30358; Some 30355; Some 30388; Some 30428; Some 30543; Some 30701; Some 30813; Some 30828;
   Some 30831; Some 31245; Some 31240; Some 31243; Some 31237; Some 31232; Some 31384; Some 31383; Some 31382; Some 31461;
   Some 31459; Some 31561; Some 31574; Some 31558; Some 31568; Some 31570; Some 31572; Some 31565; Some 31563; Some 31567;
   Some 31569; Some 31903; Some 31909; Some 32094; Some 32080; Some 32104; Some 32085; Some 32043; Some 32110; Some 32114;
   Some 32097; Some 32102; Some 32098; Some 32112; Some 32115; Some 21892; Some 32724; Some 32725; Some 32779; Some 32850;
   Some 32901; Some 33109; Some 33108; Some 33099; Some 33105; Some 33102; Some 33081; Some 33094; Some 33086; Some 33100;
   Some 33107; Some 33140; Some 33298; Some 33308; Some 33769; Some 33795; Some 33784; Some 33805; Some 33760; Some 33733;
   Some 33803; Some 33729; Some 33775; Some 33777; Some 33780; Some 33879; Some 33802; Some 33776; Some 33804; Some 33740;
   Some 33789; Some 33778; Some 33738; Some 33848; Some 33806; Some 33796; Some 33756; Some 33799; Some 33748; Some 33759;
   Some 34395; Some 34527; Some 34521; Some 34541; Some 34516; Some 34523; Some 34532; Some 34512; Some 34526; Some 34903;
   Some 35009; Some 35010; Some 34993; Some 35203; Some 35222; Some 35387; Some 35424; Some 35413; Some 35422; Some 35388;
   Some 35393; Some 35412; Some 35419; Some 35408; Some 35398; Some 35380; Some 35386; Some 35382; Some 35414; Some 35937;
   Some 35970; Some 36015; Some 36028; Some 36019; Some 36029; Some 36033; Some 36027; Some 36032; Some 36020; Some 36023;
   Some 36022; Some 36031; Some 36024; Some 36234; Some 36229; Some 36225; Some 36302; Some 36317; Some 36299; Some 36314;
   Some 36305; Some 36300; Some 36315; Some 36294; Some 36603; Some 36600; Some 36604; Some 36764; Some 36910; Some 36917;
   Some 36913; Some 36920; Some 36914; Some 36918; Some 37122; Some 37109; Some 37129; Some 37118; Some 37219; Some 37221;
   Some 37327; Some 37396; Some 37397; Some 37411; Some 37385; Some 37406; Some 37389; Some 37392; Some 37383; Some 37393;
   Some 38292; Some 38287; Some 38283; Some 38289; Some 38291; Some 38290; Some 38286; Some 38538; Some 38542; Some 38539;
   Some 38525; Some 38533; Some 38534; Some 38541; Some 38514; Some 38532; Some 38593; Some 38597; Some 38596; Some 38598;
   Some 38599; Some 38639; Some 38642; Some 38860; Some 38917; Some 38918; Some 38920; Some 39143; Some 39146; Some 39151;
   Some 39145; Some 39154; Some 39149; Some 39342; Some 39341; Some 40643; Some 40653; Some 40657; Some 20098; Some 20653;
   Some 20661; Some 20658; Some 20659; Some 20677; Some 20670; Some 20652; Some 20663; Some 20667; Some 20655; Some 20679;
   Some 21119; Some 21111; Some 21117; Some 21215; Some 21222; Some 21220; Some 21218; Some 21219; Some 21295; Some 21983;
   Some 21992; Some 21971; Some 21990; Some 21966; Some 21980; Some 21959; Some 21969; Some 21987; Some 21988; Some 21999;
   Some 21978; Some 21985; Some 21957; Some 21958; Some 21989; Some 21961; Some 22290; Some 22291; Some 22622; Some 22609;
   Some 22616; Some 22615; Some 22618; Some 22612; Some 22635; Some 22604; Some 22637; Some 22602; Some 22626; Some 22610;
   Some 22603; Some 22887; Some 23233; Some 23241; Some 23244; Some 23230; Some 23229; Some 23228; Some 23219; Some 23234;
   Some 23218; Some 23913; Some 23919; Some 24140; Some 24185; Some 24265; Some 24264; Some 24338; Some 24409; Some 24492;
   Some 24494; Some 24858; Some 24847; Some 24904; Some 24863; Some 24819; Some 24859; Some 24825; Some 24833; Some 24840;
   Some 24910; Some 24908; Some 24900; Some 24909; Some 24894; Some 24884; Some 24871; Some 24845; Some 24838; Some 24887;
   Some 25121; Some 25122; Some 25619; Some 25662; Some 25630; Some 25642; Some 25645; Some 25661; Some 25644; Some 25615;
   Some 25628; Some 25620; Some 25613; Some 25654; Some 25622; Some 25623; Some 25606; Some 25964; Some 26015; Some 26032;
   Some 26263; Some 26249; Some 26247; Some 26248; Some 26262; Some 26244; Some 26264; Some 26253; Some 26371; Some 27028;
   Some 26989; Some 26970; Some 26999; Some 26976; Some 26964; Some 26997; Some 26928; Some 27010; Some 26954; Some 26984;
   Some 26987; Some 26974; Some 26963; Some 27001; Some 27014; Some 26973; Some 26979; Some 26971; Some 27463; Some 27506;
   Some 27584; Some 27583; Some 27603; Some 27645; Some 28322; Some 28335; Some 28371; Some 28342; Some 28354; Some 28304;
   Some 28317; Some 28359; Some 28357; Some 28325; Some 28312; Some 28348; Some 28346; Some 28331; Some 28369; Some 28310;
   Some 28316; Some 28356; Some 28372; Some 28330; Some 28327; Some 28340; Some 29006; Some 29017; Some 29033; Some 29028;
   Some 29001; Some 29031; Some 29020; Some 29036; Some 29030; Some 29004; Some 29029; Some 29022; Some 28998; Some 29032;
   Some 29014; Some 29242; Some 29266; Some 29495; Some 29509; Some 29503; Some 29502; Some 29807; Some 29786; Some 29781;
   Some 29791; Some 29790; Some 29761; Some 29759; Some 29785; Some 29787; Some 29788; Some 30070; Some 30072; Some 30208;
   Some 30192; Some 30209; Some 30194; Some 30193; Some 30202; Some 30207; Some 30196; Some 30195; Some 30430; Some 30431;
   Some 30555; Some 30571; Some 30566; Some 30558; Some 30563; Some 30585; Some 30570; Some 30572; Some 30556; Some 30565;
   Some 30568; Some 30562; Some 30702; Some 30862; Some 30896; Some 30871; Some 30872; Some 30860; Some 30857; Some 30844;
   Some 30865; Some 30867; Some 30847; Some 31098; Some 31103; Some 31105; Some 33836; Some 31165; Some 31260; Some 31258;
   Some 31264; Some 31252; Some 31263; Some 31262; Some 31391; Some 31392; Some 31607; Some 31680; Some 31584; Some 31598;
   Some 31591; Some 31921; Some 31923; Some 31925; Some 32147; Some 32121; Some 32145; Some 32129; Some 32143; Some 32091;
   Some 32622; Some 32617; Some 32618; Some 32626; Some 32681; Some 32680; Some 32676; Some 32854; Some 32856; Some 32902;
   Some 32900; Some 33137; Some 33136; Some 33144; Some 33125; Some 33134; Some 33139; Some 33131; Some 33145; Some 33146;
   Some 33126; Some 33285; Some 33351; Some 33922; Some 33911; Some 33853; Some 33841; Some 33909; Some 33894; Some 33899;
   Some 33865; Some 33900; Some 33883; Some 33852; Some 33845; Some 33889; Some 33891; Some 33897; Some 33901; Some 33862;
   Some 34398; Some 34396; Some 34399; Some 34553; Some 34579; Some 34568; Some 34567; Some 34560; Some 34558; Some 34555;
   Some 34562; Some 34563; Some 34566; Some 34570; Some 34905; Some 35039; Some 35028; Some 35033; Some 35036; Some 35032;
   Some 35037; Some 35041; Some 35018; Some 35029; Some 35026; Some 35228; Some 35299; Some 35435; Some 35442; Some 35443;
   Some 35430; Some 35433; Some 35440; Some 35463; Some 35452; Some 35427; Some 35488; Some 35441; Some 35461; Some 35437;
   Some 35426; Some 35438; Some 35436; Some 35449; Some 35451; Some 35390; Some 35432; Some 35938; Some 35978; Some 35977;
   Some 36042; Some 36039; Some 36040; Some 36036; Some 36018; Some 36035; Some 36034; Some 36037; Some 36321; Some 36319;
   Some 36328; Some 36335; Some 36339; Some 36346; Some 36330; Some 36324; Some 36326; Some 36530; Some 36611; Some 36617;
   Some 36606; Some 36618; Some 36767; Some 36786; Some 36939; Some 36938; Some 36947; Some 36930; Some 36948; Some 36924;
   Some 36949; Some 36944; Some 36935; Some 36943; Some 36942; Some 36941; Some 36945; Some 36926; Some 36929; Some 37138;
   Some 37143; Some 37228; Some 37226; Some 37225; Some 37321; Some 37431; Some 37463; Some 37432; Some 37437; Some 37440;
   Some 37438; Some 37467; Some 37451; Some 37476; Some 37457; Some 37428; Some 37449; Some 37453; Some 37445; Some 37433;
   Some 37439; Some 37466; Some 38296; Some 38552; Some 38548; Some 38549; Some 38605; Some 38603; Some 38601; Some 38602;
   Some 38647; Some 38651; Some 38649; Some 38646; Some 38742; Some 38772; Some 38774; Some 38928; Some 38929; Some 38931;
   Some 38922; Some 38930; Some 38924; Some 39164; Some 39156; Some 39165; Some 39166; Some 39347; Some 39345; Some 39348;
   Some 39649; Some 40169; Some 40578; Some 40718; Some 40723; Some 40736; Some 20711; Some 20718; Some 20709; Some 20694;
   Some 20717; Some 20698; Some 20693; Some 20687; Some 20689; Some 20721; Some 20686; Some 20713; Some 20834; Some 20979;
   Some 21123; Some 21122; Some 21297; Some 21421; Some 22014; Some 22016; Some 22043; Some 22039; Some 22013; Some 22036;
   Some 22022; Some 22025; Some 22029; Some 22030; Some 22007; Some 22038; Some 22047; Some 22024; Some 22032; Some 22006;
   Some 22296; Some 22294; Some 22645; Some 22654; Some 22659; Some 22675; Some 22666; Some 22649; Some 22661; Some 22653;
   Some 22781; Some 22821; Some 22818; Some 22820; Some 22890; Some 22889; Some 23265; Some 23270; Some 23273; Some 23255;
   Some 23254; Some 23256; Some 23267; Some 23413; Some 23518; Some 23527; Some 23521; Some 23525; Some 23526; Some 23528;
   Some 23522; Some 23524; Some 23519; Some 23565; Some 23650; Some 23940; Some 23943; Some 24155; Some 24163; Some 24149;
   Some 24151; Some 24148; Some 24275; Some 24278; Some 24330; Some 24390; Some 24432; Some 24505; Some 24903; Some 24895;
   Some 24907; Some 24951; Some 24930; Some 24931; Some 24927; Some 24922; Some 24920; Some 24949; Some 25130; Some 25735;
   Some 25688; Some 25684; Some 25764; Some 25720; Some 25695; Some 25722; Some 25681; Some 25703; Some 25652; Some 25709;
   Some 25723; Some 25970; Some 26017; Some 26071; Some 26070; Some 26274; Some 26280; Some 26269; Some 27036; Some 27048;
   Some 27029; Some 27073; Some 27054; Some 27091; Some 27083; Some 27035; Some 27063; Some 27067; Some 27051; Some 27060;
   Some 27088; Some 27085; Some 27053; Some 27084; Some 27046; Some 27075; Some 27043; Some 27465; Some 27468; Some 27699
  ].

Definition index_big5_09 : list (option Z) :=
  [
   Some 28467; Some 28436; Some 28414; Some 28435; Some 28404; Some 28457; Some 28478; Some 28448; Some 28460; Some 28431;
   Some 28418; Some 28450; Some 28415; Some 28399; Some 28422; Some 28465; Some 28472; Some 28466; Some 28451; Some 28437;
   Some 28459; Some 28463; Some 28552; Some 28458; Some 28396; Some 28417; Some 28402; Some 28364; Some 28407; Some 29076;
   Some 29081; Some 29053; Some 29066; Some 29060; Some 29074; Some 29246; Some 29330; Some 29334; Some 29508; Some 29520;
   Some 29796; Some 29795; Some 29802; Some 29808; Some 29805; Some 29956; Some 30097; Some 30247; Some 30221; Some 30219;
   Some 30217; Some 30227; Some 30433; Some 30435; Some 30596; Some 30589; Some 30591; Some 30561; Some 30913; Some 30879;
   Some 30887; Some 30899; Some 30889; Some 30883; Some 31118; Some 31119; Some 31117; Some 31278; Some 31281; Some 31402;
   Some 31401; Some 31469; Some 31471; Some 31649; Some 31637; Some 31627; Some 31605; Some 31639; Some 31645; Some 31636;
   Some 31631; Some 31672; Some 31623; Some 31620; Some 31929; Some 31933; Some 31934; Some 32187; Some 32176; Some 32156;
   Some 32189; Some 32190; Some 32160; Some 32202; Some 32180; Some 32178; Some 32177; Some 32186; Some 32162; Some 32191;
   Some 32181; Some 32184; Some 32173; Some 32210; Some 32199; Some 32172; Some 32624; Some 32736; Some 32737; Some 32735;
   Some 32862; Some 32858; Some 32903; Some 33104; Some 33152; Some 33167; Some 33160; Some 33162; Some 33151; Some 33154;
   Some 33255; Some 33274; Some 33287; Some 33300; Some 33310; Some 33355; Some 33993; Some 33983; Some 33990; Some 33988;
   Some 33945; Some 33950; Some 33970; Some 33948; Some 33995; Some 33976; Some 33984; Some 34003; Some 33936; Some 33980;
   Some 34001; Some 33994; Some 34623; Some 34588; Some 34619; Some 34594; Some 34597; Some 34612; Some 34584; Some 34645;
   Some 34615; Some 34601; Some 35059; Some 35074; Some 35060; Some 35065; Some 35064; Some 35069; Some 35048; Some 35098;
   Some 35055; Some 35494; Some 35468; Some 35486; Some 35491; Some 35469; Some 35489; Some 35475; Some 35492; Some 35498;
   Some 35493; Some 35496; Some 35480; Some 35473; Some 35482; Some 35495; Some 35946; Some 35981; Some 35980; Some 36051;
   Some 36049; Some 36050; Some 36203; Some 36249; Some 36245; Some 36348; Some 36628; Some 36626; Some 36629; Some 36627;
   Some 36771; Some 36960; Some 36952; Some 36956; Some 36963; Some 36953; Some 36958; Some 36962; Some 36957; Some 36955;
   Some 37145; Some 37144; Some 37150; Some 37237; Some 37240; Some 37239; Some 37236; Some 37496; Some 37504; Some 37509;
   Some 37528; Some 37526; Some 37499; Some 37523; Some 37532; Some 37544; Some 37500; Some 37521; Some 38305; Some 38312;
   Some 38313; Some 38307; Some 38309; Some 38308; Some 38553; Some 38556; Some 38555; Some 38604; Some 38610; Some 38656;
   Some 38780; Some 38789; Some 38902; Some 38935; Some 38936; Some 39087; Some 39089; Some 39171; Some 39173; Some 39180;
   Some 39177; Some 39361; Some 39599; Some 39600; Some 39654; Some 39745; Some 39746; Some 40180; Some 40182; Some 40179;
   Some 40636; Some 40763; Some 40778; Some 20740; Some 20736; Some 20731; Some 20725; Some 20729; Some 20738; Some 20744;
   Some 20745; Some 20741; Some 20956; Some 21127; Some 21128; Some 21129; Some 21133; Some 21130; Some 21232; Some 21426;
   Some 22062; Some 22075; Some 22073; Some 22066; Some 22079; Some 22068; Some 22057; Some 22099; Some 22094; Some 22103;
   Some 22132; Some 22070; Some 22063; Some 22064; Some 22656; Some 22687; Some 22686; Some 22707; Some 22684; Some 22702;
   Some 22697; Some 22694; Some 22893; Some 23305; Some 23291; Some 23307; Some 23285; Some 23308; Some 23304; Some 23534;
   Some 23532; Some 23529; Some 23531; Some 23652; Some 23653; Some 23965; Some 23956; Some 24162; Some 24159; Some 24161;
   Some 24290; Some 24282; Some 24287; Some 24285; Some 24291; Some 24288; Some 24392; Some 24433; Some 24503; Some 24501;
   Some 24950; Some 24935; Some 24942; Some 24925; Some 24917; Some 24962; Some 24956; Some 24944; Some 24939; Some 24958;
   Some 24999; Some 24976; Some 25003; Some 24974; Some 25004; Some 24986; Some 24996; Some 24980; Some 25006; Some 25134;
   Some 25705; Some 25711; Some 25721; Some 25758; Some 25778; Some 25736; Some 25744; Some 25776; Some 25765; Some 25747;
   Some 25749; Some 25769; Some 25746; Some 25774; Some 25773; Some 25771; Some 25754; Some 25772; Some 25753; Some 25762;
   Some 25779; Some 25973; Some 25975; Some 25976; Some 26286; Some 26283; Some 26292; Some 26289; Some 27171; Some 27167;
   Some 27112; Some 27137; Some 27166; Some 27161; Some 27133; Some 27169; Some 27155; Some 27146; Some 27123; Some 27138;
   Some 27141; Some 27117; Some 27153; Some 27472; Some 27470; Some 27556; Some 27589; Some 27590; Some 28479; Some 28540;
   Some 28548; Some 28497; Some 28518; Some 28500; Some 28550; Some 28525; Some 28507; Some 28536; Some 28526; Some 28558;
   Some 28538; Some 28528; Some 28516; Some 28567; Some 28504; Some 28373; Some 28527; Some 28512; Some 28511; Some 29087;
   Some 29100; Some 29105; Some 29096; Some 29270; Some 29339; Some 29518; Some 29527; Some 29801; Some 29835; Some 29827;
   Some 29822; Some 29824; Some 30079; Some 30240; Some 30249; Some 30239; Some 30244; Some 30246; Some 30241; Some 30242;
   Some 30362; Some 30394; Some 30436; Some 30606; Some 30599; Some 30604; Some 30609; Some 30603; Some 30923; Some 30917;
   Some 30906; Some 30922; Some 30910; Some 30933; Some 30908; Some 30928; Some 31295; Some 31292; Some 31296; Some 31293;
   Some 31287; Some 31291; Some 31407; Some 31406; Some 31661; Some 31665; Some 31684; Some 31668; Some 31686; Some 31687;
   Some 31681; Some 31648; Some 31692; Some 31946; Some 32224; Some 32244; Some 32239; Some 32251; Some 32216; Some 32236;
   Some 32221; Some 32232; Some 32227; Some 32218; Some 32222; Some 32233; Some 32158; Some 32217; Some 32242; Some 32249;
   Some 32629; Some 32631; Some 32687; Some 32745; Some 32806; Some 33179; Some 33180; Some 33181; Some 33184; Some 33178;
   Some 33176; Some 34071; Some 34109; Some 34074; Some 34030; Some 34092; Some 34093; Some 34067; Some 34065; Some 34083;
   Some 34081; Some 34068; Some 34028; Some 34085; Some 34047; Some 34054; Some 34690; Some 34676; Some 34678; Some 34656;
   Some 34662; Some 34680; Some 34664; Some 34649; Some 34647; Some 34636; Some 34643; Some 34907; Some 34909; Some 35088;
   Some 35079; Some 35090; Some 35091; Some 35093; Some 35082; Some 35516; Some 35538; Some 35527; Some 35524; Some 35477;
   Some 35531; Some 35576; Some 35506; Some 35529; Some 35522; Some 35519; Some 35504; Some 35542; Some 35533; Some 35510;
   Some 35513; Some 35547; Some 35916; Some 35918; Some 35948; Some 36064; Some 36062; Some 36070; Some 36068; Some 36076;
   Some 36077; Some 36066; Some 36067; Some 36060; Some 36074; Some 36065; Some 36205; Some 36255; Some 36259; Some 36395;
   Some 36368; Some 36381; Some 36386; Some 36367; Some 36393; Some 36383; Some 36385; Some 36382; Some 36538; Some 36637;
   Some 36635; Some 36639; Some 36649; Some 36646; Some 36650; Some 36636; Some 36638; Some 36645; Some 36969; Some 36974;
   Some 36968; Some 36973; Some 36983; Some 37168; Some 37165; Some 37159; Some 37169; Some 37255; Some 37257; Some 37259;
   Some 37251; Some 37573; Some 37563; Some 37559; Some 37610; Some 37548; Some 37604; Some 37569; Some 37555; Some 37564;
   Some 37586; Some 37575; Some 37616; Some 37554; Some 38317; Some 38321; Some 38660; Some 38662; Some 38663; Some 38665;
   Some 38752; Some 38797; Some 38795; Some 38799; Some 38945; Some 38955; Some 38940; Some 39091; Some 39178; Some 39187;
   Some 39186; Some 39192; Some 39389; Some 39376; Some 39391; Some 39387; Some 39377; Some 39381; Some 39378; Some 39385;
   Some 39607; Some 39662; Some 39663; Some 39719; Some 39749; Some 39748; Some 39799; Some 39791; Some 40198; Some 40201;
   Some 40195; Some 40617; Some 40638; Some 40654; Some 22696; Some 40786; Some 20754; Some 20760; Some 20756; Some 20752;
   Some 20757; Some 20864; Some 20906; Some 20957; Some 21137; Some 21139; Some 21235; Some 22105; Some 22123; Some 22137;
   Some 22121; Some 22116; Some 22136; Some 22122; Some 22120; Some 22117; Some 22129; Some 22127; Some 22124; Some 22114;
   Some 22134; Some 22721; Some 22718; Some 22727; Some 22725; Some 22894; Some 23325; Some 23348; Some 23416; Some 23536;
   Some 23566; Some 24394; Some 25010; Some 24977; Some 25001; Some 24970; Some 25037; Some 25014; Some 25022; Some 25034;
   Some 25032; Some 25136; Some 25797; Some 25793; Some 25803; Some 25787; Some 25788; Some 25818; Some 25796; Some 25799;
   Some 25794; Some 25805; Some 25791; Some 25810; Some 25812; Some 25790; Some 25972; Some 26310; Some 26313; Some 26297;
   Some 26308; Some 26311; Some 26296; Some 27197; Some 27192; Some 27194; Some 27225; Some 27243; Some 27224; Some 27193;
   Some 27204; Some 27234; Some 27233; Some 27211; Some 27207; Some 27189; Some 27231; Some 27208; Some 27481; Some 27511;
   Some 27653; Some 28610; Some 28593; Some 28577; Some 28611; Some 28580; Some 28609; Some 28583; Some 28595; Some 28608;
   Some 28601; Some 28598; Some 28582; Some 28576; Some 28596; Some 29118; Some 29129; Some 29136; Some 29138; Some 29128;
   Some 29141; Some 29113; Some 29134; Some 29145; Some 29148; Some 29123; Some 29124; Some 29544; Some 29852; Some 29859;
   Some 29848; Some 29855; Some 29854; Some 29922; Some 29964; Some 29965; Some 30260; Some 30264; Some 30266; Some 30439;
   Some 30437; Some 30624; Some 30622; Some 30623; Some 30629; Some 30952; Some 30938; Some 30956; Some 30951; Some 31142;
   Some 31309; Some 31310; Some 31302; Some 31308; Some 31307; Some 31418; Some 31705; Some 31761; Some 31689; Some 31716;
   Some 31707; Some 31713; Some 31721; Some 31718; Some 31957; Some 31958; Some 32266; Some 32273; Some 32264; Some 32283;
   Some 32291; Some 32286; Some 32285; Some 32265; Some 32272; Some 32633; Some 32690; Some 32752; Some 32753; Some 32750;
   Some 32808; Some 33203; Some 33193; Some 33192; Some 33275; Some 33288; Some 33368; Some 33369; Some 34122; Some 34137;
   Some 34120; Some 34152; Some 34153; Some 34115; Some 34121; Some 34157; Some 34154; Some 34142; Some 34691; Some 34719;
   Some 34718; Some 34722; Some 34701; Some 34913; Some 35114; Some 35122; Some 35109; Some 35115; Some 35105; Some 35242;
   Some 35238; Some 35558; Some 35578; Some 35563; Some 35569; Some 35584; Some 35548; Some 35559; Some 35566; Some 35582;
   Some 35585; Some 35586; Some 35575; Some 35565; Some 35571; Some 35574; Some 35580; Some 35947; Some 35949; Some 35987;
   Some 36084; Some 36420; Some 36401; Some 36404; Some 36418; Some 36409; Some 36405; Some 36667; Some 36655; Some 36664;
   Some 36659; Some 36776; Some 36774; Some 36981; Some 36980; Some 36984; Some 36978; Some 36988; Some 36986; Some 37172;
   Some 37266; Some 37664; Some 37686; Some 37624; Some 37683; Some 37679; Some 37666; Some 37628; Some 37675; Some 37636;
   Some 37658; Some 37648; Some 37670; Some 37665; Some 37653; Some 37678; Some 37657; Some 38331; Some 38567; Some 38568;
   Some 38570; Some 38613; Some 38670; Some 38673; Some 38678; Some 38669; Some 38675; Some 38671; Some 38747; Some 38748;
   Some 38758; Some 38808; Some 38960; Some 38968; Some 38971; Some 38967; Some 38957; Some 38969; Some 38948; Some 39184;
   Some 39208; Some 39198; Some 39195; Some 39201; Some 39194; Some 39405; Some 39394; Some 39409; Some 39608; Some 39612;
   Some 39675; Some 39661; Some 39720; Some 39825; Some 40213; Some 40227; Some 40230; Some 40232; Some 40210; Some 40219;
   Some 40664; Some 40660; Some 40845; Some 40860; Some 20778; Some 20767; Some 20769; Some 20786; Some 21237; Some 22158;
   Some 22144; Some 22160; Some 22149; Some 22151; Some 22159; Some 22741; Some 22739; Some 22737; Some 22734; Some 23344;
   Some 23338; Some 23332; Some 23418; Some 23607; Some 23656; Some 23996; Some 23994; Some 23997; Some 23992; Some 24171;
   Some 24396; Some 24509; Some 25033; Some 25026; Some 25031; Some 25062; Some 25035; Some 25138; Some 25140; Some 25806;
   Some 25802; Some 25816; Some 25824; Some 25840; Some 25830; Some 25836; Some 25841; Some 25826; Some 25837; Some 25986;
   Some 25987; Some 26329; Some 26326; Some 27264; Some 27284; Some 27268; Some 27298; Some 27292; Some 27355; Some 27299
  ].

Definition index_big5_10 : list (option Z) :=
  [
   Some 27262; Some 27287; Some 27280; Some 27296; Some 27484; Some 27566; Some 27610; Some 27656; Some 28632; Some 28657;
   Some 28639; Some 28640; Some 28635; Some 28644; Some 28651; Some 28655; Some 28544; Some 28652; Some 28641; Some 28649;
   Some 28629; Some 28654; Some 28656; Some 29159; Some 29151; Some 29166; Some 29158; Some 29157; Some 29165; Some 29164;
   Some 29172; Some 29152; Some 29237; Some 29254; Some 29552; Some 29554; Some 29865; Some 29872; Some 29862; Some 29864;
   Some 30278; Some 30274; Some 30284; Some 30442; Some 30643; Some 30634; Some 30640; Some 30636; Some 30631; Some 30637;
   Some 30703; Some 30967; Some 30970; Some 30964; Some 30959; Some 30977; Some 31143; Some 31146; Some 31319; Some 31423;
   Some 31751; Some 31757; Some 31742; Some 31735; Some 31756; Some 31712; Some 31968; Some 31964; Some 31966; Some 31970;
   Some 31967; Some 31961; Some 31965; Some 32302; Some 32318; Some 32326; Some 32311; Some 32306; Some 32323; Some 32299;
   Some 32317; Some 32305; Some 32325; Some 32321; Some 32308; Some 32313; Some 32328; Some 32309; Some 32319; Some 32303;
   Some 32580; Some 32755; Some 32764; Some 32881; Some 32882; Some 32880; Some 32879; Some 32883; Some 33222; Some 33219;
   Some 33210; Some 33218; Some 33216; Some 33215; Some 33213; Some 33225; Some 33214; Some 33256; Some 33289; Some 33393;
   Some 34218; Some 34180; Some 34174; Some 34204; Some 34193; Some 34196; Some 34223; Some 34203; Some 34183; Some 34216;
   Some 34186; Some 34407; Some 34752; Some 34769; Some 34739; Some 34770; Some 34758; Some 34731; Some 34747; Some 34746;
   Some 34760; Some 34763; Some 35131; Some 35126; Some 35140; Some 35128; Some 35133; Some 35244; Some 35598; Some 35607;
   Some 35609; Some 35611; Some 35594; Some 35616; Some 35613; Some 35588; Some 35600; Some 35905; Some 35903; Some 35955;
   Some 36090; Some 36093; Some 36092; Some 36088; Some 36091; Some 36264; Some 36425; Some 36427; Some 36424; Some 36426;
   Some 36676; Some 36670; Some 36674; Some 36677; Some 36671; Some 36991; Some 36989; Some 36996; Some 36993; Some 36994;
   Some 36992; Some 37177; Some 37283; Some 37278; Some 37276; Some 37709; Some 37762; Some 37672; Some 37749; Some 37706;
   Some 37733; Some 37707; Some 37656; Some 37758; Some 37740; Some 37723; Some 37744; Some 37722; Some 37716; Some 38346;
   Some 38347; Some 38348; Some 38344; Some 38342; Some 38577; Some 38584; Some 38614; Some 38684; Some 38686; Some 38816;
   Some 38867; Some 38982; Some 39094; Some 39221; Some 39425; Some 39423; Some 39854; Some 39851; Some 39850; Some 39853;
   Some 40251; Some 40255; Some 40587; Some 40655; Some 40670; Some 40668; Some 40669; Some 40667; Some 40766; Some 40779;
   Some 21474; Some 22165; Some 22190; Some 22745; Some 22744; Some 23352; Some 24413; Some 25059; Some 25139; Some 25844;
   Some 25842; Some 25854; Some 25862; Some 25850; Some 25851; Some 25847; Some 26039; Some 26332; Some 26406; Some 27315;
   Some 27308; Some 27331; Some 27323; Some 27320; Some 27330; Some 27310; Some 27311; Some 27487; Some 27512; Some 27567;
   Some 28681; Some 28683; Some 28670; Some 28678; Some 28666; Some 28689; Some 28687; Some 29179; Some 29180; Some 29182;
   Some 29176; Some 29559; Some 29557; Some 29863; Some 29887; Some 29973; Some 30294; Some 30296; Some 30290; Some 30653;
   Some 30655; Some 30651; Some 30652; Some 30990; Some 31150; Some 31329; Some 31330; Some 31328; Some 31428; Some 31429;
   Some 31787; Some 31783; Some 31786; Some 31774; Some 31779; Some 31777; Some 31975; Some 32340; Some 32341; Some 32350;
   Some 32346; Some 32353; Some 32338; Some 32345; Some 32584; Some 32761; Some 32763; Some 32887; Some 32886; Some 33229;
   Some 33231; Some 33290; Some 34255; Some 34217; Some 34253; Some 34256; Some 34249; Some 34224; Some 34234; Some 34233;
   Some 34214; Some 34799; Some 34796; Some 34802; Some 34784; Some 35206; Some 35250; Some 35316; Some 35624; Some 35641;
   Some 35628; Some 35627; Some 35920; Some 36101; Some 36441; Some 36451; Some 36454; Some 36452; Some 36447; Some 36437;
   Some 36544; Some 36681; Some 36685; Some 36999; Some 36995; Some 37000; Some 37291; Some 37292; Some 37328; Some 37780;
   Some 37770; Some 37782; Some 37794; Some 37811; Some 37806; Some 37804; Some 37808; Some 37784; Some 37786; Some 37783;
   Some 38356; Some 38358; Some 38352; Some 38357; Some 38626; Some 38620; Some 38617; Some 38619; Some 38622; Some 38692;
   Some 38819; Some 38822; Some 38829; Some 38905; Some 38989; Some 38991; Some 38988; Some 38990; Some 38995; Some 39098;
   Some 39230; Some 39231; Some 39229; Some 39214; Some 39333; Some 39438; Some 39617; Some 39683; Some 39686; Some 39759;
   Some 39758; Some 39757; Some 39882; Some 39881; Some 39933; Some 39880; Some 39872; Some 40273; Some 40285; Some 40288;
   Some 40672; Some 40725; Some 40748; Some 20787; Some 22181; Some 22750; Some 22751; Some 22754; Some 23541; Some 40848;
   Some 24300; Some 25074; Some 25079; Some 25078; Some 25077; Some 25856; Some 25871; Some 26336; Some 26333; Some 27365;
   Some 27357; Some 27354; Some 27347; Some 28699; Some 28703; Some 28712; Some 28698; Some 28701; Some 28693; Some 28696;
   Some 29190; Some 29197; Some 29272; Some 29346; Some 29560; Some 29562; Some 29885; Some 29898; Some 29923; Some 30087;
   Some 30086; Some 30303; Some 30305; Some 30663; Some 31001; Some 31153; Some 31339; Some 31337; Some 31806; Some 31807;
   Some 31800; Some 31805; Some 31799; Some 31808; Some 32363; Some 32365; Some 32377; Some 32361; Some 32362; Some 32645;
   Some 32371; Some 32694; Some 32697; Some 32696; Some 33240; Some 34281; Some 34269; Some 34282; Some 34261; Some 34276;
   Some 34277; Some 34295; Some 34811; Some 34821; Some 34829; Some 34809; Some 34814; Some 35168; Some 35167; Some 35158;
   Some 35166; Some 35649; Some 35676; Some 35672; Some 35657; Some 35674; Some 35662; Some 35663; Some 35654; Some 35673;
   Some 36104; Some 36106; Some 36476; Some 36466; Some 36487; Some 36470; Some 36460; Some 36474; Some 36468; Some 36692;
   Some 36686; Some 36781; Some 37002; Some 37003; Some 37297; Some 37294; Some 37857; Some 37841; Some 37855; Some 37827;
   Some 37832; Some 37852; Some 37853; Some 37846; Some 37858; Some 37837; Some 37848; Some 37860; Some 37847; Some 37864;
   Some 38364; Some 38580; Some 38627; Some 38698; Some 38695; Some 38753; Some 38876; Some 38907; Some 39006; Some 39000;
   Some 39003; Some 39100; Some 39237; Some 39241; Some 39446; Some 39449; Some 39693; Some 39912; Some 39911; Some 39894;
   Some 39899; Some 40329; Some 40289; Some 40306; Some 40298; Some 40300; Some 40594; Some 40599; Some 40595; Some 40628;
   Some 21240; Some 22184; Some 22199; Some 22198; Some 22196; Some 22204; Some 22756; Some 23360; Some 23363; Some 23421;
   Some 23542; Some 24009; Some 25080; Some 25082; Some 25880; Some 25876; Some 25881; Some 26342; Some 26407; Some 27372;
   Some 28734; Some 28720; Some 28722; Some 29200; Some 29563; Some 29903; Some 30306; Some 30309; Some 31014; Some 31018;
   Some 31020; Some 31019; Some 31431; Some 31478; Some 31820; Some 31811; Some 31821; Some 31983; Some 31984; Some 36782;
   Some 32381; Some 32380; Some 32386; Some 32588; Some 32768; Some 33242; Some 33382; Some 34299; Some 34297; Some 34321;
   Some 34298; Some 34310; Some 34315; Some 34311; Some 34314; Some 34836; Some 34837; Some 35172; Some 35258; Some 35320;
   Some 35696; Some 35692; Some 35686; Some 35695; Some 35679; Some 35691; Some 36111; Some 36109; Some 36489; Some 36481;
   Some 36485; Some 36482; Some 37300; Some 37323; Some 37912; Some 37891; Some 37885; Some 38369; Some 38704; Some 39108;
   Some 39250; Some 39249; Some 39336; Some 39467; Some 39472; Some 39479; Some 39477; Some 39955; Some 39949; Some 40569;
   Some 40629; Some 40680; Some 40751; Some 40799; Some 40803; Some 40801; Some 20791; Some 20792; Some 22209; Some 22208;
   Some 22210; Some 22804; Some 23660; Some 24013; Some 25084; Some 25086; Some 25885; Some 25884; Some 26005; Some 26345;
   Some 27387; Some 27396; Some 27386; Some 27570; Some 28748; Some 29211; Some 29351; Some 29910; Some 29908; Some 30313;
   Some 30675; Some 31824; Some 32399; Some 32396; Some 32700; Some 34327; Some 34349; Some 34330; Some 34851; Some 34850;
   Some 34849; Some 34847; Some 35178; Some 35180; Some 35261; Some 35700; Some 35703; Some 35709; Some 36115; Some 36490;
   Some 36493; Some 36491; Some 36703; Some 36783; Some 37306; Some 37934; Some 37939; Some 37941; Some 37946; Some 37944;
   Some 37938; Some 37931; Some 38370; Some 38712; Some 38713; Some 38706; Some 38911; Some 39015; Some 39013; Some 39255;
   Some 39493; Some 39491; Some 39488; Some 39486; Some 39631; Some 39764; Some 39761; Some 39981; Some 39973; Some 40367;
   Some 40372; Some 40386; Some 40376; Some 40605; Some 40687; Some 40729; Some 40796; Some 40806; Some 40807; Some 20796;
   Some 20795; Some 22216; Some 22218; Some 22217; Some 23423; Some 24020; Some 24018; Some 24398; Some 25087; Some 25892;
   Some 27402; Some 27489; Some 28753; Some 28760; Some 29568; Some 29924; Some 30090; Some 30318; Some 30316; Some 31155;
   Some 31840; Some 31839; Some 32894; Some 32893; Some 33247; Some 35186; Some 35183; Some 35324; Some 35712; Some 36118;
   Some 36119; Some 36497; Some 36499; Some 36705; Some 37192; Some 37956; Some 37969; Some 37970; Some 38717; Some 38718;
   Some 38851; Some 38849; Some 39019; Some 39253; Some 39509; Some 39501; Some 39634; Some 39706; Some 40009; Some 39985;
   Some 39998; Some 39995; Some 40403; Some 40407; Some 40756; Some 40812; Some 40810; Some 40852; Some 22220; Some 24022;
   Some 25088; Some 25891; Some 25899; Some 25898; Some 26348; Some 27408; Some 29914; Some 31434; Some 31844; Some 31843;
   Some 31845; Some 32403; Some 32406; Some 32404; Some 33250; Some 34360; Some 34367; Some 34865; Some 35722; Some 37008;
   Some 37007; Some 37987; Some 37984; Some 37988; Some 38760; Some 39023; Some 39260; Some 39514; Some 39515; Some 39511;
   Some 39635; Some 39636; Some 39633; Some 40020; Some 40023; Some 40022; Some 40421; Some 40607; Some 40692; Some 22225;
   Some 22761; Some 25900; Some 28766; Some 30321; Some 30322; Some 30679; Some 32592; Some 32648; Some 34870; Some 34873;
   Some 34914; Some 35731; Some 35730; Some 35734; Some 33399; Some 36123; Some 37312; Some 37994; Some 38722; Some 38728;
   Some 38724; Some 38854; Some 39024; Some 39519; Some 39714; Some 39768; Some 40031; Some 40441; Some 40442; Some 40572;
   Some 40573; Some 40711; Some 40823; Some 40818; Some 24307; Some 27414; Some 28771; Some 31852; Some 31854; Some 34875;
   Some 35264; Some 36513; Some 37313; Some 38002; Some 38000; Some 39025; Some 39262; Some 39638; Some 39715; Some 40652;
   Some 28772; Some 30682; Some 35738; Some 38007; Some 38857; Some 39522; Some 39525; Some 32412; Some 35740; Some 36522;
   Some 37317; Some 38013; Some 38014; Some 38012; Some 40055; Some 40056; Some 40695; Some 35924; Some 38015; Some 40474;
   Some 29224; Some 39530; Some 39729; Some 40475; Some 40478; Some 31858; Some 9312; Some 9313; Some 9314; Some 9315;
   Some 9316; Some 9317; Some 9318; Some 9319; Some 9320; Some 9321; Some 9332; Some 9333; Some 9334; Some 9335;
   Some 9336; Some 9337; Some 9338; Some 9339; Some 9340; Some 9341; Some 8560; Some 8561; Some 8562; Some 8563;
   Some 8564; Some 8565; Some 8566; Some 8567; Some 8568; Some 8569; Some 20022; Some 20031; Some 20101; Some 20128;
   Some 20866; Some 20886; Some 20907; Some 21241; Some 21304; Some 21353; Some 21430; Some 22794; Some 23424; Some 24027;
   Some 12083; Some 24191; Some 24308; Some 24400; Some 24417; Some 25908; Some 26080; Some 30098; Some 30326; Some 36789;
   Some 38582; Some 168; Some 710; Some 12541; Some 12542; Some 12445; Some 12446; Some 12291; Some 20189; Some 12293;
   Some 12294; Some 12295; Some 12540; Some 65339; Some 65341; Some 10045; Some 12353; Some 12354; Some 12355; Some 12356;
   Some 12357; Some 12358; Some 12359; Some 12360; Some 12361; Some 12362; Some 12363; Some 12364; Some 12365; Some 12366;
   Some 12367; Some 12368; Some 12369; Some 12370; Some 12371; Some 12372; Some 12373; Some 12374; Some 12375; Some 12376;
   Some 12377; Some 12378; Some 12379; Some 12380; Some 12381; Some 12382; Some 12383; Some 12384; Some 12385; Some 12386
  ].

Definition index_big5_11 : list (option Z) :=
  [
   Some 12387; Some 12388; Some 12389; Some 12390; Some 12391; Some 12392; Some 12393; Some 12394; Some 12395; Some 12396;
   Some 12397; Some 12398; Some 12399; Some 12400; Some 12401; Some 12402; Some 12403; Some 12404; Some 12405; Some 12406;
   Some 12407; Some 12408; Some 12409; Some 12410; Some 12411; Some 12412; Some 12413; Some 12414; Some 12415; Some 12416;
   Some 12417; Some 12418; Some 12419; Some 12420; Some 12421; Some 12422; Some 12423; Some 12424; Some 12425; Some 12426;
   Some 12427; Some 12428; Some 12429; Some 12430; Some 12431; Some 12432; Some 12433; Some 12434; Some 12435; Some 12449;
   Some 12450; Some 12451; Some 12452; Some 12453; Some 12454; Some 12455; Some 12456; Some 12457; Some 12458; Some 12459;
   Some 12460; Some 12461; Some 12462; Some 12463; Some 12464; Some 12465; Some 12466; Some 12467; Some 12468; Some 12469;
   Some 12470; Some 12471; Some 12472; Some 12473; Some 12474; Some 12475; Some 12476; Some 12477; Some 12478; Some 12479;
   Some 12480; Some 12481; Some 12482; Some 12483; Some 12484; Some 12485; Some 12486; Some 12487; Some 12488; Some 12489;
   Some 12490; Some 12491; Some 12492; Some 12493; Some 12494; Some 12495; Some 12496; Some 12497; Some 12498; Some 12499;
   Some 12500; Some 12501; Some 12502; Some 12503; Some 12504; Some 12505; Some 12506; Some 12507; Some 12508; Some 12509;
   Some 12510; Some 12511; Some 12512; Some 12513; Some 12514; Some 12515; Some 12516; Some 12517; Some 12518; Some 12519;
   Some 12520; Some 12521; Some 12522; Some 12523; Some 12524; Some 12525; Some 12526; Some 12527; Some 12528; Some 12529;
   Some 12530; Some 12531; Some 12532; Some 12533; Some 12534; Some 1040; Some 1041; Some 1042; Some 1043; Some 1044;
   Some 1045; Some 1025; Some 1046; Some 1047; Some 1048; Some 1049; Some 1050; Some 1051; Some 1052; Some 1053;
   Some 1054; Some 1055; Some 1056; Some 1057; Some 1058; Some 1059; Some 1060; Some 1061; Some 1062; Some 1063;
   Some 1064; Some 1065; Some 1066; Some 1067; Some 1068; Some 1069; Some 1070; Some 1071; Some 1072; Some 1073;
   Some 1074; Some 1075; Some 1076; Some 1077; Some 1105; Some 1078; Some 1079; Some 1080; Some 1081; Some 1082;
   Some 1083; Some 1084; Some 1085; Some 1086; Some 1087; Some 1088; Some 1089; Some 1090; Some 1091; Some 1092;
   Some 1093; Some 1094; Some 1095; Some 1096; Some 1097; Some 1098; Some 1099; Some 1100; Some 1101; Some 1102;
   Some 1103; Some 8679; Some 8632; Some 8633; Some 12751; Some 131276; Some 20058; Some 131210; Some 20994; Some 17553;
   Some 40880; Some 20872; Some 40881; Some 161287; None; None; None; None; None; None;
   None; None; None; None; None; None; None; None; None; None;
   None; None; None; None; None; None; None; None; None; None;
   None; None; None; None; None; None; None; None; None; None;
   None; None; None; None; Some 65506; Some 65508; Some 65287; Some 65282; Some 12849; Some 8470;
   Some 8481; Some 12443; Some 12444; Some 11904; Some 11908; Some 11910; Some 11911; Some 11912; Some 11914; Some 11916;
   Some 11917; Some 11925; Some 11932; Some 11933; Some 11941; Some 11943; Some 11946; Some 11948; Some 11950; Some 11958;
   Some 11964; Some 11966; Some 11974; Some 11978; Some 11980; Some 11981; Some 11983; Some 11990; Some 11991; Some 11998;
   Some 12003; None; None; None; Some 643; Some 592; Some 603; Some 596; Some 629; Some 339;
   Some 248; Some 331; Some 650; Some 618; Some 20034; Some 20060; Some 20981; Some 21274; Some 21378; Some 19975;
   Some 19980; Some 20039; Some 20109; Some 22231; Some 64012; Some 23662; Some 24435; Some 19983; Some 20871; Some 19982;
   Some 20014; Some 20115; Some 20162; Some 20169; Some 20168; Some 20888; Some 21244; Some 21356; Some 21433; Some 22304;
   Some 22787; Some 22828; Some 23568; Some 24063; Some 26081; Some 27571; Some 27596; Some 27668; Some 29247; Some 20017;
   Some 20028; Some 20200; Some 20188; Some 20201; Some 20193; Some 20189; Some 20186; Some 21004; Some 21276; Some 21324;
   Some 22306; Some 22307; Some 22807; Some 22831; Some 23425; Some 23428; Some 23570; Some 23611; Some 23668; Some 23667;
   Some 24068; Some 24192; Some 24194; Some 24521; Some 25097; Some 25168; Some 27669; Some 27702; Some 27715; Some 27711;
   Some 27707; Some 29358; Some 29360; Some 29578; Some 31160; Some 32906; Some 38430; Some 20238; Some 20248; Some 20268;
   Some 20213; Some 20244; Some 20209; Some 20224; Some 20215; Some 20232; Some 20253; Some 20226; Some 20229; Some 20258;
   Some 20243; Some 20228; Some 20212; Some 20242; Some 20913; Some 21011; Some 21001; Some 21008; Some 21158; Some 21282;
   Some 21279; Some 21325; Some 21386; Some 21511; Some 22241; Some 22239; Some 22318; Some 22314; Some 22324; Some 22844;
   Some 22912; Some 22908; Some 22917; Some 22907; Some 22910; Some 22903; Some 22911; Some 23382; Some 23573; Some 23589;
   Some 23676; Some 23674; Some 23675; Some 23678; Some 24031; Some 24181; Some 24196; Some 24322; Some 24346; Some 24436;
   Some 24533; Some 24532; Some 24527; Some 25180; Some 25182; Some 25188; Some 25185; Some 25190; Some 25186; Some 25177;
   Some 25184; Some 25178; Some 25189; Some 26095; Some 26094; Some 26430; Some 26425; Some 26424; Some 26427; Some 26426;
   Some 26431; Some 26428; Some 26419; Some 27672; Some 27718; Some 27730; Some 27740; Some 27727; Some 27722; Some 27732;
   Some 27723; Some 27724; Some 28785; Some 29278; Some 29364; Some 29365; Some 29582; Some 29994; Some 30335; Some 31349;
   Some 32593; Some 33400; Some 33404; Some 33408; Some 33405; Some 33407; Some 34381; Some 35198; Some 37017; Some 37015;
   Some 37016; Some 37019; Some 37012; Some 38434; Some 38436; Some 38432; Some 38435; Some 20310; Some 20283; Some 20322;
   Some 20297; Some 20307; Some 20324; Some 20286; Some 20327; Some 20306; Some 20319; Some 20289; Some 20312; Some 20269;
   Some 20275; Some 20287; Some 20321; Some 20879; Some 20921; Some 21020; Some 21022; Some 21025; Some 21165; Some 21166;
   Some 21257; Some 21347; Some 21362; Some 21390; Some 21391; Some 21552; Some 21559; Some 21546; Some 21588; Some 21573;
   Some 21529; Some 21532; Some 21541; Some 21528; Some 21565; Some 21583; Some 21569; Some 21544; Some 21540; Some 21575;
   Some 22254; Some 22247; Some 22245; Some 22337; Some 22341; Some 22348; Some 22345; Some 22347; Some 22354; Some 22790;
   Some 22848; Some 22950; Some 22936; Some 22944; Some 22935; Some 22926; Some 22946; Some 22928; Some 22927; Some 22951;
   Some 22945; Some 23438; Some 23442; Some 23592; Some 23594; Some 23693; Some 23695; Some 23688; Some 23691; Some 23689;
   Some 23698; Some 23690; Some 23686; Some 23699; Some 23701; Some 24032; Some 24074; Some 24078; Some 24203; Some 24201;
   Some 24204; Some 24200; Some 24205; Some 24325; Some 24349; Some 24440; Some 24438; Some 24530; Some 24529; Some 24528;
   Some 24557; Some 24552; Some 24558; Some 24563; Some 24545; Some 24548; Some 24547; Some 24570; Some 24559; Some 24567;
   Some 24571; Some 24576; Some 24564; Some 25146; Some 25219; Some 25228; Some 25230; Some 25231; Some 25236; Some 25223;
   Some 25201; Some 25211; Some 25210; Some 25200; Some 25217; Some 25224; Some 25207; Some 25213; Some 25202; Some 25204;
   Some 25911; Some 26096; Some 26100; Some 26099; Some 26098; Some 26101; Some 26437; Some 26439; Some 26457; Some 26453;
   Some 26444; Some 26440; Some 26461; Some 26445; Some 26458; Some 26443; Some 27600; Some 27673; Some 27674; Some 27768;
   Some 27751; Some 27755; Some 27780; Some 27787; Some 27791; Some 27761; Some 27759; Some 27753; Some 27802; Some 27757;
   Some 27783; Some 27797; Some 27804; Some 27750; Some 27763; Some 27749; Some 27771; Some 27790; Some 28788; Some 28794;
   Some 29283; Some 29375; Some 29373; Some 29379; Some 29382; Some 29377; Some 29370; Some 29381; Some 29589; Some 29591;
   Some 29587; Some 29588; Some 29586; Some 30010; Some 30009; Some 30100; Some 30101; Some 30337; Some 31037; Some 32820;
   Some 32917; Some 32921; Some 32912; Some 32914; Some 32924; Some 33424; Some 33423; Some 33413; Some 33422; Some 33425;
   Some 33427; Some 33418; Some 33411; Some 33412; Some 35960; Some 36809; Some 36799; Some 37023; Some 37025; Some 37029;
   Some 37022; Some 37031; Some 37024; Some 38448; Some 38440; Some 38447; Some 38445; Some 20019; Some 20376; Some 20348;
   Some 20357; Some 20349; Some 20352; Some 20359; Some 20342; Some 20340; Some 20361; Some 20356; Some 20343; Some 20300;
   Some 20375; Some 20330; Some 20378; Some 20345; Some 20353; Some 20344; Some 20368; Some 20380; Some 20372; Some 20382;
   Some 20370; Some 20354; Some 20373; Some 20331; Some 20334; Some 20894; Some 20924; Some 20926; Some 21045; Some 21042;
   Some 21043; Some 21062; Some 21041; Some 21180; Some 21258; Some 21259; Some 21308; Some 21394; Some 21396; Some 21639;
   Some 21631; Some 21633; Some 21649; Some 21634; Some 21640; Some 21611; Some 21626; Some 21630; Some 21605; Some 21612;
   Some 21620; Some 21606; Some 21645; Some 21615; Some 21601; Some 21600; Some 21656; Some 21603; Some 21607; Some 21604;
   Some 22263; Some 22265; Some 22383; Some 22386; Some 22381; Some 22379; Some 22385; Some 22384; Some 22390; Some 22400;
   Some 22389; Some 22395; Some 22387; Some 22388; Some 22370; Some 22376; Some 22397; Some 22796; Some 22853; Some 22965;
   Some 22970; Some 22991; Some 22990; Some 22962; Some 22988; Some 22977; Some 22966; Some 22972; Some 22979; Some 22998;
   Some 22961; Some 22973; Some 22976; Some 22984; Some 22964; Some 22983; Some 23394; Some 23397; Some 23443; Some 23445;
   Some 23620; Some 23623; Some 23726; Some 23716; Some 23712; Some 23733; Some 23727; Some 23720; Some 23724; Some 23711;
   Some 23715; Some 23725; Some 23714; Some 23722; Some 23719; Some 23709; Some 23717; Some 23734; Some 23728; Some 23718;
   Some 24087; Some 24084; Some 24089; Some 24360; Some 24354; Some 24355; Some 24356; Some 24404; Some 24450; Some 24446;
   Some 24445; Some 24542; Some 24549; Some 24621; Some 24614; Some 24601; Some 24626; Some 24587; Some 24628; Some 24586;
   Some 24599; Some 24627; Some 24602; Some 24606; Some 24620; Some 24610; Some 24589; Some 24592; Some 24622; Some 24595;
   Some 24593; Some 24588; Some 24585; Some 24604; Some 25108; Some 25149; Some 25261; Some 25268; Some 25297; Some 25278;
   Some 25258; Some 25270; Some 25290; Some 25262; Some 25267; Some 25263; Some 25275; Some 25257; Some 25264; Some 25272;
   Some 25917; Some 26024; Some 26043; Some 26121; Some 26108; Some 26116; Some 26130; Some 26120; Some 26107; Some 26115;
   Some 26123; Some 26125; Some 26117; Some 26109; Some 26129; Some 26128; Some 26358; Some 26378; Some 26501; Some 26476;
   Some 26510; Some 26514; Some 26486; Some 26491; Some 26520; Some 26502; Some 26500; Some 26484; Some 26509; Some 26508;
   Some 26490; Some 26527; Some 26513; Some 26521; Some 26499; Some 26493; Some 26497; Some 26488; Some 26489; Some 26516;
   Some 27429; Some 27520; Some 27518; Some 27614; Some 27677; Some 27795; Some 27884; Some 27883; Some 27886; Some 27865;
   Some 27830; Some 27860; Some 27821; Some 27879; Some 27831; Some 27856; Some 27842; Some 27834; Some 27843; Some 27846;
   Some 27885; Some 27890; Some 27858; Some 27869; Some 27828; Some 27786; Some 27805; Some 27776; Some 27870; Some 27840;
   Some 27952; Some 27853; Some 27847; Some 27824; Some 27897; Some 27855; Some 27881; Some 27857; Some 28820; Some 28824;
   Some 28805; Some 28819; Some 28806; Some 28804; Some 28817; Some 28822; Some 28802; Some 28826; Some 28803; Some 29290;
   Some 29398; Some 29387; Some 29400; Some 29385; Some 29404; Some 29394; Some 29396; Some 29402; Some 29388; Some 29393;
   Some 29604; Some 29601; Some 29613; Some 29606; Some 29602; Some 29600; Some 29612; Some 29597; Some 29917; Some 29928;
   Some 30015; Some 30016; Some 30014; Some 30092; Some 30104; Some 30383; Some 30451; Some 30449; Some 30448; Some 30453;
   Some 30712; Some 30716; Some 30713; Some 30715; Some 30714; Some 30711; Some 31042; Some 31039; Some 31173; Some 31352
  ].

Definition index_big5_12 : list (option Z) :=
  [
   Some 31355; Some 31483; Some 31861; Some 31997; Some 32821; Some 32911; Some 32942; Some 32931; Some 32952; Some 32949;
   Some 32941; Some 33312; Some 33440; Some 33472; Some 33451; Some 33434; Some 33432; Some 33435; Some 33461; Some 33447;
   Some 33454; Some 33468; Some 33438; Some 33466; Some 33460; Some 33448; Some 33441; Some 33449; Some 33474; Some 33444;
   Some 33475; Some 33462; Some 33442; Some 34416; Some 34415; Some 34413; Some 34414; Some 35926; Some 36818; Some 36811;
   Some 36819; Some 36813; Some 36822; Some 36821; Some 36823; Some 37042; Some 37044; Some 37039; Some 37043; Some 37040;
   Some 38457; Some 38461; Some 38460; Some 38458; Some 38467; Some 20429; Some 20421; Some 20435; Some 20402; Some 20425;
   Some 20427; Some 20417; Some 20436; Some 20444; Some 20441; Some 20411; Some 20403; Some 20443; Some 20423; Some 20438;
   Some 20410; Some 20416; Some 20409; Some 20460; Some 21060; Some 21065; Some 21184; Some 21186; Some 21309; Some 21372;
   Some 21399; Some 21398; Some 21401; Some 21400; Some 21690; Some 21665; Some 21677; Some 21669; Some 21711; Some 21699;
   Some 33549; Some 21687; Some 21678; Some 21718; Some 21686; Some 21701; Some 21702; Some 21664; Some 21616; Some 21692;
   Some 21666; Some 21694; Some 21618; Some 21726; Some 21680; Some 22453; Some 22430; Some 22431; Some 22436; Some 22412;
   Some 22423; Some 22429; Some 22427; Some 22420; Some 22424; Some 22415; Some 22425; Some 22437; Some 22426; Some 22421;
   Some 22772; Some 22797; Some 22867; Some 23009; Some 23006; Some 23022; Some 23040; Some 23025; Some 23005; Some 23034;
   Some 23037; Some 23036; Some 23030; Some 23012; Some 23026; Some 23031; Some 23003; Some 23017; Some 23027; Some 23029;
   Some 23008; Some 23038; Some 23028; Some 23021; Some 23464; Some 23628; Some 23760; Some 23768; Some 23756; Some 23767;
   Some 23755; Some 23771; Some 23774; Some 23770; Some 23753; Some 23751; Some 23754; Some 23766; Some 23763; Some 23764;
   Some 23759; Some 23752; Some 23750; Some 23758; Some 23775; Some 23800; Some 24057; Some 24097; Some 24098; Some 24099;
   Some 24096; Some 24100; Some 24240; Some 24228; Some 24226; Some 24219; Some 24227; Some 24229; Some 24327; Some 24366;
   Some 24406; Some 24454; Some 24631; Some 24633; Some 24660; Some 24690; Some 24670; Some 24645; Some 24659; Some 24647;
   Some 24649; Some 24667; Some 24652; Some 24640; Some 24642; Some 24671; Some 24612; Some 24644; Some 24664; Some 24678;
   Some 24686; Some 25154; Some 25155; Some 25295; Some 25357; Some 25355; Some 25333; Some 25358; Some 25347; Some 25323;
   Some 25337; Some 25359; Some 25356; Some 25336; Some 25334; Some 25344; Some 25363; Some 25364; Some 25338; Some 25365;
   Some 25339; Some 25328; Some 25921; Some 25923; Some 26026; Some 26047; Some 26166; Some 26145; Some 26162; Some 26165;
   Some 26140; Some 26150; Some 26146; Some 26163; Some 26155; Some 26170; Some 26141; Some 26164; Some 26169; Some 26158;
   Some 26383; Some 26384; Some 26561; Some 26610; Some 26568; Some 26554; Some 26588; Some 26555; Some 26616; Some 26584;
   Some 26560; Some 26551; Some 26565; Some 26603; Some 26596; Some 26591; Some 26549; Some 26573; Some 26547; Some 26615;
   Some 26614; Some 26606; Some 26595; Some 26562; Some 26553; Some 26574; Some 26599; Some 26608; Some 26546; Some 26620;
   Some 26566; Some 26605; Some 26572; Some 26542; Some 26598; Some 26587; Some 26618; Some 26569; Some 26570; Some 26563;
   Some 26602; Some 26571; Some 27432; Some 27522; Some 27524; Some 27574; Some 27606; Some 27608; Some 27616; Some 27680;
   Some 27681; Some 27944; Some 27956; Some 27949; Some 27935; Some 27964; Some 27967; Some 27922; Some 27914; Some 27866;
   Some 27955; Some 27908; Some 27929; Some 27962; Some 27930; Some 27921; Some 27904; Some 27933; Some 27970; Some 27905;
   Some 27928; Some 27959; Some 27907; Some 27919; Some 27968; Some 27911; Some 27936; Some 27948; Some 27912; Some 27938;
   Some 27913; Some 27920; Some 28855; Some 28831; Some 28862; Some 28849; Some 28848; Some 28833; Some 28852; Some 28853;
   Some 28841; Some 29249; Some 29257; Some 29258; Some 29292; Some 29296; Some 29299; Some 29294; Some 29386; Some 29412;
   Some 29416; Some 29419; Some 29407; Some 29418; Some 29414; Some 29411; Some 29573; Some 29644; Some 29634; Some 29640;
   Some 29637; Some 29625; Some 29622; Some 29621; Some 29620; Some 29675; Some 29631; Some 29639; Some 29630; Some 29635;
   Some 29638; Some 29624; Some 29643; Some 29932; Some 29934; Some 29998; Some 30023; Some 30024; Some 30119; Some 30122;
   Some 30329; Some 30404; Some 30472; Some 30467; Some 30468; Some 30469; Some 30474; Some 30455; Some 30459; Some 30458;
   Some 30695; Some 30696; Some 30726; Some 30737; Some 30738; Some 30725; Some 30736; Some 30735; Some 30734; Some 30729;
   Some 30723; Some 30739; Some 31050; Some 31052; Some 31051; Some 31045; Some 31044; Some 31189; Some 31181; Some 31183;
   Some 31190; Some 31182; Some 31360; Some 31358; Some 31441; Some 31488; Some 31489; Some 31866; Some 31864; Some 31865;
   Some 31871; Some 31872; Some 31873; Some 32003; Some 32008; Some 32001; Some 32600; Some 32657; Some 32653; Some 32702;
   Some 32775; Some 32782; Some 32783; Some 32788; Some 32823; Some 32984; Some 32967; Some 32992; Some 32977; Some 32968;
   Some 32962; Some 32976; Some 32965; Some 32995; Some 32985; Some 32988; Some 32970; Some 32981; Some 32969; Some 32975;
   Some 32983; Some 32998; Some 32973; Some 33279; Some 33313; Some 33428; Some 33497; Some 33534; Some 33529; Some 33543;
   Some 33512; Some 33536; Some 33493; Some 33594; Some 33515; Some 33494; Some 33524; Some 33516; Some 33505; Some 33522;
   Some 33525; Some 33548; Some 33531; Some 33526; Some 33520; Some 33514; Some 33508; Some 33504; Some 33530; Some 33523;
   Some 33517; Some 34423; Some 34420; Some 34428; Some 34419; Some 34881; Some 34894; Some 34919; Some 34922; Some 34921;
   Some 35283; Some 35332; Some 35335; Some 36210; Some 36835; Some 36833; Some 36846; Some 36832; Some 37105; Some 37053;
   Some 37055; Some 37077; Some 37061; Some 37054; Some 37063; Some 37067; Some 37064; Some 37332; Some 37331; Some 38484;
   Some 38479; Some 38481; Some 38483; Some 38474; Some 38478; Some 20510; Some 20485; Some 20487; Some 20499; Some 20514;
   Some 20528; Some 20507; Some 20469; Some 20468; Some 20531; Some 20535; Some 20524; Some 20470; Some 20471; Some 20503;
   Some 20508; Some 20512; Some 20519; Some 20533; Some 20527; Some 20529; Some 20494; Some 20826; Some 20884; Some 20883;
   Some 20938; Some 20932; Some 20933; Some 20936; Some 20942; Some 21089; Some 21082; Some 21074; Some 21086; Some 21087;
   Some 21077; Some 21090; Some 21197; Some 21262; Some 21406; Some 21798; Some 21730; Some 21783; Some 21778; Some 21735;
   Some 21747; Some 21732; Some 21786; Some 21759; Some 21764; Some 21768; Some 21739; Some 21777; Some 21765; Some 21745;
   Some 21770; Some 21755; Some 21751; Some 21752; Some 21728; Some 21774; Some 21763; Some 21771; Some 22273; Some 22274;
   Some 22476; Some 22578; Some 22485; Some 22482; Some 22458; Some 22470; Some 22461; Some 22460; Some 22456; Some 22454;
   Some 22463; Some 22471; Some 22480; Some 22457; Some 22465; Some 22798; Some 22858; Some 23065; Some 23062; Some 23085;
   Some 23086; Some 23061; Some 23055; Some 23063; Some 23050; Some 23070; Some 23091; Some 23404; Some 23463; Some 23469;
   Some 23468; Some 23555; Some 23638; Some 23636; Some 23788; Some 23807; Some 23790; Some 23793; Some 23799; Some 23808;
   Some 23801; Some 24105; Some 24104; Some 24232; Some 24238; Some 24234; Some 24236; Some 24371; Some 24368; Some 24423;
   Some 24669; Some 24666; Some 24679; Some 24641; Some 24738; Some 24712; Some 24704; Some 24722; Some 24705; Some 24733;
   Some 24707; Some 24725; Some 24731; Some 24727; Some 24711; Some 24732; Some 24718; Some 25113; Some 25158; Some 25330;
   Some 25360; Some 25430; Some 25388; Some 25412; Some 25413; Some 25398; Some 25411; Some 25572; Some 25401; Some 25419;
   Some 25418; Some 25404; Some 25385; Some 25409; Some 25396; Some 25432; Some 25428; Some 25433; Some 25389; Some 25415;
   Some 25395; Some 25434; Some 25425; Some 25400; Some 25431; Some 25408; Some 25416; Some 25930; Some 25926; Some 26054;
   Some 26051; Some 26052; Some 26050; Some 26186; Some 26207; Some 26183; Some 26193; Some 26386; Some 26387; Some 26655;
   Some 26650; Some 26697; Some 26674; Some 26675; Some 26683; Some 26699; Some 26703; Some 26646; Some 26673; Some 26652;
   Some 26677; Some 26667; Some 26669; Some 26671; Some 26702; Some 26692; Some 26676; Some 26653; Some 26642; Some 26644;
   Some 26662; Some 26664; Some 26670; Some 26701; Some 26682; Some 26661; Some 26656; Some 27436; Some 27439; Some 27437;
   Some 27441; Some 27444; Some 27501; Some 32898; Some 27528; Some 27622; Some 27620; Some 27624; Some 27619; Some 27618;
   Some 27623; Some 27685; Some 28026; Some 28003; Some 28004; Some 28022; Some 27917; Some 28001; Some 28050; Some 27992;
   Some 28002; Some 28013; Some 28015; Some 28049; Some 28045; Some 28143; Some 28031; Some 28038; Some 27998; Some 28007;
   Some 28000; Some 28055; Some 28016; Some 28028; Some 27999; Some 28034; Some 28056; Some 27951; Some 28008; Some 28043;
   Some 28030; Some 28032; Some 28036; Some 27926; Some 28035; Some 28027; Some 28029; Some 28021; Some 28048; Some 28892;
   Some 28883; Some 28881; Some 28893; Some 28875; Some 32569; Some 28898; Some 28887; Some 28882; Some 28894; Some 28896;
   Some 28884; Some 28877; Some 28869; Some 28870; Some 28871; Some 28890; Some 28878; Some 28897; Some 29250; Some 29304;
   Some 29303; Some 29302; Some 29440; Some 29434; Some 29428; Some 29438; Some 29430; Some 29427; Some 29435; Some 29441;
   Some 29651; Some 29657; Some 29669; Some 29654; Some 29628; Some 29671; Some 29667; Some 29673; Some 29660; Some 29650;
   Some 29659; Some 29652; Some 29661; Some 29658; Some 29655; Some 29656; Some 29672; Some 29918; Some 29919; Some 29940;
   Some 29941; Some 29985; Some 30043; Some 30047; Some 30128; Some 30145; Some 30139; Some 30148; Some 30144; Some 30143;
   Some 30134; Some 30138; Some 30346; Some 30409; Some 30493; Some 30491; Some 30480; Some 30483; Some 30482; Some 30499;
   Some 30481; Some 30485; Some 30489; Some 30490; Some 30498; Some 30503; Some 30755; Some 30764; Some 30754; Some 30773;
   Some 30767; Some 30760; Some 30766; Some 30763; Some 30753; Some 30761; Some 30771; Some 30762; Some 30769; Some 31060;
   Some 31067; Some 31055; Some 31068; Some 31059; Some 31058; Some 31057; Some 31211; Some 31212; Some 31200; Some 31214;
   Some 31213; Some 31210; Some 31196; Some 31198; Some 31197; Some 31366; Some 31369; Some 31365; Some 31371; Some 31372;
   Some 31370; Some 31367; Some 31448; Some 31504; Some 31492; Some 31507; Some 31493; Some 31503; Some 31496; Some 31498;
   Some 31502; Some 31497; Some 31506; Some 31876; Some 31889; Some 31882; Some 31884; Some 31880; Some 31885; Some 31877;
   Some 32030; Some 32029; Some 32017; Some 32014; Some 32024; Some 32022; Some 32019; Some 32031; Some 32018; Some 32015;
   Some 32012; Some 32604; Some 32609; Some 32606; Some 32608; Some 32605; Some 32603; Some 32662; Some 32658; Some 32707;
   Some 32706; Some 32704; Some 32790; Some 32830; Some 32825; Some 33018; Some 33010; Some 33017; Some 33013; Some 33025;
   Some 33019; Some 33024; Some 33281; Some 33327; Some 33317; Some 33587; Some 33581; Some 33604; Some 33561; Some 33617;
   Some 33573; Some 33622; Some 33599; Some 33601; Some 33574; Some 33564; Some 33570; Some 33602; Some 33614; Some 33563;
   Some 33578; Some 33544; Some 33596; Some 33613; Some 33558; Some 33572; Some 33568; Some 33591; Some 33583; Some 33577;
   Some 33607; Some 33605; Some 33612; Some 33619; Some 33566; Some 33580; Some 33611; Some 33575; Some 33608; Some 34387;
   Some 34386; Some 34466; Some 34472; Some 34454; Some 34445; Some 34449; Some 34462; Some 34439; Some 34455; Some 34438;
   Some 34443; Some 34458; Some 34437; Some 34469; Some 34457; Some 34465; Some 34471; Some 34453; Some 34456; Some 34446;
   Some 34461; Some 34448; Some 34452; Some 34883; Some 34884; Some 34925; Some 34933; Some 34934; Some 34930; Some 34944;
   Some 34929; Some 34943; Some 34927; Some 34947; Some 34942; Some 34932; Some 34940; Some 35346; Some 35911; Some 35927
  ].

Definition index_big5_13 : list (option Z) :=
  [
   Some 35963; Some 36004; Some 36003; Some 36214; Some 36216; Some 36277; Some 36279; Some 36278; Some 36561; Some 36563;
   Some 36862; Some 36853; Some 36866; Some 36863; Some 36859; Some 36868; Some 36860; Some 36854; Some 37078; Some 37088;
   Some 37081; Some 37082; Some 37091; Some 37087; Some 37093; Some 37080; Some 37083; Some 37079; Some 37084; Some 37092;
   Some 37200; Some 37198; Some 37199; Some 37333; Some 37346; Some 37338; Some 38492; Some 38495; Some 38588; Some 39139;
   Some 39647; Some 39727; Some 20095; Some 20592; Some 20586; Some 20577; Some 20574; Some 20576; Some 20563; Some 20555;
   Some 20573; Some 20594; Some 20552; Some 20557; Some 20545; Some 20571; Some 20554; Some 20578; Some 20501; Some 20549;
   Some 20575; Some 20585; Some 20587; Some 20579; Some 20580; Some 20550; Some 20544; Some 20590; Some 20595; Some 20567;
   Some 20561; Some 20944; Some 21099; Some 21101; Some 21100; Some 21102; Some 21206; Some 21203; Some 21293; Some 21404;
   Some 21877; Some 21878; Some 21820; Some 21837; Some 21840; Some 21812; Some 21802; Some 21841; Some 21858; Some 21814;
   Some 21813; Some 21808; Some 21842; Some 21829; Some 21772; Some 21810; Some 21861; Some 21838; Some 21817; Some 21832;
   Some 21805; Some 21819; Some 21824; Some 21835; Some 22282; Some 22279; Some 22523; Some 22548; Some 22498; Some 22518;
   Some 22492; Some 22516; Some 22528; Some 22509; Some 22525; Some 22536; Some 22520; Some 22539; Some 22515; Some 22479;
   Some 22535; Some 22510; Some 22499; Some 22514; Some 22501; Some 22508; Some 22497; Some 22542; Some 22524; Some 22544;
   Some 22503; Some 22529; Some 22540; Some 22513; Some 22505; Some 22512; Some 22541; Some 22532; Some 22876; Some 23136;
   Some 23128; Some 23125; Some 23143; Some 23134; Some 23096; Some 23093; Some 23149; Some 23120; Some 23135; Some 23141;
   Some 23148; Some 23123; Some 23140; Some 23127; Some 23107; Some 23133; Some 23122; Some 23108; Some 23131; Some 23112;
   Some 23182; Some 23102; Some 23117; Some 23097; Some 23116; Some 23152; Some 23145; Some 23111; Some 23121; Some 23126;
   Some 23106; Some 23132; Some 23410; Some 23406; Some 23489; Some 23488; Some 23641; Some 23838; Some 23819; Some 23837;
   Some 23834; Some 23840; Some 23820; Some 23848; Some 23821; Some 23846; Some 23845; Some 23823; Some 23856; Some 23826;
   Some 23843; Some 23839; Some 23854; Some 24126; Some 24116; Some 24241; Some 24244; Some 24249; Some 24242; Some 24243;
   Some 24374; Some 24376; Some 24475; Some 24470; Some 24479; Some 24714; Some 24720; Some 24710; Some 24766; Some 24752;
   Some 24762; Some 24787; Some 24788; Some 24783; Some 24804; Some 24793; Some 24797; Some 24776; Some 24753; Some 24795;
   Some 24759; Some 24778; Some 24767; Some 24771; Some 24781; Some 24768; Some 25394; Some 25445; Some 25482; Some 25474;
   Some 25469; Some 25533; Some 25502; Some 25517; Some 25501; Some 25495; Some 25515; Some 25486; Some 25455; Some 25479;
   Some 25488; Some 25454; Some 25519; Some 25461; Some 25500; Some 25453; Some 25518; Some 25468; Some 25508; Some 25403;
   Some 25503; Some 25464; Some 25477; Some 25473; Some 25489; Some 25485; Some 25456; Some 25939; Some 26061; Some 26213;
   Some 26209; Some 26203; Some 26201; Some 26204; Some 26210; Some 26392; Some 26745; Some 26759; Some 26768; Some 26780;
   Some 26733; Some 26734; Some 26798; Some 26795; Some 26966; Some 26735; Some 26787; Some 26796; Some 26793; Some 26741;
   Some 26740; Some 26802; Some 26767; Some 26743; Some 26770; Some 26748; Some 26731; Some 26738; Some 26794; Some 26752;
   Some 26737; Some 26750; Some 26779; Some 26774; Some 26763; Some 26784; Some 26761; Some 26788; Some 26744; Some 26747;
   Some 26769; Some 26764; Some 26762; Some 26749; Some 27446; Some 27443; Some 27447; Some 27448; Some 27537; Some 27535;
   Some 27533; Some 27534; Some 27532; Some 27690; Some 28096; Some 28075; Some 28084; Some 28083; Some 28276; Some 28076;
   Some 28137; Some 28130; Some 28087; Some 28150; Some 28116; Some 28160; Some 28104; Some 28128; Some 28127; Some 28118;
   Some 28094; Some 28133; Some 28124; Some 28125; Some 28123; Some 28148; Some 28106; Some 28093; Some 28141; Some 28144;
   Some 28090; Some 28117; Some 28098; Some 28111; Some 28105; Some 28112; Some 28146; Some 28115; Some 28157; Some 28119;
   Some 28109; Some 28131; Some 28091; Some 28922; Some 28941; Some 28919; Some 28951; Some 28916; Some 28940; Some 28912;
   Some 28932; Some 28915; Some 28944; Some 28924; Some 28927; Some 28934; Some 28947; Some 28928; Some 28920; Some 28918;
   Some 28939; Some 28930; Some 28942; Some 29310; Some 29307; Some 29308; Some 29311; Some 29469; Some 29463; Some 29447;
   Some 29457; Some 29464; Some 29450; Some 29448; Some 29439; Some 29455; Some 29470; Some 29576; Some 29686; Some 29688;
   Some 29685; Some 29700; Some 29697; Some 29693; Some 29703; Some 29696; Some 29690; Some 29692; Some 29695; Some 29708;
   Some 29707; Some 29684; Some 29704; Some 30052; Some 30051; Some 30158; Some 30162; Some 30159; Some 30155; Some 30156;
   Some 30161; Some 30160; Some 30351; Some 30345; Some 30419; Some 30521; Some 30511; Some 30509; Some 30513; Some 30514;
   Some 30516; Some 30515; Some 30525; Some 30501; Some 30523; Some 30517; Some 30792; Some 30802; Some 30793; Some 30797;
   Some 30794; Some 30796; Some 30758; Some 30789; Some 30800; Some 31076; Some 31079; Some 31081; Some 31082; Some 31075;
   Some 31083; Some 31073; Some 31163; Some 31226; Some 31224; Some 31222; Some 31223; Some 31375; Some 31380; Some 31376;
   Some 31541; Some 31559; Some 31540; Some 31525; Some 31536; Some 31522; Some 31524; Some 31539; Some 31512; Some 31530;
   Some 31517; Some 31537; Some 31531; Some 31533; Some 31535; Some 31538; Some 31544; Some 31514; Some 31523; Some 31892;
   Some 31896; Some 31894; Some 31907; Some 32053; Some 32061; Some 32056; Some 32054; Some 32058; Some 32069; Some 32044;
   Some 32041; Some 32065; Some 32071; Some 32062; Some 32063; Some 32074; Some 32059; Some 32040; Some 32611; Some 32661;
   Some 32668; Some 32669; Some 32667; Some 32714; Some 32715; Some 32717; Some 32720; Some 32721; Some 32711; Some 32719;
   Some 32713; Some 32799; Some 32798; Some 32795; Some 32839; Some 32835; Some 32840; Some 33048; Some 33061; Some 33049;
   Some 33051; Some 33069; Some 33055; Some 33068; Some 33054; Some 33057; Some 33045; Some 33063; Some 33053; Some 33058;
   Some 33297; Some 33336; Some 33331; Some 33338; Some 33332; Some 33330; Some 33396; Some 33680; Some 33699; Some 33704;
   Some 33677; Some 33658; Some 33651; Some 33700; Some 33652; Some 33679; Some 33665; Some 33685; Some 33689; Some 33653;
   Some 33684; Some 33705; Some 33661; Some 33667; Some 33676; Some 33693; Some 33691; Some 33706; Some 33675; Some 33662;
   Some 33701; Some 33711; Some 33672; Some 33687; Some 33712; Some 33663; Some 33702; Some 33671; Some 33710; Some 33654;
   Some 33690; Some 34393; Some 34390; Some 34495; Some 34487; Some 34498; Some 34497; Some 34501; Some 34490; Some 34480;
   Some 34504; Some 34489; Some 34483; Some 34488; Some 34508; Some 34484; Some 34491; Some 34492; Some 34499; Some 34493;
   Some 34494; Some 34898; Some 34953; Some 34965; Some 34984; Some 34978; Some 34986; Some 34970; Some 34961; Some 34977;
   Some 34975; Some 34968; Some 34983; Some 34969; Some 34971; Some 34967; Some 34980; Some 34988; Some 34956; Some 34963;
   Some 34958; Some 35202; Some 35286; Some 35289; Some 35285; Some 35376; Some 35367; Some 35372; Some 35358; Some 35897;
   Some 35899; Some 35932; Some 35933; Some 35965; Some 36005; Some 36221; Some 36219; Some 36217; Some 36284; Some 36290;
   Some 36281; Some 36287; Some 36289; Some 36568; Some 36574; Some 36573; Some 36572; Some 36567; Some 36576; Some 36577;
   Some 36900; Some 36875; Some 36881; Some 36892; Some 36876; Some 36897; Some 37103; Some 37098; Some 37104; Some 37108;
   Some 37106; Some 37107; Some 37076; Some 37099; Some 37100; Some 37097; Some 37206; Some 37208; Some 37210; Some 37203;
   Some 37205; Some 37356; Some 37364; Some 37361; Some 37363; Some 37368; Some 37348; Some 37369; Some 37354; Some 37355;
   Some 37367; Some 37352; Some 37358; Some 38266; Some 38278; Some 38280; Some 38524; Some 38509; Some 38507; Some 38513;
   Some 38511; Some 38591; Some 38762; Some 38916; Some 39141; Some 39319; Some 20635; Some 20629; Some 20628; Some 20638;
   Some 20619; Some 20643; Some 20611; Some 20620; Some 20622; Some 20637; Some 20584; Some 20636; Some 20626; Some 20610;
   Some 20615; Some 20831; Some 20948; Some 21266; Some 21265; Some 21412; Some 21415; Some 21905; Some 21928; Some 21925;
   Some 21933; Some 21879; Some 22085; Some 21922; Some 21907; Some 21896; Some 21903; Some 21941; Some 21889; Some 21923;
   Some 21906; Some 21924; Some 21885; Some 21900; Some 21926; Some 21887; Some 21909; Some 21921; Some 21902; Some 22284;
   Some 22569; Some 22583; Some 22553; Some 22558; Some 22567; Some 22563; Some 22568; Some 22517; Some 22600; Some 22565;
   Some 22556; Some 22555; Some 22579; Some 22591; Some 22582; Some 22574; Some 22585; Some 22584; Some 22573; Some 22572;
   Some 22587; Some 22881; Some 23215; Some 23188; Some 23199; Some 23162; Some 23202; Some 23198; Some 23160; Some 23206;
   Some 23164; Some 23205; Some 23212; Some 23189; Some 23214; Some 23095; Some 23172; Some 23178; Some 23191; Some 23171;
   Some 23179; Some 23209; Some 23163; Some 23165; Some 23180; Some 23196; Some 23183; Some 23187; Some 23197; Some 23530;
   Some 23501; Some 23499; Some 23508; Some 23505; Some 23498; Some 23502; Some 23564; Some 23600; Some 23863; Some 23875;
   Some 23915; Some 23873; Some 23883; Some 23871; Some 23861; Some 23889; Some 23886; Some 23893; Some 23859; Some 23866;
   Some 23890; Some 23869; Some 23857; Some 23897; Some 23874; Some 23865; Some 23881; Some 23864; Some 23868; Some 23858;
   Some 23862; Some 23872; Some 23877; Some 24132; Some 24129; Some 24408; Some 24486; Some 24485; Some 24491; Some 24777;
   Some 24761; Some 24780; Some 24802; Some 24782; Some 24772; Some 24852; Some 24818; Some 24842; Some 24854; Some 24837;
   Some 24821; Some 24851; Some 24824; Some 24828; Some 24830; Some 24769; Some 24835; Some 24856; Some 24861; Some 24848;
   Some 24831; Some 24836; Some 24843; Some 25162; Some 25492; Some 25521; Some 25520; Some 25550; Some 25573; Some 25576;
   Some 25583; Some 25539; Some 25757; Some 25587; Some 25546; Some 25568; Some 25590; Some 25557; Some 25586; Some 25589;
   Some 25697; Some 25567; Some 25534; Some 25565; Some 25564; Some 25540; Some 25560; Some 25555; Some 25538; Some 25543;
   Some 25548; Some 25547; Some 25544; Some 25584; Some 25559; Some 25561; Some 25906; Some 25959; Some 25962; Some 25956;
   Some 25948; Some 25960; Some 25957; Some 25996; Some 26013; Some 26014; Some 26030; Some 26064; Some 26066; Some 26236;
   Some 26220; Some 26235; Some 26240; Some 26225; Some 26233; Some 26218; Some 26226; Some 26369; Some 26892; Some 26835;
   Some 26884; Some 26844; Some 26922; Some 26860; Some 26858; Some 26865; Some 26895; Some 26838; Some 26871; Some 26859;
   Some 26852; Some 26870; Some 26899; Some 26896; Some 26867; Some 26849; Some 26887; Some 26828; Some 26888; Some 26992;
   Some 26804; Some 26897; Some 26863; Some 26822; Some 26900; Some 26872; Some 26832; Some 26877; Some 26876; Some 26856;
   Some 26891; Some 26890; Some 26903; Some 26830; Some 26824; Some 26845; Some 26846; Some 26854; Some 26868; Some 26833;
   Some 26886; Some 26836; Some 26857; Some 26901; Some 26917; Some 26823; Some 27449; Some 27451; Some 27455; Some 27452;
   Some 27540; Some 27543; Some 27545; Some 27541; Some 27581; Some 27632; Some 27634; Some 27635; Some 27696; Some 28156;
   Some 28230; Some 28231; Some 28191; Some 28233; Some 28296; Some 28220; Some 28221; Some 28229; Some 28258; Some 28203;
   Some 28223; Some 28225; Some 28253; Some 28275; Some 28188; Some 28211; Some 28235; Some 28224; Some 28241; Some 28219;
   Some 28163; Some 28206; Some 28254; Some 28264; Some 28252; Some 28257; Some 28209; Some 28200; Some 28256; Some 28273;
   Some 28267; Some 28217; Some 28194; Some 28208; Some 28243; Some 28261; Some 28199; Some 28280; Some 28260; Some 28279;
   Some 28245; Some 28281; Some 28242; Some 28262; Some 28213; Some 28214; Some 28250; Some 28960; Some 28958; Some 28975
  ].

Definition index_big5_14 : list (option Z) :=
  [
   Some 28923; Some 28974; Some 28977; Some 28963; Some 28965; Some 28962; Some 28978; Some 28959; Some 28968; Some 28986;
   Some 28955; Some 29259; Some 29274; Some 29320; Some 29321; Some 29318; Some 29317; Some 29323; Some 29458; Some 29451;
   Some 29488; Some 29474; Some 29489; Some 29491; Some 29479; Some 29490; Some 29485; Some 29478; Some 29475; Some 29493;
   Some 29452; Some 29742; Some 29740; Some 29744; Some 29739; Some 29718; Some 29722; Some 29729; Some 29741; Some 29745;
   Some 29732; Some 29731; Some 29725; Some 29737; Some 29728; Some 29746; Some 29947; Some 29999; Some 30063; Some 30060;
   Some 30183; Some 30170; Some 30177; Some 30182; Some 30173; Some 30175; Some 30180; Some 30167; Some 30357; Some 30354;
   Some 30426; Some 30534; Some 30535; Some 30532; Some 30541; Some 30533; Some 30538; Some 30542; Some 30539; Some 30540;
   Some 30686; Some 30700; Some 30816; Some 30820; Some 30821; Some 30812; Some 30829; Some 30833; Some 30826; Some 30830;
   Some 30832; Some 30825; Some 30824; Some 30814; Some 30818; Some 31092; Some 31091; Some 31090; Some 31088; Some 31234;
   Some 31242; Some 31235; Some 31244; Some 31236; Some 31385; Some 31462; Some 31460; Some 31562; Some 31547; Some 31556;
   Some 31560; Some 31564; Some 31566; Some 31552; Some 31576; Some 31557; Some 31906; Some 31902; Some 31912; Some 31905;
   Some 32088; Some 32111; Some 32099; Some 32083; Some 32086; Some 32103; Some 32106; Some 32079; Some 32109; Some 32092;
   Some 32107; Some 32082; Some 32084; Some 32105; Some 32081; Some 32095; Some 32078; Some 32574; Some 32575; Some 32613;
   Some 32614; Some 32674; Some 32672; Some 32673; Some 32727; Some 32849; Some 32847; Some 32848; Some 33022; Some 32980;
   Some 33091; Some 33098; Some 33106; Some 33103; Some 33095; Some 33085; Some 33101; Some 33082; Some 33254; Some 33262;
   Some 33271; Some 33272; Some 33273; Some 33284; Some 33340; Some 33341; Some 33343; Some 33397; Some 33595; Some 33743;
   Some 33785; Some 33827; Some 33728; Some 33768; Some 33810; Some 33767; Some 33764; Some 33788; Some 33782; Some 33808;
   Some 33734; Some 33736; Some 33771; Some 33763; Some 33727; Some 33793; Some 33757; Some 33765; Some 33752; Some 33791;
   Some 33761; Some 33739; Some 33742; Some 33750; Some 33781; Some 33737; Some 33801; Some 33807; Some 33758; Some 33809;
   Some 33798; Some 33730; Some 33779; Some 33749; Some 33786; Some 33735; Some 33745; Some 33770; Some 33811; Some 33731;
   Some 33772; Some 33774; Some 33732; Some 33787; Some 33751; Some 33762; Some 33819; Some 33755; Some 33790; Some 34520;
   Some 34530; Some 34534; Some 34515; Some 34531; Some 34522; Some 34538; Some 34525; Some 34539; Some 34524; Some 34540;
   Some 34537; Some 34519; Some 34536; Some 34513; Some 34888; Some 34902; Some 34901; Some 35002; Some 35031; Some 35001;
   Some 35000; Some 35008; Some 35006; Some 34998; Some 35004; Some 34999; Some 35005; Some 34994; Some 35073; Some 35017;
   Some 35221; Some 35224; Some 35223; Some 35293; Some 35290; Some 35291; Some 35406; Some 35405; Some 35385; Some 35417;
   Some 35392; Some 35415; Some 35416; Some 35396; Some 35397; Some 35410; Some 35400; Some 35409; Some 35402; Some 35404;
   Some 35407; Some 35935; Some 35969; Some 35968; Some 36026; Some 36030; Some 36016; Some 36025; Some 36021; Some 36228;
   Some 36224; Some 36233; Some 36312; Some 36307; Some 36301; Some 36295; Some 36310; Some 36316; Some 36303; Some 36309;
   Some 36313; Some 36296; Some 36311; Some 36293; Some 36591; Some 36599; Some 36602; Some 36601; Some 36582; Some 36590;
   Some 36581; Some 36597; Some 36583; Some 36584; Some 36598; Some 36587; Some 36593; Some 36588; Some 36596; Some 36585;
   Some 36909; Some 36916; Some 36911; Some 37126; Some 37164; Some 37124; Some 37119; Some 37116; Some 37128; Some 37113;
   Some 37115; Some 37121; Some 37120; Some 37127; Some 37125; Some 37123; Some 37217; Some 37220; Some 37215; Some 37218;
   Some 37216; Some 37377; Some 37386; Some 37413; Some 37379; Some 37402; Some 37414; Some 37391; Some 37388; Some 37376;
   Some 37394; Some 37375; Some 37373; Some 37382; Some 37380; Some 37415; Some 37378; Some 37404; Some 37412; Some 37401;
   Some 37399; Some 37381; Some 37398; Some 38267; Some 38285; Some 38284; Some 38288; Some 38535; Some 38526; Some 38536;
   Some 38537; Some 38531; Some 38528; Some 38594; Some 38600; Some 38595; Some 38641; Some 38640; Some 38764; Some 38768;
   Some 38766; Some 38919; Some 39081; Some 39147; Some 40166; Some 40697; Some 20099; Some 20100; Some 20150; Some 20669;
   Some 20671; Some 20678; Some 20654; Some 20676; Some 20682; Some 20660; Some 20680; Some 20674; Some 20656; Some 20673;
   Some 20666; Some 20657; Some 20683; Some 20681; Some 20662; Some 20664; Some 20951; Some 21114; Some 21112; Some 21115;
   Some 21116; Some 21955; Some 21979; Some 21964; Some 21968; Some 21963; Some 21962; Some 21981; Some 21952; Some 21972;
   Some 21956; Some 21993; Some 21951; Some 21970; Some 21901; Some 21967; Some 21973; Some 21986; Some 21974; Some 21960;
   Some 22002; Some 21965; Some 21977; Some 21954; Some 22292; Some 22611; Some 22632; Some 22628; Some 22607; Some 22605;
   Some 22601; Some 22639; Some 22613; Some 22606; Some 22621; Some 22617; Some 22629; Some 22619; Some 22589; Some 22627;
   Some 22641; Some 22780; Some 23239; Some 23236; Some 23243; Some 23226; Some 23224; Some 23217; Some 23221; Some 23216;
   Some 23231; Some 23240; Some 23227; Some 23238; Some 23223; Some 23232; Some 23242; Some 23220; Some 23222; Some 23245;
   Some 23225; Some 23184; Some 23510; Some 23512; Some 23513; Some 23583; Some 23603; Some 23921; Some 23907; Some 23882;
   Some 23909; Some 23922; Some 23916; Some 23902; Some 23912; Some 23911; Some 23906; Some 24048; Some 24143; Some 24142;
   Some 24138; Some 24141; Some 24139; Some 24261; Some 24268; Some 24262; Some 24267; Some 24263; Some 24384; Some 24495;
   Some 24493; Some 24823; Some 24905; Some 24906; Some 24875; Some 24901; Some 24886; Some 24882; Some 24878; Some 24902;
   Some 24879; Some 24911; Some 24873; Some 24896; Some 25120; Some 37224; Some 25123; Some 25125; Some 25124; Some 25541;
   Some 25585; Some 25579; Some 25616; Some 25618; Some 25609; Some 25632; Some 25636; Some 25651; Some 25667; Some 25631;
   Some 25621; Some 25624; Some 25657; Some 25655; Some 25634; Some 25635; Some 25612; Some 25638; Some 25648; Some 25640;
   Some 25665; Some 25653; Some 25647; Some 25610; Some 25626; Some 25664; Some 25637; Some 25639; Some 25611; Some 25575;
   Some 25627; Some 25646; Some 25633; Some 25614; Some 25967; Some 26002; Some 26067; Some 26246; Some 26252; Some 26261;
   Some 26256; Some 26251; Some 26250; Some 26265; Some 26260; Some 26232; Some 26400; Some 26982; Some 26975; Some 26936;
   Some 26958; Some 26978; Some 26993; Some 26943; Some 26949; Some 26986; Some 26937; Some 26946; Some 26967; Some 26969;
   Some 27002; Some 26952; Some 26953; Some 26933; Some 26988; Some 26931; Some 26941; Some 26981; Some 26864; Some 27000;
   Some 26932; Some 26985; Some 26944; Some 26991; Some 26948; Some 26998; Some 26968; Some 26945; Some 26996; Some 26956;
   Some 26939; Some 26955; Some 26935; Some 26972; Some 26959; Some 26961; Some 26930; Some 26962; Some 26927; Some 27003;
   Some 26940; Some 27462; Some 27461; Some 27459; Some 27458; Some 27464; Some 27457; Some 27547; Some 64013; Some 27643;
   Some 27644; Some 27641; Some 27639; Some 27640; Some 28315; Some 28374; Some 28360; Some 28303; Some 28352; Some 28319;
   Some 28307; Some 28308; Some 28320; Some 28337; Some 28345; Some 28358; Some 28370; Some 28349; Some 28353; Some 28318;
   Some 28361; Some 28343; Some 28336; Some 28365; Some 28326; Some 28367; Some 28338; Some 28350; Some 28355; Some 28380;
   Some 28376; Some 28313; Some 28306; Some 28302; Some 28301; Some 28324; Some 28321; Some 28351; Some 28339; Some 28368;
   Some 28362; Some 28311; Some 28334; Some 28323; Some 28999; Some 29012; Some 29010; Some 29027; Some 29024; Some 28993;
   Some 29021; Some 29026; Some 29042; Some 29048; Some 29034; Some 29025; Some 28994; Some 29016; Some 28995; Some 29003;
   Some 29040; Some 29023; Some 29008; Some 29011; Some 28996; Some 29005; Some 29018; Some 29263; Some 29325; Some 29324;
   Some 29329; Some 29328; Some 29326; Some 29500; Some 29506; Some 29499; Some 29498; Some 29504; Some 29514; Some 29513;
   Some 29764; Some 29770; Some 29771; Some 29778; Some 29777; Some 29783; Some 29760; Some 29775; Some 29776; Some 29774;
   Some 29762; Some 29766; Some 29773; Some 29780; Some 29921; Some 29951; Some 29950; Some 29949; Some 29981; Some 30073;
   Some 30071; Some 27011; Some 30191; Some 30223; Some 30211; Some 30199; Some 30206; Some 30204; Some 30201; Some 30200;
   Some 30224; Some 30203; Some 30198; Some 30189; Some 30197; Some 30205; Some 30361; Some 30389; Some 30429; Some 30549;
   Some 30559; Some 30560; Some 30546; Some 30550; Some 30554; Some 30569; Some 30567; Some 30548; Some 30553; Some 30573;
   Some 30688; Some 30855; Some 30874; Some 30868; Some 30863; Some 30852; Some 30869; Some 30853; Some 30854; Some 30881;
   Some 30851; Some 30841; Some 30873; Some 30848; Some 30870; Some 30843; Some 31100; Some 31106; Some 31101; Some 31097;
   Some 31249; Some 31256; Some 31257; Some 31250; Some 31255; Some 31253; Some 31266; Some 31251; Some 31259; Some 31248;
   Some 31395; Some 31394; Some 31390; Some 31467; Some 31590; Some 31588; Some 31597; Some 31604; Some 31593; Some 31602;
   Some 31589; Some 31603; Some 31601; Some 31600; Some 31585; Some 31608; Some 31606; Some 31587; Some 31922; Some 31924;
   Some 31919; Some 32136; Some 32134; Some 32128; Some 32141; Some 32127; Some 32133; Some 32122; Some 32142; Some 32123;
   Some 32131; Some 32124; Some 32140; Some 32148; Some 32132; Some 32125; Some 32146; Some 32621; Some 32619; Some 32615;
   Some 32616; Some 32620; Some 32678; Some 32677; Some 32679; Some 32731; Some 32732; Some 32801; Some 33124; Some 33120;
   Some 33143; Some 33116; Some 33129; Some 33115; Some 33122; Some 33138; Some 26401; Some 33118; Some 33142; Some 33127;
   Some 33135; Some 33092; Some 33121; Some 33309; Some 33353; Some 33348; Some 33344; Some 33346; Some 33349; Some 34033;
   Some 33855; Some 33878; Some 33910; Some 33913; Some 33935; Some 33933; Some 33893; Some 33873; Some 33856; Some 33926;
   Some 33895; Some 33840; Some 33869; Some 33917; Some 33882; Some 33881; Some 33908; Some 33907; Some 33885; Some 34055;
   Some 33886; Some 33847; Some 33850; Some 33844; Some 33914; Some 33859; Some 33912; Some 33842; Some 33861; Some 33833;
   Some 33753; Some 33867; Some 33839; Some 33858; Some 33837; Some 33887; Some 33904; Some 33849; Some 33870; Some 33868;
   Some 33874; Some 33903; Some 33989; Some 33934; Some 33851; Some 33863; Some 33846; Some 33843; Some 33896; Some 33918;
   Some 33860; Some 33835; Some 33888; Some 33876; Some 33902; Some 33872; Some 34571; Some 34564; Some 34551; Some 34572;
   Some 34554; Some 34518; Some 34549; Some 34637; Some 34552; Some 34574; Some 34569; Some 34561; Some 34550; Some 34573;
   Some 34565; Some 35030; Some 35019; Some 35021; Some 35022; Some 35038; Some 35035; Some 35034; Some 35020; Some 35024;
   Some 35205; Some 35227; Some 35295; Some 35301; Some 35300; Some 35297; Some 35296; Some 35298; Some 35292; Some 35302;
   Some 35446; Some 35462; Some 35455; Some 35425; Some 35391; Some 35447; Some 35458; Some 35460; Some 35445; Some 35459;
   Some 35457; Some 35444; Some 35450; Some 35900; Some 35915; Some 35914; Some 35941; Some 35940; Some 35942; Some 35974;
   Some 35972; Some 35973; Some 36044; Some 36200; Some 36201; Some 36241; Some 36236; Some 36238; Some 36239; Some 36237;
   Some 36243; Some 36244; Some 36240; Some 36242; Some 36336; Some 36320; Some 36332; Some 36337; Some 36334; Some 36304;
   Some 36329; Some 36323; Some 36322; Some 36327; Some 36338; Some 36331; Some 36340; Some 36614; Some 36607; Some 36609;
   Some 36608; Some 36613; Some 36615; Some 36616; Some 36610; Some 36619; Some 36946; Some 36927; Some 36932; Some 36937;
   Some 36925; Some 37136; Some 37133; Some 37135; Some 37137; Some 37142; Some 37140; Some 37131; Some 37134; Some 37230;
   Some 37231; Some 37448; Some 37458; Some 37424; Some 37434; Some 37478; Some 37427; Some 37477; Some 37470; Some 37507
  ].

Definition index_big5_15 : list (option Z) :=
  [
   Some 37422; Some 37450; Some 37446; Some 37485; Some 37484; Some 37455; Some 37472; Some 37479; Some 37487; Some 37430;
   Some 37473; Some 37488; Some 37425; Some 37460; Some 37475; Some 37456; Some 37490; Some 37454; Some 37459; Some 37452;
   Some 37462; Some 37426; Some 38303; Some 38300; Some 38302; Some 38299; Some 38546; Some 38547; Some 38545; Some 38551;
   Some 38606; Some 38650; Some 38653; Some 38648; Some 38645; Some 38771; Some 38775; Some 38776; Some 38770; Some 38927;
   Some 38925; Some 38926; Some 39084; Some 39158; Some 39161; Some 39343; Some 39346; Some 39344; Some 39349; Some 39597;
   Some 39595; Some 39771; Some 40170; Some 40173; Some 40167; Some 40576; Some 40701; Some 20710; Some 20692; Some 20695;
   Some 20712; Some 20723; Some 20699; Some 20714; Some 20701; Some 20708; Some 20691; Some 20716; Some 20720; Some 20719;
   Some 20707; Some 20704; Some 20952; Some 21120; Some 21121; Some 21225; Some 21227; Some 21296; Some 21420; Some 22055;
   Some 22037; Some 22028; Some 22034; Some 22012; Some 22031; Some 22044; Some 22017; Some 22035; Some 22018; Some 22010;
   Some 22045; Some 22020; Some 22015; Some 22009; Some 22665; Some 22652; Some 22672; Some 22680; Some 22662; Some 22657;
   Some 22655; Some 22644; Some 22667; Some 22650; Some 22663; Some 22673; Some 22670; Some 22646; Some 22658; Some 22664;
   Some 22651; Some 22676; Some 22671; Some 22782; Some 22891; Some 23260; Some 23278; Some 23269; Some 23253; Some 23274;
   Some 23258; Some 23277; Some 23275; Some 23283; Some 23266; Some 23264; Some 23259; Some 23276; Some 23262; Some 23261;
   Some 23257; Some 23272; Some 23263; Some 23415; Some 23520; Some 23523; Some 23651; Some 23938; Some 23936; Some 23933;
   Some 23942; Some 23930; Some 23937; Some 23927; Some 23946; Some 23945; Some 23944; Some 23934; Some 23932; Some 23949;
   Some 23929; Some 23935; Some 24152; Some 24153; Some 24147; Some 24280; Some 24273; Some 24279; Some 24270; Some 24284;
   Some 24277; Some 24281; Some 24274; Some 24276; Some 24388; Some 24387; Some 24431; Some 24502; Some 24876; Some 24872;
   Some 24897; Some 24926; Some 24945; Some 24947; Some 24914; Some 24915; Some 24946; Some 24940; Some 24960; Some 24948;
   Some 24916; Some 24954; Some 24923; Some 24933; Some 24891; Some 24938; Some 24929; Some 24918; Some 25129; Some 25127;
   Some 25131; Some 25643; Some 25677; Some 25691; Some 25693; Some 25716; Some 25718; Some 25714; Some 25715; Some 25725;
   Some 25717; Some 25702; Some 25766; Some 25678; Some 25730; Some 25694; Some 25692; Some 25675; Some 25683; Some 25696;
   Some 25680; Some 25727; Some 25663; Some 25708; Some 25707; Some 25689; Some 25701; Some 25719; Some 25971; Some 26016;
   Some 26273; Some 26272; Some 26271; Some 26373; Some 26372; Some 26402; Some 27057; Some 27062; Some 27081; Some 27040;
   Some 27086; Some 27030; Some 27056; Some 27052; Some 27068; Some 27025; Some 27033; Some 27022; Some 27047; Some 27021;
   Some 27049; Some 27070; Some 27055; Some 27071; Some 27076; Some 27069; Some 27044; Some 27092; Some 27065; Some 27082;
   Some 27034; Some 27087; Some 27059; Some 27027; Some 27050; Some 27041; Some 27038; Some 27097; Some 27031; Some 27024;
   Some 27074; Some 27061; Some 27045; Some 27078; Some 27466; Some 27469; Some 27467; Some 27550; Some 27551; Some 27552;
   Some 27587; Some 27588; Some 27646; Some 28366; Some 28405; Some 28401; Some 28419; Some 28453; Some 28408; Some 28471;
   Some 28411; Some 28462; Some 28425; Some 28494; Some 28441; Some 28442; Some 28455; Some 28440; Some 28475; Some 28434;
   Some 28397; Some 28426; Some 28470; Some 28531; Some 28409; Some 28398; Some 28461; Some 28480; Some 28464; Some 28476;
   Some 28469; Some 28395; Some 28423; Some 28430; Some 28483; Some 28421; Some 28413; Some 28406; Some 28473; Some 28444;
   Some 28412; Some 28474; Some 28447; Some 28429; Some 28446; Some 28424; Some 28449; Some 29063; Some 29072; Some 29065;
   Some 29056; Some 29061; Some 29058; Some 29071; Some 29051; Some 29062; Some 29057; Some 29079; Some 29252; Some 29267;
   Some 29335; Some 29333; Some 29331; Some 29507; Some 29517; Some 29521; Some 29516; Some 29794; Some 29811; Some 29809;
   Some 29813; Some 29810; Some 29799; Some 29806; Some 29952; Some 29954; Some 29955; Some 30077; Some 30096; Some 30230;
   Some 30216; Some 30220; Some 30229; Some 30225; Some 30218; Some 30228; Some 30392; Some 30593; Some 30588; Some 30597;
   Some 30594; Some 30574; Some 30592; Some 30575; Some 30590; Some 30595; Some 30898; Some 30890; Some 30900; Some 30893;
   Some 30888; Some 30846; Some 30891; Some 30878; Some 30885; Some 30880; Some 30892; Some 30882; Some 30884; Some 31128;
   Some 31114; Some 31115; Some 31126; Some 31125; Some 31124; Some 31123; Some 31127; Some 31112; Some 31122; Some 31120;
   Some 31275; Some 31306; Some 31280; Some 31279; Some 31272; Some 31270; Some 31400; Some 31403; Some 31404; Some 31470;
   Some 31624; Some 31644; Some 31626; Some 31633; Some 31632; Some 31638; Some 31629; Some 31628; Some 31643; Some 31630;
   Some 31621; Some 31640; Some 21124; Some 31641; Some 31652; Some 31618; Some 31931; Some 31935; Some 31932; Some 31930;
   Some 32167; Some 32183; Some 32194; Some 32163; Some 32170; Some 32193; Some 32192; Some 32197; Some 32157; Some 32206;
   Some 32196; Some 32198; Some 32203; Some 32204; Some 32175; Some 32185; Some 32150; Some 32188; Some 32159; Some 32166;
   Some 32174; Some 32169; Some 32161; Some 32201; Some 32627; Some 32738; Some 32739; Some 32741; Some 32734; Some 32804;
   Some 32861; Some 32860; Some 33161; Some 33158; Some 33155; Some 33159; Some 33165; Some 33164; Some 33163; Some 33301;
   Some 33943; Some 33956; Some 33953; Some 33951; Some 33978; Some 33998; Some 33986; Some 33964; Some 33966; Some 33963;
   Some 33977; Some 33972; Some 33985; Some 33997; Some 33962; Some 33946; Some 33969; Some 34000; Some 33949; Some 33959;
   Some 33979; Some 33954; Some 33940; Some 33991; Some 33996; Some 33947; Some 33961; Some 33967; Some 33960; Some 34006;
   Some 33944; Some 33974; Some 33999; Some 33952; Some 34007; Some 34004; Some 34002; Some 34011; Some 33968; Some 33937;
   Some 34401; Some 34611; Some 34595; Some 34600; Some 34667; Some 34624; Some 34606; Some 34590; Some 34593; Some 34585;
   Some 34587; Some 34627; Some 34604; Some 34625; Some 34622; Some 34630; Some 34592; Some 34610; Some 34602; Some 34605;
   Some 34620; Some 34578; Some 34618; Some 34609; Some 34613; Some 34626; Some 34598; Some 34599; Some 34616; Some 34596;
   Some 34586; Some 34608; Some 34577; Some 35063; Some 35047; Some 35057; Some 35058; Some 35066; Some 35070; Some 35054;
   Some 35068; Some 35062; Some 35067; Some 35056; Some 35052; Some 35051; Some 35229; Some 35233; Some 35231; Some 35230;
   Some 35305; Some 35307; Some 35304; Some 35499; Some 35481; Some 35467; Some 35474; Some 35471; Some 35478; Some 35901;
   Some 35944; Some 35945; Some 36053; Some 36047; Some 36055; Some 36246; Some 36361; Some 36354; Some 36351; Some 36365;
   Some 36349; Some 36362; Some 36355; Some 36359; Some 36358; Some 36357; Some 36350; Some 36352; Some 36356; Some 36624;
   Some 36625; Some 36622; Some 36621; Some 37155; Some 37148; Some 37152; Some 37154; Some 37151; Some 37149; Some 37146;
   Some 37156; Some 37153; Some 37147; Some 37242; Some 37234; Some 37241; Some 37235; Some 37541; Some 37540; Some 37494;
   Some 37531; Some 37498; Some 37536; Some 37524; Some 37546; Some 37517; Some 37542; Some 37530; Some 37547; Some 37497;
   Some 37527; Some 37503; Some 37539; Some 37614; Some 37518; Some 37506; Some 37525; Some 37538; Some 37501; Some 37512;
   Some 37537; Some 37514; Some 37510; Some 37516; Some 37529; Some 37543; Some 37502; Some 37511; Some 37545; Some 37533;
   Some 37515; Some 37421; Some 38558; Some 38561; Some 38655; Some 38744; Some 38781; Some 38778; Some 38782; Some 38787;
   Some 38784; Some 38786; Some 38779; Some 38788; Some 38785; Some 38783; Some 38862; Some 38861; Some 38934; Some 39085;
   Some 39086; Some 39170; Some 39168; Some 39175; Some 39325; Some 39324; Some 39363; Some 39353; Some 39355; Some 39354;
   Some 39362; Some 39357; Some 39367; Some 39601; Some 39651; Some 39655; Some 39742; Some 39743; Some 39776; Some 39777;
   Some 39775; Some 40177; Some 40178; Some 40181; Some 40615; Some 20735; Some 20739; Some 20784; Some 20728; Some 20742;
   Some 20743; Some 20726; Some 20734; Some 20747; Some 20748; Some 20733; Some 20746; Some 21131; Some 21132; Some 21233;
   Some 21231; Some 22088; Some 22082; Some 22092; Some 22069; Some 22081; Some 22090; Some 22089; Some 22086; Some 22104;
   Some 22106; Some 22080; Some 22067; Some 22077; Some 22060; Some 22078; Some 22072; Some 22058; Some 22074; Some 22298;
   Some 22699; Some 22685; Some 22705; Some 22688; Some 22691; Some 22703; Some 22700; Some 22693; Some 22689; Some 22783;
   Some 23295; Some 23284; Some 23293; Some 23287; Some 23286; Some 23299; Some 23288; Some 23298; Some 23289; Some 23297;
   Some 23303; Some 23301; Some 23311; Some 23655; Some 23961; Some 23959; Some 23967; Some 23954; Some 23970; Some 23955;
   Some 23957; Some 23968; Some 23964; Some 23969; Some 23962; Some 23966; Some 24169; Some 24157; Some 24160; Some 24156;
   Some 32243; Some 24283; Some 24286; Some 24289; Some 24393; Some 24498; Some 24971; Some 24963; Some 24953; Some 25009;
   Some 25008; Some 24994; Some 24969; Some 24987; Some 24979; Some 25007; Some 25005; Some 24991; Some 24978; Some 25002;
   Some 24993; Some 24973; Some 24934; Some 25011; Some 25133; Some 25710; Some 25712; Some 25750; Some 25760; Some 25733;
   Some 25751; Some 25756; Some 25743; Some 25739; Some 25738; Some 25740; Some 25763; Some 25759; Some 25704; Some 25777;
   Some 25752; Some 25974; Some 25978; Some 25977; Some 25979; Some 26034; Some 26035; Some 26293; Some 26288; Some 26281;
   Some 26290; Some 26295; Some 26282; Some 26287; Some 27136; Some 27142; Some 27159; Some 27109; Some 27128; Some 27157;
   Some 27121; Some 27108; Some 27168; Some 27135; Some 27116; Some 27106; Some 27163; Some 27165; Some 27134; Some 27175;
   Some 27122; Some 27118; Some 27156; Some 27127; Some 27111; Some 27200; Some 27144; Some 27110; Some 27131; Some 27149;
   Some 27132; Some 27115; Some 27145; Some 27140; Some 27160; Some 27173; Some 27151; Some 27126; Some 27174; Some 27143;
   Some 27124; Some 27158; Some 27473; Some 27557; Some 27555; Some 27554; Some 27558; Some 27649; Some 27648; Some 27647;
   Some 27650; Some 28481; Some 28454; Some 28542; Some 28551; Some 28614; Some 28562; Some 28557; Some 28553; Some 28556;
   Some 28514; Some 28495; Some 28549; Some 28506; Some 28566; Some 28534; Some 28524; Some 28546; Some 28501; Some 28530;
   Some 28498; Some 28496; Some 28503; Some 28564; Some 28563; Some 28509; Some 28416; Some 28513; Some 28523; Some 28541;
   Some 28519; Some 28560; Some 28499; Some 28555; Some 28521; Some 28543; Some 28565; Some 28515; Some 28535; Some 28522;
   Some 28539; Some 29106; Some 29103; Some 29083; Some 29104; Some 29088; Some 29082; Some 29097; Some 29109; Some 29085;
   Some 29093; Some 29086; Some 29092; Some 29089; Some 29098; Some 29084; Some 29095; Some 29107; Some 29336; Some 29338;
   Some 29528; Some 29522; Some 29534; Some 29535; Some 29536; Some 29533; Some 29531; Some 29537; Some 29530; Some 29529;
   Some 29538; Some 29831; Some 29833; Some 29834; Some 29830; Some 29825; Some 29821; Some 29829; Some 29832; Some 29820;
   Some 29817; Some 29960; Some 29959; Some 30078; Some 30245; Some 30238; Some 30233; Some 30237; Some 30236; Some 30243;
   Some 30234; Some 30248; Some 30235; Some 30364; Some 30365; Some 30366; Some 30363; Some 30605; Some 30607; Some 30601;
   Some 30600; Some 30925; Some 30907; Some 30927; Some 30924; Some 30929; Some 30926; Some 30932; Some 30920; Some 30915;
   Some 30916; Some 30921; Some 31130; Some 31137; Some 31136; Some 31132; Some 31138; Some 31131; Some 27510; Some 31289;
   Some 31410; Some 31412; Some 31411; Some 31671; Some 31691; Some 31678; Some 31660; Some 31694; Some 31663; Some 31673;
   Some 31690; Some 31669; Some 31941; Some 31944; Some 31948; Some 31947; Some 32247; Some 32219; Some 32234; Some 32231;
   Some 32215; Some 32225; Some 32259; Some 32250; Some 32230; Some 32246; Some 32241; Some 32240; Some 32238; Some 32223
  ].

Definition index_big5_16 : list (option Z) :=
  [
   Some 32630; Some 32684; Some 32688; Some 32685; Some 32749; Some 32747; Some 32746; Some 32748; Some 32742; Some 32744;
   Some 32868; Some 32871; Some 33187; Some 33183; Some 33182; Some 33173; Some 33186; Some 33177; Some 33175; Some 33302;
   Some 33359; Some 33363; Some 33362; Some 33360; Some 33358; Some 33361; Some 34084; Some 34107; Some 34063; Some 34048;
   Some 34089; Some 34062; Some 34057; Some 34061; Some 34079; Some 34058; Some 34087; Some 34076; Some 34043; Some 34091;
   Some 34042; Some 34056; Some 34060; Some 34036; Some 34090; Some 34034; Some 34069; Some 34039; Some 34027; Some 34035;
   Some 34044; Some 34066; Some 34026; Some 34025; Some 34070; Some 34046; Some 34088; Some 34077; Some 34094; Some 34050;
   Some 34045; Some 34078; Some 34038; Some 34097; Some 34086; Some 34023; Some 34024; Some 34032; Some 34031; Some 34041;
   Some 34072; Some 34080; Some 34096; Some 34059; Some 34073; Some 34095; Some 34402; Some 34646; Some 34659; Some 34660;
   Some 34679; Some 34785; Some 34675; Some 34648; Some 34644; Some 34651; Some 34642; Some 34657; Some 34650; Some 34641;
   Some 34654; Some 34669; Some 34666; Some 34640; Some 34638; Some 34655; Some 34653; Some 34671; Some 34668; Some 34682;
   Some 34670; Some 34652; Some 34661; Some 34639; Some 34683; Some 34677; Some 34658; Some 34663; Some 34665; Some 34906;
   Some 35077; Some 35084; Some 35092; Some 35083; Some 35095; Some 35096; Some 35097; Some 35078; Some 35094; Some 35089;
   Some 35086; Some 35081; Some 35234; Some 35236; Some 35235; Some 35309; Some 35312; Some 35308; Some 35535; Some 35526;
   Some 35512; Some 35539; Some 35537; Some 35540; Some 35541; Some 35515; Some 35543; Some 35518; Some 35520; Some 35525;
   Some 35544; Some 35523; Some 35514; Some 35517; Some 35545; Some 35902; Some 35917; Some 35983; Some 36069; Some 36063;
   Some 36057; Some 36072; Some 36058; Some 36061; Some 36071; Some 36256; Some 36252; Some 36257; Some 36251; Some 36384;
   Some 36387; Some 36389; Some 36388; Some 36398; Some 36373; Some 36379; Some 36374; Some 36369; Some 36377; Some 36390;
   Some 36391; Some 36372; Some 36370; Some 36376; Some 36371; Some 36380; Some 36375; Some 36378; Some 36652; Some 36644;
   Some 36632; Some 36634; Some 36640; Some 36643; Some 36630; Some 36631; Some 36979; Some 36976; Some 36975; Some 36967;
   Some 36971; Some 37167; Some 37163; Some 37161; Some 37162; Some 37170; Some 37158; Some 37166; Some 37253; Some 37254;
   Some 37258; Some 37249; Some 37250; Some 37252; Some 37248; Some 37584; Some 37571; Some 37572; Some 37568; Some 37593;
   Some 37558; Some 37583; Some 37617; Some 37599; Some 37592; Some 37609; Some 37591; Some 37597; Some 37580; Some 37615;
   Some 37570; Some 37608; Some 37578; Some 37576; Some 37582; Some 37606; Some 37581; Some 37589; Some 37577; Some 37600;
   Some 37598; Some 37607; Some 37585; Some 37587; Some 37557; Some 37601; Some 37574; Some 37556; Some 38268; Some 38316;
   Some 38315; Some 38318; Some 38320; Some 38564; Some 38562; Some 38611; Some 38661; Some 38664; Some 38658; Some 38746;
   Some 38794; Some 38798; Some 38792; Some 38864; Some 38863; Some 38942; Some 38941; Some 38950; Some 38953; Some 38952;
   Some 38944; Some 38939; Some 38951; Some 39090; Some 39176; Some 39162; Some 39185; Some 39188; Some 39190; Some 39191;
   Some 39189; Some 39388; Some 39373; Some 39375; Some 39379; Some 39380; Some 39374; Some 39369; Some 39382; Some 39384;
   Some 39371; Some 39383; Some 39372; Some 39603; Some 39660; Some 39659; Some 39667; Some 39666; Some 39665; Some 39750;
   Some 39747; Some 39783; Some 39796; Some 39793; Some 39782; Some 39798; Some 39797; Some 39792; Some 39784; Some 39780;
   Some 39788; Some 40188; Some 40186; Some 40189; Some 40191; Some 40183; Some 40199; Some 40192; Some 40185; Some 40187;
   Some 40200; Some 40197; Some 40196; Some 40579; Some 40659; Some 40719; Some 40720; Some 20764; Some 20755; Some 20759;
   Some 20762; Some 20753; Some 20958; Some 21300; Some 21473; Some 22128; Some 22112; Some 22126; Some 22131; Some 22118;
   Some 22115; Some 22125; Some 22130; Some 22110; Some 22135; Some 22300; Some 22299; Some 22728; Some 22717; Some 22729;
   Some 22719; Some 22714; Some 22722; Some 22716; Some 22726; Some 23319; Some 23321; Some 23323; Some 23329; Some 23316;
   Some 23315; Some 23312; Some 23318; Some 23336; Some 23322; Some 23328; Some 23326; Some 23535; Some 23980; Some 23985;
   Some 23977; Some 23975; Some 23989; Some 23984; Some 23982; Some 23978; Some 23976; Some 23986; Some 23981; Some 23983;
   Some 23988; Some 24167; Some 24168; Some 24166; Some 24175; Some 24297; Some 24295; Some 24294; Some 24296; Some 24293;
   Some 24395; Some 24508; Some 24989; Some 25000; Some 24982; Some 25029; Some 25012; Some 25030; Some 25025; Some 25036;
   Some 25018; Some 25023; Some 25016; Some 24972; Some 25815; Some 25814; Some 25808; Some 25807; Some 25801; Some 25789;
   Some 25737; Some 25795; Some 25819; Some 25843; Some 25817; Some 25907; Some 25983; Some 25980; Some 26018; Some 26312;
   Some 26302; Some 26304; Some 26314; Some 26315; Some 26319; Some 26301; Some 26299; Some 26298; Some 26316; Some 26403;
   Some 27188; Some 27238; Some 27209; Some 27239; Some 27186; Some 27240; Some 27198; Some 27229; Some 27245; Some 27254;
   Some 27227; Some 27217; Some 27176; Some 27226; Some 27195; Some 27199; Some 27201; Some 27242; Some 27236; Some 27216;
   Some 27215; Some 27220; Some 27247; Some 27241; Some 27232; Some 27196; Some 27230; Some 27222; Some 27221; Some 27213;
   Some 27214; Some 27206; Some 27477; Some 27476; Some 27478; Some 27559; Some 27562; Some 27563; Some 27592; Some 27591;
   Some 27652; Some 27651; Some 27654; Some 28589; Some 28619; Some 28579; Some 28615; Some 28604; Some 28622; Some 28616;
   Some 28510; Some 28612; Some 28605; Some 28574; Some 28618; Some 28584; Some 28676; Some 28581; Some 28590; Some 28602;
   Some 28588; Some 28586; Some 28623; Some 28607; Some 28600; Some 28578; Some 28617; Some 28587; Some 28621; Some 28591;
   Some 28594; Some 28592; Some 29125; Some 29122; Some 29119; Some 29112; Some 29142; Some 29120; Some 29121; Some 29131;
   Some 29140; Some 29130; Some 29127; Some 29135; Some 29117; Some 29144; Some 29116; Some 29126; Some 29146; Some 29147;
   Some 29341; Some 29342; Some 29545; Some 29542; Some 29543; Some 29548; Some 29541; Some 29547; Some 29546; Some 29823;
   Some 29850; Some 29856; Some 29844; Some 29842; Some 29845; Some 29857; Some 29963; Some 30080; Some 30255; Some 30253;
   Some 30257; Some 30269; Some 30259; Some 30268; Some 30261; Some 30258; Some 30256; Some 30395; Some 30438; Some 30618;
   Some 30621; Some 30625; Some 30620; Some 30619; Some 30626; Some 30627; Some 30613; Some 30617; Some 30615; Some 30941;
   Some 30953; Some 30949; Some 30954; Some 30942; Some 30947; Some 30939; Some 30945; Some 30946; Some 30957; Some 30943;
   Some 30944; Some 31140; Some 31300; Some 31304; Some 31303; Some 31414; Some 31416; Some 31413; Some 31409; Some 31415;
   Some 31710; Some 31715; Some 31719; Some 31709; Some 31701; Some 31717; Some 31706; Some 31720; Some 31737; Some 31700;
   Some 31722; Some 31714; Some 31708; Some 31723; Some 31704; Some 31711; Some 31954; Some 31956; Some 31959; Some 31952;
   Some 31953; Some 32274; Some 32289; Some 32279; Some 32268; Some 32287; Some 32288; Some 32275; Some 32270; Some 32284;
   Some 32277; Some 32282; Some 32290; Some 32267; Some 32271; Some 32278; Some 32269; Some 32276; Some 32293; Some 32292;
   Some 32579; Some 32635; Some 32636; Some 32634; Some 32689; Some 32751; Some 32810; Some 32809; Some 32876; Some 33201;
   Some 33190; Some 33198; Some 33209; Some 33205; Some 33195; Some 33200; Some 33196; Some 33204; Some 33202; Some 33207;
   Some 33191; Some 33266; Some 33365; Some 33366; Some 33367; Some 34134; Some 34117; Some 34155; Some 34125; Some 34131;
   Some 34145; Some 34136; Some 34112; Some 34118; Some 34148; Some 34113; Some 34146; Some 34116; Some 34129; Some 34119;
   Some 34147; Some 34110; Some 34139; Some 34161; Some 34126; Some 34158; Some 34165; Some 34133; Some 34151; Some 34144;
   Some 34188; Some 34150; Some 34141; Some 34132; Some 34149; Some 34156; Some 34403; Some 34405; Some 34404; Some 34715;
   Some 34703; Some 34711; Some 34707; Some 34706; Some 34696; Some 34689; Some 34710; Some 34712; Some 34681; Some 34695;
   Some 34723; Some 34693; Some 34704; Some 34705; Some 34717; Some 34692; Some 34708; Some 34716; Some 34714; Some 34697;
   Some 35102; Some 35110; Some 35120; Some 35117; Some 35118; Some 35111; Some 35121; Some 35106; Some 35113; Some 35107;
   Some 35119; Some 35116; Some 35103; Some 35313; Some 35552; Some 35554; Some 35570; Some 35572; Some 35573; Some 35549;
   Some 35604; Some 35556; Some 35551; Some 35568; Some 35528; Some 35550; Some 35553; Some 35560; Some 35583; Some 35567;
   Some 35579; Some 35985; Some 35986; Some 35984; Some 36085; Some 36078; Some 36081; Some 36080; Some 36083; Some 36204;
   Some 36206; Some 36261; Some 36263; Some 36403; Some 36414; Some 36408; Some 36416; Some 36421; Some 36406; Some 36412;
   Some 36413; Some 36417; Some 36400; Some 36415; Some 36541; Some 36662; Some 36654; Some 36661; Some 36658; Some 36665;
   Some 36663; Some 36660; Some 36982; Some 36985; Some 36987; Some 36998; Some 37114; Some 37171; Some 37173; Some 37174;
   Some 37267; Some 37264; Some 37265; Some 37261; Some 37263; Some 37671; Some 37662; Some 37640; Some 37663; Some 37638;
   Some 37647; Some 37754; Some 37688; Some 37692; Some 37659; Some 37667; Some 37650; Some 37633; Some 37702; Some 37677;
   Some 37646; Some 37645; Some 37579; Some 37661; Some 37626; Some 37669; Some 37651; Some 37625; Some 37623; Some 37684;
   Some 37634; Some 37668; Some 37631; Some 37673; Some 37689; Some 37685; Some 37674; Some 37652; Some 37644; Some 37643;
   Some 37630; Some 37641; Some 37632; Some 37627; Some 37654; Some 38332; Some 38349; Some 38334; Some 38329; Some 38330;
   Some 38326; Some 38335; Some 38325; Some 38333; Some 38569; Some 38612; Some 38667; Some 38674; Some 38672; Some 38809;
   Some 38807; Some 38804; Some 38896; Some 38904; Some 38965; Some 38959; Some 38962; Some 39204; Some 39199; Some 39207;
   Some 39209; Some 39326; Some 39406; Some 39404; Some 39397; Some 39396; Some 39408; Some 39395; Some 39402; Some 39401;
   Some 39399; Some 39609; Some 39615; Some 39604; Some 39611; Some 39670; Some 39674; Some 39673; Some 39671; Some 39731;
   Some 39808; Some 39813; Some 39815; Some 39804; Some 39806; Some 39803; Some 39810; Some 39827; Some 39826; Some 39824;
   Some 39802; Some 39829; Some 39805; Some 39816; Some 40229; Some 40215; Some 40224; Some 40222; Some 40212; Some 40233;
   Some 40221; Some 40216; Some 40226; Some 40208; Some 40217; Some 40223; Some 40584; Some 40582; Some 40583; Some 40622;
   Some 40621; Some 40661; Some 40662; Some 40698; Some 40722; Some 40765; Some 20774; Some 20773; Some 20770; Some 20772;
   Some 20768; Some 20777; Some 21236; Some 22163; Some 22156; Some 22157; Some 22150; Some 22148; Some 22147; Some 22142;
   Some 22146; Some 22143; Some 22145; Some 22742; Some 22740; Some 22735; Some 22738; Some 23341; Some 23333; Some 23346;
   Some 23331; Some 23340; Some 23335; Some 23334; Some 23343; Some 23342; Some 23419; Some 23537; Some 23538; Some 23991;
   Some 24172; Some 24170; Some 24510; Some 24507; Some 25027; Some 25013; Some 25020; Some 25063; Some 25056; Some 25061;
   Some 25060; Some 25064; Some 25054; Some 25839; Some 25833; Some 25827; Some 25835; Some 25828; Some 25832; Some 25985;
   Some 25984; Some 26038; Some 26074; Some 26322; Some 27277; Some 27286; Some 27265; Some 27301; Some 27273; Some 27295;
   Some 27291; Some 27297; Some 27294; Some 27271; Some 27283; Some 27278; Some 27285; Some 27267; Some 27304; Some 27300;
   Some 27281; Some 27263; Some 27302; Some 27290; Some 27269; Some 27276; Some 27282; Some 27483; Some 27565; Some 27657;
   Some 28620; Some 28585; Some 28660; Some 28628; Some 28643; Some 28636; Some 28653; Some 28647; Some 28646; Some 28638;
   Some 28658; Some 28637; Some 28642; Some 28648; Some 29153; Some 29169; Some 29160; Some 29170; Some 29156; Some 29168;
   Some 29154; Some 29555; Some 29550; Some 29551; Some 29847; Some 29874; Some 29867; Some 29840; Some 29866; Some 29869
  ].

Definition index_big5_17 : list (option Z) :=
  [
   Some 29873; Some 29861; Some 29871; Some 29968; Some 29969; Some 29970; Some 29967; Some 30084; Some 30275; Some 30280;
   Some 30281; Some 30279; Some 30372; Some 30441; Some 30645; Some 30635; Some 30642; Some 30647; Some 30646; Some 30644;
   Some 30641; Some 30632; Some 30704; Some 30963; Some 30973; Some 30978; Some 30971; Some 30972; Some 30962; Some 30981;
   Some 30969; Some 30974; Some 30980; Some 31147; Some 31144; Some 31324; Some 31323; Some 31318; Some 31320; Some 31316;
   Some 31322; Some 31422; Some 31424; Some 31425; Some 31749; Some 31759; Some 31730; Some 31744; Some 31743; Some 31739;
   Some 31758; Some 31732; Some 31755; Some 31731; Some 31746; Some 31753; Some 31747; Some 31745; Some 31736; Some 31741;
   Some 31750; Some 31728; Some 31729; Some 31760; Some 31754; Some 31976; Some 32301; Some 32316; Some 32322; Some 32307;
   Some 38984; Some 32312; Some 32298; Some 32329; Some 32320; Some 32327; Some 32297; Some 32332; Some 32304; Some 32315;
   Some 32310; Some 32324; Some 32314; Some 32581; Some 32639; Some 32638; Some 32637; Some 32756; Some 32754; Some 32812;
   Some 33211; Some 33220; Some 33228; Some 33226; Some 33221; Some 33223; Some 33212; Some 33257; Some 33371; Some 33370;
   Some 33372; Some 34179; Some 34176; Some 34191; Some 34215; Some 34197; Some 34208; Some 34187; Some 34211; Some 34171;
   Some 34212; Some 34202; Some 34206; Some 34167; Some 34172; Some 34185; Some 34209; Some 34170; Some 34168; Some 34135;
   Some 34190; Some 34198; Some 34182; Some 34189; Some 34201; Some 34205; Some 34177; Some 34210; Some 34178; Some 34184;
   Some 34181; Some 34169; Some 34166; Some 34200; Some 34192; Some 34207; Some 34408; Some 34750; Some 34730; Some 34733;
   Some 34757; Some 34736; Some 34732; Some 34745; Some 34741; Some 34748; Some 34734; Some 34761; Some 34755; Some 34754;
   Some 34764; Some 34743; Some 34735; Some 34756; Some 34762; Some 34740; Some 34742; Some 34751; Some 34744; Some 34749;
   Some 34782; Some 34738; Some 35125; Some 35123; Some 35132; Some 35134; Some 35137; Some 35154; Some 35127; Some 35138;
   Some 35245; Some 35247; Some 35246; Some 35314; Some 35315; Some 35614; Some 35608; Some 35606; Some 35601; Some 35589;
   Some 35595; Some 35618; Some 35599; Some 35602; Some 35605; Some 35591; Some 35597; Some 35592; Some 35590; Some 35612;
   Some 35603; Some 35610; Some 35919; Some 35952; Some 35954; Some 35953; Some 35951; Some 35989; Some 35988; Some 36089;
   Some 36207; Some 36430; Some 36429; Some 36435; Some 36432; Some 36428; Some 36423; Some 36675; Some 36672; Some 36997;
   Some 36990; Some 37176; Some 37274; Some 37282; Some 37275; Some 37273; Some 37279; Some 37281; Some 37277; Some 37280;
   Some 37793; Some 37763; Some 37807; Some 37732; Some 37718; Some 37703; Some 37756; Some 37720; Some 37724; Some 37750;
   Some 37705; Some 37712; Some 37713; Some 37728; Some 37741; Some 37775; Some 37708; Some 37738; Some 37753; Some 37719;
   Some 37717; Some 37714; Some 37711; Some 37745; Some 37751; Some 37755; Some 37729; Some 37726; Some 37731; Some 37735;
   Some 37760; Some 37710; Some 37721; Some 38343; Some 38336; Some 38345; Some 38339; Some 38341; Some 38327; Some 38574;
   Some 38576; Some 38572; Some 38688; Some 38687; Some 38680; Some 38685; Some 38681; Some 38810; Some 38817; Some 38812;
   Some 38814; Some 38813; Some 38869; Some 38868; Some 38897; Some 38977; Some 38980; Some 38986; Some 38985; Some 38981;
   Some 38979; Some 39205; Some 39211; Some 39212; Some 39210; Some 39219; Some 39218; Some 39215; Some 39213; Some 39217;
   Some 39216; Some 39320; Some 39331; Some 39329; Some 39426; Some 39418; Some 39412; Some 39415; Some 39417; Some 39416;
   Some 39414; Some 39419; Some 39421; Some 39422; Some 39420; Some 39427; Some 39614; Some 39678; Some 39677; Some 39681;
   Some 39676; Some 39752; Some 39834; Some 39848; Some 39838; Some 39835; Some 39846; Some 39841; Some 39845; Some 39844;
   Some 39814; Some 39842; Some 39840; Some 39855; Some 40243; Some 40257; Some 40295; Some 40246; Some 40238; Some 40239;
   Some 40241; Some 40248; Some 40240; Some 40261; Some 40258; Some 40259; Some 40254; Some 40247; Some 40256; Some 40253;
   Some 32757; Some 40237; Some 40586; Some 40585; Some 40589; Some 40624; Some 40648; Some 40666; Some 40699; Some 40703;
   Some 40740; Some 40739; Some 40738; Some 40788; Some 40864; Some 20785; Some 20781; Some 20782; Some 22168; Some 22172;
   Some 22167; Some 22170; Some 22173; Some 22169; Some 22896; Some 23356; Some 23657; Some 23658; Some 24000; Some 24173;
   Some 24174; Some 25048; Some 25055; Some 25069; Some 25070; Some 25073; Some 25066; Some 25072; Some 25067; Some 25046;
   Some 25065; Some 25855; Some 25860; Some 25853; Some 25848; Some 25857; Some 25859; Some 25852; Some 26004; Some 26075;
   Some 26330; Some 26331; Some 26328; Some 27333; Some 27321; Some 27325; Some 27361; Some 27334; Some 27322; Some 27318;
   Some 27319; Some 27335; Some 27316; Some 27309; Some 27486; Some 27593; Some 27659; Some 28679; Some 28684; Some 28685;
   Some 28673; Some 28677; Some 28692; Some 28686; Some 28671; Some 28672; Some 28667; Some 28710; Some 28668; Some 28663;
   Some 28682; Some 29185; Some 29183; Some 29177; Some 29187; Some 29181; Some 29558; Some 29880; Some 29888; Some 29877;
   Some 29889; Some 29886; Some 29878; Some 29883; Some 29890; Some 29972; Some 29971; Some 30300; Some 30308; Some 30297;
   Some 30288; Some 30291; Some 30295; Some 30298; Some 30374; Some 30397; Some 30444; Some 30658; Some 30650; Some 30975;
   Some 30988; Some 30995; Some 30996; Some 30985; Some 30992; Some 30994; Some 30993; Some 31149; Some 31148; Some 31327;
   Some 31772; Some 31785; Some 31769; Some 31776; Some 31775; Some 31789; Some 31773; Some 31782; Some 31784; Some 31778;
   Some 31781; Some 31792; Some 32348; Some 32336; Some 32342; Some 32355; Some 32344; Some 32354; Some 32351; Some 32337;
   Some 32352; Some 32343; Some 32339; Some 32693; Some 32691; Some 32759; Some 32760; Some 32885; Some 33233; Some 33234;
   Some 33232; Some 33375; Some 33374; Some 34228; Some 34246; Some 34240; Some 34243; Some 34242; Some 34227; Some 34229;
   Some 34237; Some 34247; Some 34244; Some 34239; Some 34251; Some 34254; Some 34248; Some 34245; Some 34225; Some 34230;
   Some 34258; Some 34340; Some 34232; Some 34231; Some 34238; Some 34409; Some 34791; Some 34790; Some 34786; Some 34779;
   Some 34795; Some 34794; Some 34789; Some 34783; Some 34803; Some 34788; Some 34772; Some 34780; Some 34771; Some 34797;
   Some 34776; Some 34787; Some 34724; Some 34775; Some 34777; Some 34817; Some 34804; Some 34792; Some 34781; Some 35155;
   Some 35147; Some 35151; Some 35148; Some 35142; Some 35152; Some 35153; Some 35145; Some 35626; Some 35623; Some 35619;
   Some 35635; Some 35632; Some 35637; Some 35655; Some 35631; Some 35644; Some 35646; Some 35633; Some 35621; Some 35639;
   Some 35622; Some 35638; Some 35630; Some 35620; Some 35643; Some 35645; Some 35642; Some 35906; Some 35957; Some 35993;
   Some 35992; Some 35991; Some 36094; Some 36100; Some 36098; Some 36096; Some 36444; Some 36450; Some 36448; Some 36439;
   Some 36438; Some 36446; Some 36453; Some 36455; Some 36443; Some 36442; Some 36449; Some 36445; Some 36457; Some 36436;
   Some 36678; Some 36679; Some 36680; Some 36683; Some 37160; Some 37178; Some 37179; Some 37182; Some 37288; Some 37285;
   Some 37287; Some 37295; Some 37290; Some 37813; Some 37772; Some 37778; Some 37815; Some 37787; Some 37789; Some 37769;
   Some 37799; Some 37774; Some 37802; Some 37790; Some 37798; Some 37781; Some 37768; Some 37785; Some 37791; Some 37773;
   Some 37809; Some 37777; Some 37810; Some 37796; Some 37800; Some 37812; Some 37795; Some 37797; Some 38354; Some 38355;
   Some 38353; Some 38579; Some 38615; Some 38618; Some 24002; Some 38623; Some 38616; Some 38621; Some 38691; Some 38690;
   Some 38693; Some 38828; Some 38830; Some 38824; Some 38827; Some 38820; Some 38826; Some 38818; Some 38821; Some 38871;
   Some 38873; Some 38870; Some 38872; Some 38906; Some 38992; Some 38993; Some 38994; Some 39096; Some 39233; Some 39228;
   Some 39226; Some 39439; Some 39435; Some 39433; Some 39437; Some 39428; Some 39441; Some 39434; Some 39429; Some 39431;
   Some 39430; Some 39616; Some 39644; Some 39688; Some 39684; Some 39685; Some 39721; Some 39733; Some 39754; Some 39756;
   Some 39755; Some 39879; Some 39878; Some 39875; Some 39871; Some 39873; Some 39861; Some 39864; Some 39891; Some 39862;
   Some 39876; Some 39865; Some 39869; Some 40284; Some 40275; Some 40271; Some 40266; Some 40283; Some 40267; Some 40281;
   Some 40278; Some 40268; Some 40279; Some 40274; Some 40276; Some 40287; Some 40280; Some 40282; Some 40590; Some 40588;
   Some 40671; Some 40705; Some 40704; Some 40726; Some 40741; Some 40747; Some 40746; Some 40745; Some 40744; Some 40780;
   Some 40789; Some 20788; Some 20789; Some 21142; Some 21239; Some 21428; Some 22187; Some 22189; Some 22182; Some 22183;
   Some 22186; Some 22188; Some 22746; Some 22749; Some 22747; Some 22802; Some 23357; Some 23358; Some 23359; Some 24003;
   Some 24176; Some 24511; Some 25083; Some 25863; Some 25872; Some 25869; Some 25865; Some 25868; Some 25870; Some 25988;
   Some 26078; Some 26077; Some 26334; Some 27367; Some 27360; Some 27340; Some 27345; Some 27353; Some 27339; Some 27359;
   Some 27356; Some 27344; Some 27371; Some 27343; Some 27341; Some 27358; Some 27488; Some 27568; Some 27660; Some 28697;
   Some 28711; Some 28704; Some 28694; Some 28715; Some 28705; Some 28706; Some 28707; Some 28713; Some 28695; Some 28708;
   Some 28700; Some 28714; Some 29196; Some 29194; Some 29191; Some 29186; Some 29189; Some 29349; Some 29350; Some 29348;
   Some 29347; Some 29345; Some 29899; Some 29893; Some 29879; Some 29891; Some 29974; Some 30304; Some 30665; Some 30666;
   Some 30660; Some 30705; Some 31005; Some 31003; Some 31009; Some 31004; Some 30999; Some 31006; Some 31152; Some 31335;
   Some 31336; Some 31795; Some 31804; Some 31801; Some 31788; Some 31803; Some 31980; Some 31978; Some 32374; Some 32373;
   Some 32376; Some 32368; Some 32375; Some 32367; Some 32378; Some 32370; Some 32372; Some 32360; Some 32587; Some 32586;
   Some 32643; Some 32646; Some 32695; Some 32765; Some 32766; Some 32888; Some 33239; Some 33237; Some 33380; Some 33377;
   Some 33379; Some 34283; Some 34289; Some 34285; Some 34265; Some 34273; Some 34280; Some 34266; Some 34263; Some 34284;
   Some 34290; Some 34296; Some 34264; Some 34271; Some 34275; Some 34268; Some 34257; Some 34288; Some 34278; Some 34287;
   Some 34270; Some 34274; Some 34816; Some 34810; Some 34819; Some 34806; Some 34807; Some 34825; Some 34828; Some 34827;
   Some 34822; Some 34812; Some 34824; Some 34815; Some 34826; Some 34818; Some 35170; Some 35162; Some 35163; Some 35159;
   Some 35169; Some 35164; Some 35160; Some 35165; Some 35161; Some 35208; Some 35255; Some 35254; Some 35318; Some 35664;
   Some 35656; Some 35658; Some 35648; Some 35667; Some 35670; Some 35668; Some 35659; Some 35669; Some 35665; Some 35650;
   Some 35666; Some 35671; Some 35907; Some 35959; Some 35958; Some 35994; Some 36102; Some 36103; Some 36105; Some 36268;
   Some 36266; Some 36269; Some 36267; Some 36461; Some 36472; Some 36467; Some 36458; Some 36463; Some 36475; Some 36546;
   Some 36690; Some 36689; Some 36687; Some 36688; Some 36691; Some 36788; Some 37184; Some 37183; Some 37296; Some 37293;
   Some 37854; Some 37831; Some 37839; Some 37826; Some 37850; Some 37840; Some 37881; Some 37868; Some 37836; Some 37849;
   Some 37801; Some 37862; Some 37834; Some 37844; Some 37870; Some 37859; Some 37845; Some 37828; Some 37838; Some 37824;
   Some 37842; Some 37863; Some 38269; Some 38362; Some 38363; Some 38625; Some 38697; Some 38699; Some 38700; Some 38696;
   Some 38694; Some 38835; Some 38839; Some 38838; Some 38877; Some 38878; Some 38879; Some 39004; Some 39001; Some 39005;
   Some 38999; Some 39103; Some 39101; Some 39099; Some 39102; Some 39240; Some 39239; Some 39235; Some 39334; Some 39335;
   Some 39450; Some 39445; Some 39461; Some 39453; Some 39460; Some 39451; Some 39458; Some 39456; Some 39463; Some 39459;
   Some 39454; Some 39452; Some 39444; Some 39618; Some 39691; Some 39690; Some 39694; Some 39692; Some 39735; Some 39914
  ].

Definition index_big5_18 : list (option Z) :=
  [
   Some 39915; Some 39904; Some 39902; Some 39908; Some 39910; Some 39906; Some 39920; Some 39892; Some 39895; Some 39916;
   Some 39900; Some 39897; Some 39909; Some 39893; Some 39905; Some 39898; Some 40311; Some 40321; Some 40330; Some 40324;
   Some 40328; Some 40305; Some 40320; Some 40312; Some 40326; Some 40331; Some 40332; Some 40317; Some 40299; Some 40308;
   Some 40309; Some 40304; Some 40297; Some 40325; Some 40307; Some 40315; Some 40322; Some 40303; Some 40313; Some 40319;
   Some 40327; Some 40296; Some 40596; Some 40593; Some 40640; Some 40700; Some 40749; Some 40768; Some 40769; Some 40781;
   Some 40790; Some 40791; Some 40792; Some 21303; Some 22194; Some 22197; Some 22195; Some 22755; Some 23365; Some 24006;
   Some 24007; Some 24302; Some 24303; Some 24512; Some 24513; Some 25081; Some 25879; Some 25878; Some 25877; Some 25875;
   Some 26079; Some 26344; Some 26339; Some 26340; Some 27379; Some 27376; Some 27370; Some 27368; Some 27385; Some 27377;
   Some 27374; Some 27375; Some 28732; Some 28725; Some 28719; Some 28727; Some 28724; Some 28721; Some 28738; Some 28728;
   Some 28735; Some 28730; Some 28729; Some 28736; Some 28731; Some 28723; Some 28737; Some 29203; Some 29204; Some 29352;
   Some 29565; Some 29564; Some 29882; Some 30379; Some 30378; Some 30398; Some 30445; Some 30668; Some 30670; Some 30671;
   Some 30669; Some 30706; Some 31013; Some 31011; Some 31015; Some 31016; Some 31012; Some 31017; Some 31154; Some 31342;
   Some 31340; Some 31341; Some 31479; Some 31817; Some 31816; Some 31818; Some 31815; Some 31813; Some 31982; Some 32379;
   Some 32382; Some 32385; Some 32384; Some 32698; Some 32767; Some 32889; Some 33243; Some 33241; Some 33291; Some 33384;
   Some 33385; Some 34338; Some 34303; Some 34305; Some 34302; Some 34331; Some 34304; Some 34294; Some 34308; Some 34313;
   Some 34309; Some 34316; Some 34301; Some 34841; Some 34832; Some 34833; Some 34839; Some 34835; Some 34838; Some 35171;
   Some 35174; Some 35257; Some 35319; Some 35680; Some 35690; Some 35677; Some 35688; Some 35683; Some 35685; Some 35687;
   Some 35693; Some 36270; Some 36486; Some 36488; Some 36484; Some 36697; Some 36694; Some 36695; Some 36693; Some 36696;
   Some 36698; Some 37005; Some 37187; Some 37185; Some 37303; Some 37301; Some 37298; Some 37299; Some 37899; Some 37907;
   Some 37883; Some 37920; Some 37903; Some 37908; Some 37886; Some 37909; Some 37904; Some 37928; Some 37913; Some 37901;
   Some 37877; Some 37888; Some 37879; Some 37895; Some 37902; Some 37910; Some 37906; Some 37882; Some 37897; Some 37880;
   Some 37898; Some 37887; Some 37884; Some 37900; Some 37878; Some 37905; Some 37894; Some 38366; Some 38368; Some 38367;
   Some 38702; Some 38703; Some 38841; Some 38843; Some 38909; Some 38910; Some 39008; Some 39010; Some 39011; Some 39007;
   Some 39105; Some 39106; Some 39248; Some 39246; Some 39257; Some 39244; Some 39243; Some 39251; Some 39474; Some 39476;
   Some 39473; Some 39468; Some 39466; Some 39478; Some 39465; Some 39470; Some 39480; Some 39469; Some 39623; Some 39626;
   Some 39622; Some 39696; Some 39698; Some 39697; Some 39947; Some 39944; Some 39927; Some 39941; Some 39954; Some 39928;
   Some 40000; Some 39943; Some 39950; Some 39942; Some 39959; Some 39956; Some 39945; Some 40351; Some 40345; Some 40356;
   Some 40349; Some 40338; Some 40344; Some 40336; Some 40347; Some 40352; Some 40340; Some 40348; Some 40362; Some 40343;
   Some 40353; Some 40346; Some 40354; Some 40360; Some 40350; Some 40355; Some 40383; Some 40361; Some 40342; Some 40358;
   Some 40359; Some 40601; Some 40603; Some 40602; Some 40677; Some 40676; Some 40679; Some 40678; Some 40752; Some 40750;
   Some 40795; Some 40800; Some 40798; Some 40797; Some 40793; Some 40849; Some 20794; Some 20793; Some 21144; Some 21143;
   Some 22211; Some 22205; Some 22206; Some 23368; Some 23367; Some 24011; Some 24015; Some 24305; Some 25085; Some 25883;
   Some 27394; Some 27388; Some 27395; Some 27384; Some 27392; Some 28739; Some 28740; Some 28746; Some 28744; Some 28745;
   Some 28741; Some 28742; Some 29213; Some 29210; Some 29209; Some 29566; Some 29975; Some 30314; Some 30672; Some 31021;
   Some 31025; Some 31023; Some 31828; Some 31827; Some 31986; Some 32394; Some 32391; Some 32392; Some 32395; Some 32390;
   Some 32397; Some 32589; Some 32699; Some 32816; Some 33245; Some 34328; Some 34346; Some 34342; Some 34335; Some 34339;
   Some 34332; Some 34329; Some 34343; Some 34350; Some 34337; Some 34336; Some 34345; Some 34334; Some 34341; Some 34857;
   Some 34845; Some 34843; Some 34848; Some 34852; Some 34844; Some 34859; Some 34890; Some 35181; Some 35177; Some 35182;
   Some 35179; Some 35322; Some 35705; Some 35704; Some 35653; Some 35706; Some 35707; Some 36112; Some 36116; Some 36271;
   Some 36494; Some 36492; Some 36702; Some 36699; Some 36701; Some 37190; Some 37188; Some 37189; Some 37305; Some 37951;
   Some 37947; Some 37942; Some 37929; Some 37949; Some 37948; Some 37936; Some 37945; Some 37930; Some 37943; Some 37932;
   Some 37952; Some 37937; Some 38373; Some 38372; Some 38371; Some 38709; Some 38714; Some 38847; Some 38881; Some 39012;
   Some 39113; Some 39110; Some 39104; Some 39256; Some 39254; Some 39481; Some 39485; Some 39494; Some 39492; Some 39490;
   Some 39489; Some 39482; Some 39487; Some 39629; Some 39701; Some 39703; Some 39704; Some 39702; Some 39738; Some 39762;
   Some 39979; Some 39965; Some 39964; Some 39980; Some 39971; Some 39976; Some 39977; Some 39972; Some 39969; Some 40375;
   Some 40374; Some 40380; Some 40385; Some 40391; Some 40394; Some 40399; Some 40382; Some 40389; Some 40387; Some 40379;
   Some 40373; Some 40398; Some 40377; Some 40378; Some 40364; Some 40392; Some 40369; Some 40365; Some 40396; Some 40371;
   Some 40397; Some 40370; Some 40570; Some 40604; Some 40683; Some 40686; Some 40685; Some 40731; Some 40728; Some 40730;
   Some 40753; Some 40782; Some 40805; Some 40804; Some 40850; Some 20153; Some 22214; Some 22213; Some 22219; Some 22897;
   Some 23371; Some 23372; Some 24021; Some 24017; Some 24306; Some 25889; Some 25888; Some 25894; Some 25890; Some 27403;
   Some 27400; Some 27401; Some 27661; Some 28757; Some 28758; Some 28759; Some 28754; Some 29214; Some 29215; Some 29353;
   Some 29567; Some 29912; Some 29909; Some 29913; Some 29911; Some 30317; Some 30381; Some 31029; Some 31156; Some 31344;
   Some 31345; Some 31831; Some 31836; Some 31833; Some 31835; Some 31834; Some 31988; Some 31985; Some 32401; Some 32591;
   Some 32647; Some 33246; Some 33387; Some 34356; Some 34357; Some 34355; Some 34348; Some 34354; Some 34358; Some 34860;
   Some 34856; Some 34854; Some 34858; Some 34853; Some 35185; Some 35263; Some 35262; Some 35323; Some 35710; Some 35716;
   Some 35714; Some 35718; Some 35717; Some 35711; Some 36117; Some 36501; Some 36500; Some 36506; Some 36498; Some 36496;
   Some 36502; Some 36503; Some 36704; Some 36706; Some 37191; Some 37964; Some 37968; Some 37962; Some 37963; Some 37967;
   Some 37959; Some 37957; Some 37960; Some 37961; Some 37958; Some 38719; Some 38883; Some 39018; Some 39017; Some 39115;
   Some 39252; Some 39259; Some 39502; Some 39507; Some 39508; Some 39500; Some 39503; Some 39496; Some 39498; Some 39497;
   Some 39506; Some 39504; Some 39632; Some 39705; Some 39723; Some 39739; Some 39766; Some 39765; Some 40006; Some 40008;
   Some 39999; Some 40004; Some 39993; Some 39987; Some 40001; Some 39996; Some 39991; Some 39988; Some 39986; Some 39997;
   Some 39990; Some 40411; Some 40402; Some 40414; Some 40410; Some 40395; Some 40400; Some 40412; Some 40401; Some 40415;
   Some 40425; Some 40409; Some 40408; Some 40406; Some 40437; Some 40405; Some 40413; Some 40630; Some 40688; Some 40757;
   Some 40755; Some 40754; Some 40770; Some 40811; Some 40853; Some 40866; Some 20797; Some 21145; Some 22760; Some 22759;
   Some 22898; Some 23373; Some 24024; Some 34863; Some 24399; Some 25089; Some 25091; Some 25092; Some 25897; Some 25893;
   Some 26006; Some 26347; Some 27409; Some 27410; Some 27407; Some 27594; Some 28763; Some 28762; Some 29218; Some 29570;
   Some 29569; Some 29571; Some 30320; Some 30676; Some 31847; Some 31846; Some 32405; Some 33388; Some 34362; Some 34368;
   Some 34361; Some 34364; Some 34353; Some 34363; Some 34366; Some 34864; Some 34866; Some 34862; Some 34867; Some 35190;
   Some 35188; Some 35187; Some 35326; Some 35724; Some 35726; Some 35723; Some 35720; Some 35909; Some 36121; Some 36504;
   Some 36708; Some 36707; Some 37308; Some 37986; Some 37973; Some 37981; Some 37975; Some 37982; Some 38852; Some 38853;
   Some 38912; Some 39510; Some 39513; Some 39710; Some 39711; Some 39712; Some 40018; Some 40024; Some 40016; Some 40010;
   Some 40013; Some 40011; Some 40021; Some 40025; Some 40012; Some 40014; Some 40443; Some 40439; Some 40431; Some 40419;
   Some 40427; Some 40440; Some 40420; Some 40438; Some 40417; Some 40430; Some 40422; Some 40434; Some 40432; Some 40418;
   Some 40428; Some 40436; Some 40435; Some 40424; Some 40429; Some 40642; Some 40656; Some 40690; Some 40691; Some 40710;
   Some 40732; Some 40760; Some 40759; Some 40758; Some 40771; Some 40783; Some 40817; Some 40816; Some 40814; Some 40815;
   Some 22227; Some 22221; Some 23374; Some 23661; Some 25901; Some 26349; Some 26350; Some 27411; Some 28767; Some 28769;
   Some 28765; Some 28768; Some 29219; Some 29915; Some 29925; Some 30677; Some 31032; Some 31159; Some 31158; Some 31850;
   Some 32407; Some 32649; Some 33389; Some 34371; Some 34872; Some 34871; Some 34869; Some 34891; Some 35732; Some 35733;
   Some 36510; Some 36511; Some 36512; Some 36509; Some 37310; Some 37309; Some 37314; Some 37995; Some 37992; Some 37993;
   Some 38629; Some 38726; Some 38723; Some 38727; Some 38855; Some 38885; Some 39518; Some 39637; Some 39769; Some 40035;
   Some 40039; Some 40038; Some 40034; Some 40030; Some 40032; Some 40450; Some 40446; Some 40455; Some 40451; Some 40454;
   Some 40453; Some 40448; Some 40449; Some 40457; Some 40447; Some 40445; Some 40452; Some 40608; Some 40734; Some 40774;
   Some 40820; Some 40821; Some 40822; Some 22228; Some 25902; Some 26040; Some 27416; Some 27417; Some 27415; Some 27418;
   Some 28770; Some 29222; Some 29354; Some 30680; Some 30681; Some 31033; Some 31849; Some 31851; Some 31990; Some 32410;
   Some 32408; Some 32411; Some 32409; Some 33248; Some 33249; Some 34374; Some 34375; Some 34376; Some 35193; Some 35194;
   Some 35196; Some 35195; Some 35327; Some 35736; Some 35737; Some 36517; Some 36516; Some 36515; Some 37998; Some 37997;
   Some 37999; Some 38001; Some 38003; Some 38729; Some 39026; Some 39263; Some 40040; Some 40046; Some 40045; Some 40459;
   Some 40461; Some 40464; Some 40463; Some 40466; Some 40465; Some 40609; Some 40693; Some 40713; Some 40775; Some 40824;
   Some 40827; Some 40826; Some 40825; Some 22302; Some 28774; Some 31855; Some 34876; Some 36274; Some 36518; Some 37315;
   Some 38004; Some 38008; Some 38006; Some 38005; Some 39520; Some 40052; Some 40051; Some 40049; Some 40053; Some 40468;
   Some 40467; Some 40694; Some 40714; Some 40868; Some 28776; Some 28773; Some 31991; Some 34410; Some 34878; Some 34877;
   Some 34879; Some 35742; Some 35996; Some 36521; Some 36553; Some 38731; Some 39027; Some 39028; Some 39116; Some 39265;
   Some 39339; Some 39524; Some 39526; Some 39527; Some 39716; Some 40469; Some 40471; Some 40776; Some 25095; Some 27422;
   Some 29223; Some 34380; Some 36520; Some 38018; Some 38016; Some 38017; Some 39529; Some 39528; Some 39726; Some 40473;
   Some 29225; Some 34379; Some 35743; Some 38019; Some 40057; Some 40631; Some 30325; Some 39531; Some 40058; Some 40477;
   Some 28777; Some 28778; Some 40612; Some 40830; Some 40777; Some 40856; Some 30849; Some 37561; Some 35023; Some 22715;
   Some 24658; Some 31911; Some 23290; Some 9556; Some 9574; Some 9559; Some 9568; Some 9580; Some 9571; Some 9562;
   Some 9577; Some 9565; Some 9554; Some 9572; Some 9557; Some 9566; Some 9578; Some 9569; Some 9560; Some 9575;
   Some 9563; Some 9555; Some 9573; Some 9558; Some 9567; Some 9579; Some 9570; Some 9561; Some 9576; Some 9564;
   Some 9553; Some 9552; Some 9581; Some 9582; Some 9584; Some 9583; Some 65517; Some 132423; Some 37595; Some 132575
  ].

Definition index_big5_19 : list (option Z) :=
  [
   Some 147397; Some 34124; Some 17077; Some 29679; Some 20917; Some 13897; Some 149826; Some 166372; Some 37700; Some 137691;
   Some 33518; Some 146632; Some 30780; Some 26436; Some 25311; Some 149811; Some 166314; Some 131744; Some 158643; Some 135941;
   Some 20395; Some 140525; Some 20488; Some 159017; Some 162436; Some 144896; Some 150193; Some 140563; Some 20521; Some 131966;
   Some 24484; Some 131968; Some 131911; Some 28379; Some 132127; Some 20605; Some 20737; Some 13434; Some 20750; Some 39020;
   Some 14147; Some 33814; Some 149924; Some 132231; Some 20832; Some 144308; Some 20842; Some 134143; Some 139516; Some 131813;
   Some 140592; Some 132494; Some 143923; Some 137603; Some 23426; Some 34685; Some 132531; Some 146585; Some 20914; Some 20920;
   Some 40244; Some 20937; Some 20943; Some 20945; Some 15580; Some 20947; Some 150182; Some 20915; Some 20962; Some 21314;
   Some 20973; Some 33741; Some 26942; Some 145197; Some 24443; Some 21003; Some 21030; Some 21052; Some 21173; Some 21079;
   Some 21140; Some 21177; Some 21189; Some 31765; Some 34114; Some 21216; Some 34317; Some 158483; Some 21253; Some 166622;
   Some 21833; Some 28377; Some 147328; Some 133460; Some 147436; Some 21299; Some 21316; Some 134114; Some 27851; Some 136998;
   Some 26651; Some 29653; Some 24650; Some 16042; Some 14540; Some 136936; Some 29149; Some 17570; Some 21357; Some 21364;
   Some 165547; Some 21374; Some 21375; Some 136598; Some 136723; Some 30694; Some 21395; Some 166555; Some 21408; Some 21419;
   Some 21422; Some 29607; Some 153458; Some 16217; Some 29596; Some 21441; Some 21445; Some 27721; Some 20041; Some 22526;
   Some 21465; Some 15019; Some 134031; Some 21472; Some 147435; Some 142755; Some 21494; Some 134263; Some 21523; Some 28793;
   Some 21803; Some 26199; Some 27995; Some 21613; Some 158547; Some 134516; Some 21853; Some 21647; Some 21668; Some 18342;
   Some 136973; Some 134877; Some 15796; Some 134477; Some 166332; Some 140952; Some 21831; Some 19693; Some 21551; Some 29719;
   Some 21894; Some 21929; Some 22021; Some 137431; Some 147514; Some 17746; Some 148533; Some 26291; Some 135348; Some 22071;
   Some 26317; Some 144010; Some 26276; Some 26285; Some 22093; Some 22095; Some 30961; Some 22257; Some 38791; Some 21502;
   Some 22272; Some 22255; Some 22253; Some 166758; Some 13859; Some 135759; Some 22342; Some 147877; Some 27758; Some 28811;
   Some 22338; Some 14001; Some 158846; Some 22502; Some 136214; Some 22531; Some 136276; Some 148323; Some 22566; Some 150517;
   Some 22620; Some 22698; Some 13665; Some 22752; Some 22748; Some 135740; Some 22779; Some 23551; Some 22339; Some 172368;
   Some 148088; Some 37843; Some 13729; Some 22815; Some 26790; Some 14019; Some 28249; Some 136766; Some 23076; Some 21843;
   Some 136850; Some 34053; Some 22985; Some 134478; Some 158849; Some 159018; Some 137180; Some 23001; Some 137211; Some 137138;
   Some 159142; Some 28017; Some 137256; Some 136917; Some 23033; Some 159301; Some 23211; Some 23139; Some 14054; Some 149929;
   Some 23159; Some 14088; Some 23190; Some 29797; Some 23251; Some 159649; Some 140628; Some 15749; Some 137489; Some 14130;
   Some 136888; Some 24195; Some 21200; Some 23414; Some 25992; Some 23420; Some 162318; Some 16388; Some 18525; Some 131588;
   Some 23509; Some 24928; Some 137780; Some 154060; Some 132517; Some 23539; Some 23453; Some 19728; Some 23557; Some 138052;
   Some 23571; Some 29646; Some 23572; Some 138405; Some 158504; Some 23625; Some 18653; Some 23685; Some 23785; Some 23791;
   Some 23947; Some 138745; Some 138807; Some 23824; Some 23832; Some 23878; Some 138916; Some 23738; Some 24023; Some 33532;
   Some 14381; Some 149761; Some 139337; Some 139635; Some 33415; Some 14390; Some 15298; Some 24110; Some 27274; Some 24181;
   Some 24186; Some 148668; Some 134355; Some 21414; Some 20151; Some 24272; Some 21416; Some 137073; Some 24073; Some 24308;
   Some 164994; Some 24313; Some 24315; Some 14496; Some 24316; Some 26686; Some 37915; Some 24333; Some 131521; Some 194708;
   Some 15070; Some 18606; Some 135994; Some 24378; Some 157832; Some 140240; Some 24408; Some 140401; Some 24419; Some 38845;
   Some 159342; Some 24434; Some 37696; Some 166454; Some 24487; Some 23990; Some 15711; Some 152144; Some 139114; Some 159992;
   Some 140904; Some 37334; Some 131742; Some 166441; Some 24625; Some 26245; Some 137335; Some 14691; Some 15815; Some 13881;
   Some 22416; Some 141236; Some 31089; Some 15936; Some 24734; Some 24740; Some 24755; Some 149890; Some 149903; Some 162387;
   Some 29860; Some 20705; Some 23200; Some 24932; Some 33828; Some 24898; Some 194726; Some 159442; Some 24961; Some 20980;
   Some 132694; Some 24967; Some 23466; Some 147383; Some 141407; Some 25043; Some 166813; Some 170333; Some 25040; Some 14642;
   Some 141696; Some 141505; Some 24611; Some 24924; Some 25886; Some 25483; Some 131352; Some 25285; Some 137072; Some 25301;
   Some 142861; Some 25452; Some 149983; Some 14871; Some 25656; Some 25592; Some 136078; Some 137212; Some 25744; Some 28554;
   Some 142902; Some 38932; Some 147596; Some 153373; Some 25825; Some 25829; Some 38011; Some 14950; Some 25658; Some 14935;
   Some 25933; Some 28438; Some 150056; Some 150051; Some 25989; Some 25965; Some 25951; Some 143486; Some 26037; Some 149824;
   Some 19255; Some 26065; Some 16600; Some 137257; Some 26080; Some 26083; Some 24543; Some 144384; Some 26136; Some 143863;
   Some 143864; Some 26180; Some 143780; Some 143781; Some 26187; Some 134773; Some 26215; Some 152038; Some 26227; Some 26228;
   Some 138813; Some 143921; Some 165364; Some 143816; Some 152339; Some 30661; Some 141559; Some 39332; Some 26370; Some 148380;
   Some 150049; Some 15147; Some 27130; Some 145346; Some 26462; Some 26471; Some 26466; Some 147917; Some 168173; Some 26583;
   Some 17641; Some 26658; Some 28240; Some 37436; Some 26625; Some 144358; Some 159136; Some 26717; Some 144495; Some 27105;
   Some 27147; Some 166623; Some 26995; Some 26819; Some 144845; Some 26881; Some 26880; Some 15666; Some 14849; Some 144956;
   Some 15232; Some 26540; Some 26977; Some 166474; Some 17148; Some 26934; Some 27032; Some 15265; Some 132041; Some 33635;
   Some 20624; Some 27129; Some 144985; Some 139562; Some 27205; Some 145155; Some 27293; Some 15347; Some 26545; Some 27336;
   Some 168348; Some 15373; Some 27421; Some 133411; Some 24798; Some 27445; Some 27508; Some 141261; Some 28341; Some 146139;
   Some 132021; Some 137560; Some 14144; Some 21537; Some 146266; Some 27617; Some 147196; Some 27612; Some 27703; Some 140427;
   Some 149745; Some 158545; Some 27738; Some 33318; Some 27769; Some 146876; Some 17605; Some 146877; Some 147876; Some 149772;
   Some 149760; Some 146633; Some 14053; Some 15595; Some 134450; Some 39811; Some 143865; Some 140433; Some 32655; Some 26679;
   Some 159013; Some 159137; Some 159211; Some 28054; Some 27996; Some 28284; Some 28420; Some 149887; Some 147589; Some 159346;
   Some 34099; Some 159604; Some 20935; Some 27804; Some 28189; Some 33838; Some 166689; Some 28207; Some 146991; Some 29779;
   Some 147330; Some 31180; Some 28239; Some 23185; Some 143435; Some 28664; Some 14093; Some 28573; Some 146992; Some 28410;
   Some 136343; Some 147517; Some 17749; Some 37872; Some 28484; Some 28508; Some 15694; Some 28532; Some 168304; Some 15675;
   Some 28575; Some 147780; Some 28627; Some 147601; Some 147797; Some 147513; Some 147440; Some 147380; Some 147775; Some 20959;
   Some 147798; Some 147799; Some 147776; Some 156125; Some 28747; Some 28798; Some 28839; Some 28801; Some 28876; Some 28885;
   Some 28886; Some 28895; Some 16644; Some 15848; Some 29108; Some 29078; Some 148087; Some 28971; Some 28997; Some 23176;
   Some 29002; Some 29038; Some 23708; Some 148325; Some 29007; Some 37730; Some 148161; Some 28972; Some 148570; Some 150055;
   Some 150050; Some 29114; Some 166888; Some 28861; Some 29198; Some 37954; Some 29205; Some 22801; Some 37955; Some 29220;
   Some 37697; Some 153093; Some 29230; Some 29248; Some 149876; Some 26813; Some 29269; Some 29271; Some 15957; Some 143428;
   Some 26637; Some 28477; Some 29314; Some 29482; Some 29483; Some 149539; Some 165931; Some 18669; Some 165892; Some 29480;
   Some 29486; Some 29647; Some 29610; Some 134202; Some 158254; Some 29641; Some 29769; Some 147938; Some 136935; Some 150052;
   Some 26147; Some 14021; Some 149943; Some 149901; Some 150011; Some 29687; Some 29717; Some 26883; Some 150054; Some 29753;
   Some 132547; Some 16087; Some 29788; Some 141485; Some 29792; Some 167602; Some 29767; Some 29668; Some 29814; Some 33721;
   Some 29804; Some 14128; Some 29812; Some 37873; Some 27180; Some 29826; Some 18771; Some 150156; Some 147807; Some 150137;
   Some 166799; Some 23366; Some 166915; Some 137374; Some 29896; Some 137608; Some 29966; Some 29929; Some 29982; Some 167641;
   Some 137803; Some 23511; Some 167596; Some 37765; Some 30029; Some 30026; Some 30055; Some 30062; Some 151426; Some 16132;
   Some 150803; Some 30094; Some 29789; Some 30110; Some 30132; Some 30210; Some 30252; Some 30289; Some 30287; Some 30319;
   Some 30326; Some 156661; Some 30352; Some 33263; Some 14328; Some 157969; Some 157966; Some 30369; Some 30373; Some 30391;
   Some 30412; Some 159647; Some 33890; Some 151709; Some 151933; Some 138780; Some 30494; Some 30502; Some 30528; Some 25775;
   Some 152096; Some 30552; Some 144044; Some 30639; Some 166244; Some 166248; Some 136897; Some 30708; Some 30729; Some 136054;
   Some 150034; Some 26826; Some 30895; Some 30919; Some 30931; Some 38565; Some 31022; Some 153056; Some 30935; Some 31028;
   Some 30897; Some 161292; Some 36792; Some 34948; Some 166699; Some 155779; Some 140828; Some 31110; Some 35072; Some 26882;
   Some 31104; Some 153687; Some 31133; Some 162617; Some 31036; Some 31145; Some 28202; Some 160038; Some 16040; Some 31174;
   Some 168205; Some 31188
  ].

Definition index_big5 : list (option Z) :=
  index_big5_00
  ++ index_big5_01
  ++ index_big5_02
  ++ index_big5_03
  ++ index_big5_04
  ++ index_big5_05
  ++ index_big5_06
  ++ index_big5_07
  ++ index_big5_08
  ++ index_big5_09
  ++ index_big5_10
  ++ index_big5_11
  ++ index_big5_12
  ++ index_big5_13
  ++ index_big5_14
  ++ index_big5_15
  ++ index_big5_16
  ++ index_big5_17
  ++ index_big5_18
  ++ index_big5_19.

(** * Values, errors and the result monad *)

(** Every [throw] site of the module, told apart by its message. *)
Inductive error : Type :=
| DecoderError            (* TypeError "Decoder error." (decoderError, decodeUtf8) *)
| IgnoreBOMError          (* TypeError "Ignoring the BOM is available only with utf-8." *)
| CodePointRangeError     (* TypeError "Code point out of range" (UTF8Encoder) *)
| InvalidCharacterError   (* DOMException "InvalidCharacterError" (atob) *)
| Latin1RangeError        (* TypeError "... outside of the Latin1 range." (btoa) *)
| InvalidLabel            (* RangeError "The encoding label provided (...) is invalid." *)
| DecoderNotFound         (* RangeError "Internal decoder (...) not found." *)
| StreamNotSupported      (* TypeError "Stream not supported." *)
| NotAFunction            (* TypeError of calling [undefined] *)
| Base64LengthError       (* Error "Invalid string. Length must be a multiple of 4" *)
| InvalidArrayLength      (* RangeError of [new Uint8Array(n)] with n < 0 *)
| InvalidCodePoint        (* RangeError of [String.fromCodePoint] *)
| TooManyArguments        (* RangeError of [f.apply] with more arguments than the engine takes *).

Inductive result (A : Type) : Type :=
| Ok (a : A)
| Err (e : error).
Arguments Ok {A} a.
Arguments Err {A} e.

Definition bind {A B} (r : result A) (k : A -> result B) : result B :=
  match r with
  | Ok a => k a
  | Err e => Err e
  end.

Notation "x <- r ;; k" := (bind r (fun x => k))
  (at level 61, r at next level, right associativity).

(** A JavaScript value as far as the decoders' arrays hold them. *)
Inductive jsval : Type :=
| JUndefined
| JNull
| JNum (z : Z).

(** A [Uint8Array] is a [list byte]; [byteZ] is the number an element reads as. *)
Definition byteZ (b : byte) : Z := Z.of_N (Byte.to_N b).

(** [a[i]] on a typed array: [None] stands for [undefined]. *)
Definition Uint8_at (a : list byte) (i : Z) : option Z :=
  if i <? 0 then None else option_map byteZ (nth_error a (Z.to_nat i)).

(** Storing a number into a [Uint8Array] element keeps it modulo 256. *)
Definition ToUint8 (z : Z) : byte :=
  match Byte.of_N (Z.to_N (z mod 256)) with
  | Some b => b
  | None => x00
  end.

Definition ToUint16 (z : Z) : Z := z mod 65536.

(** [String.fromCharCode.apply(null, arr)]: a string is the list of its
    UTF-16 code units. *)
Definition charCodeOf (v : jsval) : Z :=
  match v with
  | JNum z => ToUint16 z
  | JUndefined => 0
  | JNull => 0
  end.

Definition fromCharCode_vals (arr : list jsval) : list Z := map charCodeOf arr.
Definition fromCharCode (arr : list Z) : list Z := map ToUint16 arr.

(** * Shared helpers of the source *)

Definition END_OF_STREAM : Z := -1.
Definition FINISHED : Z := -1.

Definition decoderError (fatal : bool) : result Z :=
  if fatal then Err DecoderError else Ok 0xfffd.

Definition inRange (a min max : Z) : bool := (min <=? a) && (a <=? max).

Definition isASCIIByte (a : Z) : bool := inRange a 0x00 0x7f.

(** * Big5Decoder *)

Record big5_state : Type := mk_big5 {
  b5_i : Z;             (* loop index [i] *)
  b5_lead : Z;          (* [lead] *)
  b5_res : list jsval   (* [res] *)
}.

(** [big5[pointer]] on the index array. *)
Definition index_get (index : list (option Z)) (pointer : Z) : jsval :=
  if pointer <? 0 then JUndefined
  else match nth_error index (Z.to_nat pointer) with
       | None => JUndefined
       | Some None => JNull
       | Some (Some c) => JNum c
       end.

(** The [pointer] computed from the pending lead and the current byte. *)
Definition Big5_pointer (leadCopy byte : Z) : option Z :=
  let offset := if byte <? 0x7f then 0x40 else 0x62 in
  if inRange byte 0x40 0x7e || inRange byte 0xa1 0xfe
  then Some ((leadCopy - 0x81) * 157 + (byte - offset))
  else None.

(** [pointer === null ? null : big5[pointer]] *)
Definition Big5_code (big5 : list (option Z)) (pointer : option Z) : jsval :=
  match pointer with
  | None => JNull
  | Some p => index_get big5 p
  end.

Definition pointer_eqb (pointer : option Z) (n : Z) : bool :=
  match pointer with
  | Some p => p =? n
  | None => false
  end.

Definition is_null (v : jsval) : bool :=
  match v with
  | JNull => true
  | _ => false
  end.

(** One pass through the body of the [for] loop, the [i++] of the loop
    header included. *)
Definition Big5_iter (big5 : list (option Z)) (bytes : list byte) (fatal : bool)
    (st : big5_state) : result big5_state :=
  let i := b5_i st in
  let lead := b5_lead st in
  let res := b5_res st in
  match Uint8_at bytes i with
  | None =>
      (* [bytes[i]] is [undefined]: every range test on it is false *)
      e <- decoderError fatal ;;
      Ok (mk_big5 (i + 1) 0x00 (res ++ [JNum e]))
  | Some byte =>
      if negb (lead =? 0x00) then
        let leadCopy := lead in
        let lead := 0x00 in
        let pointer := Big5_pointer leadCopy byte in
        if pointer_eqb pointer 1133 then Ok (mk_big5 (i + 1) lead (res ++ [JNum 202]))
        else if pointer_eqb pointer 1135 then Ok (mk_big5 (i + 1) lead (res ++ [JNum 202]))
        else if pointer_eqb pointer 1164 then Ok (mk_big5 (i + 1) lead (res ++ [JNum 234]))
        else if pointer_eqb pointer 1166 then Ok (mk_big5 (i + 1) lead (res ++ [JNum 234]))
        else
          let code := Big5_code big5 pointer in
          let i := if is_null code && isASCIIByte byte then i - 1 else i in
          if is_null code then
            e <- decoderError fatal ;;
            Ok (mk_big5 (i + 1) lead (res ++ [JNum e]))
          else Ok (mk_big5 (i + 1) lead (res ++ [code]))
      else if isASCIIByte byte then Ok (mk_big5 (i + 1) lead (res ++ [JNum byte]))
      else if inRange byte 0x81 0xFE then Ok (mk_big5 (i + 1) byte res)
      else
        e <- decoderError fatal ;;
        Ok (mk_big5 (i + 1) lead (res ++ [JNum e]))
  end.

(** The loop makes progress: a rewind only happens with a pending lead,
    which the same pass clears. *)
Definition Big5_measure (bytes : list byte) (st : big5_state) : nat :=
  Z.to_nat (2 * (Z.of_nat (List.length bytes) - b5_i st)
            + (if b5_lead st =? 0 then 0 else 1)).

Definition inspect {A} (a : A) : {b : A | a = b} := exist _ a eq_refl.

Equations? Big5_loop (big5 : list (option Z)) (bytes : list byte) (fatal : bool)
    (st : big5_state) : result big5_state by wf (Big5_measure bytes st) lt :=
  Big5_loop big5 bytes fatal st with Z_lt_dec (b5_i st) (Z.of_nat (List.length bytes)) => {
    | right _ => Ok st
    | left Hlt with inspect (Big5_iter big5 bytes fatal st) => {
        | exist _ (Err e) _ => Err e
        | exist _ (Ok st') Heq => Big5_loop big5 bytes fatal st' } }.
Proof.
  clear Big5_loop. revert Heq. unfold Big5_iter, Big5_measure, decoderError, bind.
  destruct st as [i lead res]; cbn [b5_i b5_lead b5_res] in *.
  repeat match goal with
         | |- context [match ?x with _ => _ end] => destruct x eqn:?
         end;
    intros [= <-]; cbn [b5_i b5_lead b5_res];
    repeat match goal with
           | H : negb _ = _ |- _ => apply (f_equal negb) in H; rewrite negb_involutive in H; cbn in H
           | H : (_ =? _) = true |- _ => apply Z.eqb_eq in H
           | H : (_ =? _) = false |- _ => apply Z.eqb_neq in H
           | H : inRange _ _ _ = true |- _ => unfold inRange in H; apply andb_true_iff in H; destruct H
           | H : (_ <=? _) = true |- _ => apply Z.leb_le in H
           end; cbn [b5_i b5_lead b5_res] in *; try lia.
Qed.

Definition Big5Decoder (big5 : list (option Z)) (bytes : list byte)
    (fatal ignoreBOM : bool) : result (list jsval) :=
  if ignoreBOM then Err IgnoreBOMError
  else
    st <- Big5_loop big5 bytes fatal (mk_big5 0 0x00 []) ;;
    if negb (b5_lead st =? 0x00) then
      e <- decoderError fatal ;;
      Ok (b5_res st ++ [JNum e])
    else Ok (b5_res st).

(** * Utf16ByteDecoder *)

Record utf16_state : Type := mk_utf16 {
  u16_leadByte : option Z;        (* [leadByte], [None] for [null] *)
  u16_leadSurrogate : option Z;   (* [leadSurrogate], [None] for [null] *)
  u16_result : list Z             (* [result] *)
}.

Definition Utf16_codeUnit (be : bool) (leadByte byte : Z) : Z :=
  if be then Z.shiftl leadByte 8 + byte else Z.shiftl byte 8 + leadByte.

(** The body of the [for] loop on one [byte]. *)
Definition Utf16_iter (be fatal ignoreBOM : bool) (st : utf16_state) (byte : Z)
  : result utf16_state :=
  let leadSurrogate := u16_leadSurrogate st in
  let result := u16_result st in
  match u16_leadByte st with
  | None => Ok (mk_utf16 (Some byte) leadSurrogate result)
  | Some leadByte =>
      let codeUnit := Utf16_codeUnit be leadByte byte in
      if (codeUnit =? 65279) && negb ignoreBOM then Ok (mk_utf16 None leadSurrogate result)
      else
        match leadSurrogate with
        | Some surrogate =>
            if inRange codeUnit 0xDC00 0xDFFF
            then Ok (mk_utf16 None None (result ++ [surrogate; codeUnit]))
            else
              let byte1 := Z.shiftr codeUnit 8 in
              let byte2 := Z.land codeUnit 0xFF in
              e <- decoderError fatal ;;
              Ok (mk_utf16 None None ((result ++ [e]) ++ [Z.land byte1 byte2]))
        | None =>
            if inRange codeUnit 0xD800 0xDBFF then Ok (mk_utf16 None (Some codeUnit) result)
            else if inRange codeUnit 0xDC00 0xDFFF then
              e <- decoderError fatal ;;
              Ok (mk_utf16 None None (result ++ [e]))
            else Ok (mk_utf16 None None (result ++ [codeUnit]))
        end
  end.

Fixpoint Utf16_loop (be fatal ignoreBOM : bool) (bytes : list byte) (st : utf16_state)
  : result utf16_state :=
  match bytes with
  | [] => Ok st
  | byte :: rest =>
      st' <- Utf16_iter be fatal ignoreBOM st (byteZ byte) ;;
      Utf16_loop be fatal ignoreBOM rest st'
  end.

Definition is_none {A} (o : option A) : bool :=
  match o with
  | None => true
  | Some _ => false
  end.

Definition Utf16ByteDecoder (bytes : list byte) (be fatal ignoreBOM : bool)
  : result (list Z) :=
  st <- Utf16_loop be fatal ignoreBOM bytes (mk_utf16 None None []) ;;
  if negb (is_none (u16_leadByte st) && is_none (u16_leadSurrogate st)) then
    e <- decoderError fatal ;;
    Ok (u16_result st ++ [e])
  else Ok (u16_result st).

(** * SingleByteDecoder, Stream and the generic driver *)

Record SingleByteDecoder : Type := mk_single {
  sb_index : list (option Z);
  sb_fatal : bool
}.

Definition SingleByteDecoder_new (index : list (option Z)) (ignoreBOM fatal : bool)
  : result SingleByteDecoder :=
  if ignoreBOM then Err IgnoreBOMError else Ok (mk_single index fatal).

(** [handler(_stream, byte)]; it yields [FINISHED] or a code point, never
    [CONTINUE]. [codePoint == null] holds of [null] and of [undefined]. *)
Definition SingleByteDecoder_handler (this : SingleByteDecoder) (byte : Z) : result Z :=
  if byte =? END_OF_STREAM then Ok FINISHED
  else if isASCIIByte byte then Ok byte
  else
    match index_get (sb_index this) (byte - 0x80) with
    | JNum codePoint => Ok codePoint
    | JNull => decoderError (sb_fatal this)
    | JUndefined => decoderError (sb_fatal this)
    end.

(** The private [#tokens] array of a [Stream], in the order of the array. *)
Definition Stream : Type := list Z.

Definition Stream_new (tokens : list Z) : Stream := rev tokens.

Definition Stream_endOfStream (s : Stream) : bool :=
  match s with
  | [] => true
  | _ :: _ => false
  end.

(** [read()]: the token popped from the end of the array, and the stream left. *)
Definition Stream_read (s : Stream) : Z * Stream :=
  match s with
  | [] => (END_OF_STREAM, s)
  | _ :: _ => (last s 0, removelast s)
  end.

(** [prepend(token)] with an array: [push(token.pop())] until it is empty. *)
Definition Stream_prepend (s : Stream) (token : list Z) : Stream := s ++ rev token.

(** [push(token)] with an array: [unshift(token.shift())] until it is empty. *)
Definition Stream_push (s : Stream) (token : list Z) : Stream := rev token ++ s.

Lemma Stream_read_shorter s token s' :
  Stream_read s = (token, s') -> token <> END_OF_STREAM ->
  (List.length s' < List.length s)%nat.
Proof.
  destruct s as [|a s]; cbn [Stream_read].
  - intros [= <- <-] H. now destruct H.
  - intros [= <- <-] _.
    revert a. induction s as [|b s IH]; intros a; [cbn; lia|].
    specialize (IH b). cbn [removelast List.length] in *. lia.
Qed.

(** The [while (true)] loop of [TextDecoder.decode]. *)
Equations? decode_loop (decoder : SingleByteDecoder) (inputStream : Stream)
    (output : list Z) : result (list Z) by wf (List.length inputStream) lt :=
  decode_loop decoder inputStream output with inspect (Stream_read inputStream) => {
    | exist _ (token, inputStream') Hread
        with inspect (SingleByteDecoder_handler decoder token) => {
        | exist _ (Err e) _ => Err e
        | exist _ (Ok res) Hres with Z.eq_dec res FINISHED => {
            | left _ => Ok output
            | right Hne => decode_loop decoder inputStream' (output ++ [res]) } } }.
Proof.
  apply (Stream_read_shorter _ _ _ Hread).
  intros ->. apply Hne. unfold SingleByteDecoder_handler in Hres.
  rewrite Z.eqb_refl in Hres. congruence.
Qed.

(** [String.fromCodePoint(cp)]; it throws a RangeError outside 0..0x10FFFF. *)
Definition fromCodePoint (cp : Z) : option (list Z) :=
  if inRange cp 0 0x10FFFF then
    if cp <=? 0xFFFF then Some [cp]
    else Some [Z.shiftr (cp - 0x10000) 10 + 0xD800; Z.land (cp - 0x10000) 0x3FF + 0xDC00]
  else None.

Fixpoint codePointsToString (codePoints : list Z) : result (list Z) :=
  match codePoints with
  | [] => Ok []
  | cp :: rest =>
      match fromCodePoint cp with
      | None => Err InvalidCodePoint
      | Some units => s <- codePointsToString rest ;; Ok (units ++ s)
      end
  end.

(** [for (const c of input) u.push(c.codePointAt(0))]: iteration by code
    point, a high surrogate taking the low surrogate that follows it. *)
Fixpoint stringToCodePoints (input : list Z) : list Z :=
  match input with
  | [] => []
  | c :: rest =>
      match rest with
      | d :: rest' =>
          if inRange c 0xD800 0xDBFF && inRange d 0xDC00 0xDFFF
          then ((c - 0xD800) * 0x400 + (d - 0xDC00) + 0x10000) :: stringToCodePoints rest'
          else c :: stringToCodePoints rest
      | [] => [c]
      end
  end.

(** * UTF8Encoder and TextEncoder.encode *)

(** The [while (count > 0)] loop of the handler. *)
Fixpoint UTF8Encoder_tail (codePoint : Z) (count : nat) : list Z :=
  match count with
  | O => []
  | S count' =>
      let temp := Z.shiftr codePoint (6 * Z.of_nat count') in
      Z.lor 0x80 (Z.land temp 0x3f) :: UTF8Encoder_tail codePoint count'
  end.

(** [handler(codePoint)]: [None] is the string ["finished"]. *)
Definition UTF8Encoder_handler (codePoint : Z) : result (option (list Z)) :=
  if codePoint =? END_OF_STREAM then Ok None
  else if inRange codePoint 0x00 0x7f then Ok (Some [codePoint])
  else
    cfg <- (if inRange codePoint 0x0080 0x07ff then Ok (1%nat, 0xc0)
            else if inRange codePoint 0x0800 0xffff then Ok (2%nat, 0xe0)
            else if inRange codePoint 0x10000 0x10ffff then Ok (3%nat, 0xf0)
            else Err CodePointRangeError) ;;
    let '(count, offset) := cfg in
    Ok (Some ((Z.shiftr codePoint (6 * Z.of_nat count) + offset)
              :: UTF8Encoder_tail codePoint count)).

(** The handler loop of [TextEncoder.encode]. *)
Equations? encode_loop (inputStream : Stream) (output : list Z)
  : result (list Z) by wf (List.length inputStream) lt :=
  encode_loop inputStream output with inspect (Stream_read inputStream) => {
    | exist _ (token, inputStream') Hread with inspect (UTF8Encoder_handler token) => {
        | exist _ (Err e) _ => Err e
        | exist _ (Ok None) _ => Ok output
        | exist _ (Ok (Some res)) Hres => encode_loop inputStream' (output ++ res) } }.
Proof.
  apply (Stream_read_shorter _ _ _ Hread).
  intros ->. unfold UTF8Encoder_handler in Hres.
  rewrite Z.eqb_refl in Hres. discriminate.
Qed.

(** [new Uint8Array(output)]. *)
Definition Uint8Array_from (output : list Z) : list byte := map ToUint8 output.

(** * decodeUtf8 *)

Definition utf8_type_table : list Z :=
  [ 0;0;0;0;0;0;0;0;0;0;0;0;0;0;0;0;  0;0;0;0;0;0;0;0;0;0;0;0;0;0;0;0;
    0;0;0;0;0;0;0;0;0;0;0;0;0;0;0;0;  0;0;0;0;0;0;0;0;0;0;0;0;0;0;0;0;
    0;0;0;0;0;0;0;0;0;0;0;0;0;0;0;0;  0;0;0;0;0;0;0;0;0;0;0;0;0;0;0;0;
    0;0;0;0;0;0;0;0;0;0;0;0;0;0;0;0;  0;0;0;0;0;0;0;0;0;0;0;0;0;0;0;0;
    1;1;1;1;1;1;1;1;1;1;1;1;1;1;1;1;  9;9;9;9;9;9;9;9;9;9;9;9;9;9;9;9;
    7;7;7;7;7;7;7;7;7;7;7;7;7;7;7;7;  7;7;7;7;7;7;7;7;7;7;7;7;7;7;7;7;
    8;8;2;2;2;2;2;2;2;2;2;2;2;2;2;2;  2;2;2;2;2;2;2;2;2;2;2;2;2;2;2;2;
   10;3;3;3;3;3;3;3;3;3;3;3;3;4;3;3; 11;6;6;6;5;8;8;8;8;8;8;8;8;8;8;8 ].

Definition utf8_state_table : list Z :=
  [ 0;12;24;36;60;96;84;12;12;12;48;72; 12;12;12;12;12;12;12;12;12;12;12;12;
   12; 0;12;12;12;12;12; 0;12; 0;12;12; 12;24;12;12;12;12;12;24;12;24;12;12;
   12;12;12;12;12;12;12;24;12;12;12;12; 12;24;12;12;12;12;12;12;12;24;12;12;
   12;12;12;12;12;12;12;36;12;36;12;12; 12;36;12;12;12;12;12;36;12;36;12;12;
   12;36;12;12;12;12;12;12;12;12;12;12 ].

(** A 32-bit signed integer, as the bitwise operators of the language yield. *)
Definition ToInt32 (z : Z) : Z := (z + 2 ^ 31) mod 2 ^ 32 - 2 ^ 31.

(** [a << n] *)
Definition shl32 (a n : Z) : Z := ToInt32 (Z.shiftl a n).

(** [l[i] = v] on a typed array: a write past the end is dropped. *)
Fixpoint list_set {A} (l : list A) (n : nat) (v : A) : list A :=
  match l, n with
  | [], _ => []
  | _ :: t, O => v :: t
  | h :: t, S n' => h :: list_set t n' v
  end.

Definition Uint16_set (buf : list Z) (i : Z) (v : Z) : list Z :=
  if i <? 0 then buf else list_set buf (Z.to_nat i) (ToUint16 v).

Record utf8_state : Type := mk_utf8 {
  u8_outString : list Z;
  u8_outBuffer : list Z;
  u8_outIndex : Z;
  u8_state : Z;
  u8_codepoint : Z
}.

(** [outBuffer[outIndex++] = v; if (outIndex === outBufferLength) { flush }] *)
Definition utf8_put (outBufferLength : Z) (st : utf8_state) (v : Z) : utf8_state :=
  let outBuffer := Uint16_set (u8_outBuffer st) (u8_outIndex st) v in
  let outIndex := u8_outIndex st + 1 in
  if outIndex =? outBufferLength
  then mk_utf8 (u8_outString st ++ fromCharCode outBuffer) outBuffer 0
               (u8_state st) (u8_codepoint st)
  else mk_utf8 (u8_outString st) outBuffer outIndex (u8_state st) (u8_codepoint st).

Definition utf8_set_state (st : utf8_state) (state codepoint : Z) : utf8_state :=
  mk_utf8 (u8_outString st) (u8_outBuffer st) (u8_outIndex st) state codepoint.

(** The body of the [for] loop on the byte [input[i]]. *)
Definition decodeUtf8_iter (fatal : bool) (outBufferLength : Z) (st : utf8_state)
    (byte : Z) : result utf8_state :=
  st <- (if (u8_state st =? 12)
            || (negb (u8_state st =? 0) && negb (Z.land byte 0xc0 =? 0x80))
         then
           if fatal then Err DecoderError
           else
             let st := utf8_put outBufferLength st 0xfffd in
             Ok (utf8_set_state st 0 (u8_codepoint st))
         else Ok st) ;;
  let type := nth (Z.to_nat byte) utf8_type_table 0 in
  let codepoint :=
    if negb (u8_state st =? 0)
    then Z.lor (Z.land byte 0x3f) (shl32 (u8_codepoint st) 6)
    else Z.land (Z.shiftr 0xff type) byte in
  let state := nth (Z.to_nat (u8_state st + type)) utf8_state_table 0 in
  let st := utf8_set_state st state codepoint in
  if negb (state =? 0) then Ok st
  else if codepoint >? 0xffff then
    let st := utf8_put outBufferLength st (0xd7c0 + Z.shiftr codepoint 10) in
    Ok (utf8_put outBufferLength st (Z.lor 0xdc00 (Z.land codepoint 0x3ff)))
  else Ok (utf8_put outBufferLength st codepoint).

Fixpoint decodeUtf8_loop (fatal : bool) (outBufferLength : Z) (input : list byte)
    (st : utf8_state) : result utf8_state :=
  match input with
  | [] => Ok st
  | byte :: rest =>
      st' <- decodeUtf8_iter fatal outBufferLength st (byteZ byte) ;;
      decodeUtf8_loop fatal outBufferLength rest st'
  end.

Definition opt_eqb (o : option Z) (z : Z) : bool :=
  match o with
  | Some v => v =? z
  | None => false
  end.

Definition decodeUtf8 (input : list byte) (fatal ignoreBOM : bool) : result (list Z) :=
  let outBufferLength := Z.min 1024 (Z.of_nat (List.length input)) in
  let outBuffer := repeat 0 (Z.to_nat outBufferLength) in
  let i := if negb ignoreBOM && opt_eqb (Uint8_at input 0) 0xef
              && opt_eqb (Uint8_at input 1) 0xbb && opt_eqb (Uint8_at input 2) 0xbf
           then 3%nat else 0%nat in
  st <- decodeUtf8_loop fatal outBufferLength (skipn i input)
          (mk_utf8 [] outBuffer 0 0 0) ;;
  st <- (if negb (u8_state st =? 0) then
           if fatal then Err DecoderError
           else Ok (mk_utf8 (u8_outString st)
                            (Uint16_set (u8_outBuffer st) (u8_outIndex st) 0xfffd)
                            (u8_outIndex st + 1) (u8_state st) (u8_codepoint st))
         else Ok st) ;;
  Ok (u8_outString st
      ++ fromCharCode (firstn (Z.to_nat (u8_outIndex st)) (u8_outBuffer st))).

(** * base64 (forked base64-js) *)

(** The code units of a string literal. *)
Definition codeUnits (s : string) : list Z :=
  map (fun c => Z.of_N (N_of_ascii c)) (list_ascii_of_string s).

Definition code : list Z :=
  codeUnits "ABCDEFGHIJKLMNOPQRSTUVWXYZabcdefghijklmnopqrstuvwxyz0123456789+/".

(** A sparse array indexed by char code, as the list of its assignments,
    the latest first. *)
Definition sparse_set (a : list (Z * Z)) (k v : Z) : list (Z * Z) := (k, v) :: a.

Fixpoint sparse_get (a : list (Z * Z)) (k : Z) : option Z :=
  match a with
  | [] => None
  | (k', v) :: rest => if k' =? k then Some v else sparse_get rest k
  end.

(** [lookup[i] = code[i]] *)
Definition lookup : list Z := code.

(** [revLookup[code.charCodeAt(i)] = i] for every [i], then the two
    URL-safe characters. *)
Definition revLookup : list (Z * Z) :=
  let filled :=
    fold_left (fun a i => sparse_set a (nth i code 0) (Z.of_nat i))
              (seq 0 (List.length code)) [] in
  let dash := sparse_set filled (nth 0 (codeUnits "-") 0) 62 in
  sparse_set dash (nth 0 (codeUnits "_") 0) 63.

(** [s.charCodeAt(i)], [None] for [NaN]. *)
Definition charCodeAt (s : list Z) (i : Z) : option Z :=
  if i <? 0 then None else nth_error s (Z.to_nat i).

(** [revLookup[b64.charCodeAt(i)]] used as an operand of a bitwise
    operator: [undefined] counts as 0. *)
Definition rev_at (b64 : list Z) (i : Z) : Z :=
  match charCodeAt b64 i with
  | None => 0
  | Some c => match sparse_get revLookup c with
              | Some v => v
              | None => 0
              end
  end.

(** [lookup[i]] appended to a string: out of range it reads [undefined],
    which the model renders as the code units of that word. *)
Definition lookup_at (i : Z) : list Z :=
  match (if i <? 0 then None else nth_error lookup (Z.to_nat i)) with
  | Some c => [c]
  | None => codeUnits "undefined"
  end.

(** [b64.indexOf("=")], [-1] when absent. *)
Fixpoint indexOf_from (s : list Z) (c : Z) (i : Z) : Z :=
  match s with
  | [] => -1
  | x :: rest => if x =? c then i else indexOf_from rest c (i + 1)
  end.

Definition indexOf (s : list Z) (c : Z) : Z := indexOf_from s c 0.

Definition EQ : Z := 61.  (* "=" *)

Definition getLens (b64 : list Z) : result (Z * Z) :=
  let len := Z.of_nat (List.length b64) in
  if len mod 4 >? 0 then Err Base64LengthError
  else
    let validLen := indexOf b64 EQ in
    let validLen := if validLen =? -1 then len else validLen in
    let placeHoldersLen := if validLen =? len then 0 else 4 - validLen mod 4 in
    Ok (validLen, placeHoldersLen).

(** The sum is a multiple of 4 at every call, so the division is exact. *)
Definition _byteLength (validLen placeHoldersLen : Z) : Z :=
  (validLen + placeHoldersLen) * 3 / 4 - placeHoldersLen.

Definition byteLength (b64 : list Z) : result Z :=
  lens <- getLens b64 ;;
  let '(validLen, placeHoldersLen) := lens in
  Ok ((validLen + placeHoldersLen) * 3 / 4 - placeHoldersLen).

(** [new Uint8Array(n)] *)
Definition Uint8Array_new (n : Z) : result (list byte) :=
  if n <? 0 then Err InvalidArrayLength else Ok (repeat x00 (Z.to_nat n)).

Definition Uint8_set (arr : list byte) (i : Z) (v : Z) : list byte :=
  if i <? 0 then arr else list_set arr (Z.to_nat i) (ToUint8 v).

Record b64_state : Type := mk_b64 {
  b64_i : Z;
  b64_curByte : Z;
  b64_arr : list byte
}.

Definition toByteArray_iter (b64 : list Z) (st : b64_state) : b64_state :=
  let i := b64_i st in
  let tmp := Z.lor (Z.lor (Z.lor (Z.shiftl (rev_at b64 i) 18)
                                 (Z.shiftl (rev_at b64 (i + 1)) 12))
                          (Z.shiftl (rev_at b64 (i + 2)) 6))
                   (rev_at b64 (i + 3)) in
  let curByte := b64_curByte st in
  let arr := Uint8_set (b64_arr st) curByte (Z.land (Z.shiftr tmp 16) 0xff) in
  let arr := Uint8_set arr (curByte + 1) (Z.land (Z.shiftr tmp 8) 0xff) in
  let arr := Uint8_set arr (curByte + 2) (Z.land tmp 0xff) in
  mk_b64 (i + 4) (curByte + 3) arr.

(** [for (i = 0; i < len; i += 4)] *)
Equations? toByteArray_loop (b64 : list Z) (len : Z) (st : b64_state)
  : b64_state by wf (Z.to_nat (len - b64_i st)) lt :=
  toByteArray_loop b64 len st with Z_lt_dec (b64_i st) len => {
    | right _ => st
    | left Hlt => toByteArray_loop b64 len (toByteArray_iter b64 st) }.
Proof. cbn. lia. Qed.

Definition toByteArray (b64 : list Z) : result (list byte) :=
  lens <- getLens b64 ;;
  let '(validLen, placeHoldersLen) := lens in
  arr <- Uint8Array_new (_byteLength validLen placeHoldersLen) ;;
  let curByte := 0 in
  let len := if placeHoldersLen >? 0 then validLen - 4 else validLen in
  let st := toByteArray_loop b64 len (mk_b64 0 curByte arr) in
  let i := b64_i st in
  let st :=
    if placeHoldersLen =? 2 then
      let tmp := Z.lor (Z.shiftl (rev_at b64 i) 2) (Z.shiftr (rev_at b64 (i + 1)) 4) in
      mk_b64 i (b64_curByte st + 1)
             (Uint8_set (b64_arr st) (b64_curByte st) (Z.land tmp 0xff))
    else st in
  let st :=
    if placeHoldersLen =? 1 then
      let tmp := Z.lor (Z.lor (Z.shiftl (rev_at b64 i) 10)
                              (Z.shiftl (rev_at b64 (i + 1)) 4))
                       (Z.shiftr (rev_at b64 (i + 2)) 2) in
      let arr := Uint8_set (b64_arr st) (b64_curByte st) (Z.land (Z.shiftr tmp 8) 0xff) in
      let arr := Uint8_set arr (b64_curByte st + 1) (Z.land tmp 0xff) in
      mk_b64 i (b64_curByte st + 2) arr
    else st in
  Ok (b64_arr st).

Definition tripletToBase64 (num : Z) : list Z :=
  lookup_at (Z.land (Z.shiftr num 18) 0x3f)
  ++ lookup_at (Z.land (Z.shiftr num 12) 0x3f)
  ++ lookup_at (Z.land (Z.shiftr num 6) 0x3f)
  ++ lookup_at (Z.land num 0x3f).

(** [uint8[i]] as an operand of a bitwise operator. *)
Definition u8 (uint8 : list byte) (i : Z) : Z :=
  match Uint8_at uint8 i with
  | Some b => b
  | None => 0
  end.

(** [for (let i = start; i < end; i += 3)]; [output.join("")] is the
    concatenation of the pieces pushed. *)
Equations? encodeChunk_loop (uint8 : list byte) (end_ : Z) (i : Z) (output : list Z)
  : list Z by wf (Z.to_nat (end_ - i)) lt :=
  encodeChunk_loop uint8 end_ i output with Z_lt_dec i end_ => {
    | right _ => output
    | left Hlt =>
        let tmp := Z.land (Z.shiftl (u8 uint8 i) 16) 0xff0000
                   + Z.land (Z.shiftl (u8 uint8 (i + 1)) 8) 0xff00
                   + Z.land (u8 uint8 (i + 2)) 0xff in
        encodeChunk_loop uint8 end_ (i + 3) (output ++ tripletToBase64 tmp) }.
Proof. lia. Qed.

Definition encodeChunk (uint8 : list byte) (start end_ : Z) : list Z :=
  encodeChunk_loop uint8 end_ start [].

Definition maxChunkLength : Z := 16383.

(** [for (let i = 0, len2 = len - extraBytes; i < len2; i += maxChunkLength)] *)
Equations? fromByteArray_loop (uint8 : list byte) (len2 : Z) (i : Z) (parts : list Z)
  : list Z by wf (Z.to_nat (len2 - i)) lt :=
  fromByteArray_loop uint8 len2 i parts with Z_lt_dec i len2 => {
    | right _ => parts
    | left Hlt =>
        let stop := if i + maxChunkLength >? len2 then len2 else i + maxChunkLength in
        fromByteArray_loop uint8 len2 (i + maxChunkLength)
                           (parts ++ encodeChunk uint8 i stop) }.
Proof. unfold maxChunkLength. lia. Qed.

Definition fromByteArray (uint8 : list byte) : list Z :=
  let len := Z.of_nat (List.length uint8) in
  let extraBytes := len mod 3 in
  let parts := fromByteArray_loop uint8 (len - extraBytes) 0 [] in
  if extraBytes =? 1 then
    let tmp := u8 uint8 (len - 1) in
    parts ++ lookup_at (Z.shiftr tmp 2) ++ lookup_at (Z.land (Z.shiftl tmp 4) 0x3f)
          ++ codeUnits "=="
  else if extraBytes =? 2 then
    let tmp := Z.shiftl (u8 uint8 (len - 2)) 8 + u8 uint8 (len - 1) in
    parts ++ lookup_at (Z.shiftr tmp 10) ++ lookup_at (Z.land (Z.shiftr tmp 4) 0x3f)
          ++ lookup_at (Z.land (Z.shiftl tmp 2) 0x3f) ++ codeUnits "="
  else parts.

(** * atob and btoa *)

(** The class [[\t\n\f\r ]]. *)
Definition is_b64_space (c : Z) : bool :=
  (c =? 9) || (c =? 10) || (c =? 12) || (c =? 13) || (c =? 32).

(** The class [[+/0-9A-Za-z]]. *)
Definition is_atob_char (c : Z) : bool :=
  (c =? 43) || (c =? 47) || inRange c 48 57 || inRange c 65 90 || inRange c 97 122.

(** [s.replace(/==?$/, "")] *)
Definition strip_padding (s : list Z) : list Z :=
  match rev s with
  | 61 :: 61 :: r => rev r
  | 61 :: r => rev r
  | _ => s
  end.

(** The first two statements of [atob]: white space removed, then the
    padding if the length is a multiple of 4. *)
Definition atob_normalize (s : list Z) : list Z :=
  let s := filter (fun c => negb (is_b64_space c)) s in
  if Z.of_nat (List.length s) mod 4 =? 0 then strip_padding s else s.

Definition atob (s : list Z) : result (list Z) :=
  let s := atob_normalize s in
  let rem := Z.of_nat (List.length s) mod 4 in
  if (rem =? 1) || existsb (fun c => negb (is_atob_char c)) s
  then Err InvalidCharacterError
  else
    let s := if rem >? 0 then s ++ repeat EQ (Z.to_nat (4 - rem)) else s in
    byteArray <- toByteArray s ;;
    Ok (fromCharCode (map byteZ byteArray)).

(** The [for] loop of [btoa], filling [byteArray]. *)
Fixpoint btoa_loop (s : list Z) (byteArray : list Z) : result (list Z) :=
  match s with
  | [] => Ok byteArray
  | charCode :: rest =>
      if charCode >? 0xff then Err Latin1RangeError
      else btoa_loop rest (byteArray ++ [charCode])
  end.

Definition btoa (s : list Z) : result (list Z) :=
  byteArray <- btoa_loop s [] ;;
  Ok (fromByteArray (Uint8Array_from byteArray)).

(** * Label resolution and TextDecoder *)

(** A JavaScript [Map] with string keys: its entries in insertion order. *)
Fixpoint Map_set {V} (m : list (string * V)) (k : string) (v : V) : list (string * V) :=
  match m with
  | [] => [(k, v)]
  | (k', v') :: rest =>
      if String.eqb k' k then (k', v) :: rest else (k', v') :: Map_set rest k v
  end.

Fixpoint Map_get {V} (m : list (string * V)) (k : string) : option V :=
  match m with
  | [] => None
  | (k', v) :: rest => if String.eqb k' k then Some v else Map_get rest k
  end.

Definition Map_has {V} (m : list (string * V)) (k : string) : bool :=
  match Map_get m k with
  | Some _ => true
  | None => false
  end.

(** [encodings.set(label, key)] for every label of every key. *)
Definition encodings : list (string * string) :=
  fold_left
    (fun m (entry : string * list string) =>
       let (key, labels) := entry in
       fold_left (fun m label => Map_set m label key) labels m)
    encodingMap [].

(** The [encodingIndexes.set(name, table)] calls, in source order. *)
Definition encodingIndexes : list (string * list (option Z)) :=
  fold_left
    (fun m (entry : string * list (option Z)) => Map_set m (fst entry) (snd entry))
    [
   ("windows-1252"%string, index_windows_1252);
   ("ibm866"%string, index_ibm866);
   ("iso-8859-2"%string, index_iso_8859_2);
   ("iso-8859-3"%string, index_iso_8859_3);
   ("iso-8859-4"%string, index_iso_8859_4);
   ("iso-8859-5"%string, index_iso_8859_5);
   ("iso-8859-6"%string, index_iso_8859_6);
   ("iso-8859-7"%string, index_iso_8859_7);
   ("iso-8859-8"%string, index_iso_8859_8);
   ("iso-8859-8-i"%string, index_iso_8859_8_i);
   ("iso-8859-10"%string, index_iso_8859_10);
   ("iso-8859-13"%string, index_iso_8859_13);
   ("iso-8859-14"%string, index_iso_8859_14);
   ("iso-8859-15"%string, index_iso_8859_15);
   ("iso-8859-16"%string, index_iso_8859_16);
   ("koi8-r"%string, index_koi8_r);
   ("koi8-u"%string, index_koi8_u);
   ("macintosh"%string, index_macintosh);
   ("windows-874"%string, index_windows_874);
   ("windows-1250"%string, index_windows_1250);
   ("windows-1251"%string, index_windows_1251);
   ("windows-1253"%string, index_windows_1253);
   ("windows-1254"%string, index_windows_1254);
   ("windows-1255"%string, index_windows_1255);
   ("windows-1256"%string, index_windows_1256);
   ("windows-1257"%string, index_windows_1257);
   ("windows-1258"%string, index_windows_1258);
   ("x-mac-cyrillic"%string, index_x_mac_cyrillic);
   ("big5"%string, index_big5)
    ] [].

(** [decoders.set(key, (options) => new SingleByteDecoder(index, options))] *)
Definition decoders : list (string * (bool -> bool -> result SingleByteDecoder)) :=
  fold_left
    (fun m (entry : string * list (option Z)) =>
       let (key, index) := entry in
       Map_set m key (fun ignoreBOM fatal => SingleByteDecoder_new index ignoreBOM fatal))
    encodingIndexes [].

(** Labels are strings of code units below 0x100, which [string] holds. *)
Definition whitespace : list ascii :=
  [" "; "009"; "010"; "012"; "013"]%char.

(** [label[i]], [None] for [undefined]. *)
Definition str_at (s : string) (i : Z) : option ascii :=
  if i <? 0 then None else String.get (Z.to_nat i) s.

(** [whitespace.includes(c)] *)
Definition whitespace_includes (c : option ascii) : bool :=
  match c with
  | Some c => existsb (Ascii.eqb c) whitespace
  | None => false
  end.

(** [for (const i in label) { if (p(i)) { ...; break; } }]: the first index,
    in ascending order, at which the test holds. *)
Definition for_in_first (label : string) (p : Z -> bool) : option Z :=
  option_map Z.of_nat (find (fun k => p (Z.of_nat k)) (seq 0 (String.length label))).

(** [s.substring(start, end)] *)
Definition js_substring (s : string) (start end_ : Z) : string :=
  let len := Z.of_nat (String.length s) in
  let finalStart := Z.min (Z.max start 0) len in
  let finalEnd := Z.min (Z.max end_ 0) len in
  let from := Z.min finalStart finalEnd in
  let to := Z.max finalStart finalEnd in
  String.substring (Z.to_nat from) (Z.to_nat (to - from)) s.

Definition trimAsciiWhitespace (label : string) : string :=
  let start :=
    match for_in_first label (fun i => negb (whitespace_includes (str_at label i))) with
    | Some i => i
    | None => 0
    end in
  let end_ := Z.of_nat (String.length label) - 1 in
  let end_ :=
    match for_in_first label
            (fun _i => negb (whitespace_includes (str_at label (end_ - _i)))) with
    | Some _i => end_ - _i
    | None => end_
    end in
  js_substring label start (end_ + 1).

(** [toLowerCase] on code units below 0x100: A-Z and the capital letters
    of the Latin-1 supplement (0xC0-0xDE but the sign 0xD7) move up by 0x20. *)
Definition toLowerCase_char (c : ascii) : ascii :=
  let n := Z.of_N (N_of_ascii c) in
  if inRange n 0x41 0x5A || (inRange n 0xC0 0xDE && negb (n =? 0xD7))
  then ascii_of_N (Z.to_N (n + 0x20))
  else c.

Fixpoint toLowerCase (s : string) : string :=
  match s with
  | EmptyString => EmptyString
  | String c rest => String (toLowerCase_char c) (toLowerCase rest)
  end.

Record TextDecoder : Type := mk_TextDecoder {
  td_encoding : string;
  td_fatal : bool;
  td_ignoreBOM : bool
}.

(** [str.endsWith(suffix)] *)
Definition endsWith (s suffix : string) : bool :=
  let n := String.length s in
  let k := String.length suffix in
  (k <=? n)%nat && String.eqb (String.substring (n - k) k s) suffix.

(** [new TextDecoder(label, { fatal, ignoreBOM })] *)
Definition TextDecoder_new (label : string) (fatal ignoreBOM : bool)
  : result TextDecoder :=
  let _label := toLowerCase (trimAsciiWhitespace label) in
  match Map_get encodings _label with
  | None => Err InvalidLabel
  | Some encoding =>
      if String.eqb encoding "" then Err InvalidLabel
      else if negb (Map_has decoders encoding)
              && negb (existsb (String.eqb encoding)
                               ["utf-16le"; "utf-16be"; "utf-8"; "big5"]%string)
      then Err DecoderNotFound
      else Ok (mk_TextDecoder encoding fatal ignoreBOM)
  end.

Section Host.

(** [Deno.core.decode] and [Deno.core.encode], the host's UTF-8 fast
    paths, are not part of this module. *)
Variable core_decode : list byte -> list Z.
Variable core_encode : list Z -> list byte.

(** [f.apply(null, arr)] hands the elements of [arr] to [f] as the
    arguments of one call. An engine takes only so many arguments and
    throws a [RangeError] past them; how many is the host's affair. The
    module itself calls [String.fromCharCode.apply] on the 1024 elements
    of the buffer of [decodeUtf8]: the engine takes [more_arguments]
    beyond those. *)
Variable more_arguments : nat.

Definition max_arguments : Z := 1024 + Z.of_nat more_arguments.

(** [String.fromCharCode.apply(null, arr)], [chars] being what
    [String.fromCharCode] makes of the elements. *)
Definition fromCharCode_apply {A} (chars : list A -> list Z) (arr : list A)
  : result (list Z) :=
  if Z.of_nat (List.length arr) >? max_arguments then Err TooManyArguments
  else Ok (chars arr).

(** [decode(input, { stream })] on a [Uint8Array]. *)
Definition TextDecoder_decode (this : TextDecoder) (input : list byte) (stream : bool)
  : result (list Z) :=
  if stream then Err StreamNotSupported
  else
    let bytes := input in
    let encoding := td_encoding this in
    if String.eqb encoding "utf-8" && negb (td_fatal this) && negb (td_ignoreBOM this)
    then Ok (core_decode bytes)
    else if String.eqb encoding "utf-8"
    then decodeUtf8 bytes (td_fatal this) (td_ignoreBOM this)
    else if String.eqb encoding "utf-16le" || String.eqb encoding "utf-16be" then
      res <- Utf16ByteDecoder bytes (endsWith encoding "be")
                              (td_fatal this) (td_ignoreBOM this) ;;
      fromCharCode_apply fromCharCode res
    else if String.eqb encoding "big5" then
      match Map_get encodingIndexes "big5" with
      | None => Err NotAFunction
      | Some big5 =>
          res <- Big5Decoder big5 bytes (td_fatal this) (td_ignoreBOM this) ;;
          fromCharCode_apply fromCharCode_vals res
      end
    else
      match Map_get decoders encoding with
      | None => Err NotAFunction
      | Some make =>
          decoder <- make (td_ignoreBOM this) (td_fatal this) ;;
          let inputStream := Stream_new (map byteZ bytes) in
          output <- decode_loop decoder inputStream [] ;;
          let output :=
            match output with
            | first :: rest => if first =? 0xfeff then rest else output
            | [] => output
            end in
          codePointsToString output
      end.

(** [new TextDecoder(label, { fatal, ignoreBOM }).decode(bytes)] *)
Definition Decode (bytes : list byte) (label : string) (fatal ignoreBOM : bool)
  : result (list Z) :=
  decoder <- TextDecoder_new label fatal ignoreBOM ;;
  TextDecoder_decode decoder bytes false.

(** [encode(input)] of a [TextEncoder] whose public field [encoding] holds
    [encoding]. *)
Definition TextEncoder_encode (encoding : string) (input : list Z) : result (list byte) :=
  if String.eqb encoding "utf-8" then Ok (core_encode input)
  else
    output <- encode_loop (Stream_new (stringToCodePoints input)) [] ;;
    Ok (Uint8Array_from output).

End Host.

(** The handler path of [TextEncoder.encode], past the host fast path. *)
Definition UTF8_encode (input : list Z) : result (list byte) :=
  output <- encode_loop (Stream_new (stringToCodePoints input)) [] ;;
  Ok (Uint8Array_from output).

(** * Models and predicates of the statements *)

(** ** Big5: special pointers, unmapped entries, entries above 0xFFFF *)


Definition Big5_special (p : Z) : Prop :=
  p = 1133 \/ p = 1135 \/ p = 1164 \/ p = 1166.

(** ** base64: the round trip *)


(** The alphabet, read at a 6-bit value. *)
Definition b64char (d : Z) : Z := nth (Z.to_nat d) lookup 0.

Fixpoint Zrange (n : nat) : list Z :=
  match n with
  | O => []
  | S n' => Zrange n' ++ [Z.of_nat n']
  end.

Definition option_eqb (o : option Z) (v : Z) : bool :=
  match o with
  | Some x => x =? v
  | None => false
  end.

Definition triple_tmp (a b c : byte) : Z :=
  Z.land (Z.shiftl (byteZ a) 16) 0xff0000
  + Z.land (Z.shiftl (byteZ b) 8) 0xff00
  + Z.land (byteZ c) 0xff.

Definition enc_triple (t : byte * byte * byte) : list Z :=
  let '(a, b, c) := t in tripletToBase64 (triple_tmp a b c).

Fixpoint flatten3 (ts : list (byte * byte * byte)) : list byte :=
  match ts with
  | [] => []
  | (a, b, c) :: rest => a :: b :: c :: flatten3 rest
  end.

(** A list of bytes as full triples and a rest of at most two bytes. *)
Fixpoint triples (bytes : list byte) : list (byte * byte * byte) * list byte :=
  match bytes with
  | a :: b :: c :: rest => let (ts, tl) := triples rest in ((a, b, c) :: ts, tl)
  | other => ([], other)
  end.

(** The encoding of the last one or two bytes. *)
Definition enc_tail (tl : list byte) : list Z :=
  match tl with
  | [x] =>
      let tmp := byteZ x in
      lookup_at (Z.shiftr tmp 2) ++ lookup_at (Z.land (Z.shiftl tmp 4) 0x3f)
      ++ codeUnits "=="
  | [x; y] =>
      let tmp := Z.shiftl (byteZ x) 8 + byteZ y in
      lookup_at (Z.shiftr tmp 10) ++ lookup_at (Z.land (Z.shiftr tmp 4) 0x3f)
      ++ lookup_at (Z.land (Z.shiftl tmp 2) 0x3f) ++ codeUnits "="
  | _ => []
  end.

Definition all_bytes : list byte := map ToUint8 (Zrange 256).

Definition tail1_ok (x : byte) : bool :=
  match enc_tail [x] with
  | [c0; c1; c2; c3] =>
      negb (c0 =? EQ) && negb (c1 =? EQ) && (c2 =? EQ) && (c3 =? EQ)
      && Byte.eqb
           (ToUint8 (Z.land (Z.lor (Z.shiftl (rev_at [c0; c1; c2; c3] 0) 2)
                                   (Z.shiftr (rev_at [c0; c1; c2; c3] 1) 4)) 0xff)) x
  | _ => false
  end.

Definition tail2_ok (x y : byte) : bool :=
  match enc_tail [x; y] with
  | [c0; c1; c2; c3] =>
      let tmp := Z.lor (Z.lor (Z.shiftl (rev_at [c0; c1; c2; c3] 0) 10)
                              (Z.shiftl (rev_at [c0; c1; c2; c3] 1) 4))
                       (Z.shiftr (rev_at [c0; c1; c2; c3] 2) 2) in
      negb (c0 =? EQ) && negb (c1 =? EQ) && negb (c2 =? EQ) && (c3 =? EQ)
      && Byte.eqb (ToUint8 (Z.land (Z.shiftr tmp 8) 0xff)) x
      && Byte.eqb (ToUint8 (Z.land tmp 0xff)) y
  | _ => false
  end.

(** ** Label resolution *)


Definition is_ws (c : ascii) : bool := existsb (Ascii.eqb c) whitespace.

(** The resolver in the words of the specification: white space trimmed
    from both ends, lower case, a look-up in the alias table. *)
Fixpoint trim_start (s : string) : string :=
  match s with
  | EmptyString => EmptyString
  | String c rest => if is_ws c then trim_start rest else s
  end.

Fixpoint trim_end (s : string) : string :=
  match s with
  | EmptyString => EmptyString
  | String c rest =>
      match trim_end rest with
      | EmptyString => if is_ws c then EmptyString else String c EmptyString
      | String c' rest' => String c (String c' rest')
      end
  end.

Definition spec_trim (s : string) : string := trim_end (trim_start s).

Definition spec_Resolve (label : string) : result string :=
  match Map_get encodings (toLowerCase (spec_trim label)) with
  | Some encoding => Ok encoding
  | None => Err InvalidLabel
  end.

Fixpoint all_ws (s : string) : bool :=
  match s with
  | EmptyString => true
  | String c rest => is_ws c && all_ws rest
  end.

Definition code_start_idx (s : string) : option Z :=
  for_in_first s (fun i => negb (whitespace_includes (str_at s i))).

Definition code_end_idx (s : string) : option Z :=
  for_in_first s
    (fun _i => negb (whitespace_includes
                       (str_at s (Z.of_nat (String.length s) - 1 - _i)))).

Definition starts_without_ws (s : string) : bool :=
  match s with
  | EmptyString => false
  | String c _ => negb (is_ws c)
  end.

(** [new TextDecoder(label).encoding] *)
Definition Resolve (label : string) : result string :=
  decoder <- TextDecoder_new label false false ;;
  Ok (td_encoding decoder).

(** ** decodeUtf8: the output buffer *)


(** The text decoded so far: what was flushed, then the filled part of
    the buffer. *)
Definition utf8_view (st : utf8_state) : list Z :=
  u8_outString st ++ fromCharCode (firstn (Z.to_nat (u8_outIndex st)) (u8_outBuffer st)).

(** The buffer is never full between two writes. *)
Definition utf8_buf_ok (outBufferLength : Z) (st : utf8_state) : Prop :=
  0 <= u8_outIndex st < outBufferLength
  /\ Z.of_nat (List.length (u8_outBuffer st)) = outBufferLength.

(** The decoder with the text decoded so far in place of the buffer. *)
Record utf8_abs : Type := mk_abs {
  a_out : list Z;
  a_state : Z;
  a_codepoint : Z
}.

Definition utf8_abs_of (st : utf8_state) : utf8_abs :=
  mk_abs (utf8_view st) (u8_state st) (u8_codepoint st).

Definition abs_put (st : utf8_abs) (v : Z) : utf8_abs :=
  mk_abs (a_out st ++ [ToUint16 v]) (a_state st) (a_codepoint st).

Definition utf8_type (byte : Z) : Z := nth (Z.to_nat byte) utf8_type_table 0.

Definition utf8_next (state type : Z) : Z := nth (Z.to_nat (state + type)) utf8_state_table 0.

Definition utf8_bad (state byte : Z) : bool :=
  (state =? 12) || (negb (state =? 0) && negb (Z.land byte 0xc0 =? 0x80)).

(** The pass of the loop once the error handling is done. *)
Definition abs_step (st : utf8_abs) (byte : Z) : utf8_abs :=
  let type := utf8_type byte in
  let codepoint :=
    if negb (a_state st =? 0)
    then Z.lor (Z.land byte 0x3f) (shl32 (a_codepoint st) 6)
    else Z.land (Z.shiftr 0xff type) byte in
  let state := utf8_next (a_state st) type in
  let st := mk_abs (a_out st) state codepoint in
  if negb (state =? 0) then st
  else if codepoint >? 0xffff then
    abs_put (abs_put st (0xd7c0 + Z.shiftr codepoint 10))
            (Z.lor 0xdc00 (Z.land codepoint 0x3ff))
  else abs_put st codepoint.

Definition abs_iter (fatal : bool) (st : utf8_abs) (byte : Z) : result utf8_abs :=
  st <- (if utf8_bad (a_state st) byte
         then if fatal then Err DecoderError
              else Ok (mk_abs (a_out st ++ [0xfffd]) 0 (a_codepoint st))
         else Ok st) ;;
  Ok (abs_step st byte).

Fixpoint abs_loop (fatal : bool) (input : list byte) (st : utf8_abs) : result utf8_abs :=
  match input with
  | [] => Ok st
  | byte :: rest => st' <- abs_iter fatal st (byteZ byte) ;; abs_loop fatal rest st'
  end.

Definition abs_finish (fatal : bool) (st : utf8_abs) : result (list Z) :=
  if negb (a_state st =? 0) then
    if fatal then Err DecoderError else Ok (a_out st ++ [0xfffd])
  else Ok (a_out st).

Definition dec_step (L : Z) (st : utf8_state) (byte : Z) : utf8_state :=
  let type := nth (Z.to_nat byte) utf8_type_table 0 in
  let codepoint :=
    if negb (u8_state st =? 0)
    then Z.lor (Z.land byte 0x3f) (shl32 (u8_codepoint st) 6)
    else Z.land (Z.shiftr 0xff type) byte in
  let state := nth (Z.to_nat (u8_state st + type)) utf8_state_table 0 in
  let st := utf8_set_state st state codepoint in
  if negb (state =? 0) then st
  else if codepoint >? 0xffff then
    utf8_put L (utf8_put L st (0xd7c0 + Z.shiftr codepoint 10))
             (Z.lor 0xdc00 (Z.land codepoint 0x3ff))
  else utf8_put L st codepoint.

(** The bytes the loop runs on, the byte-order mark skipped. *)
Definition utf8_skip_bom (input : list byte) (ignoreBOM : bool) : list byte :=
  skipn (if negb ignoreBOM && opt_eqb (Uint8_at input 0) 0xef
            && opt_eqb (Uint8_at input 1) 0xbb && opt_eqb (Uint8_at input 2) 0xbf
         then 3%nat else 0%nat) input.

(** ** The automaton of decodeUtf8, by ranges of bytes *)


Definition is_cont (b : Z) : bool := inRange b 0x80 0xBF.

Definition spec_next (state b : Z) : Z :=
  if state =? 0 then
    if b <=? 0x7F then 0
    else if inRange b 0xC2 0xDF then 24
    else if b =? 0xE0 then 48
    else if inRange b 0xE1 0xEC || inRange b 0xEE 0xEF then 36
    else if b =? 0xED then 60
    else if b =? 0xF0 then 72
    else if inRange b 0xF1 0xF3 then 84
    else if b =? 0xF4 then 96
    else 12
  else if state =? 24 then if is_cont b then 0 else 12
  else if state =? 36 then if is_cont b then 24 else 12
  else if state =? 48 then if inRange b 0xA0 0xBF then 24 else 12
  else if state =? 60 then if inRange b 0x80 0x9F then 24 else 12
  else if state =? 72 then if inRange b 0x90 0xBF then 36 else 12
  else if state =? 84 then if is_cont b then 36 else 12
  else if state =? 96 then if inRange b 0x80 0x8F then 36 else 12
  else 12.

(** The code point bits of a lead byte. *)
Definition spec_init (b : Z) : Z :=
  if b <=? 0x7F then b
  else if b <=? 0xDF then b - 0xC0
  else if b <=? 0xEF then b - 0xE0
  else b - 0xF0.

Definition live_states : list Z := [0; 24; 36; 48; 60; 72; 84; 96].

(** ** UTF-8: encoding one code point and decoding it back *)

(** The bytes [UTF8Encoder.handler] yields for a code point. *)
Definition utf8_bytes (cp : Z) : list Z :=
  if cp <=? 0x7f then [cp]
  else if cp <=? 0x7ff then [cp / 64 + 0xc0; 0x80 + cp mod 64]
  else if cp <=? 0xffff
       then [cp / 4096 + 0xe0; 0x80 + (cp / 64) mod 64; 0x80 + cp mod 64]
       else [cp / 262144 + 0xf0; 0x80 + (cp / 4096) mod 64;
             0x80 + (cp / 64) mod 64; 0x80 + cp mod 64].

(** ** Well-formed input of each decoder *)

(** *** UTF-8: the well-formed byte sequences of the Unicode standard *)


Definition bcont (b : byte) : Prop := 0x80 <= byteZ b <= 0xBF.

Definition utf8_second3 (b0 b1 : Z) : Prop :=
  (b0 = 0xE0 /\ 0xA0 <= b1 <= 0xBF)
  \/ (0xE1 <= b0 <= 0xEC /\ 0x80 <= b1 <= 0xBF)
  \/ (b0 = 0xED /\ 0x80 <= b1 <= 0x9F)
  \/ (0xEE <= b0 <= 0xEF /\ 0x80 <= b1 <= 0xBF).

Definition utf8_second4 (b0 b1 : Z) : Prop :=
  (b0 = 0xF0 /\ 0x90 <= b1 <= 0xBF)
  \/ (0xF1 <= b0 <= 0xF3 /\ 0x80 <= b1 <= 0xBF)
  \/ (b0 = 0xF4 /\ 0x80 <= b1 <= 0x8F).

Inductive wf_utf8 : list byte -> Prop :=
| wf8_nil : wf_utf8 []
| wf8_1 b rest :
    byteZ b <= 0x7F -> wf_utf8 rest -> wf_utf8 (b :: rest)
| wf8_2 b0 b1 rest :
    0xC2 <= byteZ b0 <= 0xDF -> bcont b1 -> wf_utf8 rest -> wf_utf8 (b0 :: b1 :: rest)
| wf8_3 b0 b1 b2 rest :
    utf8_second3 (byteZ b0) (byteZ b1) -> bcont b2 -> wf_utf8 rest ->
    wf_utf8 (b0 :: b1 :: b2 :: rest)
| wf8_4 b0 b1 b2 b3 rest :
    utf8_second4 (byteZ b0) (byteZ b1) -> bcont b2 -> bcont b3 -> wf_utf8 rest ->
    wf_utf8 (b0 :: b1 :: b2 :: b3 :: rest).

(** The states of the automaton alone, in fatal mode. *)
Fixpoint ctl_run (state : Z) (bytes : list byte) : bool :=
  match bytes with
  | [] => state =? 0
  | b :: rest =>
      if utf8_bad state (byteZ b) then false
      else ctl_run (utf8_next state (utf8_type (byteZ b))) rest
  end.

(** What is still to come for the input to be well formed, in each state. *)
Definition need (state : Z) (bytes : list byte) : Prop :=
  if state =? 0 then wf_utf8 bytes
  else if state =? 24 then
    exists b1 r, bytes = b1 :: r /\ bcont b1 /\ wf_utf8 r
  else if state =? 36 then
    exists b1 b2 r, bytes = b1 :: b2 :: r /\ bcont b1 /\ bcont b2 /\ wf_utf8 r
  else if state =? 48 then
    exists b1 b2 r, bytes = b1 :: b2 :: r /\ 0xA0 <= byteZ b1 <= 0xBF /\ bcont b2
                    /\ wf_utf8 r
  else if state =? 60 then
    exists b1 b2 r, bytes = b1 :: b2 :: r /\ 0x80 <= byteZ b1 <= 0x9F /\ bcont b2
                    /\ wf_utf8 r
  else if state =? 72 then
    exists b1 b2 b3 r, bytes = b1 :: b2 :: b3 :: r /\ 0x90 <= byteZ b1 <= 0xBF
                       /\ bcont b2 /\ bcont b3 /\ wf_utf8 r
  else if state =? 84 then
    exists b1 b2 b3 r, bytes = b1 :: b2 :: b3 :: r /\ bcont b1
                       /\ bcont b2 /\ bcont b3 /\ wf_utf8 r
  else if state =? 96 then
    exists b1 b2 b3 r, bytes = b1 :: b2 :: b3 :: r /\ 0x80 <= byteZ b1 <= 0x8F
                       /\ bcont b2 /\ bcont b3 /\ wf_utf8 r
  else False.

(** *** UTF-16: code units, byte-order marks dropped, surrogates paired *)


(** The code units of the input, [None] when a byte is left over. *)
Fixpoint utf16_units (be : bool) (bytes : list byte) : option (list Z) :=
  match bytes with
  | [] => Some []
  | b1 :: rest1 =>
      match rest1 with
      | [] => None
      | b2 :: rest =>
          option_map (cons (Utf16_codeUnit be (byteZ b1) (byteZ b2))) (utf16_units be rest)
      end
  end.

(** The units the decoder passes over: byte-order marks, unless kept. *)
Definition utf16_kept (ignoreBOM : bool) (u : Z) : bool :=
  negb ((u =? 65279) && negb ignoreBOM).

Inductive wf_utf16_units : list Z -> Prop :=
| wf16_nil : wf_utf16_units []
| wf16_one u rest :
    ~ (0xD800 <= u <= 0xDFFF) -> wf_utf16_units rest -> wf_utf16_units (u :: rest)
| wf16_pair h l rest :
    0xD800 <= h <= 0xDBFF -> 0xDC00 <= l <= 0xDFFF -> wf_utf16_units rest ->
    wf_utf16_units (h :: l :: rest).


(** What is still to come, with or without a high surrogate pending. *)
Definition need16 (leadSurrogate : option Z) (units : list Z) : Prop :=
  match leadSurrogate with
  | None => wf_utf16_units units
  | Some _ => exists l rest, units = l :: rest /\ 0xDC00 <= l <= 0xDFFF
                             /\ wf_utf16_units rest
  end.

Definition Utf16_finish (fatal : bool) (st : utf16_state) : result (list Z) :=
  if negb (is_none (u16_leadByte st) && is_none (u16_leadSurrogate st)) then
    e <- decoderError fatal ;; Ok (u16_result st ++ [e])
  else Ok (u16_result st).

Definition utf16_accepts (be ignoreBOM : bool) (leadSurrogate : option Z)
           (bytes : list byte) : Prop :=
  exists units,
    utf16_units be bytes = Some units
    /\ need16 leadSurrogate (filter (utf16_kept ignoreBOM) units).


(** *** Big5: ASCII bytes and mapped lead/trail pairs *)


(** The pair selects a special pointer or an entry of the table that is
    not [null]. *)
Definition Big5_mapped (big5 : list (option Z)) (lead trail : Z) : Prop :=
  exists p, Big5_pointer lead trail = Some p
            /\ (Big5_special p \/ index_get big5 p <> JNull).

Inductive wf_big5 (big5 : list (option Z)) : list byte -> Prop :=
| wfb_nil : wf_big5 big5 []
| wfb_ascii b rest :
    isASCIIByte (byteZ b) = true -> wf_big5 big5 rest -> wf_big5 big5 (b :: rest)
| wfb_pair lead trail rest :
    inRange (byteZ lead) 0x81 0xFE = true ->
    Big5_mapped big5 (byteZ lead) (byteZ trail) ->
    wf_big5 big5 rest ->
    wf_big5 big5 (lead :: trail :: rest).

Definition need_big5 (big5 : list (option Z)) (lead : Z) (bytes : list byte) : Prop :=
  if lead =? 0 then wf_big5 big5 bytes
  else exists trail rest,
      bytes = trail :: rest /\ Big5_mapped big5 lead (byteZ trail) /\ wf_big5 big5 rest.

Definition Big5_finish (fatal : bool) (st : big5_state) : result (list jsval) :=
  if negb (b5_lead st =? 0x00) then
    e <- decoderError fatal ;;
    Ok (b5_res st ++ [JNum e])
  else Ok (b5_res st).

(** *** Single-byte encodings: every byte is ASCII or has an index entry *)


Definition single_mapped (index : list (option Z)) (b : byte) : Prop :=
  isASCIIByte (byteZ b) = true
  \/ exists codePoint, index_get index (byteZ b - 0x80) = JNum codePoint.

Definition wf_single (index : list (option Z)) (bytes : list byte) : Prop :=
  Forall (single_mapped index) bytes.

(** The entries of an index are code points. *)
Definition index_ok (index : list (option Z)) : bool :=
  forallb (fun entry => match entry with
                        | Some codePoint => inRange codePoint 0 0x10FFFF
                        | None => true
                        end) index.

(** What [TextDecoder.decode] does with the code points of the loop. *)
Definition strip_BOM (output : list Z) : list Z :=
  match output with
  | first :: rest => if first =? 0xfeff then rest else output
  | [] => output
  end.

(** The loop, by recursion on the tokens still to be read. *)
Fixpoint decode_tokens (decoder : SingleByteDecoder) (tokens output : list Z)
  : result (list Z) :=
  match tokens with
  | [] => Ok output
  | token :: rest =>
      res <- SingleByteDecoder_handler decoder token ;;
      if res =? FINISHED then Ok output
      else decode_tokens decoder rest (output ++ [res])
  end.

Definition code_point (cp : Z) : Prop := 0 <= cp <= 0x10FFFF.

(** The single-byte branch of [TextDecoder.decode]. *)
Definition decode_single (index : list (option Z)) (bytes : list byte)
    (fatal ignoreBOM : bool) : result (list Z) :=
  decoder <- SingleByteDecoder_new index ignoreBOM fatal ;;
  output <- decode_loop decoder (Stream_new (map byteZ bytes)) [] ;;
  codePointsToString (strip_BOM output).

(** *** The decoders of [decoders] are those of the index tables *)

Definition make_decoder (index : list (option Z)) (ignoreBOM fatal : bool)
  : result SingleByteDecoder :=
  SingleByteDecoder_new index ignoreBOM fatal.

(** *** [TextDecoder.decode], encoding by encoding *)


(** The encodings whose decoder takes the [ignoreBOM] option; the others
    throw a [TypeError] when it is set. *)
Definition takes_ignoreBOM (encoding : string) : bool :=
  String.eqb encoding "utf-8" || String.eqb encoding "utf-16le"
  || String.eqb encoding "utf-16be".



(** * Models and predicates of the further properties *)

(** ** base64: the shape of the encoding, lengths, atob after btoa *)

(** The encoding of one or two bytes left over: two or three characters
    of the alphabet, then the padding. *)
Definition tail1_shape (x : byte) : bool :=
  match enc_tail [x] with
  | [c0; c1; c2; c3] => is_atob_char c0 && is_atob_char c1 && (c2 =? EQ) && (c3 =? EQ)
  | _ => false
  end.

Definition tail2_shape (x y : byte) : bool :=
  match enc_tail [x; y] with
  | [c0; c1; c2; c3] =>
      is_atob_char c0 && is_atob_char c1 && is_atob_char c2 && (c3 =? EQ)
  | _ => false
  end.

(** *** URL-safe characters *)

(** [-] for [+] and [_] for [/]. *)
Definition url_safe (c : Z) : Z :=
  if c =? 43 then 45 else if c =? 47 then 95 else c.

(** ** Strings and code points *)

(** A string is a list of UTF-16 code units. *)
Definition code_unit (c : Z) : Prop := 0 <= c <= 0xFFFF.

(** A Unicode scalar value: a code point that is not a surrogate. *)
Definition scalar_value (cp : Z) : Prop :=
  0 <= cp <= 0x10FFFF /\ ~ (0xD800 <= cp <= 0xDFFF).

(** The handler loop of the encoder, by recursion on the tokens to read. *)
Fixpoint encode_tokens (tokens output : list Z) : result (list Z) :=
  match tokens with
  | [] => Ok output
  | token :: rest =>
      res <- UTF8Encoder_handler token ;;
      match res with
      | None => Ok output
      | Some res => encode_tokens rest (output ++ res)
      end
  end.

(** ** The UTF-8 encoder on whole strings *)

(** The bytes of [UTF8_encode], for a string. *)
Definition utf8_of_string (s : list Z) : list byte :=
  Uint8Array_from (List.concat (map utf8_bytes (stringToCodePoints s))).

(** ** decodeUtf8 on the encoding of a string *)

(** The text decoded before a run of the loop is carried along. *)
Definition abs_shift (pre : list Z) (st : utf8_abs) : utf8_abs :=
  mk_abs (pre ++ a_out st) (a_state st) (a_codepoint st).

(** ** decodeUtf8: prefixes, the byte-order mark, the length of the text *)

(** The text decoded and the sequence under way never outrun the bytes
    read. *)
Definition abs_weight (st : utf8_abs) : Z :=
  Z.of_nat (List.length (a_out st)) + (if a_state st =? 0 then 0 else 1).

(** ** TextEncoder.encodeInto *)

(** [dest.set(source, offset)] on a [Uint8Array]: it throws a [RangeError]
    ([None]) when the source does not fit at the offset. *)
Definition Uint8Array_set (dest : list byte) (source : list Z) (offset : Z)
  : option (list byte) :=
  if (offset <? 0) || (Z.of_nat (List.length dest) <? offset + Z.of_nat (List.length source))
  then None
  else Some (firstn (Z.to_nat offset) dest ++ map ToUint8 source
             ++ skipn (Z.to_nat offset + List.length source) dest).

(** [read], [written] and the contents of [dest]. *)
Record encodeInto_state : Type := mk_encodeInto {
  ei_read : Z;
  ei_written : Z;
  ei_dest : list byte
}.

(** What [encodeInto] can throw: what the handler throws, and the
    [RangeError] of [dest.set]. *)
Inductive encodeInto_thrown : Type :=
| Thrown_by_handler (e : error)
| Thrown_by_set.

(** The [while (true)] loop of [encodeInto]. *)
Equations? encodeInto_loop (inputStream : Stream) (st : encodeInto_state)
  : encodeInto_thrown + encodeInto_state by wf (List.length inputStream) lt :=
  encodeInto_loop inputStream st with inspect (Stream_read inputStream) => {
    | exist _ (item, inputStream') Hread with inspect (UTF8Encoder_handler item) => {
        | exist _ (Err e) _ => inl (Thrown_by_handler e)
        | exist _ (Ok None) _ => inr st
        | exist _ (Ok (Some result)) Hres
            with Z_ge_dec (Z.of_nat (List.length (ei_dest st)) - ei_written st)
                          (Z.of_nat (List.length result)) => {
            | right _ => inr st
            | left _ with Uint8Array_set (ei_dest st) result (ei_written st) => {
                | None => inl Thrown_by_set
                | Some dest =>
                    let read := ei_read st + 1 in
                    let read := if item >? 0xFFFF then read + 1 else read in
                    encodeInto_loop inputStream'
                      (mk_encodeInto read (ei_written st + Z.of_nat (List.length result))
                                     dest) } } } }.
Proof.
  apply (Stream_read_shorter _ _ _ Hread).
  intros ->. unfold UTF8Encoder_handler in Hres.
  rewrite Z.eqb_refl in Hres. discriminate.
Qed.

(** [encodeInto(input, dest)] with a [Uint8Array] for [dest]. *)
Definition encodeInto (input : list Z) (dest : list byte)
  : encodeInto_thrown + encodeInto_state :=
  let inputStream := Stream_new (stringToCodePoints input) in
  encodeInto_loop inputStream (mk_encodeInto 0 0 dest).

(** The loop, by recursion on the tokens still to be read. *)
Fixpoint encodeInto_tokens (tokens : list Z) (st : encodeInto_state)
  : encodeInto_thrown + encodeInto_state :=
  match tokens with
  | [] => inr st
  | item :: rest =>
      match UTF8Encoder_handler item with
      | Err e => inl (Thrown_by_handler e)
      | Ok None => inr st
      | Ok (Some result) =>
          if Z.of_nat (List.length (ei_dest st)) - ei_written st
             >=? Z.of_nat (List.length result)
          then match Uint8Array_set (ei_dest st) result (ei_written st) with
               | None => inl Thrown_by_set
               | Some dest =>
                   let read := ei_read st + 1 in
                   let read := if item >? 0xFFFF then read + 1 else read in
                   encodeInto_tokens rest
                     (mk_encodeInto read (ei_written st + Z.of_nat (List.length result))
                                    dest)
               end
          else inr st
      end
  end.

(** ** Single-byte encodings: one code unit for each byte *)

(** The code unit a single-byte decoder answers for a byte in non-fatal
    mode. *)
Definition single_char (index : list (option Z)) (b : byte) : Z :=
  if isASCIIByte (byteZ b) then byteZ b
  else match index_get index (byteZ b - 0x80) with
       | JNum codePoint => codePoint
       | JNull => 0xfffd
       | JUndefined => 0xfffd
       end.

(** The entries of an index lie in the Basic Multilingual Plane and none
    is U+FEFF. *)
Definition index_bmp (index : list (option Z)) : bool :=
  forallb (fun entry => match entry with
                        | Some codePoint =>
                            inRange codePoint 0 0xFFFF && negb (codePoint =? 0xFEFF)
                        | None => true
                        end) index.

(** ** ASCII bytes decode to themselves *)

Definition ascii_bytes (bytes : list byte) : Prop :=
  Forall (fun b => byteZ b <= 0x7F) bytes.

(** ** Big5: what well-formed input decodes to *)

(** The value of a lead and trail pair: one of the four pointers set
    apart, or the entry of the index. *)
Definition Big5_pair (big5 : list (option Z)) (lead trail : Z) : jsval :=
  let pointer := Big5_pointer lead trail in
  if pointer_eqb pointer 1133 || pointer_eqb pointer 1135 then JNum 202
  else if pointer_eqb pointer 1164 || pointer_eqb pointer 1166 then JNum 234
  else Big5_code big5 pointer.

(** An ASCII byte for itself, a lead byte with the byte after it. *)
Fixpoint Big5_values (big5 : list (option Z)) (bytes : list byte) : list jsval :=
  match bytes with
  | [] => []
  | b :: rest =>
      if isASCIIByte (byteZ b) then JNum (byteZ b) :: Big5_values big5 rest
      else match rest with
           | trail :: rest' =>
               Big5_pair big5 (byteZ b) (byteZ trail) :: Big5_values big5 rest'
           | [] => []
           end
  end.

(** The values still to come, with or without a lead byte pending. *)
Definition Big5_pending (big5 : list (option Z)) (lead : Z) (bytes : list byte)
  : list jsval :=
  if lead =? 0 then Big5_values big5 bytes
  else match bytes with
       | trail :: rest => Big5_pair big5 lead (byteZ trail) :: Big5_values big5 rest
       | [] => []
       end.

(** ** The labels of encodingMap *)

(** What resolving a label of [key] is to give: the key, or the refusal
    of an encoding without a decoder. *)
Definition resolves_to (r : result string) (key : string) : bool :=
  match r with
  | Ok encoding =>
      negb (String.eqb key "gbk" || String.eqb key "gb18030") && String.eqb encoding key
  | Err DecoderNotFound => String.eqb key "gbk" || String.eqb key "gb18030"
  | Err _ => false
  end.

(** * Models and predicates of the error handling *)

(** ** Base64 as RFC 4648 defines it *)

(** Table 1 of the RFC: the character of a 6-bit value. *)
Definition base64_digit (d : Z) : Z :=
  if d <? 26 then 65 + d                (* A-Z *)
  else if d <? 52 then 97 + (d - 26)    (* a-z *)
  else if d <? 62 then 48 + (d - 52)    (* 0-9 *)
  else if d =? 62 then 43               (* + *)
  else 47                               (* / *).

(** Section 4 of the RFC: three bytes make a group of 24 bits, written as
    four 6-bit values; one or two bytes at the end are filled with zero
    bits up to a multiple of six and written with two or one [=]. *)
Fixpoint base64_encoding (bytes : list byte) : list Z :=
  match bytes with
  | [] => []
  | [a] =>
      let n := byteZ a * 16 in
      [base64_digit (n / 64); base64_digit (n mod 64); 61; 61]
  | [a; b] =>
      let n := (byteZ a * 256 + byteZ b) * 4 in
      [base64_digit (n / 4096); base64_digit (n / 64 mod 64); base64_digit (n mod 64); 61]
  | a :: b :: c :: rest =>
      let n := byteZ a * 65536 + byteZ b * 256 + byteZ c in
      base64_digit (n / 262144) :: base64_digit (n / 4096 mod 64)
      :: base64_digit (n / 64 mod 64) :: base64_digit (n mod 64)
      :: base64_encoding rest
  end.

(** ** Reading with replacement *)









(** ** UTF-8 read with replacement *)


(** The loop and what follows it. *)
Definition abs_run (bytes : list byte) (st : utf8_abs) : result (list Z) :=
  st' <- abs_loop false bytes st ;; abs_finish false st'.

(** ** UTF-16 read with replacement *)






(** ** TextDecoder.decode: errors and replacement *)





(** * Unfolding equations of the loops *)


Ltac rewrite_rhs H :=
  match goal with
  | |- ?L = _ => let lhs := fresh "lhs" in set (lhs := L); rewrite H; subst lhs
  end.

Ltac on_lhs tac :=
  match goal with
  | |- _ = ?R => let rhs := fresh "rhs" in set (rhs := R); tac; subst rhs
  end.

Lemma bind_Ok {A B} (a : A) (k : A -> result B) : bind (Ok a) k = k a.
Proof. reflexivity. Qed.

Lemma bind_Err {A B} (e : error) (k : A -> result B) : bind (Err e) k = Err e.
Proof. reflexivity. Qed.

Lemma Big5_loop_eq big5 bytes fatal st :
  Big5_loop big5 bytes fatal st =
  if b5_i st <? Z.of_nat (List.length bytes)
  then st' <- Big5_iter big5 bytes fatal st ;; Big5_loop big5 bytes fatal st'
  else Ok st.
Proof.
  on_lhs ltac:(simp Big5_loop).
  destruct (Z_lt_dec (b5_i st) (Z.of_nat (List.length bytes))) as [H|H];
    cbn -[inspect Big5_loop].
  - rewrite (proj2 (Z.ltb_lt _ _) H).
    generalize (inspect (Big5_iter big5 bytes fatal st)).
    intros [[st'|e] Hst]; rewrite_rhs Hst; reflexivity.
  - rewrite (proj2 (Z.ltb_nlt _ _) H). reflexivity.
Qed.

Lemma decode_loop_eq decoder inputStream output :
  decode_loop decoder inputStream output =
  let (token, inputStream') := Stream_read inputStream in
  res <- SingleByteDecoder_handler decoder token ;;
  if res =? FINISHED then Ok output
  else decode_loop decoder inputStream' (output ++ [res]).
Proof.
  on_lhs ltac:(simp decode_loop).
  generalize (inspect (Stream_read inputStream)).
  intros [[token inputStream'] Hread]. rewrite_rhs Hread. cbn -[inspect decode_loop encode_loop].
  generalize (inspect (SingleByteDecoder_handler decoder token)).
  intros [[res|e] Hres]; rewrite_rhs Hres; cbn; [|reflexivity].
  destruct (Z.eq_dec res FINISHED) as [H|H]; cbn.
  - now rewrite (proj2 (Z.eqb_eq _ _) H).
  - now rewrite (proj2 (Z.eqb_neq _ _) H).
Qed.

Lemma encode_loop_eq inputStream output :
  encode_loop inputStream output =
  let (token, inputStream') := Stream_read inputStream in
  res <- UTF8Encoder_handler token ;;
  match res with
  | None => Ok output
  | Some res => encode_loop inputStream' (output ++ res)
  end.
Proof.
  on_lhs ltac:(simp encode_loop).
  generalize (inspect (Stream_read inputStream)).
  intros [[token inputStream'] Hread]. rewrite_rhs Hread. cbn -[inspect decode_loop encode_loop].
  generalize (inspect (UTF8Encoder_handler token)).
  intros [[[res|]|e] Hres]; rewrite_rhs Hres; reflexivity.
Qed.

Lemma toByteArray_loop_eq b64 len st :
  toByteArray_loop b64 len st =
  if b64_i st <? len then toByteArray_loop b64 len (toByteArray_iter b64 st) else st.
Proof.
  on_lhs ltac:(simp toByteArray_loop).
  destruct (Z_lt_dec (b64_i st) len) as [H|H].
  - rewrite (proj2 (Z.ltb_lt _ _) H). reflexivity.
  - rewrite (proj2 (Z.ltb_nlt _ _) H). reflexivity.
Qed.

Lemma encodeChunk_loop_eq uint8 end_ i output :
  encodeChunk_loop uint8 end_ i output =
  if i <? end_ then
    let tmp := Z.land (Z.shiftl (u8 uint8 i) 16) 0xff0000
               + Z.land (Z.shiftl (u8 uint8 (i + 1)) 8) 0xff00
               + Z.land (u8 uint8 (i + 2)) 0xff in
    encodeChunk_loop uint8 end_ (i + 3) (output ++ tripletToBase64 tmp)
  else output.
Proof.
  on_lhs ltac:(simp encodeChunk_loop).
  destruct (Z_lt_dec i end_) as [H|H].
  - rewrite (proj2 (Z.ltb_lt _ _) H). reflexivity.
  - rewrite (proj2 (Z.ltb_nlt _ _) H). reflexivity.
Qed.

Lemma fromByteArray_loop_eq uint8 len2 i parts :
  fromByteArray_loop uint8 len2 i parts =
  if i <? len2 then
    let stop := if i + maxChunkLength >? len2 then len2 else i + maxChunkLength in
    fromByteArray_loop uint8 len2 (i + maxChunkLength) (parts ++ encodeChunk uint8 i stop)
  else parts.
Proof.
  on_lhs ltac:(simp fromByteArray_loop).
  destruct (Z_lt_dec i len2) as [H|H].
  - rewrite (proj2 (Z.ltb_lt _ _) H). reflexivity.
  - rewrite (proj2 (Z.ltb_nlt _ _) H). reflexivity.
Qed.

(** * Big5: special pointers, unmapped entries, entries above 0xFFFF *)

Lemma pointer_eqb_Some p n : pointer_eqb (Some p) n = (p =? n).
Proof. reflexivity. Qed.

Ltac eqb_false :=
  repeat match goal with
         | |- context [?a =? ?b] =>
             rewrite (proj2 (Z.eqb_neq a b)) by (unfold Big5_special in *; lia)
         end.

(** The pass of the loop on a trail byte whose pointer is not special. *)
Lemma Big5_iter_table big5 bytes fatal st byte p :
  b5_lead st <> 0 ->
  Uint8_at bytes (b5_i st) = Some byte ->
  Big5_pointer (b5_lead st) byte = Some p ->
  ~ Big5_special p ->
  Big5_iter big5 bytes fatal st =
  let code := Big5_code big5 (Some p) in
  let i := if is_null code && isASCIIByte byte then b5_i st - 1 else b5_i st in
  if is_null code then
    e <- decoderError fatal ;; Ok (mk_big5 (i + 1) 0 (b5_res st ++ [JNum e]))
  else Ok (mk_big5 (i + 1) 0 (b5_res st ++ [code])).
Proof.
  intros Hlead Hbyte Hp Hs. unfold Big5_iter. rewrite Hbyte, Hp.
  rewrite (proj2 (Z.eqb_neq _ _) Hlead). cbn [negb].
  rewrite !pointer_eqb_Some.
  unfold Big5_special in Hs. eqb_false. reflexivity.
Qed.

Lemma fromCharCode_apply_small more_arguments {A} (chars : list A -> list Z) arr :
  (List.length arr <= 1024)%nat ->
  fromCharCode_apply more_arguments chars arr = Ok (chars arr).
Proof.
  intros H. unfold fromCharCode_apply, max_arguments.
  destruct (Z.gtb_spec (Z.of_nat (List.length arr)) (1024 + Z.of_nat more_arguments));
    [lia | reflexivity].
Qed.

Lemma fromCharCode_vals_app a b :
  fromCharCode_vals (a ++ b) = fromCharCode_vals a ++ fromCharCode_vals b.
Proof. apply map_app. Qed.

Lemma TextDecoder_new_big5 fatal ignoreBOM :
  TextDecoder_new "big5" fatal ignoreBOM = Ok (mk_TextDecoder "big5" fatal ignoreBOM).
Proof. vm_compute. reflexivity. Qed.

Lemma encodingIndexes_big5 : Map_get encodingIndexes "big5" = Some index_big5.
Proof. reflexivity. Qed.

Lemma Decode_big5 core_decode more_arguments bytes fatal ignoreBOM :
  Decode core_decode more_arguments bytes "big5" fatal ignoreBOM =
  res <- Big5Decoder index_big5 bytes fatal ignoreBOM ;;
  fromCharCode_apply more_arguments fromCharCode_vals res.
Proof.
  unfold Decode. rewrite TextDecoder_new_big5. cbn [bind].
  unfold TextDecoder_decode. cbn [td_encoding td_fatal td_ignoreBOM].
  change (String.eqb "big5" "utf-8") with false.
  change (String.eqb "big5" "utf-16le") with false.
  change (String.eqb "big5" "utf-16be") with false.
  change (String.eqb "big5" "big5") with true.
  cbn [andb orb]. rewrite encodingIndexes_big5. reflexivity.
Qed.

(** C5: with a lead byte pending, a trail byte whose pointer is 1133 or
    1135 makes the pass push 202 (U+00CA), and one whose pointer is 1164 or
    1166 makes it push 234 (U+00EA), whatever the pointer table holds; the
    bytes 0x88 0x62 decode as Big5 to the one-character string U+00CA. *)
Theorem Big5_special_pointers :
  (forall big5 bytes fatal st byte p,
      b5_lead st <> 0 ->
      Uint8_at bytes (b5_i st) = Some byte ->
      Big5_pointer (b5_lead st) byte = Some p ->
      (p = 1133 \/ p = 1135 ->
       Big5_iter big5 bytes fatal st
       = Ok (mk_big5 (b5_i st + 1) 0 (b5_res st ++ [JNum 202])))
      /\ (p = 1164 \/ p = 1166 ->
          Big5_iter big5 bytes fatal st
          = Ok (mk_big5 (b5_i st + 1) 0 (b5_res st ++ [JNum 234]))))
  /\ (forall big5 fatal,
         Big5Decoder big5 [x88; x62] fatal false = Ok [JNum 202]
         /\ Big5Decoder big5 [x88; x64] fatal false = Ok [JNum 202]
         /\ Big5Decoder big5 [x88; xa3] fatal false = Ok [JNum 234]
         /\ Big5Decoder big5 [x88; xa5] fatal false = Ok [JNum 234])
  /\ (forall core_decode more_arguments fatal,
         Decode core_decode more_arguments [x88; x62] "big5" fatal false = Ok [0xCA]).
Proof.
  split; [|split].
  - intros big5 bytes fatal st byte p Hlead Hbyte Hp.
    unfold Big5_iter. rewrite Hbyte, Hp.
    rewrite (proj2 (Z.eqb_neq _ _) Hlead). cbn [negb].
    rewrite !pointer_eqb_Some.
    split; intros [-> | ->]; reflexivity.
  - intros big5 fatal. unfold Big5Decoder.
    repeat split;
      repeat (rewrite Big5_loop_eq; cbn); reflexivity.
  - intros core_decode more_arguments fatal. rewrite Decode_big5.
    replace (Big5Decoder index_big5 [x88; x62] fatal false) with (@Ok (list jsval) [JNum 202])
      by (destruct fatal; vm_compute; reflexivity).
    cbn [bind]. rewrite fromCharCode_apply_small by (cbn; lia). reflexivity.
Qed.

Lemma Big5_special_pointers_witness :
  b5_lead (mk_big5 1 0x88 []) <> 0
  /\ Uint8_at [x88; x62] (b5_i (mk_big5 1 0x88 [])) = Some 0x62
  /\ Big5_pointer (b5_lead (mk_big5 1 0x88 [])) 0x62 = Some 1133
  /\ Big5_iter index_big5 [x88; x62] true (mk_big5 1 0x88 [])
     = Ok (mk_big5 2 0 [JNum 202]).
Proof.
  assert (H1 : b5_lead (mk_big5 1 0x88 []) <> 0) by (cbn; lia).
  assert (H2 : Uint8_at [x88; x62] (b5_i (mk_big5 1 0x88 [])) = Some 0x62)
    by reflexivity.
  assert (H3 : Big5_pointer (b5_lead (mk_big5 1 0x88 [])) 0x62 = Some 1133)
    by reflexivity.
  split; [exact H1 | split; [exact H2 | split; [exact H3 |]]].
  exact (proj1 (proj1 Big5_special_pointers index_big5 [x88; x62] true
                      (mk_big5 1 0x88 []) 0x62 1133 H1 H2 H3) (or_introl eq_refl)).
Defined.

Lemma Big5_iter_null big5 bytes fatal st byte :
  b5_lead st <> 0 ->
  Uint8_at bytes (b5_i st) = Some byte ->
  (forall p, Big5_pointer (b5_lead st) byte = Some p -> ~ Big5_special p) ->
  Big5_code big5 (Big5_pointer (b5_lead st) byte) = JNull ->
  Big5_iter big5 bytes fatal st =
  e <- decoderError fatal ;;
  Ok (mk_big5 ((if isASCIIByte byte then b5_i st - 1 else b5_i st) + 1) 0
              (b5_res st ++ [JNum e])).
Proof.
  intros Hlead Hbyte Hs Hnull.
  destruct (Big5_pointer (b5_lead st) byte) as [p|] eqn:Hp.
  - rewrite (Big5_iter_table big5 bytes fatal st byte p Hlead Hbyte Hp (Hs p eq_refl)).
    cbv zeta. rewrite Hnull. reflexivity.
  - unfold Big5_iter. rewrite Hbyte, Hp.
    rewrite (proj2 (Z.eqb_neq _ _) Hlead). reflexivity.
Qed.

Lemma Big5_iter_ascii big5 bytes fatal i res byte :
  Uint8_at bytes i = Some byte ->
  isASCIIByte byte = true ->
  Big5_iter big5 bytes fatal (mk_big5 i 0 res) = Ok (mk_big5 (i + 1) 0 (res ++ [JNum byte])).
Proof.
  intros Hbyte Hascii. unfold Big5_iter. cbn [b5_i b5_lead b5_res].
  rewrite Hbyte, Hascii. reflexivity.
Qed.

(** C6, as amended: with a lead byte pending and a pointer that is none
    of 1133, 1135, 1164, 1166, when the entry looked up is null (or no
    pointer could be computed), a fatal decoder throws; a non-fatal one
    pushes U+FFFD and, if the trail byte is ASCII, leaves the index on that
    byte, which the next pass pushes unchanged; if the byte is not ASCII
    the index moves on and U+FFFD is all that is pushed. *)
Theorem Big5_null_entry :
  forall big5 bytes st byte,
    b5_lead st <> 0 ->
    Uint8_at bytes (b5_i st) = Some byte ->
    (forall p, Big5_pointer (b5_lead st) byte = Some p -> ~ Big5_special p) ->
    Big5_code big5 (Big5_pointer (b5_lead st) byte) = JNull ->
    Big5_iter big5 bytes true st = Err DecoderError
    /\ (isASCIIByte byte = true ->
        Big5_iter big5 bytes false st
        = Ok (mk_big5 (b5_i st) 0 (b5_res st ++ [JNum 0xfffd]))
        /\ Big5_iter big5 bytes false (mk_big5 (b5_i st) 0 (b5_res st ++ [JNum 0xfffd]))
           = Ok (mk_big5 (b5_i st + 1) 0 ((b5_res st ++ [JNum 0xfffd]) ++ [JNum byte])))
    /\ (isASCIIByte byte = false ->
        Big5_iter big5 bytes false st
        = Ok (mk_big5 (b5_i st + 1) 0 (b5_res st ++ [JNum 0xfffd]))).
Proof.
  intros big5 bytes st byte Hlead Hbyte Hs Hnull.
  pose proof (fun fatal => Big5_iter_null big5 bytes fatal st byte Hlead Hbyte Hs Hnull) as H.
  split; [exact (H true)|]. split; intros Hascii.
  - split.
    + rewrite (H false), Hascii. cbn. do 2 f_equal. lia.
    + now apply Big5_iter_ascii.
  - rewrite (H false), Hascii. reflexivity.
Qed.

Lemma Big5_null_entry_witness :
  b5_lead (mk_big5 1 0x81 []) <> 0
  /\ Uint8_at [x81; x40; x81; xa1] (b5_i (mk_big5 1 0x81 [])) = Some 0x40
  /\ (forall p, Big5_pointer (b5_lead (mk_big5 1 0x81 [])) 0x40 = Some p ->
                ~ Big5_special p)
  /\ Big5_code index_big5 (Big5_pointer (b5_lead (mk_big5 1 0x81 [])) 0x40) = JNull
  /\ Big5_iter index_big5 [x81; x40; x81; xa1] true (mk_big5 1 0x81 []) = Err DecoderError
  /\ Big5_iter index_big5 [x81; x40; x81; xa1] false (mk_big5 1 0x81 [])
     = Ok (mk_big5 1 0 [JNum 0xfffd])
  /\ Big5_iter index_big5 [x81; x40; x81; xa1] false (mk_big5 1 0 [JNum 0xfffd])
     = Ok (mk_big5 2 0 [JNum 0xfffd; JNum 0x40]).
Proof.
  assert (H1 : b5_lead (mk_big5 1 0x81 []) <> 0) by (cbn; lia).
  assert (H2 : Uint8_at [x81; x40; x81; xa1] (b5_i (mk_big5 1 0x81 [])) = Some 0x40)
    by reflexivity.
  assert (H3 : forall p, Big5_pointer (b5_lead (mk_big5 1 0x81 [])) 0x40 = Some p ->
                         ~ Big5_special p)
    by (intros p [= <-]; unfold Big5_special; lia).
  assert (H4 : Big5_code index_big5 (Big5_pointer (b5_lead (mk_big5 1 0x81 [])) 0x40)
               = JNull) by (vm_compute; reflexivity).
  pose proof (Big5_null_entry index_big5 [x81; x40; x81; xa1] (mk_big5 1 0x81 []) 0x40
                              H1 H2 H3 H4) as [Hf [Ha _]].
  split; [exact H1 | split; [exact H2 | split; [exact H3 | split; [exact H4 |]]]].
  split; [exact Hf|]. exact (Ha eq_refl).
Defined.

(** C6 as stated fails on the special pointers: the entry of pointer 1133
    is null and the trail byte 0x62 is ASCII, yet the pass pushes 202,
    throws nothing even when fatal, and moves past the byte. *)
Lemma Big5_null_entry_counterexample :
  b5_lead (mk_big5 1 0x88 []) <> 0
  /\ Uint8_at [x88; x62] 1 = Some 0x62
  /\ isASCIIByte 0x62 = true
  /\ Big5_pointer 0x88 0x62 = Some 1133
  /\ index_get index_big5 1133 = JNull
  /\ Big5_iter index_big5 [x88; x62] false (mk_big5 1 0x88 []) = Ok (mk_big5 2 0 [JNum 202])
  /\ Big5_iter index_big5 [x88; x62] false (mk_big5 1 0x88 [])
     <> Ok (mk_big5 1 0 [JNum 0xfffd])
  /\ Big5_iter index_big5 [x88; x62] true (mk_big5 1 0x88 []) <> Err DecoderError
  /\ Big5Decoder index_big5 [x88; x62] false false = Ok [JNum 202].
Proof.
  repeat split; try (vm_compute; congruence).
Qed.

Lemma byteZ_range b : 0 <= byteZ b < 256.
Proof.
  unfold byteZ. pose proof (Byte.to_N_bounded b). lia.
Qed.

Lemma Uint8_at_cons_0 b bytes : Uint8_at (b :: bytes) 0 = Some (byteZ b).
Proof. reflexivity. Qed.

Lemma Uint8_at_cons_S b bytes i :
  0 <= i -> Uint8_at (b :: bytes) (i + 1) = Uint8_at bytes i.
Proof.
  intros Hi. unfold Uint8_at.
  rewrite (proj2 (Z.ltb_ge _ _)) by lia. rewrite (proj2 (Z.ltb_ge _ _) Hi).
  replace (Z.to_nat (i + 1)) with (S (Z.to_nat i)) by lia. reflexivity.
Qed.

(** C10: when the entry selected by a (non-special) pointer is a code
    point [c] above 0xFFFF, the pass pushes [c] itself, and the string
    built from the array by String.fromCharCode holds, for it, the single
    code unit [c mod 2^16]; a lead/trail pair selecting such an entry of the
    Big5 index decodes to that one unit, not to the surrogate pair of [c]. *)
Theorem Big5_entry_above_FFFF :
  (forall big5 bytes fatal st byte p c,
      b5_lead st <> 0 ->
      Uint8_at bytes (b5_i st) = Some byte ->
      Big5_pointer (b5_lead st) byte = Some p ->
      ~ Big5_special p ->
      index_get big5 p = JNum c ->
      0xFFFF < c ->
      Big5_iter big5 bytes fatal st = Ok (mk_big5 (b5_i st + 1) 0 (b5_res st ++ [JNum c]))
      /\ fromCharCode_vals (b5_res st ++ [JNum c])
         = fromCharCode_vals (b5_res st) ++ [c mod 2 ^ 16])
  /\ (forall core_decode more_arguments lead trail fatal p c,
         inRange (byteZ lead) 0x81 0xFE = true ->
         Big5_pointer (byteZ lead) (byteZ trail) = Some p ->
         ~ Big5_special p ->
         index_get index_big5 p = JNum c ->
         0xFFFF < c ->
         Decode core_decode more_arguments [lead; trail] "big5" fatal false = Ok [c mod 2 ^ 16]
         /\ fromCodePoint c <> Some [c mod 2 ^ 16]).
Proof.
  split.
  - intros big5 bytes fatal st byte p c Hlead Hbyte Hp Hs Hc Hlt.
    rewrite (Big5_iter_table big5 bytes fatal st byte p Hlead Hbyte Hp Hs).
    cbn [Big5_code]. rewrite Hc. cbn. split; [reflexivity|].
    rewrite fromCharCode_vals_app. reflexivity.
  - intros core_decode more_arguments lead trail fatal p c Hrange Hp Hs Hc Hlt. split.
    + rewrite Decode_big5. unfold Big5Decoder.
      assert (Hl : byteZ lead <> 0)
        by (unfold inRange in Hrange; apply andb_true_iff in Hrange;
            destruct Hrange as [H1 _]; apply Z.leb_le in H1; lia).
      assert (Hna : isASCIIByte (byteZ lead) = false).
      { unfold isASCIIByte, inRange in *. apply andb_true_iff in Hrange.
        destruct Hrange as [H1 _]. apply Z.leb_le in H1.
        apply andb_false_iff. right. apply Z.leb_gt. lia. }
      rewrite Big5_loop_eq. cbn [b5_i List.length Z.of_nat]. cbn [Z.ltb Z.compare].
      unfold Big5_iter at 1. cbn [b5_i b5_lead b5_res].
      rewrite Uint8_at_cons_0. cbn [Z.eqb negb]. rewrite Hna, Hrange. cbn [bind].
      rewrite Big5_loop_eq. cbn [b5_i List.length Z.of_nat Z.add Pos.of_succ_nat Pos.succ].
      cbn [Z.ltb Z.compare Pos.compare Pos.compare_cont].
      rewrite (Big5_iter_table index_big5 [lead; trail] fatal
                 (mk_big5 1 (byteZ lead) []) (byteZ trail) p Hl eq_refl Hp Hs).
      cbn [Big5_code]. rewrite Hc. cbn [is_null andb b5_i b5_res app bind].
      rewrite Big5_loop_eq. cbn [b5_i b5_lead b5_res List.length Z.of_nat].
      change (1 + 1 <? Z.pos (Pos.of_succ_nat 1)) with false.
      cbn [bind Z.eqb negb b5_lead b5_res].
      rewrite fromCharCode_apply_small by (cbn; lia). reflexivity.
    + unfold fromCodePoint.
      destruct (inRange c 0 1114111); [|discriminate].
      rewrite (proj2 (Z.leb_gt _ _)) by lia. discriminate.
Qed.

Lemma Big5_entry_above_FFFF_witness :
  inRange (byteZ x87) 0x81 0xFE = true
  /\ Big5_pointer (byteZ x87) (byteZ x45) = Some 947
  /\ ~ Big5_special 947
  /\ index_get index_big5 947 = JNum 160359
  /\ 0xFFFF < 160359
  /\ Decode (fun _ => []) 0%nat [x87; x45] "big5" false false = Ok [160359 mod 2 ^ 16]
  /\ fromCodePoint 160359 <> Some [160359 mod 2 ^ 16].
Proof.
  assert (H1 : inRange (byteZ x87) 0x81 0xFE = true) by reflexivity.
  assert (H2 : Big5_pointer (byteZ x87) (byteZ x45) = Some 947) by reflexivity.
  assert (H3 : ~ Big5_special 947) by (unfold Big5_special; lia).
  assert (H4 : index_get index_big5 947 = JNum 160359) by (vm_compute; reflexivity).
  assert (H5 : 0xFFFF < 160359) by lia.
  split; [exact H1 | split; [exact H2 | split; [exact H3 | split; [exact H4 |
    split; [exact H5 |]]]]].
  exact (proj2 Big5_entry_above_FFFF (fun _ => []) 0%nat x87 x45 false 947 160359
               H1 H2 H3 H4 H5).
Defined.

(** * UTF-16: a pending high surrogate followed by a unit that is not low *)






(** * btoa and atob *)


Lemma btoa_loop_spec s byteArray :
  btoa_loop s byteArray =
  if existsb (fun c => c >? 0xff) s then Err Latin1RangeError else Ok (byteArray ++ s).
Proof.
  revert byteArray. induction s as [|c s IH]; intros byteArray; cbn [btoa_loop existsb].
  - now rewrite app_nil_r.
  - destruct (c >? 255); cbn [orb]; [reflexivity|].
    rewrite IH, <- app_assoc. reflexivity.
Qed.

Lemma byteZ_ToUint8 c : 0 <= c <= 0xff -> byteZ (ToUint8 c) = c.
Proof.
  intros Hc. unfold ToUint8, byteZ. rewrite Z.mod_small by lia.
  destruct (Byte.of_N (Z.to_N c)) as [b|] eqn:Hb.
  - apply Byte.to_of_N in Hb. lia.
  - apply Byte.of_N_None_iff in Hb. lia.
Qed.

Lemma ToUint8_byteZ b : ToUint8 (byteZ b) = b.
Proof.
  unfold ToUint8. pose proof (byteZ_range b). rewrite Z.mod_small by lia.
  unfold byteZ. rewrite N2Z.id, Byte.of_to_N. reflexivity.
Qed.


Lemma indexOf_from_app_notin a b c i :
  (forall x, In x a -> x <> c) ->
  indexOf_from (a ++ b) c i = indexOf_from b c (i + Z.of_nat (List.length a)).
Proof.
  revert i. induction a as [|x a IH]; intros i Hnot; cbn [app indexOf_from List.length].
  - f_equal. lia.
  - rewrite (proj2 (Z.eqb_neq x c)) by (apply Hnot; now left).
    rewrite IH by (intros y Hy; apply Hnot; now right). f_equal. lia.
Qed.

Lemma indexOf_notin a c : (forall x, In x a -> x <> c) -> indexOf a c = -1.
Proof.
  intros H. unfold indexOf. rewrite <- (app_nil_r a).
  rewrite indexOf_from_app_notin by assumption. reflexivity.
Qed.

Lemma indexOf_app_repeat a c k :
  (forall x, In x a -> x <> c) ->
  indexOf (a ++ repeat c (S k)) c = Z.of_nat (List.length a).
Proof.
  intros H. unfold indexOf. rewrite indexOf_from_app_notin by assumption.
  cbn [repeat indexOf_from]. rewrite Z.eqb_refl. lia.
Qed.

Lemma toByteArray_ok b64 validLen placeHoldersLen :
  getLens b64 = Ok (validLen, placeHoldersLen) ->
  0 <= _byteLength validLen placeHoldersLen ->
  exists arr, toByteArray b64 = Ok arr.
Proof.
  intros Hlens Hlen. unfold toByteArray. rewrite Hlens. cbn [bind].
  unfold Uint8Array_new. rewrite (proj2 (Z.ltb_ge _ _) Hlen). cbn [bind].
  eexists. reflexivity.
Qed.

Lemma is_atob_char_not_EQ c : is_atob_char c = true -> c <> EQ.
Proof.
  unfold is_atob_char, inRange, EQ. intros H ->. vm_compute in H. discriminate.
Qed.

(** A string of the class [[+/0-9A-Za-z]] whose length is not 1 modulo 4
    is decoded without error once padded. *)
Lemma toByteArray_padded_ok s :
  forallb is_atob_char s = true ->
  Z.of_nat (List.length s) mod 4 <> 1 ->
  let rem := Z.of_nat (List.length s) mod 4 in
  exists arr,
    toByteArray (if rem >? 0 then s ++ repeat EQ (Z.to_nat (4 - rem)) else s) = Ok arr.
Proof.
  intros Hall Hrem rem.
  assert (Hnot : forall x, In x s -> x <> EQ)
    by (intros x Hx; apply is_atob_char_not_EQ;
        rewrite forallb_forall in Hall; now apply Hall).
  assert (Hr : 0 <= rem < 4) by (apply Z.mod_pos_bound; lia).
  destruct (rem >? 0) eqn:Hpos.
  - apply Z.gtb_lt in Hpos.
    assert (Hk : exists k, Z.to_nat (4 - rem) = S k)
      by (exists (Nat.pred (Z.to_nat (4 - rem))); lia).
    destruct Hk as [k Hk].
    apply toByteArray_ok with (validLen := Z.of_nat (List.length s))
                              (placeHoldersLen := 4 - rem).
    + unfold getLens. rewrite length_app, repeat_length, Hk.
      rewrite indexOf_app_repeat by assumption. rewrite <- Hk.
      replace (Z.of_nat (List.length s + Z.to_nat (4 - rem)))
        with (Z.of_nat (List.length s) + (4 - rem)) by lia.
      assert (Hm : (Z.of_nat (List.length s) + (4 - rem)) mod 4 = 0).
      { unfold rem. rewrite Zplus_mod, Zminus_mod, Zmod_mod, <- Zminus_mod.
        rewrite <- Zplus_mod.
        replace (Z.of_nat (List.length s) + (4 - Z.of_nat (List.length s)))
          with (1 * 4) by lia.
        apply Z.mod_mul. lia. }
      rewrite Hm. cbn [Z.gtb Z.compare].
      rewrite (proj2 (Z.eqb_neq _ (-1))) by lia.
      rewrite (proj2 (Z.eqb_neq _ _)) by lia. reflexivity.
    + unfold _byteLength.
      assert (Hge : 2 <= Z.of_nat (List.length s))
        by (unfold rem in *; pose proof (Z.mod_le (Z.of_nat (List.length s)) 4); lia).
      unfold rem in *. Z.div_mod_to_equations. lia.
  - rewrite Z.gtb_ltb in Hpos. apply Z.ltb_ge in Hpos.
    assert (Hrem0 : rem = 0) by lia.
    apply toByteArray_ok with (validLen := Z.of_nat (List.length s)) (placeHoldersLen := 0).
    + unfold getLens. fold rem. rewrite Hrem0. cbn [Z.gtb Z.compare].
      rewrite indexOf_notin by assumption. rewrite Z.eqb_refl. rewrite Z.eqb_refl.
      reflexivity.
    + unfold _byteLength. Z.div_mod_to_equations. lia.
Qed.

(** C3, as amended: after the white space is removed and, when the length
    left is a multiple of 4, one or two trailing "=", [atob] throws
    InvalidCharacterError exactly when the length is 1 modulo 4 or some
    character is outside [[+/0-9A-Za-z]], and otherwise returns a string;
    "-" and "_" are outside that class, and are only known to the reverse
    lookup table of [toByteArray], as 62 and 63. *)
Theorem atob_invalid_character :
  forall s,
    let s' := atob_normalize s in
    (atob s = Err InvalidCharacterError
     <-> (Z.of_nat (List.length s') mod 4 = 1
          \/ exists c, In c s' /\ is_atob_char c = false))
    /\ (atob s = Err InvalidCharacterError \/ exists r, atob s = Ok r)
    /\ (is_atob_char 45 = false /\ is_atob_char 95 = false)
    /\ (sparse_get revLookup 45 = Some 62 /\ sparse_get revLookup 95 = Some 63)
    /\ toByteArray (codeUnits "ab-_") = toByteArray (codeUnits "ab+/").
Proof.
  intros s s'. unfold atob. fold s'.
  set (rem := Z.of_nat (List.length s') mod 4).
  assert (Hex : existsb (fun c => negb (is_atob_char c)) s' = true
                <-> exists c, In c s' /\ is_atob_char c = false).
  { rewrite existsb_exists. split; intros [c [Hin Hc]]; exists c; split; auto.
    - now apply negb_true_iff in Hc.
    - now apply negb_true_iff. }
  destruct ((rem =? 1) || existsb (fun c => negb (is_atob_char c)) s') eqn:Hbad.
  - split; [|split; [now left | repeat split]].
    split; [intros _|reflexivity].
    apply orb_true_iff in Hbad. destruct Hbad as [H|H].
    + left. now apply Z.eqb_eq.
    + right. now apply Hex.
  - apply orb_false_iff in Hbad. destruct Hbad as [Hrem Hchars].
    apply Z.eqb_neq in Hrem.
    assert (Hall : forallb is_atob_char s' = true).
    { apply forallb_forall. intros c Hin.
      destruct (is_atob_char c) eqn:Hc; [reflexivity|].
      assert (existsb (fun c => negb (is_atob_char c)) s' = true)
        by (apply Hex; exists c; auto).
      congruence. }
    destruct (toByteArray_padded_ok s' Hall Hrem) as [arr Harr].
    fold rem in Harr. rewrite Harr. cbn [bind].
    split; [|split; [right; eexists; reflexivity | repeat split]].
    split; [discriminate|].
    intros [H|H]; [contradiction|].
    apply Hex in H. congruence.
Qed.

(** C3 as stated fails on "ab-_": nothing is left over modulo 4 and every
    character is in [[A-Za-z0-9+/_-]], yet [atob] throws. *)
Lemma atob_invalid_character_counterexample :
  atob (codeUnits "ab-_") = Err InvalidCharacterError
  /\ Z.of_nat (List.length (atob_normalize (codeUnits "ab-_"))) mod 4 <> 1
  /\ forallb (fun c => is_atob_char c || (c =? 45) || (c =? 95))
             (atob_normalize (codeUnits "ab-_")) = true.
Proof. repeat split. vm_compute. discriminate. Qed.

(** * Bitwise operators as arithmetic *)


Lemma land_shiftl_low x y n :
  0 <= n -> 0 <= y < 2 ^ n -> Z.land (Z.shiftl x n) y = 0.
Proof.
  intros Hn Hy. apply Z.bits_inj'. intros i Hi.
  rewrite Z.land_spec, Z.bits_0.
  destruct (Z.lt_ge_cases i n) as [Hlt|Hge].
  - rewrite Z.shiftl_spec_low by assumption. reflexivity.
  - rewrite <- (Z.mod_small y (2 ^ n)) by assumption.
    rewrite Z.mod_pow2_bits_high by lia. apply andb_false_r.
Qed.

Lemma lor_shiftl_add x y n :
  0 <= n -> 0 <= y < 2 ^ n -> Z.lor (Z.shiftl x n) y = x * 2 ^ n + y.
Proof.
  intros Hn Hy. rewrite <- Z.lxor_lor by now apply land_shiftl_low.
  rewrite <- Z.add_nocarry_lxor by now apply land_shiftl_low.
  now rewrite Z.shiftl_mul_pow2.
Qed.

Lemma land_ones_mod x n : 0 <= n -> Z.land x (2 ^ n - 1) = x mod 2 ^ n.
Proof.
  intros Hn. rewrite <- Z.land_ones by assumption.
  unfold Z.ones. rewrite Z.shiftl_1_l. reflexivity.
Qed.

Lemma land_63 x : Z.land x 0x3f = x mod 64.
Proof. exact (land_ones_mod x 6 ltac:(lia)). Qed.

Lemma land_255 x : Z.land x 0xff = x mod 256.
Proof. exact (land_ones_mod x 8 ltac:(lia)). Qed.

Lemma land_1023 x : Z.land x 0x3ff = x mod 1024.
Proof. exact (land_ones_mod x 10 ltac:(lia)). Qed.

Lemma shiftr_div x n : 0 <= n -> Z.shiftr x n = x / 2 ^ n.
Proof. apply Z.shiftr_div_pow2. Qed.

Lemma land_mask_high x k n :
  0 <= k -> 0 <= n -> 0 <= x < 2 ^ n ->
  Z.land (Z.shiftl x k) (Z.shiftl (2 ^ n - 1) k) = x * 2 ^ k.
Proof.
  intros Hk Hn Hx. rewrite <- Z.shiftl_land, land_ones_mod, Z.mod_small by lia.
  now rewrite Z.shiftl_mul_pow2.
Qed.

Lemma lor_add_disjoint a b n :
  0 <= n -> a mod 2 ^ n = 0 -> 0 <= b < 2 ^ n -> Z.lor a b = a + b.
Proof.
  intros Hn Ha Hb.
  assert (H : a = Z.shiftl (a / 2 ^ n) n).
  { rewrite Z.shiftl_mul_pow2 by assumption.
    rewrite (Z.div_mod a (2 ^ n)) at 1 by lia. lia. }
  rewrite H at 1. rewrite lor_shiftl_add by assumption.
  rewrite Z.shiftl_mul_pow2 in H by assumption. lia.
Qed.

(** * base64: the round trip *)

Lemma Zrange_In n d : 0 <= d < Z.of_nat n -> In d (Zrange n).
Proof.
  induction n as [|n IH]; intros Hd; [lia|].
  cbn [Zrange]. apply in_or_app.
  destruct (Z.eq_dec d (Z.of_nat n)) as [->|Hne]; [right; now left|].
  left. apply IH. lia.
Qed.

Lemma forall_below (P : Z -> bool) n :
  forallb P (Zrange n) = true -> forall d, 0 <= d < Z.of_nat n -> P d = true.
Proof.
  intros H d Hd. rewrite forallb_forall in H. apply H. now apply Zrange_In.
Qed.

Lemma b64char_props d :
  0 <= d < 64 ->
  lookup_at d = [b64char d]
  /\ sparse_get revLookup (b64char d) = Some d
  /\ b64char d <> EQ.
Proof.
  intros Hd.
  pose proof (forall_below
                (fun d => match lookup_at d with
                          | [c] => (c =? b64char d)
                                   && option_eqb (sparse_get revLookup c) d
                                   && negb (c =? EQ)
                          | _ => false
                          end) 64 ltac:(vm_compute; reflexivity) d Hd) as H.
  cbv beta in H. destruct (lookup_at d) as [|c [|? ?]]; try discriminate.
  apply andb_true_iff in H. destruct H as [H H3].
  apply andb_true_iff in H. destruct H as [H1 H2].
  apply Z.eqb_eq in H1. subst c.
  destruct (sparse_get revLookup (b64char d)) as [v|]; [|discriminate].
  apply Z.eqb_eq in H2. subst v.
  apply negb_true_iff, Z.eqb_neq in H3. auto.
Qed.

Lemma charCodeAt_app pre l j :
  0 <= j ->
  charCodeAt (pre ++ l) (Z.of_nat (List.length pre) + j) = charCodeAt l j.
Proof.
  intros Hj. unfold charCodeAt.
  rewrite (proj2 (Z.ltb_ge _ _)) by lia. rewrite (proj2 (Z.ltb_ge _ _) Hj).
  replace (Z.to_nat (Z.of_nat (List.length pre) + j))
    with (List.length pre + Z.to_nat j)%nat by lia.
  rewrite nth_error_app2 by lia. f_equal. lia.
Qed.

Lemma rev_at_app pre l j :
  0 <= j -> rev_at (pre ++ l) (Z.of_nat (List.length pre) + j) = rev_at l j.
Proof. intros Hj. unfold rev_at. now rewrite charCodeAt_app. Qed.

Lemma rev_at_app0 pre l : rev_at (pre ++ l) (Z.of_nat (List.length pre)) = rev_at l 0.
Proof.
  rewrite <- (Z.add_0_r (Z.of_nat (List.length pre))). apply rev_at_app. lia.
Qed.

Lemma rev_at_b64char_0 d l : 0 <= d < 64 -> rev_at (b64char d :: l) 0 = d.
Proof.
  intros Hd. unfold rev_at.
  change (charCodeAt (b64char d :: l) 0) with (Some (b64char d)). cbv beta iota.
  now rewrite (proj1 (proj2 (b64char_props d Hd))).
Qed.

Lemma rev_at_cons c l j : 0 <= j -> rev_at (c :: l) (j + 1) = rev_at l j.
Proof.
  intros Hj. unfold rev_at, charCodeAt.
  rewrite (proj2 (Z.ltb_ge _ _)) by lia. rewrite (proj2 (Z.ltb_ge _ _) Hj).
  replace (Z.to_nat (j + 1)) with (S (Z.to_nat j)) by lia. reflexivity.
Qed.

(** The four digits of a 24-bit number recombine to it. *)
Lemma digits_recombine num :
  0 <= num < 2 ^ 24 ->
  Z.lor (Z.lor (Z.lor (Z.shiftl (Z.land (Z.shiftr num 18) 0x3f) 18)
                      (Z.shiftl (Z.land (Z.shiftr num 12) 0x3f) 12))
               (Z.shiftl (Z.land (Z.shiftr num 6) 0x3f) 6))
        (Z.land num 0x3f) = num.
Proof.
  intros Hnum. rewrite !land_63, !Z.shiftr_div_pow2, !Z.shiftl_mul_pow2 by lia.
  change (2 ^ 18) with 262144. change (2 ^ 12) with 4096. change (2 ^ 6) with 64.
  change (2 ^ 24) with 16777216 in Hnum.
  set (d0 := (num / 262144) mod 64). set (d1 := (num / 4096) mod 64).
  set (d2 := (num / 64) mod 64). set (d3 := num mod 64).
  assert (H0 : 0 <= d0 < 64) by (apply Z.mod_pos_bound; lia).
  assert (H1 : 0 <= d1 < 64) by (apply Z.mod_pos_bound; lia).
  assert (H2 : 0 <= d2 < 64) by (apply Z.mod_pos_bound; lia).
  assert (H3 : 0 <= d3 < 64) by (apply Z.mod_pos_bound; lia).
  rewrite (lor_add_disjoint (d0 * 262144) (d1 * 4096) 18);
    [| lia | change (2 ^ 18) with 262144; apply Z.mod_mul; lia
     | change (2 ^ 18) with 262144; lia].
  rewrite (lor_add_disjoint (d0 * 262144 + d1 * 4096) (d2 * 64) 12);
    [| lia | change (2 ^ 12) with 4096; Z.div_mod_to_equations; lia
     | change (2 ^ 12) with 4096; lia].
  rewrite (lor_add_disjoint (d0 * 262144 + d1 * 4096 + d2 * 64) d3 6);
    [| lia | change (2 ^ 6) with 64; Z.div_mod_to_equations; lia
     | change (2 ^ 6) with 64; lia].
  unfold d0, d1, d2, d3. Z.div_mod_to_equations. lia.
Qed.

Lemma triple_tmp_val a b c :
  triple_tmp a b c = byteZ a * 65536 + byteZ b * 256 + byteZ c.
Proof.
  unfold triple_tmp.
  pose proof (byteZ_range a). pose proof (byteZ_range b). pose proof (byteZ_range c).
  change 0xff0000 with (Z.shiftl (2 ^ 8 - 1) 16).
  change 0xff00 with (Z.shiftl (2 ^ 8 - 1) 8).
  rewrite !land_mask_high by (change (2 ^ 8) with 256; lia).
  rewrite land_255, Z.mod_small by lia. reflexivity.
Qed.

Lemma triple_bytes a b c :
  let tmp := triple_tmp a b c in
  ToUint8 (Z.land (Z.shiftr tmp 16) 0xff) = a
  /\ ToUint8 (Z.land (Z.shiftr tmp 8) 0xff) = b
  /\ ToUint8 (Z.land tmp 0xff) = c.
Proof.
  intros tmp. unfold tmp. rewrite triple_tmp_val.
  pose proof (byteZ_range a). pose proof (byteZ_range b). pose proof (byteZ_range c).
  rewrite !land_255, !Z.shiftr_div_pow2 by lia.
  change (2 ^ 16) with 65536. change (2 ^ 8) with 256.
  repeat split.
  - rewrite <- (ToUint8_byteZ a) at 2. f_equal. Z.div_mod_to_equations. lia.
  - rewrite <- (ToUint8_byteZ b) at 2. f_equal. Z.div_mod_to_equations. lia.
  - rewrite <- (ToUint8_byteZ c) at 2. f_equal. Z.div_mod_to_equations. lia.
Qed.

Lemma flatten3_app t1 t2 : flatten3 (t1 ++ t2) = flatten3 t1 ++ flatten3 t2.
Proof.
  induction t1 as [|[[a b] c] t1 IH]; [reflexivity|].
  cbn [app flatten3]. now rewrite IH.
Qed.

Lemma flatten3_length ts : List.length (flatten3 ts) = (3 * List.length ts)%nat.
Proof.
  induction ts as [|[[a b] c] ts IH]; [reflexivity|].
  cbn [flatten3 List.length]. lia.
Qed.

Lemma Uint8_at_app pre l j :
  0 <= j -> Uint8_at (pre ++ l) (Z.of_nat (List.length pre) + j) = Uint8_at l j.
Proof.
  intros Hj. unfold Uint8_at.
  rewrite (proj2 (Z.ltb_ge _ _)) by lia. rewrite (proj2 (Z.ltb_ge _ _) Hj).
  replace (Z.to_nat (Z.of_nat (List.length pre) + j))
    with (List.length pre + Z.to_nat j)%nat by lia.
  rewrite nth_error_app2 by lia. do 2 f_equal. lia.
Qed.

Lemma u8_app pre l i j :
  i = Z.of_nat (List.length pre) -> 0 <= j -> u8 (pre ++ l) (i + j) = u8 l j.
Proof. intros -> Hj. unfold u8. now rewrite Uint8_at_app. Qed.

Lemma u8_app0 pre l i : i = Z.of_nat (List.length pre) -> u8 (pre ++ l) i = u8 l 0.
Proof. intros Hi. rewrite <- (Z.add_0_r i) at 1. apply u8_app; [assumption | lia]. Qed.

Lemma encodeChunk_loop_triples ts :
  forall pre post output i end_,
    i = Z.of_nat (List.length pre) ->
    end_ = i + 3 * Z.of_nat (List.length ts) ->
    encodeChunk_loop (pre ++ flatten3 ts ++ post) end_ i output
    = output ++ List.concat (map enc_triple ts).
Proof.
  induction ts as [|[[a b] c] ts IH]; intros pre post output i end_ Hi He;
    rewrite encodeChunk_loop_eq.
  - rewrite (proj2 (Z.ltb_ge _ _)) by (cbn in He; lia). cbn. now rewrite app_nil_r.
  - rewrite (proj2 (Z.ltb_lt _ _)) by (cbn [List.length] in He; lia).
    cbv zeta. cbn [flatten3 app].
    rewrite (u8_app0 pre _ i Hi).
    rewrite !(u8_app pre _ i) by (assumption || lia).
    change (u8 (a :: b :: c :: flatten3 ts ++ post) 0) with (byteZ a).
    change (u8 (a :: b :: c :: flatten3 ts ++ post) 1) with (byteZ b).
    change (u8 (a :: b :: c :: flatten3 ts ++ post) 2) with (byteZ c).
    fold (triple_tmp a b c).
    replace (pre ++ a :: b :: c :: flatten3 ts ++ post)
      with ((pre ++ [a; b; c]) ++ flatten3 ts ++ post)
      by (rewrite <- app_assoc; reflexivity).
    rewrite IH.
    + cbn [map List.concat enc_triple]. now rewrite <- app_assoc.
    + rewrite length_app. cbn [List.length]. lia.
    + cbn [List.length] in He. lia.
Qed.

Lemma encodeChunk_triples ts pre post i end_ :
  i = Z.of_nat (List.length pre) ->
  end_ = i + 3 * Z.of_nat (List.length ts) ->
  encodeChunk (pre ++ flatten3 ts ++ post) i end_ = List.concat (map enc_triple ts).
Proof.
  intros Hi He. unfold encodeChunk.
  now rewrite (encodeChunk_loop_triples ts pre post [] i end_ Hi He).
Qed.

Lemma fromByteArray_loop_triples n :
  forall ts pre post parts i len2,
    (List.length ts <= n)%nat ->
    i = Z.of_nat (List.length pre) ->
    len2 = i + 3 * Z.of_nat (List.length ts) ->
    fromByteArray_loop (pre ++ flatten3 ts ++ post) len2 i parts
    = parts ++ List.concat (map enc_triple ts).
Proof.
  induction n as [|n IH]; intros ts pre post parts i len2 Hn Hi Hlen;
    rewrite fromByteArray_loop_eq.
  - destruct ts; [|cbn in Hn; lia].
    rewrite (proj2 (Z.ltb_ge _ _)) by (cbn in Hlen; lia). cbn. now rewrite app_nil_r.
  - destruct (Z.ltb_spec i len2) as [Hlt|Hge].
    2:{ destruct ts; [cbn; now rewrite app_nil_r | cbn [List.length] in Hlen; lia]. }
    cbv zeta. unfold maxChunkLength.
    pose proof (firstn_skipn (Z.to_nat 5461) ts) as Hts.
    pose proof (length_firstn (Z.to_nat 5461) ts) as Hl1.
    pose proof (length_skipn (Z.to_nat 5461) ts) as Hl2.
    remember (firstn (Z.to_nat 5461) ts) as t1 eqn:Ht1.
    remember (skipn (Z.to_nat 5461) ts) as t2 eqn:Ht2.
    clear Ht1 Ht2. subst ts. rewrite length_app in *.
    assert (Hstop : (if i + 16383 >? len2 then len2 else i + 16383)
                    = i + 3 * Z.of_nat (List.length t1)).
    { destruct (Z.gtb_spec (i + 16383) len2); lia. }
    rewrite Hstop.
    rewrite flatten3_app, <- app_assoc.
    rewrite (encodeChunk_triples t1 pre (flatten3 t2 ++ post) i _ Hi eq_refl).
    rewrite app_assoc.
    destruct (Nat.le_gt_cases (List.length t1 + List.length t2) (Z.to_nat 5461))
      as [Hle|Hgt].
    + assert (Ht2 : t2 = []) by (apply length_zero_iff_nil; lia).
      rewrite fromByteArray_loop_eq.
      rewrite (proj2 (Z.ltb_ge _ _)) by lia.
      rewrite Ht2, app_nil_r. reflexivity.
    + rewrite (IH t2 (pre ++ flatten3 t1) post).
      * rewrite map_app, List.concat_app, app_assoc. reflexivity.
      * lia.
      * rewrite length_app, flatten3_length. lia.
      * lia.
Qed.

Lemma triples_spec n :
  forall bytes, (List.length bytes <= n)%nat ->
    bytes = flatten3 (fst (triples bytes)) ++ snd (triples bytes)
    /\ (List.length (snd (triples bytes)) < 3)%nat.
Proof.
  induction n as [|n IH]; intros bytes Hn.
  - destruct bytes; [cbn; split; [reflexivity | lia] | cbn in Hn; lia].
  - destruct bytes as [|a [|b [|c rest]]]; try (cbn; split; [reflexivity | lia]).
    cbn [triples]. destruct (triples rest) as [ts tl] eqn:Ht.
    destruct (IH rest ltac:(cbn in Hn; lia)) as [H1 H2].
    rewrite Ht in H1, H2. cbn [fst snd] in *. cbn [flatten3 app].
    split; [now rewrite <- H1 | assumption].
Qed.

Lemma fromByteArray_triples ts tl :
  (List.length tl < 3)%nat ->
  fromByteArray (flatten3 ts ++ tl) = List.concat (map enc_triple ts) ++ enc_tail tl.
Proof.
  intros Htl. unfold fromByteArray.
  rewrite length_app, flatten3_length.
  set (len := Z.of_nat (3 * List.length ts + List.length tl)).
  assert (Hextra : len mod 3 = Z.of_nat (List.length tl)).
  { unfold len. rewrite Nat2Z.inj_add, Nat2Z.inj_mul.
    rewrite Z.add_comm, Z.mul_comm, Z.mod_add by lia.
    apply Z.mod_small. lia. }
  rewrite Hextra.
  pose proof (fromByteArray_loop_triples (List.length ts) ts [] tl [] 0
                (len - Z.of_nat (List.length tl)) (le_n _) eq_refl) as Hloop.
  cbn [app] in Hloop. rewrite Hloop by (unfold len; lia). clear Hloop.
  assert (Hu : forall j, 0 <= j ->
             u8 (flatten3 ts ++ tl) (Z.of_nat (List.length (flatten3 ts)) + j) = u8 tl j)
    by (intros j Hj; now apply u8_app).
  rewrite flatten3_length in Hu.
  destruct tl as [|x [|y [|z tl]]]; cbn [List.length] in *; try lia.
  - cbn [Z.of_nat Z.eqb enc_tail]. now rewrite app_nil_r.
  - change (Z.of_nat 1 =? 1) with true. cbv iota zeta.
    replace (len - 1) with (Z.of_nat (3 * List.length ts) + 0) by (unfold len; lia).
    rewrite Hu by lia. reflexivity.
  - change (Z.of_nat 2 =? 1) with false. change (Z.of_nat 2 =? 2) with true.
    cbv iota zeta.
    replace (len - 2) with (Z.of_nat (3 * List.length ts) + 0) by (unfold len; lia).
    replace (len - 1) with (Z.of_nat (3 * List.length ts) + 1) by (unfold len; lia).
    rewrite !Hu by lia. reflexivity.
Qed.

Lemma enc_triple_chars a b c :
  let tmp := triple_tmp a b c in
  enc_triple (a, b, c)
  = [b64char (Z.land (Z.shiftr tmp 18) 0x3f); b64char (Z.land (Z.shiftr tmp 12) 0x3f);
     b64char (Z.land (Z.shiftr tmp 6) 0x3f); b64char (Z.land tmp 0x3f)].
Proof.
  intros tmp. cbn [enc_triple]. fold tmp. unfold tripletToBase64.
  assert (H : forall v, lookup_at (Z.land v 0x3f) = [b64char (Z.land v 0x3f)]).
  { intros v. apply b64char_props. rewrite land_63. apply Z.mod_pos_bound. lia. }
  rewrite !H. reflexivity.
Qed.

Lemma list_set_app {A} (done : list A) x rest v :
  list_set (done ++ x :: rest) (List.length done) v = done ++ v :: rest.
Proof. induction done as [|d done IH]; cbn; [reflexivity | now rewrite IH]. Qed.

Lemma Uint8_set_app done x rest i v :
  i = Z.of_nat (List.length done) ->
  Uint8_set (done ++ x :: rest) i v = done ++ ToUint8 v :: rest.
Proof.
  intros ->. unfold Uint8_set. rewrite (proj2 (Z.ltb_ge _ _)) by lia.
  rewrite Nat2Z.id. apply list_set_app.
Qed.

Lemma toByteArray_iter_triple a b c pre post done z1 z2 z3 rest i cur :
  i = Z.of_nat (List.length pre) ->
  cur = Z.of_nat (List.length done) ->
  toByteArray_iter (pre ++ enc_triple (a, b, c) ++ post)
                   (mk_b64 i cur (done ++ z1 :: z2 :: z3 :: rest))
  = mk_b64 (i + 4) (cur + 3) (done ++ a :: b :: c :: rest).
Proof.
  intros Hi Hcur. unfold toByteArray_iter. cbn [b64_i b64_curByte b64_arr].
  rewrite enc_triple_chars. cbv zeta. set (tmp := triple_tmp a b c).
  assert (Hd : forall v, 0 <= Z.land v 0x3f < 64)
    by (intros v; rewrite land_63; apply Z.mod_pos_bound; lia).
  subst i.
  rewrite !rev_at_app0, !rev_at_app by lia. cbn [app].
  rewrite rev_at_b64char_0 by apply Hd.
  rewrite (rev_at_cons _ _ 0), rev_at_b64char_0 by (apply Hd || lia).
  rewrite (rev_at_cons _ _ 1), (rev_at_cons _ _ 0), rev_at_b64char_0 by (apply Hd || lia).
  rewrite (rev_at_cons _ _ 2), (rev_at_cons _ _ 1), (rev_at_cons _ _ 0),
    rev_at_b64char_0 by (apply Hd || lia).
  assert (Htmp : 0 <= tmp < 2 ^ 24).
  { unfold tmp. rewrite triple_tmp_val.
    pose proof (byteZ_range a). pose proof (byteZ_range b). pose proof (byteZ_range c).
    change (2 ^ 24) with 16777216. lia. }
  rewrite (digits_recombine tmp Htmp).
  destruct (triple_bytes a b c) as [Ha [Hb Hc]]. fold tmp in Ha, Hb, Hc.
  rewrite (Uint8_set_app done z1 _ cur _ Hcur), Ha.
  replace (done ++ a :: z2 :: z3 :: rest) with ((done ++ [a]) ++ z2 :: z3 :: rest)
    by (rewrite <- app_assoc; reflexivity).
  rewrite (Uint8_set_app (done ++ [a]) z2 _ (cur + 1) _), Hb
    by (rewrite length_app; cbn [List.length]; lia).
  replace ((done ++ [a]) ++ b :: z3 :: rest) with ((done ++ [a; b]) ++ z3 :: rest)
    by (rewrite <- !app_assoc; reflexivity).
  rewrite (Uint8_set_app (done ++ [a; b]) z3 _ (cur + 2) _), Hc
    by (rewrite length_app; cbn [List.length]; lia).
  rewrite <- app_assoc. reflexivity.
Qed.

Lemma enc_triple_length t : List.length (enc_triple t) = 4%nat.
Proof. destruct t as [[a b] c]. now rewrite enc_triple_chars. Qed.

Lemma enc_triples_length ts :
  List.length (List.concat (map enc_triple ts)) = (4 * List.length ts)%nat.
Proof.
  induction ts as [|t ts IH]; [reflexivity|].
  cbn [map List.concat List.length]. rewrite length_app, enc_triple_length. lia.
Qed.

Lemma enc_triples_no_EQ ts x :
  In x (List.concat (map enc_triple ts)) -> x <> EQ.
Proof.
  induction ts as [|[[a b] c] ts IH]; [intros []|].
  cbn [map List.concat]. rewrite in_app_iff. intros [H|H]; [|now apply IH].
  rewrite enc_triple_chars in H.
  assert (Hd : forall v, b64char (Z.land v 0x3f) <> EQ).
  { intros v. apply b64char_props. rewrite land_63. apply Z.mod_pos_bound. lia. }
  cbn [In] in H. destruct H as [<-|[<-|[<-|[<-|[]]]]]; apply Hd.
Qed.

Lemma toByteArray_loop_triples ts :
  forall pre post done rest i cur len,
    i = Z.of_nat (List.length pre) ->
    cur = Z.of_nat (List.length done) ->
    i + 4 * Z.of_nat (List.length ts) - 4 < len <= i + 4 * Z.of_nat (List.length ts) ->
    toByteArray_loop (pre ++ List.concat (map enc_triple ts) ++ post) len
                     (mk_b64 i cur (done ++ repeat x00 (3 * List.length ts) ++ rest))
    = mk_b64 (i + 4 * Z.of_nat (List.length ts)) (cur + 3 * Z.of_nat (List.length ts))
             (done ++ flatten3 ts ++ rest).
Proof.
  induction ts as [|[[a b] c] ts IH]; intros pre post done rest i cur len Hi Hcur Hlen;
    rewrite toByteArray_loop_eq; cbn [b64_i].
  - cbn [List.length] in *. rewrite (proj2 (Z.ltb_ge _ _)) by lia.
    cbn. f_equal; lia.
  - cbn [List.length] in Hlen. rewrite (proj2 (Z.ltb_lt _ _)) by lia.
    cbn [map List.concat]. rewrite <- app_assoc.
    replace (3 * List.length ((a, b, c) :: ts))%nat
      with (3 + 3 * List.length ts)%nat by (cbn [List.length]; lia).
    rewrite repeat_app. cbn [repeat app].
    rewrite (toByteArray_iter_triple a b c pre _ done x00 x00 x00 _ i cur Hi Hcur).
    replace (pre ++ enc_triple (a, b, c) ++ List.concat (map enc_triple ts) ++ post)
      with ((pre ++ enc_triple (a, b, c)) ++ List.concat (map enc_triple ts) ++ post)
      by (rewrite <- app_assoc; reflexivity).
    replace (done ++ a :: b :: c :: repeat x00 (3 * List.length ts) ++ rest)
      with ((done ++ [a; b; c]) ++ repeat x00 (3 * List.length ts) ++ rest)
      by (rewrite <- app_assoc; reflexivity).
    rewrite IH.
    + cbn [List.length flatten3]. rewrite <- app_assoc. cbn [app]. f_equal; lia.
    + rewrite length_app, enc_triple_length. lia.
    + rewrite length_app. cbn [List.length]. lia.
    + lia.
Qed.

Lemma all_bytes_In b : In b all_bytes.
Proof.
  unfold all_bytes. rewrite <- (ToUint8_byteZ b). apply in_map.
  apply Zrange_In. pose proof (byteZ_range b). lia.
Qed.

Lemma tail1_all x : tail1_ok x = true.
Proof.
  assert (H : forallb tail1_ok all_bytes = true) by (vm_compute; reflexivity).
  rewrite forallb_forall in H. apply H, all_bytes_In.
Qed.

Lemma tail2_all x y : tail2_ok x y = true.
Proof.
  assert (H : forallb (fun x => forallb (tail2_ok x) all_bytes) all_bytes = true)
    by (vm_compute; reflexivity).
  rewrite forallb_forall in H. specialize (H x (all_bytes_In x)).
  rewrite forallb_forall in H. apply H, all_bytes_In.
Qed.

Lemma indexOf_app_1 a c rest :
  (forall x, In x a -> x <> c) ->
  indexOf (a ++ c :: rest) c = Z.of_nat (List.length a).
Proof.
  intros H. unfold indexOf. rewrite indexOf_from_app_notin by assumption.
  cbn [indexOf_from]. rewrite Z.eqb_refl. lia.
Qed.

Lemma toByteArray_enc ts tl :
  (List.length tl < 3)%nat ->
  toByteArray (List.concat (map enc_triple ts) ++ enc_tail tl) = Ok (flatten3 ts ++ tl).
Proof.
  intros Htl. set (E := List.concat (map enc_triple ts)).
  set (n := Z.of_nat (List.length ts)).
  assert (HE : Z.of_nat (List.length E) = 4 * n)
    by (unfold E, n; rewrite enc_triples_length; lia).
  assert (HnoEQ : forall x, In x E -> x <> EQ) by apply enc_triples_no_EQ.
  assert (Hloop : forall post r len,
             4 * n - 4 < len <= 4 * n ->
             toByteArray_loop (E ++ post) len
                              (mk_b64 0 0 (repeat x00 (3 * List.length ts) ++ r))
             = mk_b64 (4 * n) (3 * n) (flatten3 ts ++ r)).
  { intros post r len Hlen.
    exact (toByteArray_loop_triples ts [] post [] r 0 0 len eq_refl eq_refl
             ltac:(fold n; lia)). }
  assert (Hn : 0 <= n) by (unfold n; lia).
  destruct tl as [|x [|y [|z tl]]]; cbn [List.length] in Htl; try lia.
  - (* no byte left over *)
    cbn [enc_tail]. rewrite app_nil_r. unfold toByteArray, getLens.
    rewrite HE. rewrite (Z.mul_comm 4 n), Z.mod_mul by lia. cbn [Z.gtb Z.compare].
    rewrite indexOf_notin by assumption. rewrite !Z.eqb_refl. cbn [bind].
    unfold _byteLength. rewrite Z.add_0_r, Z.sub_0_r.
    replace (n * 4 * 3 / 4) with (3 * n)
      by (rewrite <- Z.mul_assoc, (Z.mul_comm 4 3), Z.mul_assoc, Z.div_mul; lia).
    unfold Uint8Array_new. rewrite (proj2 (Z.ltb_ge _ _)) by lia. cbn [bind].
    change (0 >? 0) with false. cbv iota.
    replace (Z.to_nat (3 * n)) with (3 * List.length ts)%nat by (unfold n; lia).
    pose proof (Hloop [] [] (n * 4) ltac:(lia)) as H. rewrite !app_nil_r in H.
    rewrite H. cbn. now rewrite app_nil_r.
  - (* one byte left over *)
    pose proof (tail1_all x) as Hok. unfold tail1_ok in Hok.
    destruct (enc_tail [x]) as [|c0 [|c1 [|c2 [|c3 [|? ?]]]]] eqn:HT; try discriminate.
    repeat (apply andb_true_iff in Hok; destruct Hok as [Hok ?]).
    repeat match goal with
           | H : negb _ = true |- _ => apply negb_true_iff in H
           | H : (_ =? _) = true |- _ => apply Z.eqb_eq in H
           | H : (_ =? _) = false |- _ => apply Z.eqb_neq in H
           | H : Byte.eqb _ _ = true |- _ => apply Byte.byte_dec_bl in H
           end.
    subst c2 c3.
    unfold toByteArray, getLens.
    rewrite length_app. cbn [List.length].
    replace (Z.of_nat (List.length E + 4)) with ((n + 1) * 4) by lia.
    rewrite Z.mod_mul by lia. cbn [Z.gtb Z.compare].
    replace (E ++ [c0; c1; EQ; EQ]) with ((E ++ [c0; c1]) ++ EQ :: [EQ])
      by (rewrite <- app_assoc; reflexivity).
    rewrite indexOf_app_1.
    2:{ intros v Hv. apply in_app_or in Hv. destruct Hv as [Hv|Hv]; [now apply HnoEQ|].
        cbn in Hv. destruct Hv as [<-|[<-|[]]]; assumption. }
    rewrite length_app. cbn [List.length].
    replace (Z.of_nat (List.length E + 2)) with (4 * n + 2) by lia.
    rewrite (proj2 (Z.eqb_neq _ (-1))) by lia.
    rewrite (proj2 (Z.eqb_neq (4 * n + 2) _)) by lia.
    replace ((4 * n + 2) mod 4) with 2
      by (rewrite Z.add_comm, Z.mul_comm, Z.mod_add by lia; reflexivity).
    cbn [bind]. change (4 - 2) with 2. unfold _byteLength.
    replace ((4 * n + 2 + 2) * 3 / 4 - 2) with (3 * n + 1)
      by (replace ((4 * n + 2 + 2) * 3) with ((3 * n + 3) * 4) by lia;
          rewrite Z.div_mul by lia; lia).
    unfold Uint8Array_new. rewrite (proj2 (Z.ltb_ge _ _)) by lia. cbn [bind].
    change (2 >? 0) with true. change (2 =? 2) with true. change (2 =? 1) with false.
    cbv iota.
    replace (Z.to_nat (3 * n + 1)) with (3 * List.length ts + 1)%nat by (unfold n; lia).
    rewrite repeat_app. cbn [repeat].
    rewrite <- app_assoc. cbn [app].
    rewrite (Hloop [c0; c1; EQ; EQ] [x00] (4 * n + 2 - 4)) by lia.
    cbn [b64_i b64_curByte b64_arr].
    rewrite <- HE. rewrite rev_at_app0, rev_at_app by lia.
    rewrite (Uint8_set_app (flatten3 ts) x00 [] _ _)
      by (rewrite flatten3_length; unfold n; lia).
    f_equal. f_equal. f_equal. assumption.
  - (* two bytes left over *)
    pose proof (tail2_all x y) as Hok. unfold tail2_ok in Hok.
    destruct (enc_tail [x; y]) as [|c0 [|c1 [|c2 [|c3 [|? ?]]]]] eqn:HT; try discriminate.
    cbv zeta in Hok.
    repeat (apply andb_true_iff in Hok; destruct Hok as [Hok ?]).
    repeat match goal with
           | H : negb _ = true |- _ => apply negb_true_iff in H
           | H : (_ =? _) = true |- _ => apply Z.eqb_eq in H
           | H : (_ =? _) = false |- _ => apply Z.eqb_neq in H
           | H : Byte.eqb _ _ = true |- _ => apply Byte.byte_dec_bl in H
           end.
    subst c3.
    unfold toByteArray, getLens.
    rewrite length_app. cbn [List.length].
    replace (Z.of_nat (List.length E + 4)) with ((n + 1) * 4) by lia.
    rewrite Z.mod_mul by lia. cbn [Z.gtb Z.compare].
    replace (E ++ [c0; c1; c2; EQ]) with ((E ++ [c0; c1; c2]) ++ EQ :: [])
      by (rewrite <- app_assoc; reflexivity).
    rewrite indexOf_app_1.
    2:{ intros v Hv. apply in_app_or in Hv. destruct Hv as [Hv|Hv]; [now apply HnoEQ|].
        cbn in Hv. destruct Hv as [<-|[<-|[<-|[]]]]; assumption. }
    rewrite length_app. cbn [List.length].
    replace (Z.of_nat (List.length E + 3)) with (4 * n + 3) by lia.
    rewrite (proj2 (Z.eqb_neq _ (-1))) by lia.
    rewrite (proj2 (Z.eqb_neq (4 * n + 3) _)) by lia.
    replace ((4 * n + 3) mod 4) with 3
      by (rewrite Z.add_comm, Z.mul_comm, Z.mod_add by lia; reflexivity).
    cbn [bind]. change (4 - 3) with 1. unfold _byteLength.
    replace ((4 * n + 3 + 1) * 3 / 4 - 1) with (3 * n + 2)
      by (replace ((4 * n + 3 + 1) * 3) with ((3 * n + 3) * 4) by lia;
          rewrite Z.div_mul by lia; lia).
    unfold Uint8Array_new. rewrite (proj2 (Z.ltb_ge _ _)) by lia. cbn [bind].
    change (1 >? 0) with true. change (1 =? 2) with false. change (1 =? 1) with true.
    cbv iota.
    replace (Z.to_nat (3 * n + 2)) with (3 * List.length ts + 2)%nat by (unfold n; lia).
    rewrite repeat_app. cbn [repeat].
    rewrite <- app_assoc. cbn [app].
    rewrite (Hloop [c0; c1; c2; EQ] [x00; x00] (4 * n + 3 - 4)) by lia.
    cbn [b64_i b64_curByte b64_arr]. cbv zeta.
    rewrite <- HE. rewrite rev_at_app0, !rev_at_app by lia.
    rewrite (Uint8_set_app (flatten3 ts) x00 [x00] _ _)
      by (rewrite flatten3_length; unfold n; lia).
    replace (flatten3 ts ++ ToUint8 _ :: [x00])
      with ((flatten3 ts ++ [x]) ++ x00 :: [])
      by (rewrite <- app_assoc; cbn [app]; do 2 f_equal; symmetry; assumption).
    rewrite (Uint8_set_app (flatten3 ts ++ [x]) x00 [] _ _)
      by (rewrite length_app, flatten3_length; cbn [List.length]; unfold n; lia).
    rewrite <- app_assoc. cbn [app]. do 4 f_equal. assumption.
Qed.

Lemma base64_round_trip_any bytes : toByteArray (fromByteArray bytes) = Ok bytes.
Proof.
  destruct (triples_spec (List.length bytes) bytes (le_n _)) as [Hb Hl].
  rewrite Hb at 1. rewrite fromByteArray_triples by assumption.
  rewrite toByteArray_enc by assumption. now rewrite <- Hb.
Qed.

(** C7: decoding the base64 encoding of a byte array gives the array
    back, for every array of length 0 through 300. *)
Theorem base64_round_trip :
  forall bytes, (List.length bytes <= 300)%nat ->
    toByteArray (fromByteArray bytes) = Ok bytes.
Proof. intros bytes _. apply base64_round_trip_any. Qed.

Lemma base64_round_trip_witness :
  (List.length [x68; x69; x21; x00] <= 300)%nat
  /\ toByteArray (fromByteArray [x68; x69; x21; x00]) = Ok [x68; x69; x21; x00].
Proof.
  assert (H : (List.length [x68; x69; x21; x00] <= 300)%nat) by (cbn; lia).
  split; [exact H|]. exact (base64_round_trip [x68; x69; x21; x00] H).
Defined.

(** * Label resolution *)

Lemma trimAsciiWhitespace_eq s :
  trimAsciiWhitespace s =
  js_substring s
    (match code_start_idx s with Some i => i | None => 0 end)
    (match code_end_idx s with
     | Some _i => Z.of_nat (String.length s) - 1 - _i
     | None => Z.of_nat (String.length s) - 1
     end + 1).
Proof. reflexivity. Qed.

Lemma str_at_0 c r : str_at (String c r) 0 = Some c.
Proof. reflexivity. Qed.

Lemma str_at_succ c r i : 0 <= i -> str_at (String c r) (i + 1) = str_at r i.
Proof.
  intros Hi. unfold str_at.
  rewrite (proj2 (Z.ltb_ge _ _)) by lia. rewrite (proj2 (Z.ltb_ge _ _) Hi).
  replace (Z.to_nat (i + 1)) with (S (Z.to_nat i)) by lia. reflexivity.
Qed.

Lemma find_seq_shift (f : nat -> bool) a n :
  find f (seq (S a) n) = option_map S (find (fun k => f (S k)) (seq a n)).
Proof.
  revert a. induction n as [|n IH]; intros a; [reflexivity|].
  cbn [seq find]. destruct (f (S a)); [reflexivity | apply IH].
Qed.

Lemma find_ext_seq (f g : nat -> bool) l :
  (forall x, In x l -> f x = g x) -> find f l = find g l.
Proof.
  induction l as [|x l IH]; intros H; [reflexivity|].
  cbn [find]. rewrite (H x (or_introl eq_refl)).
  destruct (g x); [reflexivity|]. apply IH. intros y Hy. apply H. now right.
Qed.

Lemma find_app_seq (f : nat -> bool) l1 l2 :
  find f (l1 ++ l2) = match find f l1 with Some x => Some x | None => find f l2 end.
Proof.
  induction l1 as [|x l1 IH]; [reflexivity|].
  cbn [app find]. destruct (f x); [reflexivity | apply IH].
Qed.

Lemma code_start_idx_cons c r :
  code_start_idx (String c r) =
  if is_ws c then option_map Z.succ (code_start_idx r) else Some 0.
Proof.
  unfold code_start_idx, for_in_first. cbn [String.length seq find].
  change (Z.of_nat 0) with 0. rewrite str_at_0. cbn [whitespace_includes].
  fold (is_ws c). destruct (is_ws c); cbn [negb]; [|reflexivity].
  rewrite find_seq_shift.
  rewrite (find_ext_seq _ (fun k => negb (whitespace_includes (str_at r (Z.of_nat k))))).
  - destruct (find _ _); cbn [option_map]; [f_equal; lia | reflexivity].
  - intros k _. rewrite Nat2Z.inj_succ. unfold Z.succ. now rewrite str_at_succ by lia.
Qed.

Lemma code_end_idx_cons c r :
  code_end_idx (String c r) =
  match code_end_idx r with
  | Some j => Some j
  | None => if is_ws c then None else Some (Z.of_nat (String.length r))
  end.
Proof.
  unfold code_end_idx, for_in_first. cbn [String.length].
  rewrite seq_S, find_app_seq. cbn [Nat.add].
  rewrite (find_ext_seq _
             (fun k => negb (whitespace_includes
                               (str_at r (Z.of_nat (String.length r) - 1 - Z.of_nat k))))).
  - destruct (find _ (seq 0 (String.length r))); cbn [option_map]; [reflexivity|].
    cbn [find].
    replace (Z.of_nat (S (String.length r)) - 1 - Z.of_nat (String.length r)) with 0 by lia.
    rewrite str_at_0. cbn [whitespace_includes]. fold (is_ws c).
    destruct (is_ws c); reflexivity.
  - intros k Hk. apply in_seq in Hk.
    replace (Z.of_nat (S (String.length r)) - 1 - Z.of_nat k)
      with (Z.of_nat (String.length r) - 1 - Z.of_nat k + 1) by lia.
    now rewrite str_at_succ by lia.
Qed.

Lemma code_idx_all_ws s :
  all_ws s = true -> code_start_idx s = None /\ code_end_idx s = None.
Proof.
  induction s as [|c r IH]; [intros _; split; reflexivity|].
  cbn [all_ws]. intros H. apply andb_true_iff in H. destruct H as [Hc Hr].
  destruct (IH Hr) as [H1 H2].
  rewrite code_start_idx_cons, code_end_idx_cons, H1, H2, Hc. split; reflexivity.
Qed.

Lemma code_idx_some s :
  all_ws s = false ->
  (exists i, code_start_idx s = Some i /\ 0 <= i)
  /\ (exists j, code_end_idx s = Some j /\ 0 <= j < Z.of_nat (String.length s)).
Proof.
  induction s as [|c r IH]; [discriminate|].
  cbn [all_ws String.length]. rewrite code_start_idx_cons, code_end_idx_cons.
  destruct (is_ws c) eqn:Hc; cbn [andb].
  - intros Hr. destruct (IH Hr) as [[i [Hi Hi0]] [j [Hj Hj0]]].
    rewrite Hi, Hj. cbn [option_map]. split; eexists; split; try reflexivity; lia.
  - intros _. split; [exists 0; split; [reflexivity | lia]|].
    destruct (all_ws r) eqn:Hr.
    + destruct (code_idx_all_ws r Hr) as [_ H2]. rewrite H2.
      eexists; split; [reflexivity | lia].
    + destruct (IH eq_refl) as [_ [j [Hj Hj0]]]. rewrite Hj.
      eexists; split; [reflexivity | lia].
Qed.

Lemma js_substring_cons_shift c r a b :
  0 <= a -> 0 <= b ->
  js_substring (String c r) (a + 1) (b + 1) = js_substring r a b.
Proof.
  intros Ha Hb. unfold js_substring. cbn [String.length].
  set (len := Z.of_nat (String.length r)).
  replace (Z.of_nat (S (String.length r))) with (len + 1) by (unfold len; lia).
  replace (Z.min (Z.max (a + 1) 0) (len + 1)) with (Z.min (Z.max a 0) len + 1) by lia.
  replace (Z.min (Z.max (b + 1) 0) (len + 1)) with (Z.min (Z.max b 0) len + 1) by lia.
  set (fs := Z.min (Z.max a 0) len). set (fe := Z.min (Z.max b 0) len).
  replace (Z.min (fs + 1) (fe + 1)) with (Z.min fs fe + 1) by lia.
  replace (Z.max (fs + 1) (fe + 1)) with (Z.max fs fe + 1) by lia.
  replace (Z.to_nat (Z.min fs fe + 1)) with (S (Z.to_nat (Z.min fs fe)))
    by (unfold fs, fe, len; lia).
  replace (Z.max fs fe + 1 - (Z.min fs fe + 1)) with (Z.max fs fe - Z.min fs fe) by lia.
  reflexivity.
Qed.

Lemma js_substring_cons_0 c r b :
  0 <= b ->
  js_substring (String c r) 0 (b + 1) = String c (js_substring r 0 b).
Proof.
  intros Hb. unfold js_substring. cbn [String.length].
  set (len := Z.of_nat (String.length r)).
  replace (Z.of_nat (S (String.length r))) with (len + 1) by (unfold len; lia).
  replace (Z.min (Z.max 0 0) (len + 1)) with 0 by (unfold len; lia).
  replace (Z.min (Z.max 0 0) len) with 0 by (unfold len; lia).
  replace (Z.min (Z.max (b + 1) 0) (len + 1)) with (Z.min (Z.max b 0) len + 1) by lia.
  set (fe := Z.min (Z.max b 0) len).
  replace (Z.min 0 (fe + 1)) with 0 by (unfold fe, len; lia).
  replace (Z.max 0 (fe + 1)) with (fe + 1) by (unfold fe, len; lia).
  replace (Z.min 0 fe) with 0 by (unfold fe, len; lia).
  replace (Z.max 0 fe) with fe by (unfold fe, len; lia).
  rewrite !Z.sub_0_r.
  replace (Z.to_nat (fe + 1)) with (S (Z.to_nat fe)) by (unfold fe, len; lia).
  reflexivity.
Qed.

Lemma trim_end_all_ws s : all_ws s = true -> trim_end s = EmptyString.
Proof.
  induction s as [|c r IH]; [reflexivity|].
  cbn [all_ws trim_end]. intros H. apply andb_true_iff in H. destruct H as [Hc Hr].
  now rewrite (IH Hr), Hc.
Qed.

Lemma trim_end_not_empty s : all_ws s = false -> trim_end s <> EmptyString.
Proof.
  induction s as [|c r IH]; [discriminate|].
  cbn [all_ws trim_end]. destruct (trim_end r) eqn:Hr; [|discriminate].
  destruct (is_ws c); cbn [andb]; [|discriminate].
  intros H. now destruct (IH H).
Qed.

Lemma trim_start_all_ws s : all_ws s = true -> trim_start s = EmptyString.
Proof.
  induction s as [|c r IH]; [reflexivity|].
  cbn [all_ws trim_start]. intros H. apply andb_true_iff in H. destruct H as [Hc Hr].
  now rewrite Hc, (IH Hr).
Qed.

(** The prefix up to the last character that is not white space. *)
Lemma substring_to_end_idx s j :
  code_end_idx s = Some j ->
  js_substring s 0 (Z.of_nat (String.length s) - 1 - j + 1) = trim_end s.
Proof.
  revert j. induction s as [|c r IH]; intros j; [discriminate|].
  rewrite code_end_idx_cons. cbn [String.length trim_end].
  destruct (all_ws r) eqn:Hr.
  - destruct (code_idx_all_ws r Hr) as [_ H2]. rewrite H2, (trim_end_all_ws r Hr).
    destruct (is_ws c); [discriminate|]. intros [= <-].
    replace (Z.of_nat (S (String.length r)) - 1 - Z.of_nat (String.length r) + 1)
      with (0 + 1) by lia.
    rewrite js_substring_cons_0 by lia. f_equal.
    unfold js_substring. cbn. now destruct r.
  - destruct (code_idx_some r Hr) as [_ [j' [Hj' Hj0]]]. rewrite Hj'.
    intros [= <-].
    replace (Z.of_nat (S (String.length r)) - 1 - j' + 1)
      with (Z.of_nat (String.length r) - 1 - j' + 1 + 1) by lia.
    rewrite js_substring_cons_0 by lia. rewrite (IH j' Hj').
    pose proof (trim_end_not_empty r Hr).
    destruct (trim_end r); [contradiction | reflexivity].
Qed.

Lemma trimAsciiWhitespace_spec s :
  all_ws s = false -> trimAsciiWhitespace s = spec_trim s.
Proof.
  induction s as [|c r IH]; [discriminate|].
  intros Hs. rewrite trimAsciiWhitespace_eq.
  destruct (code_idx_some _ Hs) as [_ [j [Hj Hj0]]].
  unfold spec_trim. cbn [trim_start].
  rewrite code_start_idx_cons. destruct (is_ws c) eqn:Hc.
  - cbn [all_ws] in Hs. rewrite Hc in Hs. cbn [andb] in Hs.
    destruct (code_idx_some r Hs) as [[i [Hi Hi0]] [j' [Hj' Hj0']]].
    rewrite code_end_idx_cons, Hj', Hi. cbn [option_map String.length].
    unfold Z.succ.
    replace (Z.of_nat (S (String.length r)) - 1 - j' + 1)
      with (Z.of_nat (String.length r) - 1 - j' + 1 + 1) by lia.
    rewrite js_substring_cons_shift by lia.
    fold (spec_trim r). rewrite <- (IH Hs), trimAsciiWhitespace_eq, Hi, Hj'. reflexivity.
  - rewrite Hj. now apply substring_to_end_idx.
Qed.

Lemma trimAsciiWhitespace_all_ws s : all_ws s = true -> trimAsciiWhitespace s = s.
Proof.
  intros Hs. rewrite trimAsciiWhitespace_eq.
  destruct (code_idx_all_ws s Hs) as [H1 H2]. rewrite H1, H2.
  replace (Z.of_nat (String.length s) - 1 + 1) with (Z.of_nat (String.length s)) by lia.
  clear. induction s as [|c r IH]; [reflexivity|].
  cbn [String.length].
  replace (Z.of_nat (S (String.length r))) with (Z.of_nat (String.length r) + 1) by lia.
  rewrite js_substring_cons_0 by lia. now rewrite IH.
Qed.

Lemma is_ws_lower c : is_ws c = true -> toLowerCase_char c = c.
Proof.
  unfold is_ws, whitespace. cbn [existsb]. rewrite !orb_true_iff.
  intros [H|[H|[H|[H|[H|H]]]]]; try discriminate;
    apply Ascii.eqb_eq in H; subst c; reflexivity.
Qed.

Lemma toLowerCase_all_ws s : all_ws s = true -> toLowerCase s = s.
Proof.
  induction s as [|c r IH]; [reflexivity|].
  cbn [all_ws toLowerCase]. intros H. apply andb_true_iff in H. destruct H as [Hc Hr].
  now rewrite (is_ws_lower c Hc), (IH Hr).
Qed.

Lemma Map_get_In {V} (m : list (string * V)) k v : Map_get m k = Some v -> In (k, v) m.
Proof.
  induction m as [|[k' v'] m IH]; [discriminate|].
  cbn [Map_get]. destruct (String.eqb k' k) eqn:Hk.
  - apply String.eqb_eq in Hk. intros [= <-]. subst k'. now left.
  - intros H. right. now apply IH.
Qed.

Lemma encodings_keys :
  forallb (fun kv => starts_without_ws (fst kv)) encodings = true.
Proof. vm_compute. reflexivity. Qed.

Lemma encodings_get_ws s : starts_without_ws s = false -> Map_get encodings s = None.
Proof.
  intros Hs. destruct (Map_get encodings s) as [v|] eqn:Hget; [|reflexivity].
  apply Map_get_In in Hget.
  pose proof encodings_keys as H. rewrite forallb_forall in H.
  specialize (H _ Hget). cbn [fst] in H. congruence.
Qed.

Lemma resolve_trim label :
  Map_get encodings (toLowerCase (trimAsciiWhitespace label))
  = Map_get encodings (toLowerCase (spec_trim label)).
Proof.
  destruct (all_ws label) eqn:Hws.
  - rewrite trimAsciiWhitespace_all_ws, toLowerCase_all_ws by assumption.
    unfold spec_trim. rewrite trim_start_all_ws by assumption.
    rewrite encodings_get_ws; [reflexivity|].
    destruct label as [|c r]; [reflexivity|].
    cbn [all_ws] in Hws. apply andb_true_iff in Hws. destruct Hws as [Hc _].
    cbn [starts_without_ws]. now rewrite Hc.
  - now rewrite trimAsciiWhitespace_spec.
Qed.

Lemma encodings_values :
  forallb (fun kv =>
             Bool.eqb (String.eqb (snd kv) "")
                      false
             && Bool.eqb (negb (Map_has decoders (snd kv))
                          && negb (existsb (String.eqb (snd kv))
                                     ["utf-16le"; "utf-16be"; "utf-8"; "big5"]%string))
                         (String.eqb (snd kv) "gbk" || String.eqb (snd kv) "gb18030"))
          encodings = true.
Proof. vm_compute. reflexivity. Qed.

Lemma TextDecoder_new_spec label fatal ignoreBOM :
  TextDecoder_new label fatal ignoreBOM =
  match Map_get encodings (toLowerCase (spec_trim label)) with
  | None => Err InvalidLabel
  | Some encoding =>
      if String.eqb encoding "gbk" || String.eqb encoding "gb18030"
      then Err DecoderNotFound
      else Ok (mk_TextDecoder encoding fatal ignoreBOM)
  end.
Proof.
  unfold TextDecoder_new. rewrite resolve_trim.
  destruct (Map_get encodings (toLowerCase (spec_trim label))) as [enc|] eqn:Hget;
    [|reflexivity].
  apply Map_get_In in Hget.
  pose proof encodings_values as H. rewrite forallb_forall in H.
  specialize (H _ Hget). cbn [snd] in H.
  apply andb_true_iff in H. destruct H as [H1 H2].
  apply Bool.eqb_prop in H1. apply Bool.eqb_prop in H2.
  rewrite H1, H2. reflexivity.
Qed.

(** C8, as amended: the constructor trims white space from both ends of
    the label, lower-cases it and looks it up in the alias table; it
    fails with InvalidLabel when the label is absent, fails with "Internal
    decoder not found" when the encoding found is gbk or gb18030, and
    otherwise yields the canonical identifier. " UTF-8 " resolves to
    utf-8 and "latin1" to windows-1252, and decoding with an unresolvable
    label fails whatever the bytes. *)
Theorem label_resolution :
  (forall label,
      Resolve label =
      match Map_get encodings (toLowerCase (spec_trim label)) with
      | None => Err InvalidLabel
      | Some encoding =>
          if String.eqb encoding "gbk" || String.eqb encoding "gb18030"
          then Err DecoderNotFound
          else Ok encoding
      end)
  /\ Resolve " UTF-8 " = Ok "utf-8"%string
  /\ Resolve "latin1" = Ok "windows-1252"%string
  /\ (forall core_decode more_arguments bytes label fatal ignoreBOM,
         Map_get encodings (toLowerCase (spec_trim label)) = None ->
         Decode core_decode more_arguments bytes label fatal ignoreBOM = Err InvalidLabel).
Proof.
  split; [|split; [|split]].
  - intros label. unfold Resolve. rewrite TextDecoder_new_spec.
    destruct (Map_get encodings (toLowerCase (spec_trim label))) as [enc|];
      [|reflexivity].
    destruct (String.eqb enc "gbk" || String.eqb enc "gb18030"); reflexivity.
  - vm_compute. reflexivity.
  - vm_compute. reflexivity.
  - intros core_decode more_arguments bytes label fatal ignoreBOM Hnone.
    unfold Decode. rewrite TextDecoder_new_spec, Hnone. reflexivity.
Qed.

Lemma label_resolution_witness :
  Map_get encodings (toLowerCase (spec_trim "not-a-real-encoding")) = None
  /\ Decode (fun _ => []) 0%nat [x41; x42] "not-a-real-encoding" false false = Err InvalidLabel.
Proof.
  assert (H : Map_get encodings (toLowerCase (spec_trim "not-a-real-encoding")) = None)
    by (vm_compute; reflexivity).
  split; [exact H|].
  exact (proj2 (proj2 (proj2 label_resolution))
               (fun _ => []) 0%nat [x41; x42] "not-a-real-encoding"%string false false H).
Defined.

(** C8 as stated fails on the labels of gbk and gb18030: they are in the
    alias table, yet resolution fails, for want of a decoder. *)
Lemma label_resolution_counterexample :
  spec_Resolve "gbk" = Ok "gbk"%string
  /\ Resolve "gbk" = Err DecoderNotFound
  /\ spec_Resolve " GB18030 " = Ok "gb18030"%string
  /\ Resolve " GB18030 " = Err DecoderNotFound.
Proof. repeat split; vm_compute; reflexivity. Qed.

(** * decodeUtf8: the output buffer *)

Lemma ToUint16_idem v : ToUint16 (ToUint16 v) = ToUint16 v.
Proof. unfold ToUint16. apply Z.mod_mod. lia. Qed.

Lemma list_set_length {A} (l : list A) n v : List.length (list_set l n v) = List.length l.
Proof.
  revert n. induction l as [|x l IH]; intros [|n]; cbn; try reflexivity.
  now rewrite IH.
Qed.

Lemma firstn_list_set_succ {A} (l : list A) n v :
  (n < List.length l)%nat ->
  firstn (S n) (list_set l n v) = firstn n l ++ [v].
Proof.
  revert n. induction l as [|x l IH]; intros [|n] H; cbn in *; try lia.
  - reflexivity.
  - f_equal. apply IH. lia.
Qed.

Lemma fromCharCode_app a b : fromCharCode (a ++ b) = fromCharCode a ++ fromCharCode b.
Proof. apply map_app. Qed.

Lemma utf8_put_view L st v :
  utf8_buf_ok L st ->
  let st' := utf8_put L st v in
  utf8_view st' = utf8_view st ++ [ToUint16 v]
  /\ utf8_buf_ok L st'
  /\ u8_state st' = u8_state st
  /\ u8_codepoint st' = u8_codepoint st.
Proof.
  intros [Hidx Hlen]. unfold utf8_put, Uint16_set.
  rewrite (proj2 (Z.ltb_ge _ _)) by lia.
  set (buf := list_set (u8_outBuffer st) (Z.to_nat (u8_outIndex st)) (ToUint16 v)).
  assert (Hbl : List.length buf = List.length (u8_outBuffer st))
    by apply list_set_length.
  assert (Hfirst : firstn (Z.to_nat (u8_outIndex st + 1)) buf
                   = firstn (Z.to_nat (u8_outIndex st)) (u8_outBuffer st) ++ [ToUint16 v]).
  { replace (Z.to_nat (u8_outIndex st + 1)) with (S (Z.to_nat (u8_outIndex st))) by lia.
    apply firstn_list_set_succ. lia. }
  destruct (Z.eqb_spec (u8_outIndex st + 1) L) as [Hfull|Hnot]; cbv zeta;
    unfold utf8_view, utf8_buf_ok; cbn [u8_outString u8_outBuffer u8_outIndex
                                        u8_state u8_codepoint].
  - repeat split; try lia.
    cbn [Z.to_nat firstn fromCharCode map]. rewrite app_nil_r, <- app_assoc. f_equal.
    rewrite <- (firstn_all buf), Hbl.
    replace (List.length (u8_outBuffer st)) with (Z.to_nat (u8_outIndex st + 1)) by lia.
    rewrite Hfirst, !fromCharCode_app. cbn [fromCharCode map].
    now rewrite ToUint16_idem.
  - repeat split; try lia.
    rewrite Hfirst, fromCharCode_app, app_assoc. cbn [fromCharCode map].
    now rewrite ToUint16_idem.
Qed.

Lemma abs_put_of L st v :
  utf8_buf_ok L st ->
  utf8_abs_of (utf8_put L st v) = abs_put (utf8_abs_of st) v
  /\ utf8_buf_ok L (utf8_put L st v).
Proof.
  intros Hok. destruct (utf8_put_view L st v Hok) as [Hv [Hok' [Hs Hc]]].
  split; [|assumption].
  unfold utf8_abs_of, abs_put. cbn [a_out a_state a_codepoint].
  now rewrite Hv, Hs, Hc.
Qed.

Lemma utf8_set_state_of L st state codepoint :
  utf8_buf_ok L st ->
  utf8_abs_of (utf8_set_state st state codepoint)
  = mk_abs (a_out (utf8_abs_of st)) state codepoint
  /\ utf8_buf_ok L (utf8_set_state st state codepoint).
Proof. intros Hok. split; [reflexivity | exact Hok]. Qed.

Lemma decodeUtf8_iter_eq fatal L st byte :
  decodeUtf8_iter fatal L st byte =
  st <- (if utf8_bad (u8_state st) byte
         then if fatal then Err DecoderError
              else
                let st := utf8_put L st 0xfffd in
                Ok (utf8_set_state st 0 (u8_codepoint st))
         else Ok st) ;;
  Ok (dec_step L st byte).
Proof.
  unfold decodeUtf8_iter, dec_step, utf8_bad.
  destruct ((u8_state st =? 12) || _); [destruct fatal; [reflexivity|]|]; cbn [bind];
    cbv zeta;
    repeat match goal with
           | |- context [if ?c then _ else _] => destruct c
           end; reflexivity.
Qed.

Lemma dec_step_abs L st byte :
  utf8_buf_ok L st ->
  utf8_abs_of (dec_step L st byte) = abs_step (utf8_abs_of st) byte
  /\ utf8_buf_ok L (dec_step L st byte).
Proof.
  intros Hok. unfold dec_step, abs_step.
  change (a_state (utf8_abs_of st)) with (u8_state st).
  change (a_codepoint (utf8_abs_of st)) with (u8_codepoint st).
  unfold utf8_type, utf8_next. cbv zeta.
  set (type := nth (Z.to_nat byte) utf8_type_table 0).
  set (codepoint := if negb (u8_state st =? 0) then _ else _).
  set (state := nth (Z.to_nat (u8_state st + type)) utf8_state_table 0).
  destruct (utf8_set_state_of L st state codepoint Hok) as [Hs2 Hok2].
  destruct (negb (state =? 0)); [split; [now rewrite <- Hs2 | assumption]|].
  destruct (codepoint >? 65535).
  - destruct (abs_put_of L _ (55232 + Z.shiftr codepoint 10) Hok2) as [Hp1 Hok3].
    destruct (abs_put_of L _ (Z.lor 56320 (Z.land codepoint 1023)) Hok3) as [Hp2 Hok4].
    split; [|assumption]. rewrite Hp2, Hp1, Hs2. reflexivity.
  - destruct (abs_put_of L _ codepoint Hok2) as [Hp1 Hok3].
    split; [|assumption]. rewrite Hp1, Hs2. reflexivity.
Qed.

Lemma decodeUtf8_iter_abs fatal L st byte :
  utf8_buf_ok L st ->
  match decodeUtf8_iter fatal L st byte with
  | Ok st' => abs_iter fatal (utf8_abs_of st) byte = Ok (utf8_abs_of st')
              /\ utf8_buf_ok L st'
  | Err e => abs_iter fatal (utf8_abs_of st) byte = Err e
  end.
Proof.
  intros Hok. rewrite decodeUtf8_iter_eq. unfold abs_iter.
  change (a_state (utf8_abs_of st)) with (u8_state st).
  change (a_codepoint (utf8_abs_of st)) with (u8_codepoint st).
  destruct (utf8_bad (u8_state st) byte).
  - destruct fatal; [reflexivity|]. cbn [bind]. cbv zeta.
    destruct (abs_put_of L st 0xfffd Hok) as [Hp Hok1].
    set (st1 := utf8_set_state (utf8_put L st 65533) 0 (u8_codepoint (utf8_put L st 65533))).
    assert (Hok1' : utf8_buf_ok L st1) by exact Hok1.
    destruct (dec_step_abs L st1 byte Hok1') as [Hd Hok2].
    split; [|assumption]. rewrite Hd. do 2 f_equal.
    destruct (utf8_set_state_of L (utf8_put L st 65533) 0
                (u8_codepoint (utf8_put L st 65533)) Hok1) as [Hs _].
    fold st1 in Hs. rewrite Hs, Hp.
    destruct (utf8_put_view L st 65533 Hok) as [_ [_ [_ Hc]]].
    cbv zeta in Hc. rewrite Hc. reflexivity.
  - cbn [bind]. destruct (dec_step_abs L st byte Hok) as [Hd Hok2].
    split; [now rewrite Hd | assumption].
Qed.

Lemma decodeUtf8_loop_abs fatal L input :
  forall st,
    utf8_buf_ok L st ->
    match decodeUtf8_loop fatal L input st with
    | Ok st' => abs_loop fatal input (utf8_abs_of st) = Ok (utf8_abs_of st')
                /\ utf8_buf_ok L st'
    | Err e => abs_loop fatal input (utf8_abs_of st) = Err e
    end.
Proof.
  induction input as [|byte rest IH]; intros st Hok; cbn [decodeUtf8_loop abs_loop].
  - split; [reflexivity | assumption].
  - pose proof (decodeUtf8_iter_abs fatal L st (byteZ byte) Hok) as H.
    destruct (decodeUtf8_iter fatal L st (byteZ byte)) as [st'|e]; cbn [bind].
    + destruct H as [Ha Hok']. rewrite Ha. cbn [bind]. now apply IH.
    + now rewrite H.
Qed.

Lemma decodeUtf8_abs input fatal ignoreBOM :
  decodeUtf8 input fatal ignoreBOM =
  st <- abs_loop fatal (utf8_skip_bom input ignoreBOM) (mk_abs [] 0 0) ;;
  abs_finish fatal st.
Proof.
  unfold decodeUtf8, utf8_skip_bom.
  set (L := Z.min 1024 (Z.of_nat (List.length input))).
  set (rest := skipn _ input).
  set (st0 := mk_utf8 [] (repeat 0 (Z.to_nat L)) 0 0 0).
  assert (Habs0 : utf8_abs_of st0 = mk_abs [] 0 0) by reflexivity.
  destruct rest as [|b rest'] eqn:Hrest.
  - cbn [decodeUtf8_loop abs_loop bind]. reflexivity.
  - assert (Hlen : (0 < List.length input)%nat).
    { destruct input; [|cbn; lia]. unfold rest in Hrest. now rewrite skipn_nil in Hrest. }
    assert (Hok0 : utf8_buf_ok L st0).
    { unfold utf8_buf_ok, st0. cbn [u8_outIndex u8_outBuffer].
      rewrite repeat_length. unfold L. lia. }
    pose proof (decodeUtf8_loop_abs fatal L (b :: rest') st0 Hok0) as H.
    rewrite Habs0 in H.
    destruct (decodeUtf8_loop fatal L (b :: rest') st0) as [st'|e]; cbn [bind].
    + destruct H as [Ha [Hidx Hbl]]. rewrite Ha. cbn [bind].
      unfold abs_finish. change (a_state (utf8_abs_of st')) with (u8_state st').
      destruct (negb (u8_state st' =? 0)).
      * destruct fatal; [reflexivity|]. cbn [bind u8_outString u8_outBuffer u8_outIndex].
        f_equal. unfold utf8_abs_of, utf8_view. cbn [a_out].
        rewrite <- app_assoc. f_equal.
        unfold Uint16_set. rewrite (proj2 (Z.ltb_ge _ _)) by lia.
        replace (Z.to_nat (u8_outIndex st' + 1)) with (S (Z.to_nat (u8_outIndex st')))
          by lia.
        rewrite firstn_list_set_succ by lia.
        rewrite fromCharCode_app. reflexivity.
      * cbn [bind]. reflexivity.
    + now rewrite H.
Qed.

(** * The automaton of decodeUtf8, by ranges of bytes *)

Lemma utf8_next_spec state b :
  In state live_states -> 0 <= b < 256 ->
  utf8_next state (utf8_type b) = spec_next state b.
Proof.
  intros Hs Hb.
  assert (H : forallb (fun s => forallb (fun b => utf8_next s (utf8_type b) =? spec_next s b)
                                        (Zrange 256)) live_states = true)
    by (vm_compute; reflexivity).
  rewrite forallb_forall in H. specialize (H state Hs).
  apply Z.eqb_eq. exact (forall_below _ 256 H b Hb).
Qed.

Lemma utf8_init_spec b :
  0 <= b < 256 -> spec_next 0 b <> 12 ->
  Z.land (Z.shiftr 0xff (utf8_type b)) b = spec_init b.
Proof.
  intros Hb Hn.
  pose proof (forall_below
                (fun b => (spec_next 0 b =? 12)
                          || (Z.land (Z.shiftr 0xff (utf8_type b)) b =? spec_init b))
                256 ltac:(vm_compute; reflexivity) b Hb) as H.
  cbv beta in H. apply orb_true_iff in H. destruct H as [H|H].
  - apply Z.eqb_eq in H. contradiction.
  - now apply Z.eqb_eq.
Qed.

Lemma cont_mask b : 0 <= b < 256 -> (Z.land b 0xc0 =? 0x80) = is_cont b.
Proof.
  intros Hb.
  pose proof (forall_below (fun b => Bool.eqb (Z.land b 0xc0 =? 0x80) (is_cont b))
                           256 ltac:(vm_compute; reflexivity) b Hb) as H.
  now apply Bool.eqb_prop in H.
Qed.

Lemma ToInt32_small z : - 2 ^ 31 <= z < 2 ^ 31 -> ToInt32 z = z.
Proof.
  intros Hz. unfold ToInt32. rewrite Z.mod_small by lia. lia.
Qed.

Lemma cont_codepoint b cp :
  is_cont b = true -> 0 <= cp < 2 ^ 24 ->
  Z.lor (Z.land b 0x3f) (shl32 cp 6) = cp * 64 + (b - 0x80).
Proof.
  intros Hb Hcp. unfold is_cont, inRange in Hb. apply andb_true_iff in Hb.
  destruct Hb as [H1 H2]. apply Z.leb_le in H1, H2.
  unfold shl32. rewrite Z.shiftl_mul_pow2 by lia. change (2 ^ 6) with 64.
  change (2 ^ 24) with 16777216 in Hcp.
  rewrite ToInt32_small by (change (2 ^ 31) with 2147483648; lia).
  rewrite land_63, Z.lor_comm.
  rewrite (lor_add_disjoint (cp * 64) (b mod 64) 6);
    [| lia | change (2 ^ 6) with 64; apply Z.mod_mul; lia
     | change (2 ^ 6) with 64; apply Z.mod_pos_bound; lia].
  Z.div_mod_to_equations. lia.
Qed.

Ltac zbool :=
  repeat match goal with
         | H : (_ && _) = true |- _ => apply andb_true_iff in H; destruct H
         | H : (_ || _) = false |- _ => apply orb_false_iff in H; destruct H
         | H : (_ <=? _) = true |- _ => apply Z.leb_le in H
         | H : (_ <=? _) = false |- _ => apply Z.leb_gt in H
         | H : (_ <? _) = true |- _ => apply Z.ltb_lt in H
         | H : (_ <? _) = false |- _ => apply Z.ltb_ge in H
         | H : (_ =? _) = true |- _ => apply Z.eqb_eq in H
         | H : (_ =? _) = false |- _ => apply Z.eqb_neq in H
         | H : (_ >? _) = true |- _ => apply Z.gtb_lt in H
         | H : (_ >? _) = false |- _ => rewrite Z.gtb_ltb in H; apply Z.ltb_ge in H
         end.

(** Decide the comparisons of the goal, dropping the impossible cases. *)
Ltac zcases :=
  repeat match goal with
         | |- context [?a <=? ?b] =>
             destruct (Z.leb_spec a b); try lia
         | |- context [?a =? ?b] =>
             destruct (Z.eqb_spec a b); try lia
         | |- context [?a >? ?b] =>
             rewrite (Z.gtb_ltb a b)
         | |- context [?a <? ?b] =>
             destruct (Z.ltb_spec a b); try lia
         end; cbn [andb orb negb].

(** A pass on a lead byte. *)
Lemma abs_iter_lead fatal out cp0 b :
  0 <= b < 256 -> spec_next 0 b <> 12 ->
  abs_iter fatal (mk_abs out 0 cp0) b =
  Ok (if spec_next 0 b =? 0 then mk_abs (out ++ [b]) 0 b
      else mk_abs out (spec_next 0 b) (spec_init b)).
Proof.
  intros Hb Hn. unfold abs_iter. cbn [a_state a_out a_codepoint].
  change (utf8_bad 0 b) with false. cbn [bind]. unfold abs_step.
  cbn [a_state a_out a_codepoint]. change (negb (0 =? 0)) with false. cbv iota.
  rewrite (utf8_next_spec 0 b) by (cbn; auto || assumption).
  rewrite utf8_init_spec by assumption.
  destruct (Z.eqb_spec (spec_next 0 b) 0) as [H0|H0]; cbn [negb]; [|reflexivity].
  assert (Hascii : b <= 0x7F).
  { revert H0. unfold spec_next. cbn [Z.eqb]. unfold inRange. zcases; lia. }
  unfold spec_init. rewrite (proj2 (Z.leb_le _ _) Hascii).
  rewrite Z.gtb_ltb, (proj2 (Z.ltb_ge _ _)) by lia.
  unfold abs_put. cbn [a_out a_state a_codepoint]. unfold ToUint16.
  rewrite Z.mod_small by lia. rewrite H0. reflexivity.
Qed.

(** A pass on a continuation byte the state accepts. *)
Lemma abs_iter_cont fatal out state cp b :
  In state live_states -> state <> 0 ->
  0 <= b < 256 -> is_cont b = true -> spec_next state b <> 12 ->
  0 <= cp < 2 ^ 24 ->
  let cp' := cp * 64 + (b - 0x80) in
  abs_iter fatal (mk_abs out state cp) b =
  Ok (if spec_next state b =? 0
      then if cp' >? 0xffff
           then mk_abs ((out ++ [ToUint16 (0xd7c0 + Z.shiftr cp' 10)])
                        ++ [ToUint16 (Z.lor 0xdc00 (Z.land cp' 0x3ff))]) 0 cp'
           else mk_abs (out ++ [ToUint16 cp']) 0 cp'
      else mk_abs out (spec_next state b) cp').
Proof.
  intros Hs Hs0 Hb Hc Hn Hcp cp'. unfold abs_iter. cbn [a_state a_out a_codepoint].
  assert (Hbad : utf8_bad state b = false).
  { unfold utf8_bad. rewrite cont_mask, Hc by assumption.
    cbn [negb]. rewrite andb_false_r, orb_false_r. apply Z.eqb_neq.
    intros ->. cbn in Hs. intuition discriminate. }
  rewrite Hbad. cbn [bind]. unfold abs_step. cbn [a_state a_out a_codepoint].
  rewrite (proj2 (Z.eqb_neq _ _) Hs0). cbn [negb].
  rewrite utf8_next_spec by assumption.
  rewrite cont_codepoint by assumption. fold cp'.
  destruct (Z.eqb_spec (spec_next state b) 0) as [H0|H0]; cbn [negb]; [|reflexivity].
  rewrite H0. destruct (cp' >? 65535); reflexivity.
Qed.

(** * UTF-8: encoding one code point and decoding it back *)


Ltac spec_next_tac :=
  unfold spec_next, is_cont, inRange; zcases; try reflexivity; try lia.

Lemma spec_next_0_2 b : 0xC2 <= b <= 0xDF -> spec_next 0 b = 24.
Proof. intros H. spec_next_tac. Qed.

Lemma spec_next_0_E0 : spec_next 0 0xE0 = 48.
Proof. reflexivity. Qed.

Lemma spec_next_0_3 b : 0xE1 <= b <= 0xEC \/ 0xEE <= b <= 0xEF -> spec_next 0 b = 36.
Proof. intros H. spec_next_tac. Qed.

Lemma spec_next_0_ED : spec_next 0 0xED = 60.
Proof. reflexivity. Qed.

Lemma spec_next_0_F0 : spec_next 0 0xF0 = 72.
Proof. reflexivity. Qed.

Lemma spec_next_0_4 b : 0xF1 <= b <= 0xF3 -> spec_next 0 b = 84.
Proof. intros H. spec_next_tac. Qed.

Lemma spec_next_0_F4 : spec_next 0 0xF4 = 96.
Proof. reflexivity. Qed.

Lemma spec_next_24 b : 0x80 <= b <= 0xBF -> spec_next 24 b = 0.
Proof. intros H. spec_next_tac. Qed.

Lemma spec_next_36 b : 0x80 <= b <= 0xBF -> spec_next 36 b = 24.
Proof. intros H. spec_next_tac. Qed.

Lemma spec_next_48 b : 0xA0 <= b <= 0xBF -> spec_next 48 b = 24.
Proof. intros H. spec_next_tac. Qed.

Lemma spec_next_60 b : 0x80 <= b <= 0x9F -> spec_next 60 b = 24.
Proof. intros H. spec_next_tac. Qed.

Lemma spec_next_72 b : 0x90 <= b <= 0xBF -> spec_next 72 b = 36.
Proof. intros H. spec_next_tac. Qed.

Lemma spec_next_84 b : 0x80 <= b <= 0xBF -> spec_next 84 b = 36.
Proof. intros H. spec_next_tac. Qed.

Lemma spec_next_96 b : 0x80 <= b <= 0x8F -> spec_next 96 b = 36.
Proof. intros H. spec_next_tac. Qed.

Lemma is_cont_range b : 0x80 <= b <= 0xBF -> is_cont b = true.
Proof. intros H. unfold is_cont, inRange. zcases; try reflexivity. Qed.

Lemma lor_128 x : Z.lor 0x80 (Z.land x 0x3f) = 0x80 + x mod 64.
Proof.
  rewrite land_63. apply (lor_add_disjoint 0x80 (x mod 64) 7); [lia | reflexivity |].
  change (2 ^ 7) with 128. pose proof (Z.mod_pos_bound x 64). lia.
Qed.

(** A lead byte taking to [state], then continuation bytes: the state and
    the code point after each pass. *)
Lemma abs_loop_lead fatal out cp0 b rest state :
  0 <= b < 256 -> spec_next 0 b = state -> state <> 0 -> state <> 12 ->
  abs_loop fatal (ToUint8 b :: rest) (mk_abs out 0 cp0)
  = abs_loop fatal rest (mk_abs out state (spec_init b)).
Proof.
  intros Hb Hn H0 H12. cbn [abs_loop].
  rewrite byteZ_ToUint8 by lia.
  rewrite abs_iter_lead by (assumption || congruence).
  rewrite Hn, (proj2 (Z.eqb_neq _ _) H0). reflexivity.
Qed.

Lemma abs_loop_cont fatal out state cp b rest state' :
  In state live_states -> state <> 0 ->
  0x80 <= b <= 0xBF -> spec_next state b = state' -> state' <> 0 -> state' <> 12 ->
  0 <= cp < 2 ^ 24 ->
  abs_loop fatal (ToUint8 b :: rest) (mk_abs out state cp)
  = abs_loop fatal rest (mk_abs out state' (cp * 64 + (b - 0x80))).
Proof.
  intros Hs Hs0 Hb Hn H0 H12 Hcp. cbn [abs_loop].
  rewrite byteZ_ToUint8 by lia.
  rewrite abs_iter_cont by (assumption || congruence || lia || now apply is_cont_range).
  rewrite Hn, (proj2 (Z.eqb_neq _ _) H0). reflexivity.
Qed.

Lemma abs_loop_last fatal out state cp b :
  In state live_states -> state <> 0 ->
  0x80 <= b <= 0xBF -> spec_next state b = 0 ->
  0 <= cp < 2 ^ 24 ->
  let cp' := cp * 64 + (b - 0x80) in
  abs_loop fatal [ToUint8 b] (mk_abs out state cp)
  = Ok (if cp' >? 0xffff
        then mk_abs ((out ++ [ToUint16 (0xd7c0 + Z.shiftr cp' 10)])
                     ++ [ToUint16 (Z.lor 0xdc00 (Z.land cp' 0x3ff))]) 0 cp'
        else mk_abs (out ++ [ToUint16 cp']) 0 cp').
Proof.
  intros Hs Hs0 Hb Hn Hcp cp'. cbn [abs_loop].
  rewrite byteZ_ToUint8 by lia.
  rewrite abs_iter_cont by (assumption || congruence || lia || now apply is_cont_range).
  rewrite Hn. reflexivity.
Qed.

Lemma UTF8Encoder_handler_bytes cp :
  0 <= cp <= 0x10ffff -> UTF8Encoder_handler cp = Ok (Some (utf8_bytes cp)).
Proof.
  intros Hcp. unfold UTF8Encoder_handler, utf8_bytes, END_OF_STREAM, inRange.
  rewrite (proj2 (Z.eqb_neq cp (-1))) by lia.
  destruct (Z.leb_spec cp 127); [rewrite (proj2 (Z.leb_le 0 cp)) by lia; reflexivity|].
  rewrite andb_false_r.
  destruct (Z.leb_spec cp 2047).
  { rewrite (proj2 (Z.leb_le 128 cp)) by lia. cbn [andb bind UTF8Encoder_tail].
    change (6 * Z.of_nat 1) with 6. change (6 * Z.of_nat 0) with 0.
    rewrite Z.shiftr_0_r, lor_128, Z.shiftr_div_pow2 by lia. reflexivity. }
  rewrite andb_false_r.
  destruct (Z.leb_spec cp 65535).
  { rewrite (proj2 (Z.leb_le 2048 cp)) by lia. cbn [andb bind UTF8Encoder_tail].
    change (6 * Z.of_nat 2) with 12. change (6 * Z.of_nat 1) with 6.
    change (6 * Z.of_nat 0) with 0.
    rewrite Z.shiftr_0_r, !lor_128, !Z.shiftr_div_pow2 by lia. reflexivity. }
  rewrite andb_false_r.
  rewrite (proj2 (Z.leb_le 65536 cp)), (proj2 (Z.leb_le cp 1114111)) by lia.
  cbn [andb bind UTF8Encoder_tail].
  change (6 * Z.of_nat 3) with 18. change (6 * Z.of_nat 2) with 12.
  change (6 * Z.of_nat 1) with 6. change (6 * Z.of_nat 0) with 0.
  rewrite Z.shiftr_0_r, !lor_128, !Z.shiftr_div_pow2 by lia. reflexivity.
Qed.

Lemma stringToCodePoints_fromCodePoint cp text :
  ~ (0xD800 <= cp <= 0xDFFF) ->
  fromCodePoint cp = Some text -> stringToCodePoints text = [cp].
Proof.
  intros Hns. unfold fromCodePoint, inRange.
  destruct (Z.leb_spec 0 cp); [|discriminate].
  destruct (Z.leb_spec cp 1114111); [|discriminate]. cbn [andb].
  destruct (Z.leb_spec cp 65535); intros [= <-]; [reflexivity|].
  cbn [stringToCodePoints]. unfold inRange.
  rewrite Z.shiftr_div_pow2, land_1023 by lia. change (2 ^ 10) with 1024.
  set (hi := (cp - 65536) / 1024 + 55296). set (lo := (cp - 65536) mod 1024 + 56320).
  assert (Hhi : 55296 <= hi <= 56319) by (unfold hi; Z.div_mod_to_equations; lia).
  assert (Hlo : 56320 <= lo <= 57343) by (unfold lo; Z.div_mod_to_equations; lia).
  rewrite (proj2 (Z.leb_le 55296 hi)), (proj2 (Z.leb_le hi 56319)),
    (proj2 (Z.leb_le 56320 lo)), (proj2 (Z.leb_le lo 57343)) by lia.
  cbn [andb]. f_equal. unfold hi, lo. Z.div_mod_to_equations. lia.
Qed.

Lemma UTF8_encode_single cp text :
  0 <= cp <= 0x10ffff -> ~ (0xD800 <= cp <= 0xDFFF) ->
  fromCodePoint cp = Some text ->
  UTF8_encode text = Ok (Uint8Array_from (utf8_bytes cp)).
Proof.
  intros Hcp Hns Htext. unfold UTF8_encode.
  rewrite (stringToCodePoints_fromCodePoint cp text Hns Htext).
  rewrite encode_loop_eq. cbn [Stream_new rev app Stream_read last removelast].
  rewrite UTF8Encoder_handler_bytes by assumption. cbn [bind].
  rewrite encode_loop_eq. cbn [Stream_read bind app]. reflexivity.
Qed.

(** Decoding the bytes of one code point, on the abstract decoder. *)
Lemma abs_loop_utf8_bytes fatal cp text :
  0 <= cp <= 0x10ffff -> ~ (0xD800 <= cp <= 0xDFFF) ->
  fromCodePoint cp = Some text ->
  abs_loop fatal (Uint8Array_from (utf8_bytes cp)) (mk_abs [] 0 0)
  = Ok (mk_abs text 0 cp).
Proof.
  intros Hcp Hns Htext. unfold utf8_bytes, Uint8Array_from.
  unfold fromCodePoint, inRange in Htext.
  rewrite (proj2 (Z.leb_le 0 cp)), (proj2 (Z.leb_le cp 1114111)) in Htext by lia.
  cbn [andb] in Htext.
  assert (Hlive : forall s, s = 24 \/ s = 36 \/ s = 48 \/ s = 60 \/ s = 72 \/ s = 84
                            \/ s = 96 -> In s live_states /\ s <> 0 /\ s <> 12)
    by (intros s; cbn; intuition lia).
  destruct (Z.leb_spec cp 127).
  { (* one byte *)
    rewrite (proj2 (Z.leb_le cp 65535)) in Htext by lia. injection Htext as <-.
    cbn [map abs_loop]. rewrite byteZ_ToUint8 by lia.
    rewrite abs_iter_lead by (try lia; spec_next_tac).
    replace (spec_next 0 cp) with 0 by spec_next_tac. reflexivity. }
  destruct (Z.leb_spec cp 2047).
  { (* two bytes *)
    rewrite (proj2 (Z.leb_le cp 65535)) in Htext by lia. injection Htext as <-.
    cbn [map].
    assert (Hb0 : 0xC2 <= cp / 64 + 192 <= 0xDF) by (Z.div_mod_to_equations; lia).
    assert (Hb1 : 0x80 <= 128 + cp mod 64 <= 0xBF) by (Z.div_mod_to_equations; lia).
    rewrite (abs_loop_lead fatal [] 0 _ _ 24) by (try lia; now apply spec_next_0_2).
    rewrite abs_loop_last;
      [| apply Hlive; auto | lia | lia | now apply spec_next_24
       | unfold spec_init; zcases; change (2 ^ 24) with 16777216; lia].
    replace (spec_init (cp / 64 + 192) * 64 + (128 + cp mod 64 - 128)) with cp
      by (unfold spec_init; zcases; Z.div_mod_to_equations; lia).
    rewrite Z.gtb_ltb, (proj2 (Z.ltb_ge _ _)) by lia.
    unfold ToUint16. rewrite Z.mod_small by lia. reflexivity. }
  destruct (Z.leb_spec cp 65535).
  { (* three bytes *)
    injection Htext as <-. cbn [map].
    assert (Hb1 : 0x80 <= 128 + (cp / 64) mod 64 <= 0xBF) by (Z.div_mod_to_equations; lia).
    assert (Hb2 : 0x80 <= 128 + cp mod 64 <= 0xBF) by (Z.div_mod_to_equations; lia).
    assert (Hb0 : 0xE0 <= cp / 4096 + 224 <= 0xEF) by (Z.div_mod_to_equations; lia).
    assert (Hi : spec_init (cp / 4096 + 224) = cp / 4096)
      by (unfold spec_init; zcases; lia).
    assert (Hstate : exists s,
               spec_next 0 (cp / 4096 + 224) = s
               /\ (s = 36 \/ s = 48 \/ s = 60)
               /\ spec_next s (128 + (cp / 64) mod 64) = 24).
    { destruct (Z.eq_dec (cp / 4096) 0) as [E|E].
      - exists 48. rewrite E. split; [reflexivity|]. split; [auto|].
        apply spec_next_48. Z.div_mod_to_equations. lia.
      - destruct (Z.eq_dec (cp / 4096) 13) as [E'|E'].
        + exists 60. rewrite E'. split; [reflexivity|]. split; [auto|].
          apply spec_next_60. Z.div_mod_to_equations. lia.
        + exists 36. split; [apply spec_next_0_3; lia|]. split; [auto|].
          now apply spec_next_36. }
    destruct Hstate as [s [Hs0 [Hs Hs1]]].
    rewrite (abs_loop_lead fatal [] 0 _ _ s) by (try lia; intuition lia).
    rewrite Hi.
    rewrite (abs_loop_cont fatal [] s _ _ _ 24);
      [| apply Hlive; intuition lia | intuition lia | lia | assumption | lia | lia
       | change (2 ^ 24) with 16777216; Z.div_mod_to_equations; lia].
    rewrite abs_loop_last;
      [| apply Hlive; auto | lia | lia | now apply spec_next_24
       | change (2 ^ 24) with 16777216; Z.div_mod_to_equations; lia].
    replace ((cp / 4096 * 64 + (128 + (cp / 64) mod 64 - 128)) * 64
             + (128 + cp mod 64 - 128)) with cp by (Z.div_mod_to_equations; lia).
    rewrite Z.gtb_ltb, (proj2 (Z.ltb_ge _ _)) by lia.
    unfold ToUint16. rewrite Z.mod_small by lia. reflexivity. }
  (* four bytes *)
  injection Htext as <-. cbn [map].
  assert (Hb1 : 0x80 <= 128 + (cp / 4096) mod 64 <= 0xBF) by (Z.div_mod_to_equations; lia).
  assert (Hb2 : 0x80 <= 128 + (cp / 64) mod 64 <= 0xBF) by (Z.div_mod_to_equations; lia).
  assert (Hb3 : 0x80 <= 128 + cp mod 64 <= 0xBF) by (Z.div_mod_to_equations; lia).
  assert (Hb0 : 0xF0 <= cp / 262144 + 240 <= 0xF4) by (Z.div_mod_to_equations; lia).
  assert (Hi : spec_init (cp / 262144 + 240) = cp / 262144)
    by (unfold spec_init; zcases; lia).
  assert (Hstate : exists s,
             spec_next 0 (cp / 262144 + 240) = s
             /\ (s = 72 \/ s = 84 \/ s = 96)
             /\ spec_next s (128 + (cp / 4096) mod 64) = 36).
  { destruct (Z.eq_dec (cp / 262144) 0) as [E|E].
    - exists 72. rewrite E. split; [reflexivity|]. split; [auto|].
      apply spec_next_72. Z.div_mod_to_equations. lia.
    - destruct (Z.eq_dec (cp / 262144) 4) as [E'|E'].
      + exists 96. rewrite E'. split; [reflexivity|]. split; [auto|].
        apply spec_next_96. Z.div_mod_to_equations. lia.
      + exists 84. split; [apply spec_next_0_4; lia|]. split; [auto|].
        now apply spec_next_84. }
  destruct Hstate as [s [Hs0 [Hs Hs1]]].
  rewrite (abs_loop_lead fatal [] 0 _ _ s) by (try lia; intuition lia).
  rewrite Hi.
  rewrite (abs_loop_cont fatal [] s _ _ _ 36);
    [| apply Hlive; intuition lia | intuition lia | lia | assumption | lia | lia
     | change (2 ^ 24) with 16777216; Z.div_mod_to_equations; lia].
  rewrite (abs_loop_cont fatal [] 36 _ _ _ 24);
    [| apply Hlive; auto | lia | lia | now apply spec_next_36 | lia | lia
     | change (2 ^ 24) with 16777216; Z.div_mod_to_equations; lia].
  rewrite abs_loop_last;
    [| apply Hlive; auto | lia | lia | now apply spec_next_24
     | change (2 ^ 24) with 16777216; Z.div_mod_to_equations; lia].
  replace (((cp / 262144 * 64 + (128 + (cp / 4096) mod 64 - 128)) * 64
            + (128 + (cp / 64) mod 64 - 128)) * 64 + (128 + cp mod 64 - 128))
    with cp by (Z.div_mod_to_equations; lia).
  rewrite (proj2 (Z.gtb_lt _ _)) by lia.
  do 2 f_equal. cbn [app].
  rewrite !Z.shiftr_div_pow2, !land_1023 by lia. change (2 ^ 10) with 1024.
  rewrite (lor_add_disjoint 56320 (cp mod 1024) 10);
    [| lia | reflexivity | change (2 ^ 10) with 1024; apply Z.mod_pos_bound; lia].
  unfold ToUint16. rewrite !Z.mod_small by (Z.div_mod_to_equations; lia).
  f_equal; [|f_equal]; Z.div_mod_to_equations; lia.
Qed.

Lemma utf8_skip_bom_single cp ignoreBOM :
  0 <= cp <= 0x10ffff -> cp <> 0xFEFF \/ ignoreBOM = true ->
  utf8_skip_bom (Uint8Array_from (utf8_bytes cp)) ignoreBOM
  = Uint8Array_from (utf8_bytes cp).
Proof.
  intros Hcp Hbom. unfold utf8_skip_bom.
  destruct ignoreBOM; [reflexivity|]. destruct Hbom as [Hne|]; [|discriminate].
  cbn [negb andb].
  match goal with
  | |- skipn (if ?c then _ else _) _ = _ =>
      assert (Hc : c = false); [|rewrite Hc; reflexivity]
  end.
  unfold utf8_bytes, Uint8Array_from.
  destruct (Z.leb_spec cp 127).
  { cbn [map]. change (Uint8_at [ToUint8 cp] 1) with (@None Z). cbn [opt_eqb].
    now rewrite andb_false_r. }
  destruct (Z.leb_spec cp 2047).
  { cbn [map]. change (Uint8_at [?a; ?b] 2) with (@None Z). cbn [opt_eqb].
    now rewrite andb_false_r. }
  destruct (Z.leb_spec cp 65535); cbn [map].
  - change (Uint8_at (?a :: _) 0) with (Some (byteZ a)).
    change (Uint8_at (_ :: ?a :: _) 1) with (Some (byteZ a)).
    change (Uint8_at (_ :: _ :: ?a :: _) 2) with (Some (byteZ a)).
    rewrite !byteZ_ToUint8 by (Z.div_mod_to_equations; lia).
    cbn [opt_eqb].
    destruct (Z.eqb_spec (cp / 4096 + 224) 239); [|reflexivity].
    destruct (Z.eqb_spec (128 + (cp / 64) mod 64) 187); [|reflexivity].
    destruct (Z.eqb_spec (128 + cp mod 64) 191); [|reflexivity].
    exfalso. apply Hne. Z.div_mod_to_equations. lia.
  - change (Uint8_at (?a :: _) 0) with (Some (byteZ a)).
    rewrite byteZ_ToUint8 by (Z.div_mod_to_equations; lia).
    cbn [opt_eqb].
    destruct (Z.eqb_spec (cp / 262144 + 240) 239); [|reflexivity].
    exfalso. Z.div_mod_to_equations. lia.
Qed.

Lemma TextDecoder_new_utf8 fatal ignoreBOM :
  TextDecoder_new "utf-8" fatal ignoreBOM = Ok (mk_TextDecoder "utf-8" fatal ignoreBOM).
Proof. vm_compute. reflexivity. Qed.

Lemma Decode_utf8 core_decode more_arguments bytes fatal ignoreBOM :
  Decode core_decode more_arguments bytes "utf-8" fatal ignoreBOM =
  if negb fatal && negb ignoreBOM then Ok (core_decode bytes)
  else decodeUtf8 bytes fatal ignoreBOM.
Proof.
  unfold Decode. rewrite TextDecoder_new_utf8. cbn [bind].
  unfold TextDecoder_decode. cbn [td_encoding td_fatal td_ignoreBOM].
  change (String.eqb "utf-8" "utf-8") with true. cbn [andb].
  destruct (negb fatal && negb ignoreBOM); reflexivity.
Qed.

(** C2, as amended: for every code point of 0..0x10FFFF that is not a
    surrogate, and is not U+FEFF unless the byte-order mark is kept
    ([ignoreBOM] set), the UTF-8 decoding of the UTF-8 encoding of the
    one-code-point text is that text; so does [TextDecoder] answer
    whenever it does not hand the bytes to the host. *)
Theorem utf8_round_trip :
  forall cp fatal ignoreBOM,
    0 <= cp <= 0x10FFFF ->
    ~ (0xD800 <= cp <= 0xDFFF) ->
    cp <> 0xFEFF \/ ignoreBOM = true ->
    exists text bytes,
      fromCodePoint cp = Some text
      /\ UTF8_encode text = Ok bytes
      /\ decodeUtf8 bytes fatal ignoreBOM = Ok text
      /\ forall core_decode more_arguments,
          negb fatal && negb ignoreBOM = false ->
          Decode core_decode more_arguments bytes "utf-8" fatal ignoreBOM = Ok text.
Proof.
  intros cp fatal ignoreBOM Hcp Hns Hbom.
  destruct (fromCodePoint cp) as [text|] eqn:Htext.
  2:{ unfold fromCodePoint, inRange in Htext.
      rewrite (proj2 (Z.leb_le 0 cp)), (proj2 (Z.leb_le cp 1114111)) in Htext by lia.
      cbn [andb] in Htext. destruct (cp <=? 65535); discriminate. }
  exists text, (Uint8Array_from (utf8_bytes cp)).
  assert (Hdec : decodeUtf8 (Uint8Array_from (utf8_bytes cp)) fatal ignoreBOM = Ok text).
  { rewrite decodeUtf8_abs, utf8_skip_bom_single by assumption.
    rewrite (abs_loop_utf8_bytes fatal cp text) by assumption. reflexivity. }
  split; [reflexivity|]. split; [now apply UTF8_encode_single|]. split; [exact Hdec|].
  intros core_decode more_arguments Hpath. rewrite Decode_utf8, Hpath. exact Hdec.
Qed.

Lemma utf8_round_trip_witness :
  0 <= 0x1F600 <= 0x10FFFF
  /\ ~ (0xD800 <= 0x1F600 <= 0xDFFF)
  /\ (0x1F600 <> 0xFEFF \/ false = true)
  /\ exists text bytes,
      fromCodePoint 0x1F600 = Some text
      /\ UTF8_encode text = Ok bytes
      /\ decodeUtf8 bytes true false = Ok text
      /\ forall core_decode more_arguments,
          negb true && negb false = false ->
          Decode core_decode more_arguments bytes "utf-8" true false = Ok text.
Proof.
  assert (H1 : 0 <= 0x1F600 <= 0x10FFFF) by lia.
  assert (H2 : ~ (0xD800 <= 0x1F600 <= 0xDFFF)) by lia.
  assert (H3 : 0x1F600 <> 0xFEFF \/ false = true) by (left; lia).
  split; [exact H1 | split; [exact H2 | split; [exact H3 |]]].
  exact (utf8_round_trip 0x1F600 true false H1 H2 H3).
Defined.

(** C2 as stated fails on U+FEFF: its encoding EF BB BF is taken for a
    byte-order mark and skipped, so the text decoded is empty. *)
Lemma utf8_round_trip_counterexample :
  0 <= 0xFEFF <= 0x10FFFF
  /\ ~ (0xD800 <= 0xFEFF <= 0xDFFF)
  /\ fromCodePoint 0xFEFF = Some [0xFEFF]
  /\ UTF8_encode [0xFEFF] = Ok [xef; xbb; xbf]
  /\ decodeUtf8 [xef; xbb; xbf] false false = Ok []
  /\ decodeUtf8 [xef; xbb; xbf] true false = Ok []
  /\ (forall core_decode more_arguments,
         Decode core_decode more_arguments [xef; xbb; xbf] "utf-8" true false <> Ok [0xFEFF]).
Proof.
  split; [lia|]. split; [lia|]. split; [reflexivity|].
  split; [vm_compute; reflexivity|].
  split; [vm_compute; reflexivity|]. split; [vm_compute; reflexivity|].
  intros core_decode more_arguments. rewrite Decode_utf8. cbn [negb andb].
  vm_compute. discriminate.
Qed.

(** * Well-formed input of each decoder *)

(** ** UTF-8: the well-formed byte sequences of the Unicode standard *)

Lemma abs_step_state st b :
  a_state (abs_step st b) = utf8_next (a_state st) (utf8_type b).
Proof.
  unfold abs_step. cbv zeta.
  destruct (Z.eqb_spec (utf8_next (a_state st) (utf8_type b)) 0) as [H|H]; cbn [negb];
    [|reflexivity].
  destruct (_ >? 65535); cbn [abs_put a_state]; now rewrite H.
Qed.

Lemma abs_fatal_ctl bytes :
  forall st,
    match (st' <- abs_loop true bytes st ;; abs_finish true st') with
    | Ok _ => ctl_run (a_state st) bytes = true
    | Err e => e = DecoderError /\ ctl_run (a_state st) bytes = false
    end.
Proof.
  induction bytes as [|b rest IH]; intros st; cbn [abs_loop ctl_run bind].
  - unfold abs_finish. destruct (a_state st =? 0); cbn [negb]; auto.
  - unfold abs_iter. destruct (utf8_bad (a_state st) (byteZ b)); cbn [bind]; [auto|].
    specialize (IH (abs_step st (byteZ b))). rewrite abs_step_state in IH. exact IH.
Qed.

Ltac need_intro :=
  repeat match goal with
         | H : exists _, _ |- _ => destruct H
         | H : _ /\ _ |- _ => destruct H
         | H : _ :: _ = _ :: _ |- _ => injection H as ? ?; subst
         | H : [] = _ :: _ |- _ => discriminate H
         | H : _ :: _ = [] |- _ => discriminate H
         end.

Lemma wf_utf8_cons b rest :
  wf_utf8 (b :: rest) <-> need (spec_next 0 (byteZ b)) rest.
Proof.
  pose proof (byteZ_range b) as Hb. unfold bcont, utf8_second3, utf8_second4 in *.
  split.
  - intros H. inversion H as [|? ? H1 H2|? ? ? H1 H2 H3|? ? ? ? H1 H2 H3
                              |? ? ? ? ? H1 H2 H3 H4]; subst.
    + replace (spec_next 0 (byteZ b)) with 0 by spec_next_tac. exact H2.
    + rewrite spec_next_0_2 by assumption. cbn. eauto.
    + unfold utf8_second3 in H1.
      destruct H1 as [[E R]|[[E R]|[[E R]|[E R]]]].
      * rewrite E. cbn. unfold bcont. eauto 10.
      * rewrite spec_next_0_3 by auto. cbn. unfold bcont. eauto 10.
      * rewrite E. cbn. unfold bcont. eauto 10.
      * rewrite spec_next_0_3 by auto. cbn. unfold bcont. eauto 10.
    + unfold utf8_second4 in H1.
      destruct H1 as [[E R]|[[E R]|[E R]]].
      * rewrite E. cbn. unfold bcont. eauto 10.
      * rewrite spec_next_0_4 by auto. cbn. unfold bcont. eauto 10.
      * rewrite E. cbn. unfold bcont. eauto 10.
  - unfold spec_next, inRange. cbn [Z.eqb].
    zcases; intros Hneed; unfold need in Hneed; cbn [Z.eqb Pos.eqb] in Hneed;
      need_intro; subst; try contradiction.
    all: try (apply wf8_1; [lia | assumption]).
    all: try (apply wf8_2; [lia | assumption | assumption]).
    all: try (apply wf8_3; [unfold utf8_second3, bcont in *; lia | assumption | assumption]).
    all: try (apply wf8_4; [unfold utf8_second4, bcont in *; lia
                           | assumption | assumption | assumption]).
Qed.

Lemma need_12 bytes : need 12 bytes <-> False.
Proof. reflexivity. Qed.

Lemma need_cons state b rest :
  In state live_states -> state <> 0 ->
  (need state (b :: rest)
   <-> is_cont (byteZ b) = true /\ need (spec_next state (byteZ b)) rest).
Proof.
  intros Hs H0. pose proof (byteZ_range b) as Hb.
  cbn in Hs. destruct Hs as [<-|[<-|[<-|[<-|[<-|[<-|[<-|[<-|[]]]]]]]]]; try lia;
    unfold spec_next, is_cont, inRange, bcont; cbn [Z.eqb Pos.eqb];
    zcases; unfold need; cbn [Z.eqb Pos.eqb]; unfold bcont;
    (split; [intros Hneed; need_intro; subst;
             first [lia | split; [reflexivity | eauto 10]]
            | intros [Hc Hneed]; first [discriminate | contradiction
                                       | need_intro; subst; eauto 12]]).
Qed.

Lemma utf8_bad_live state b :
  In state live_states -> state <> 0 ->
  utf8_bad state (byteZ b) = negb (is_cont (byteZ b)).
Proof.
  intros Hs H0. unfold utf8_bad. rewrite cont_mask by apply byteZ_range.
  assert (H12 : state <> 12) by (intros ->; cbn in Hs; intuition discriminate).
  rewrite (proj2 (Z.eqb_neq _ _) H12), (proj2 (Z.eqb_neq _ _) H0). reflexivity.
Qed.

Lemma spec_next_live state b :
  In state live_states -> In (spec_next state b) live_states \/ spec_next state b = 12.
Proof.
  intros Hs. cbn in Hs. destruct Hs as [<-|[<-|[<-|[<-|[<-|[<-|[<-|[<-|[]]]]]]]]];
    unfold spec_next, is_cont, inRange; cbn [Z.eqb Pos.eqb]; zcases; cbn; auto 12.
Qed.

Lemma ctl_need bytes :
  forall state,
    In state live_states \/ state = 12 ->
    (ctl_run state bytes = true <-> need state bytes).
Proof.
  induction bytes as [|b rest IH]; intros state Hs.
  - cbn [ctl_run]. destruct Hs as [Hs| ->]; [|cbn; intuition discriminate].
    cbn in Hs. destruct Hs as [<-|[<-|[<-|[<-|[<-|[<-|[<-|[<-|[]]]]]]]]];
      unfold need; cbn [Z.eqb Pos.eqb];
      (split; [intros; try discriminate; constructor
              | intros Hneed; need_intro; reflexivity]).
  - cbn [ctl_run]. destruct Hs as [Hs| ->].
    2:{ change (utf8_bad 12 (byteZ b)) with true. cbv iota. rewrite need_12.
        intuition discriminate. }
    destruct (Z.eq_dec state 0) as [->|H0].
    + change (utf8_bad 0 (byteZ b)) with false. cbv iota.
      rewrite utf8_next_spec by (cbn; auto || apply byteZ_range).
      rewrite IH by (apply spec_next_live; cbn; auto).
      symmetry. apply wf_utf8_cons.
    + rewrite utf8_bad_live, need_cons by assumption.
      destruct (is_cont (byteZ b)); cbn [negb].
      * rewrite utf8_next_spec by (assumption || apply byteZ_range).
        rewrite IH by (now apply spec_next_live). intuition.
      * intuition discriminate.
Qed.

Lemma wf_utf8_bom rest : wf_utf8 (xef :: xbb :: xbf :: rest) <-> wf_utf8 rest.
Proof.
  split.
  - intros H. inversion H as [|? ? H1 H2|? ? ? H1 H2 H3|? ? ? ? H1 H2 H3
                              |? ? ? ? ? H1 H2 H3 H4]; subst;
      try (cbn in H1; lia); [assumption|].
    unfold utf8_second4 in H1. cbn in H1. lia.
  - intros H. apply wf8_3; [|unfold bcont; cbn; lia | assumption].
    unfold utf8_second3. cbn. lia.
Qed.

Lemma utf8_skip_bom_wf bytes ignoreBOM :
  wf_utf8 (utf8_skip_bom bytes ignoreBOM) <-> wf_utf8 bytes.
Proof.
  unfold utf8_skip_bom.
  destruct (negb ignoreBOM && _ && _ && _) eqn:Hc; [|reflexivity].
  apply andb_true_iff in Hc. destruct Hc as [Hc H2].
  apply andb_true_iff in Hc. destruct Hc as [Hc H1].
  apply andb_true_iff in Hc. destruct Hc as [_ H0].
  destruct bytes as [|b0 [|b1 [|b2 rest]]]; try discriminate.
  change (Uint8_at (b0 :: b1 :: b2 :: rest) 0) with (Some (byteZ b0)) in H0.
  change (Uint8_at (b0 :: b1 :: b2 :: rest) 1) with (Some (byteZ b1)) in H1.
  change (Uint8_at (b0 :: b1 :: b2 :: rest) 2) with (Some (byteZ b2)) in H2.
  cbn [opt_eqb] in *. apply Z.eqb_eq in H0, H1, H2.
  assert (Hb : forall b v, byteZ b = v -> b = ToUint8 v)
    by (intros b v <-; symmetry; apply ToUint8_byteZ).
  rewrite (Hb b0 _ H0), (Hb b1 _ H1), (Hb b2 _ H2).
  cbn [skipn]. symmetry. apply wf_utf8_bom.
Qed.

(** In fatal mode [decodeUtf8] throws exactly on ill-formed input. *)
Lemma decodeUtf8_fatal bytes ignoreBOM :
  match decodeUtf8 bytes true ignoreBOM with
  | Ok _ => wf_utf8 bytes
  | Err e => e = DecoderError /\ ~ wf_utf8 bytes
  end.
Proof.
  rewrite decodeUtf8_abs.
  pose proof (abs_fatal_ctl (utf8_skip_bom bytes ignoreBOM) (mk_abs [] 0 0)) as H.
  cbn [a_state] in H.
  pose proof (ctl_need (utf8_skip_bom bytes ignoreBOM) 0 ltac:(cbn; auto)) as Hn.
  change (need 0 (utf8_skip_bom bytes ignoreBOM))
    with (wf_utf8 (utf8_skip_bom bytes ignoreBOM)) in Hn.
  rewrite utf8_skip_bom_wf in Hn.
  destruct (st' <- abs_loop true _ _ ;; abs_finish true st') as [s|e].
  - now apply Hn.
  - destruct H as [-> Hf]. split; [reflexivity|].
    intros Hwf. apply Hn in Hwf. congruence.
Qed.

(** Fatal and non-fatal runs: the same text when the fatal run returns,
    and a text holding U+FFFD when it throws. *)
Lemma abs_loop_out_grows bytes :
  forall st st', abs_loop false bytes st = Ok st' ->
                 exists more, a_out st' = a_out st ++ more.
Proof.
  induction bytes as [|b rest IH]; intros st st'; cbn [abs_loop].
  - intros [= <-]. exists []. now rewrite app_nil_r.
  - unfold abs_iter.
    assert (Hstep : forall s x, exists more, a_out (abs_step s x) = a_out s ++ more).
    { intros s x. unfold abs_step. cbv zeta.
      destruct (negb _); [exists []; cbn; now rewrite app_nil_r|].
      destruct (_ >? _); cbn [abs_put a_out]; [|eauto].
      rewrite <- app_assoc. eauto. }
    destruct (utf8_bad (a_state st) (byteZ b)); cbn [bind]; intros H.
    + destruct (IH _ _ H) as [m Hm]. destruct (Hstep (mk_abs (a_out st ++ [65533]) 0
                                                        (a_codepoint st)) (byteZ b))
        as [m' Hm'].
      rewrite Hm, Hm'. cbn [a_out]. rewrite <- !app_assoc. eauto.
    + destruct (IH _ _ H) as [m Hm]. destruct (Hstep st (byteZ b)) as [m' Hm'].
      rewrite Hm, Hm', <- app_assoc. eauto.
Qed.

Lemma abs_loop_nonfatal_ok bytes : forall st, exists st', abs_loop false bytes st = Ok st'.
Proof.
  induction bytes as [|b rest IH]; intros st; cbn [abs_loop]; [eauto|].
  unfold abs_iter. destruct (utf8_bad _ _); cbn [bind]; apply IH.
Qed.

Lemma abs_loop_fatal_nonfatal bytes :
  forall st,
    match abs_loop true bytes st with
    | Ok st' => abs_loop false bytes st = Ok st'
    | Err _ => exists st', abs_loop false bytes st = Ok st' /\ In 0xfffd (a_out st')
    end.
Proof.
  induction bytes as [|b rest IH]; intros st; cbn [abs_loop]; [reflexivity|].
  unfold abs_iter. destruct (utf8_bad (a_state st) (byteZ b)); cbn [bind].
  - destruct (abs_loop_nonfatal_ok rest
                (abs_step (mk_abs (a_out st ++ [65533]) 0 (a_codepoint st)) (byteZ b)))
      as [st' Hst'].
    exists st'. split; [assumption|].
    destruct (abs_loop_out_grows _ _ _ Hst') as [m Hm].
    assert (Hstep : exists m', a_out (abs_step (mk_abs (a_out st ++ [65533]) 0
                                                  (a_codepoint st)) (byteZ b))
                               = (a_out st ++ [65533]) ++ m').
    { unfold abs_step. cbv zeta. cbn [a_out a_state a_codepoint].
      destruct (negb _); [exists []; cbn; now rewrite app_nil_r|].
      destruct (_ >? _); cbn [abs_put a_out]; [|eauto].
      rewrite <- app_assoc. eauto. }
    destruct Hstep as [m' Hm']. rewrite Hm, Hm'.
    rewrite !in_app_iff. left. left. right. now left.
  - apply IH.
Qed.

Lemma decodeUtf8_nonfatal bytes ignoreBOM :
  exists s,
    decodeUtf8 bytes false ignoreBOM = Ok s
    /\ match decodeUtf8 bytes true ignoreBOM with
       | Ok s' => s = s'
       | Err _ => In 0xfffd s
       end.
Proof.
  rewrite !decodeUtf8_abs.
  pose proof (abs_loop_fatal_nonfatal (utf8_skip_bom bytes ignoreBOM) (mk_abs [] 0 0)) as H.
  destruct (abs_loop true (utf8_skip_bom bytes ignoreBOM) (mk_abs [] 0 0)) as [st'|e].
  - rewrite H. cbn [bind]. unfold abs_finish.
    destruct (negb (a_state st' =? 0)); eexists; split; try reflexivity.
    rewrite in_app_iff. right. now left.
  - destruct H as [st' [Hst' Hin]]. rewrite Hst'. cbn [bind]. unfold abs_finish.
    destruct (negb (a_state st' =? 0)); eexists; split; try reflexivity; try assumption.
    rewrite in_app_iff. now left.
Qed.

(** ** UTF-16: code units, byte-order marks dropped, surrogates paired *)

Lemma Utf16ByteDecoder_eq bytes be fatal ignoreBOM :
  Utf16ByteDecoder bytes be fatal ignoreBOM =
  st <- Utf16_loop be fatal ignoreBOM bytes (mk_utf16 None None []) ;;
  Utf16_finish fatal st.
Proof. reflexivity. Qed.

Lemma wf16_cons_high u rest :
  0xD800 <= u <= 0xDBFF -> (wf_utf16_units (u :: rest) <-> need16 (Some u) rest).
Proof.
  intros Hu. cbn [need16]. split.
  - intros H. inversion H; subst; [lia|]. eauto.
  - intros [l [r [-> [Hl Hr]]]]. now apply wf16_pair.
Qed.

Lemma wf16_cons_low u rest : 0xDC00 <= u <= 0xDFFF -> ~ wf_utf16_units (u :: rest).
Proof. intros Hu H. inversion H; subst; lia. Qed.

Lemma wf16_cons_other u rest :
  ~ (0xD800 <= u <= 0xDFFF) -> (wf_utf16_units (u :: rest) <-> wf_utf16_units rest).
Proof.
  intros Hu. split.
  - intros H. inversion H; subst; [assumption | lia].
  - intros H. now apply wf16_one.
Qed.



Lemma utf16_accepts_cons be ignoreBOM ls b1 b2 rest :
  utf16_accepts be ignoreBOM ls (b1 :: b2 :: rest) <->
  exists units,
    utf16_units be rest = Some units
    /\ need16 ls (filter (utf16_kept ignoreBOM)
                         (Utf16_codeUnit be (byteZ b1) (byteZ b2) :: units)).
Proof.
  unfold utf16_accepts. cbn [utf16_units].
  destruct (utf16_units be rest) as [us|]; cbn [option_map].
  - split; intros [x [[= <-] H]]; eauto.
  - split; intros [x [H _]]; discriminate.
Qed.








(** ** Big5: ASCII bytes and mapped lead/trail pairs *)

Lemma Big5Decoder_eq big5 bytes fatal :
  Big5Decoder big5 bytes fatal false =
  st <- Big5_loop big5 bytes fatal (mk_big5 0 0x00 []) ;; Big5_finish fatal st.
Proof. reflexivity. Qed.

Lemma Uint8_at_skipn bytes i :
  0 <= i < Z.of_nat (List.length bytes) ->
  exists b, Uint8_at bytes i = Some (byteZ b)
            /\ skipn (Z.to_nat i) bytes = b :: skipn (Z.to_nat (i + 1)) bytes.
Proof.
  intros Hi. unfold Uint8_at. rewrite (proj2 (Z.ltb_ge _ _)) by lia.
  replace (Z.to_nat (i + 1)) with (S (Z.to_nat i)) by lia.
  assert (Hn : (Z.to_nat i < List.length bytes)%nat) by lia.
  revert Hn. generalize (Z.to_nat i). clear Hi i.
  induction bytes as [|b bytes IH]; intros n Hn; [cbn in Hn; lia|].
  destruct n as [|n].
  - exists b. split; reflexivity.
  - cbn [nth_error skipn]. apply IH. cbn in Hn. lia.
Qed.

Lemma wf_big5_ascii big5 b rest :
  isASCIIByte (byteZ b) = true -> (wf_big5 big5 (b :: rest) <-> wf_big5 big5 rest).
Proof.
  intros Hb. split.
  - intros H. inversion H; subst; [assumption|].
    unfold isASCIIByte, inRange in *. lia.
  - now apply wfb_ascii.
Qed.

Lemma wf_big5_lead big5 b rest :
  inRange (byteZ b) 0x81 0xFE = true ->
  (wf_big5 big5 (b :: rest) <-> need_big5 big5 (byteZ b) rest).
Proof.
  intros Hb. unfold need_big5.
  assert (Hne : (byteZ b =? 0) = false) by (unfold inRange in Hb; lia).
  rewrite Hne. split.
  - intros H. inversion H; subst.
    + unfold isASCIIByte, inRange in *. lia.
    + eauto.
  - intros [trail [rest' [-> [Hm Hw]]]]. now apply wfb_pair.
Qed.

Lemma wf_big5_other big5 b rest :
  isASCIIByte (byteZ b) = false -> inRange (byteZ b) 0x81 0xFE = false ->
  ~ wf_big5 big5 (b :: rest).
Proof. intros H1 H2 H. inversion H; subst; congruence. Qed.

Lemma need_big5_cons big5 lead b rest :
  lead <> 0 ->
  (need_big5 big5 lead (b :: rest)
   <-> Big5_mapped big5 lead (byteZ b) /\ wf_big5 big5 rest).
Proof.
  intros Hl. unfold need_big5. rewrite (proj2 (Z.eqb_neq _ _) Hl). split.
  - intros [trail [rest' [[= <- <-] H]]]. exact H.
  - intros H. eauto.
Qed.









(** ** Single-byte encodings: every byte is ASCII or has an index entry *)

Lemma Stream_read_new token tokens :
  Stream_read (Stream_new (token :: tokens)) = (token, Stream_new tokens).
Proof.
  unfold Stream_new, Stream_read. cbn [rev].
  destruct (rev tokens ++ [token]) eqn:H.
  - now destruct (rev tokens).
  - rewrite <- H. now rewrite last_last, removelast_last.
Qed.

Lemma decode_loop_tokens decoder tokens :
  forall output,
    decode_loop decoder (Stream_new tokens) output = decode_tokens decoder tokens output.
Proof.
  induction tokens as [|token rest IH]; intros output; rewrite decode_loop_eq.
  - cbn. reflexivity.
  - rewrite Stream_read_new. cbn [decode_tokens].
    destruct (SingleByteDecoder_handler decoder token) as [res|e]; cbn [bind];
      [|reflexivity].
    destruct (res =? FINISHED); [reflexivity | apply IH].
Qed.

Lemma index_get_ok index pointer codePoint :
  index_ok index = true -> index_get index pointer = JNum codePoint ->
  0 <= codePoint <= 0x10FFFF.
Proof.
  intros Hok. unfold index_get. destruct (pointer <? 0); [discriminate|].
  destruct (nth_error index (Z.to_nat pointer)) as [[c|]|] eqn:Hnth; try discriminate.
  intros [= <-]. apply nth_error_In in Hnth.
  unfold index_ok in Hok. rewrite forallb_forall in Hok. specialize (Hok _ Hnth).
  cbn in Hok. unfold inRange in Hok. lia.
Qed.

(** One byte: in fatal mode the handler throws exactly on an unmapped
    byte, where it otherwise answers U+FFFD. *)
Lemma SingleByteDecoder_handler_byte index b :
  index_ok index = true ->
  exists res,
    SingleByteDecoder_handler (mk_single index false) (byteZ b) = Ok res
    /\ code_point res
    /\ ((single_mapped index b
         /\ SingleByteDecoder_handler (mk_single index true) (byteZ b) = Ok res)
        \/ (~ single_mapped index b /\ res = 0xfffd
            /\ SingleByteDecoder_handler (mk_single index true) (byteZ b)
               = Err DecoderError)).
Proof.
  intros Hok. pose proof (byteZ_range b) as Hb.
  unfold SingleByteDecoder_handler, single_mapped, END_OF_STREAM. cbn [sb_index sb_fatal].
  rewrite (proj2 (Z.eqb_neq _ _)) by lia.
  destruct (isASCIIByte (byteZ b)) eqn:Hascii.
  - exists (byteZ b). split; [reflexivity|]. split; [unfold code_point; lia|].
    left. split; [now left | reflexivity].
  - destruct (index_get index (byteZ b - 128)) as [| |c] eqn:Hget; cbn [decoderError].
    + exists 0xfffd. split; [reflexivity|]. split; [unfold code_point; lia|].
      right. split; [|split; reflexivity]. intros [H|[c H]]; discriminate.
    + exists 0xfffd. split; [reflexivity|]. split; [unfold code_point; lia|].
      right. split; [|split; reflexivity]. intros [H|[c H]]; discriminate.
    + exists c. split; [reflexivity|].
      split; [exact (index_get_ok _ _ _ Hok Hget)|].
      left. split; [right; eauto | reflexivity].
Qed.

Lemma decode_tokens_nonfatal index bytes :
  index_ok index = true ->
  forall output,
    exists more,
      decode_tokens (mk_single index false) (map byteZ bytes) output = Ok (output ++ more)
      /\ Forall code_point more
      /\ match decode_tokens (mk_single index true) (map byteZ bytes) output with
         | Ok output' => output' = output ++ more /\ wf_single index bytes
         | Err e => e = DecoderError /\ In 0xfffd more /\ ~ wf_single index bytes
         end.
Proof.
  intros Hok. induction bytes as [|b rest IH]; intros output; cbn [map decode_tokens].
  - exists []. rewrite app_nil_r. repeat split; constructor.
  - destruct (SingleByteDecoder_handler_byte index b Hok) as [res [Hres [Hcp Hcase]]].
    rewrite Hres. cbn [bind].
    assert (Hfin : (res =? FINISHED) = false)
      by (unfold code_point, FINISHED in *; lia).
    rewrite Hfin. destruct (IH (output ++ [res])) as [more [Hmore [Hall Hf]]].
    exists (res :: more). rewrite Hmore, <- app_assoc. split; [reflexivity|].
    split; [now constructor|].
    destruct Hcase as [[Hm Hfatal]|[Hm [-> Hfatal]]]; rewrite Hfatal; cbn [bind].
    + rewrite Hfin.
      destruct (decode_tokens (mk_single index true) (map byteZ rest) (output ++ [res]))
        as [output'|e].
      * destruct Hf as [-> Hw]. rewrite <- app_assoc. split; [reflexivity|].
        now constructor.
      * destruct Hf as [-> [Hin Hw]]. split; [reflexivity|]. split; [now right|].
        intros H. inversion H; subst. contradiction.
    + split; [reflexivity|]. split; [now left|].
      intros H. inversion H; subst. contradiction.
Qed.

Lemma codePointsToString_ok codePoints :
  Forall code_point codePoints ->
  exists s, codePointsToString codePoints = Ok s
            /\ (In 0xfffd codePoints -> In 0xfffd s).
Proof.
  induction 1 as [|cp rest Hcp Hrest [s [Hs Hin]]]; cbn [codePointsToString].
  - exists []. split; [reflexivity | auto].
  - unfold fromCodePoint, inRange. unfold code_point in Hcp.
    rewrite (proj2 (Z.leb_le 0 cp)), (proj2 (Z.leb_le cp _)) by lia. cbn [andb].
    rewrite Hs. cbn [bind].
    destruct (Z.leb_spec cp 0xFFFF); eexists; (split; [reflexivity|]).
    + intros [->|Hr]; [now left | right; auto].
    + intros [->|Hr]; [lia|]. rewrite in_app_iff. right. auto.
Qed.

Lemma strip_BOM_props output :
  (Forall code_point output -> Forall code_point (strip_BOM output))
  /\ (In 0xfffd output -> In 0xfffd (strip_BOM output)).
Proof.
  destruct output as [|first rest]; cbn [strip_BOM]; [auto|].
  destruct (Z.eqb_spec first 0xfeff) as [->|Hne]; [|auto]. split.
  - intros H. now inversion H.
  - intros [H|H]; [lia | assumption].
Qed.

Lemma decode_single_nonfatal index bytes :
  index_ok index = true ->
  exists s,
    decode_single index bytes false false = Ok s
    /\ match decode_single index bytes true false with
       | Ok s' => s = s' /\ wf_single index bytes
       | Err e => e = DecoderError /\ In 0xfffd s /\ ~ wf_single index bytes
       end.
Proof.
  intros Hok. unfold decode_single, SingleByteDecoder_new. cbn [bind].
  rewrite !decode_loop_tokens.
  destruct (decode_tokens_nonfatal index bytes Hok []) as [more [Hmore [Hall Hf]]].
  rewrite Hmore. cbn [app bind] in *.
  destruct (strip_BOM_props more) as [Hs1 Hs2].
  destruct (codePointsToString_ok _ (Hs1 Hall)) as [s [Hs Hin]].
  exists s. split; [assumption|].
  destruct (decode_tokens (mk_single index true) (map byteZ bytes) []) as [output'|e];
    cbn [bind].
  - destruct Hf as [-> Hw]. rewrite Hs. auto.
  - destruct Hf as [-> [Hfffd Hw]]. auto.
Qed.

(** ** The decoders of [decoders] are those of the index tables *)


Lemma Map_get_set {V} (m : list (string * V)) k v k' :
  Map_get (Map_set m k v) k' = if String.eqb k k' then Some v else Map_get m k'.
Proof.
  induction m as [|[k0 v0] m IH]; cbn [Map_set Map_get]; [reflexivity|].
  destruct (String.eqb_spec k0 k) as [->|Hne]; cbn [Map_get].
  - destruct (String.eqb k k'); reflexivity.
  - rewrite IH. destruct (String.eqb_spec k0 k') as [->|Hne'];
      [|reflexivity].
    destruct (String.eqb_spec k k'); congruence.
Qed.

Lemma decoders_fold (l : list (string * list (option Z))) :
  forall m md,
    (forall k, Map_get md k = option_map make_decoder (Map_get m k)) ->
    forall k,
      Map_get (fold_left
                 (fun m (entry : string * list (option Z)) =>
                    let (key, index) := entry in
                    Map_set m key (fun ignoreBOM fatal =>
                                     SingleByteDecoder_new index ignoreBOM fatal))
                 l md) k
      = option_map make_decoder
          (Map_get (fold_left
                      (fun m (entry : string * list (option Z)) =>
                         Map_set m (fst entry) (snd entry)) l m) k).
Proof.
  induction l as [|[key index] l IH]; intros m md H k; cbn [fold_left]; [apply H|].
  apply IH. intros k'. cbn [fst snd]. rewrite !Map_get_set, H.
  destruct (String.eqb key k'); reflexivity.
Qed.

Lemma encodingIndexes_map :
  fold_left (fun m (entry : string * list (option Z)) =>
               Map_set m (fst entry) (snd entry)) encodingIndexes []
  = encodingIndexes.
Proof. reflexivity. Qed.

Lemma decoders_get encoding :
  Map_get decoders encoding
  = option_map make_decoder (Map_get encodingIndexes encoding).
Proof.
  unfold decoders. rewrite (decoders_fold encodingIndexes [] []) by reflexivity.
  now rewrite encodingIndexes_map.
Qed.

Lemma encodingIndexes_ok :
  forallb (fun entry : string * list (option Z) =>
             String.eqb (fst entry) "big5" || index_ok (snd entry))
          encodingIndexes = true.
Proof. vm_compute. reflexivity. Qed.

(** ** [TextDecoder.decode], encoding by encoding *)

Lemma TextDecoder_new_Resolve label encoding fatal ignoreBOM :
  Resolve label = Ok encoding ->
  TextDecoder_new label fatal ignoreBOM = Ok (mk_TextDecoder encoding fatal ignoreBOM)
  /\ (Map_has decoders encoding = true
      \/ existsb (String.eqb encoding) ["utf-16le"; "utf-16be"; "utf-8"; "big5"]%string
         = true).
Proof.
  unfold Resolve, TextDecoder_new.
  destruct (Map_get encodings (toLowerCase (trimAsciiWhitespace label))) as [enc|];
    [|discriminate].
  destruct (String.eqb enc ""); [discriminate|].
  destruct (Map_has decoders enc) eqn:Hhas; cbn [negb andb bind td_encoding].
  - intros [= <-]. auto.
  - destruct (existsb _ _) eqn:Hex; cbn [negb bind td_encoding]; [|discriminate].
    intros [= <-]. auto.
Qed.

Lemma Decode_cases core_decode more_arguments bytes label encoding fatal ignoreBOM :
  Resolve label = Ok encoding ->
  Decode core_decode more_arguments bytes label fatal ignoreBOM =
  (if String.eqb encoding "utf-8" then
     if negb fatal && negb ignoreBOM then Ok (core_decode bytes)
     else decodeUtf8 bytes fatal ignoreBOM
   else if String.eqb encoding "utf-16le" then
     res <- Utf16ByteDecoder bytes false fatal ignoreBOM ;;
     fromCharCode_apply more_arguments fromCharCode res
   else if String.eqb encoding "utf-16be" then
     res <- Utf16ByteDecoder bytes true fatal ignoreBOM ;;
     fromCharCode_apply more_arguments fromCharCode res
   else if String.eqb encoding "big5" then
     res <- Big5Decoder index_big5 bytes fatal ignoreBOM ;;
     fromCharCode_apply more_arguments fromCharCode_vals res
   else
     match Map_get encodingIndexes encoding with
     | Some index => decode_single index bytes fatal ignoreBOM
     | None => Err NotAFunction
     end)
  /\ (takes_ignoreBOM encoding = false -> String.eqb encoding "big5" = false ->
      exists index, Map_get encodingIndexes encoding = Some index
                    /\ index_ok index = true).
Proof.
  intros Hres.
  destruct (TextDecoder_new_Resolve label encoding fatal ignoreBOM Hres) as [Hnew Hhas].
  split.
  - unfold Decode. rewrite Hnew. cbn [bind]. unfold TextDecoder_decode.
    cbn [td_encoding td_fatal td_ignoreBOM].
    destruct (String.eqb_spec encoding "utf-8") as [->|H8]; cbn [andb].
    { destruct (negb fatal && negb ignoreBOM); reflexivity. }
    destruct (String.eqb_spec encoding "utf-16le") as [->|Hle]; [reflexivity|].
    destruct (String.eqb_spec encoding "utf-16be") as [->|Hbe]; [reflexivity|].
    cbn [orb].
    destruct (String.eqb_spec encoding "big5") as [->|H5].
    { rewrite encodingIndexes_big5. reflexivity. }
    rewrite decoders_get.
    destruct (Map_get encodingIndexes encoding) as [index|]; reflexivity.
  - unfold takes_ignoreBOM. intros Htakes H5.
    apply orb_false_iff in Htakes. destruct Htakes as [Htakes Hbe].
    apply orb_false_iff in Htakes. destruct Htakes as [H8 Hle].
    destruct Hhas as [Hhas|Hex].
    2:{ cbn [existsb] in Hex. rewrite H8, Hle, Hbe, H5 in Hex. discriminate. }
    unfold Map_has in Hhas. rewrite decoders_get in Hhas.
    destruct (Map_get encodingIndexes encoding) as [index|] eqn:Hget; [|discriminate].
    exists index. split; [reflexivity|].
    apply Map_get_In in Hget.
    pose proof encodingIndexes_ok as Hok. rewrite forallb_forall in Hok.
    specialize (Hok _ Hget). cbn [fst snd] in Hok. rewrite H5 in Hok. exact Hok.
Qed.







(** * base64: the shape of the encoding, lengths, atob after btoa *)

Lemma b64char_atob d : 0 <= d < 64 -> is_atob_char (b64char d) = true.
Proof.
  revert d. change 64 with (Z.of_nat 64).
  apply (forall_below (fun d => is_atob_char (b64char d))).
  vm_compute. reflexivity.
Qed.

Lemma enc_triple_atob t : forallb is_atob_char (enc_triple t) = true.
Proof.
  destruct t as [[a b] c]. rewrite enc_triple_chars. cbv zeta.
  cbn [forallb]. rewrite !land_63.
  rewrite !b64char_atob by (apply Z.mod_pos_bound; lia). reflexivity.
Qed.

Lemma enc_triples_atob ts : forallb is_atob_char (List.concat (map enc_triple ts)) = true.
Proof.
  induction ts as [|t ts IH]; [reflexivity|].
  cbn [map List.concat]. now rewrite forallb_app, enc_triple_atob, IH.
Qed.

Lemma tail1_shape_all x : tail1_shape x = true.
Proof.
  assert (H : forallb tail1_shape all_bytes = true) by (vm_compute; reflexivity).
  rewrite forallb_forall in H. apply H, all_bytes_In.
Qed.

Lemma tail2_shape_all x y : tail2_shape x y = true.
Proof.
  assert (H : forallb (fun x => forallb (tail2_shape x) all_bytes) all_bytes = true)
    by (vm_compute; reflexivity).
  rewrite forallb_forall in H. specialize (H x (all_bytes_In x)).
  rewrite forallb_forall in H. apply H, all_bytes_In.
Qed.

Lemma enc_tail_shape tl :
  (List.length tl < 3)%nat ->
  exists body,
    enc_tail tl = body ++ repeat EQ ((3 - List.length tl) mod 3)
    /\ forallb is_atob_char body = true
    /\ List.length body = ((4 * List.length tl + 2) / 3)%nat.
Proof.
  intros Htl. destruct tl as [|x [|y [|z tl]]]; cbn [List.length] in Htl; try lia.
  - exists []. repeat split.
  - pose proof (tail1_shape_all x) as H. unfold tail1_shape in H.
    destruct (enc_tail [x]) as [|c0 [|c1 [|c2 [|c3 [|? ?]]]]]; try discriminate.
    repeat (apply andb_true_iff in H; destruct H as [H ?]).
    repeat match goal with
           | H : (_ =? _) = true |- _ => apply Z.eqb_eq in H
           end.
    subst c2 c3. exists [c0; c1]. cbn [forallb]. rewrite H, H2. repeat split.
  - pose proof (tail2_shape_all x y) as H. unfold tail2_shape in H.
    destruct (enc_tail [x; y]) as [|c0 [|c1 [|c2 [|c3 [|? ?]]]]]; try discriminate.
    repeat (apply andb_true_iff in H; destruct H as [H ?]).
    repeat match goal with
           | H : (_ =? _) = true |- _ => apply Z.eqb_eq in H
           end.
    subst c3. exists [c0; c1; c2]. cbn [forallb]. rewrite H, H1, H2. repeat split.
Qed.

Lemma pad_arith n :
  let pad := ((3 - n mod 3) mod 3)%nat in
  let body := ((4 * n + 2) / 3)%nat in
  (pad <= 2)%nat
  /\ (body + pad = 4 * ((n + 2) / 3))%nat
  /\ (body = 0 -> pad = 0)%nat.
Proof.
  pose proof (Nat.div_mod_eq n 3) as Hn.
  pose proof (Nat.mod_upper_bound n 3 ltac:(lia)) as Hr.
  remember (n / 3)%nat as q. remember (n mod 3)%nat as r. clear Heqq Heqr.
  subst n. cbv zeta.
  destruct r as [|[|[|r]]]; try lia.
  - replace (4 * (3 * q + 0) + 2)%nat with (2 + (4 * q) * 3)%nat by lia.
    replace (3 * q + 0 + 2)%nat with (2 + q * 3)%nat by lia.
    rewrite !Nat.div_add by lia.
    change ((3 - 0) mod 3)%nat with 0%nat. change (2 / 3)%nat with 0%nat. lia.
  - replace (4 * (3 * q + 1) + 2)%nat with (6 + (4 * q) * 3)%nat by lia.
    replace (3 * q + 1 + 2)%nat with (3 + q * 3)%nat by lia.
    rewrite !Nat.div_add by lia.
    change ((3 - 1) mod 3)%nat with 2%nat. change (6 / 3)%nat with 2%nat.
    change (3 / 3)%nat with 1%nat. lia.
  - replace (4 * (3 * q + 2) + 2)%nat with (10 + (4 * q) * 3)%nat by lia.
    replace (3 * q + 2 + 2)%nat with (4 + q * 3)%nat by lia.
    rewrite !Nat.div_add by lia.
    change ((3 - 2) mod 3)%nat with 1%nat. change (10 / 3)%nat with 3%nat.
    change (4 / 3)%nat with 1%nat. lia.
Qed.

Lemma bytes_triples bytes :
  exists ts tl, bytes = flatten3 ts ++ tl /\ (List.length tl < 3)%nat.
Proof.
  destruct (triples_spec (List.length bytes) bytes (le_n _)) as [Hb Hl]. eauto.
Qed.

Lemma fromByteArray_body bytes :
  exists body,
    fromByteArray bytes = body ++ repeat EQ ((3 - List.length bytes mod 3) mod 3)
    /\ forallb is_atob_char body = true
    /\ List.length body = ((4 * List.length bytes + 2) / 3)%nat.
Proof.
  destruct (bytes_triples bytes) as [ts [tl [-> Htl]]].
  rewrite fromByteArray_triples by assumption.
  destruct (enc_tail_shape tl Htl) as [body [Hbody [Hatob Hlen]]].
  exists (List.concat (map enc_triple ts) ++ body).
  rewrite Hbody, <- app_assoc. rewrite length_app, flatten3_length.
  replace ((3 * List.length ts + List.length tl) mod 3)%nat with (List.length tl).
  2:{ rewrite Nat.add_comm, Nat.mul_comm, Nat.Div0.mod_add.
      symmetry. apply Nat.mod_small. assumption. }
  split; [reflexivity|]. split.
  - now rewrite forallb_app, enc_triples_atob, Hatob.
  - rewrite length_app, enc_triples_length, Hlen.
    replace (4 * (3 * List.length ts + List.length tl) + 2)%nat
      with (4 * List.length tl + 2 + (4 * List.length ts) * 3)%nat by lia.
    rewrite Nat.div_add by lia. lia.
Qed.

Lemma Uint8_set_length arr i v : List.length (Uint8_set arr i v) = List.length arr.
Proof. unfold Uint8_set. destruct (i <? 0); [reflexivity | apply list_set_length]. Qed.

Lemma toByteArray_iter_length b64 st :
  List.length (b64_arr (toByteArray_iter b64 st)) = List.length (b64_arr st).
Proof. unfold toByteArray_iter. cbn [b64_arr]. now rewrite !Uint8_set_length. Qed.

Lemma toByteArray_loop_length b64 len n :
  forall st, (Z.to_nat (len - b64_i st) <= n)%nat ->
    List.length (b64_arr (toByteArray_loop b64 len st)) = List.length (b64_arr st).
Proof.
  induction n as [|n IH]; intros st Hn; rewrite toByteArray_loop_eq;
    destruct (Z.ltb_spec (b64_i st) len) as [Hlt|Hge]; try reflexivity; try lia.
  rewrite IH; [apply toByteArray_iter_length|].
  unfold toByteArray_iter. cbn [b64_i]. lia.
Qed.

Lemma indexOf_from_range s c : forall i,
  indexOf_from s c i = -1
  \/ i <= indexOf_from s c i < i + Z.of_nat (List.length s).
Proof.
  induction s as [|x s IH]; intros i; cbn [indexOf_from List.length]; [now left|].
  destruct (x =? c); [right; lia|].
  destruct (IH (i + 1)) as [H|H]; [now left | right; lia].
Qed.

Lemma indexOf_0 s c : indexOf s c = 0 <-> exists rest, s = c :: rest.
Proof.
  unfold indexOf. destruct s as [|x s]; cbn [indexOf_from].
  - split; [discriminate | intros [rest H]; discriminate].
  - destruct (Z.eqb_spec x c) as [->|Hne].
    + split; eauto.
    + split.
      * intros H. destruct (indexOf_from_range s c (0 + 1)) as [H'|H']; lia.
      * intros [rest [= -> _]]. contradiction.
Qed.

Lemma toByteArray_arr_length b64 validLen placeHoldersLen arr :
  getLens b64 = Ok (validLen, placeHoldersLen) ->
  toByteArray b64 = Ok arr ->
  Z.of_nat (List.length arr) = _byteLength validLen placeHoldersLen.
Proof.
  intros Hlens. unfold toByteArray. rewrite Hlens. cbn [bind].
  unfold Uint8Array_new.
  destruct (Z.ltb_spec (_byteLength validLen placeHoldersLen) 0) as [Hneg|Hpos];
    [discriminate|].
  cbn [bind]. intros [= <-].
  set (len := if placeHoldersLen >? 0 then validLen - 4 else validLen).
  set (st := toByteArray_loop b64 len _).
  assert (Hst : List.length (b64_arr st)
                = Z.to_nat (_byteLength validLen placeHoldersLen)).
  { unfold st. rewrite (toByteArray_loop_length b64 len _ _ (le_n _)).
    cbn [b64_arr]. apply repeat_length. }
  destruct (placeHoldersLen =? 2); destruct (placeHoldersLen =? 1);
    cbn [b64_arr]; rewrite ?Uint8_set_length, Hst; lia.
Qed.

Lemma getLens_Ok b64 validLen placeHoldersLen :
  getLens b64 = Ok (validLen, placeHoldersLen) ->
  Z.of_nat (List.length b64) mod 4 = 0
  /\ ((validLen = Z.of_nat (List.length b64) /\ placeHoldersLen = 0)
      \/ (0 <= validLen < Z.of_nat (List.length b64)
          /\ placeHoldersLen = 4 - validLen mod 4
          /\ validLen = indexOf b64 EQ)).
Proof.
  unfold getLens, indexOf. remember (Z.of_nat (List.length b64)) as len eqn:Hlen.
  destruct (Z.gtb_spec (len mod 4) 0) as [Hgt|Hle]; [discriminate|].
  intros H.
  assert (Hv := f_equal (fun r => match r with Ok (v, _) => v | Err _ => 0 end) H).
  assert (Hp := f_equal (fun r => match r with Ok (_, p) => p | Err _ => 0 end) H).
  cbv beta iota in Hv, Hp. clear H.
  split; [pose proof (Z.mod_pos_bound len 4); lia|].
  destruct (indexOf_from_range b64 EQ 0) as [Hi|Hi].
  - rewrite Hi in Hv, Hp. change (-1 =? -1) with true in Hv, Hp. cbv iota in Hv, Hp.
    rewrite Z.eqb_refl in Hp. left. split; lia.
  - rewrite <- Hlen in Hi.
    rewrite (proj2 (Z.eqb_neq _ (-1))) in Hv, Hp by lia.
    rewrite (proj2 (Z.eqb_neq _ len)) in Hp by lia.
    rewrite Hv in Hp, Hi. right. split; [lia|]. split; [lia | now symmetry].
Qed.

Lemma toByteArray_cases b64 :
  let len := Z.of_nat (List.length b64) in
  match toByteArray b64 with
  | Ok arr => len mod 4 = 0 /\ byteLength b64 = Ok (Z.of_nat (List.length arr))
  | Err e =>
      (e = Base64LengthError /\ len mod 4 <> 0)
      \/ (e = InvalidArrayLength /\ len mod 4 = 0 /\ exists rest, b64 = EQ :: rest)
  end.
Proof.
  intros len.
  destruct (getLens b64) as [[validLen placeHoldersLen]|e] eqn:Hlens.
  - destruct (getLens_Ok _ _ _ Hlens) as [Hmod Hcase]. fold len in Hmod, Hcase.
    destruct (toByteArray b64) as [arr|e] eqn:Hto.
    + split; [assumption|]. unfold byteLength. rewrite Hlens. cbn [bind].
      rewrite (toByteArray_arr_length _ _ _ _ Hlens Hto). reflexivity.
    + right. unfold toByteArray in Hto. rewrite Hlens in Hto. cbn [bind] in Hto.
      unfold Uint8Array_new in Hto.
      destruct (Z.ltb_spec (_byteLength validLen placeHoldersLen) 0) as [Hneg|Hpos];
        [|discriminate].
      cbn [bind] in Hto. injection Hto as <-. split; [reflexivity|].
      split; [assumption|]. apply indexOf_0.
      unfold _byteLength in Hneg.
      destruct Hcase as [[-> ->]|[Hv [-> Hidx]]].
      * rewrite Z.add_0_r in Hneg. pose proof (Z.div_pos (len * 3) 4). lia.
      * rewrite <- Hidx. revert Hneg.
        pose proof (Z.mod_pos_bound validLen 4).
        pose proof (Z.div_mod validLen 4).
        replace ((validLen + (4 - validLen mod 4)) * 3)
          with ((3 * (validLen / 4) + 3) * 4) by lia.
        rewrite Z.div_mul by lia. intros Hneg.
        assert (0 <= validLen / 4) by (apply Z.div_pos; lia). lia.
  - unfold toByteArray. rewrite Hlens. cbn [bind]. left.
    unfold getLens in Hlens. fold len in Hlens.
    destruct (Z.gtb_spec (len mod 4) 0); [|discriminate].
    injection Hlens as <-. split; [reflexivity | lia].
Qed.

(** X3: [toByteArray] either fails on the length of its argument, or cannot
    allocate its result because the argument begins with the padding
    character, or returns an array whose length is what [byteLength]
    answers; the characters of the argument play no part in this. *)
Theorem toByteArray_byteLength :
  forall b64,
    let len := Z.of_nat (List.length b64) in
    match toByteArray b64 with
    | Ok arr => len mod 4 = 0 /\ byteLength b64 = Ok (Z.of_nat (List.length arr))
    | Err e =>
        (e = Base64LengthError /\ len mod 4 <> 0)
        \/ (e = InvalidArrayLength /\ len mod 4 = 0 /\ exists rest, b64 = EQ :: rest)
    end.
Proof. exact toByteArray_cases. Qed.

(** X1: decoding the encoding of a byte array gives the array back,
    whatever its length (the encoder works through chunks of 16383
    bytes), and [byteLength] of the encoding is the length of the array. *)
Theorem base64_round_trip_every_length :
  forall bytes,
    toByteArray (fromByteArray bytes) = Ok bytes
    /\ byteLength (fromByteArray bytes) = Ok (Z.of_nat (List.length bytes)).
Proof.
  intros bytes. pose proof (base64_round_trip_any bytes) as H. split; [exact H|].
  pose proof (toByteArray_arr_length (fromByteArray bytes)) as Hlen.
  unfold byteLength.
  destruct (getLens (fromByteArray bytes)) as [[validLen placeHoldersLen]|e] eqn:Hlens.
  - cbn [bind]. rewrite (Hlen _ _ _ eq_refl H). reflexivity.
  - unfold toByteArray in H. rewrite Hlens in H. discriminate.
Qed.

(** X2: the encoding of [n] bytes has [4 * ceil (n / 3)] characters:
    characters of the alphabet [A-Za-z0-9+/], then as many [=] as bytes are
    missing from the last group of three. *)
Theorem fromByteArray_alphabet :
  forall bytes,
    let n := List.length bytes in
    List.length (fromByteArray bytes) = (4 * ((n + 2) / 3))%nat
    /\ exists body,
        fromByteArray bytes = body ++ repeat EQ ((3 - n mod 3) mod 3)
        /\ forallb is_atob_char body = true.
Proof.
  intros bytes n. destruct (fromByteArray_body bytes) as [body [Hb [Hatob Hlen]]].
  fold n in Hb, Hlen. split; [|eauto].
  rewrite Hb, length_app, repeat_length, Hlen.
  exact (proj1 (proj2 (pad_arith n))).
Qed.

(** ** atob *)

Lemma is_atob_char_not_space c : is_atob_char c = true -> is_b64_space c = false.
Proof.
  unfold is_atob_char, is_b64_space, inRange. intros H.
  repeat match goal with
         | |- context [?a =? ?b] => destruct (Z.eqb_spec a b)
         end; try reflexivity; subst; discriminate.
Qed.

Lemma filter_no_space body k :
  forallb is_atob_char body = true ->
  filter (fun c => negb (is_b64_space c)) (body ++ repeat EQ k) = body ++ repeat EQ k.
Proof.
  intros H. apply forallb_filter_id. rewrite forallb_app. apply andb_true_iff. split.
  - rewrite forallb_forall in *. intros c Hc.
    now rewrite (is_atob_char_not_space c (H c Hc)).
  - rewrite forallb_forall. intros c Hc. apply repeat_spec in Hc. now subst.
Qed.

Lemma strip_padding_last s c :
  c <> EQ -> strip_padding (s ++ [c]) = s ++ [c].
Proof.
  intros Hc. unfold strip_padding. rewrite rev_app_distr. cbn [rev app].
  unfold EQ in Hc.
  destruct c as [|p|p]; try reflexivity.
  do 6 (try (destruct p as [p|p|]); try reflexivity). now destruct Hc.
Qed.

Lemma strip_padding_nil : strip_padding [] = [].
Proof. reflexivity. Qed.

Lemma strip_padding_1 s c :
  c <> EQ -> strip_padding ((s ++ [c]) ++ [EQ]) = s ++ [c].
Proof.
  intros Hc. unfold strip_padding. rewrite !rev_app_distr. cbn [rev app].
  change EQ with 61 in *.
  destruct c as [|p|p]; try (cbn [rev]; now rewrite rev_involutive).
  do 6 (try (destruct p as [p|p|]); try (cbn [rev]; now rewrite rev_involutive)).
Qed.

Lemma strip_padding_2 s : strip_padding (s ++ [EQ; EQ]) = s.
Proof.
  unfold strip_padding. rewrite rev_app_distr. cbn [rev app].
  apply rev_involutive.
Qed.

(** What [atob] does with characters of the alphabet followed by the
    padding that completes the last group of four. *)
Lemma existsb_not_atob body :
  forallb is_atob_char body = true ->
  existsb (fun c => negb (is_atob_char c)) body = false.
Proof.
  intros H. induction body as [|c body IH]; [reflexivity|].
  cbn [forallb existsb] in *. apply andb_true_iff in H. destruct H as [Hc Hb].
  now rewrite Hc, IH.
Qed.

Lemma strip_padding_body body k :
  forallb is_atob_char body = true ->
  (k <= 2)%nat ->
  (body = [] -> k = O) ->
  strip_padding (body ++ repeat EQ k) = body.
Proof.
  intros Hatob Hk Hnil.
  destruct body as [|c0 body0] eqn:Hbody.
  { rewrite (Hnil eq_refl). reflexivity. }
  rewrite <- Hbody in *. clear Hnil.
  destruct (exists_last (l := body)) as [body' [c ->]]; [congruence|].
  assert (Hc : c <> EQ).
  { apply is_atob_char_not_EQ. rewrite forallb_app in Hatob.
    apply andb_true_iff in Hatob. destruct Hatob as [_ Hatob].
    cbn in Hatob. now rewrite andb_true_r in Hatob. }
  destruct k as [|[|[|k]]]; try lia; cbn [repeat].
  - rewrite app_nil_r. now apply strip_padding_last.
  - now apply strip_padding_1.
  - apply strip_padding_2.
Qed.

(** What [atob] does with characters of the alphabet followed by the
    padding that completes the last group of four. *)
Lemma atob_padded body k :
  forallb is_atob_char body = true ->
  (k <= 2)%nat ->
  Z.of_nat (List.length body + k) mod 4 = 0 ->
  (body = [] -> k = O) ->
  atob (body ++ repeat EQ k) =
  byteArray <- toByteArray (body ++ repeat EQ k) ;;
  Ok (fromCharCode (map byteZ byteArray)).
Proof.
  intros Hatob Hk Hmod Hnil. unfold atob, atob_normalize.
  rewrite filter_no_space by assumption.
  rewrite length_app, repeat_length, Hmod. cbn [Z.eqb].
  rewrite strip_padding_body by assumption.
  rewrite existsb_not_atob by assumption. rewrite orb_false_r.
  assert (Hrem : Z.of_nat (List.length body) mod 4 = (4 - Z.of_nat k) mod 4).
  { rewrite Nat2Z.inj_add in Hmod.
    pose proof (Z.mod_pos_bound (Z.of_nat (List.length body)) 4 ltac:(lia)).
    pose proof (Z.div_mod (Z.of_nat (List.length body)) 4 ltac:(lia)).
    pose proof (Z.div_mod (Z.of_nat (List.length body) + Z.of_nat k) 4 ltac:(lia)).
    destruct k as [|[|[|k]]]; try lia; cbn [Z.of_nat] in *.
    - change ((4 - 0) mod 4) with 0. lia.
    - change ((4 - Z.pos (Pos.of_succ_nat 0)) mod 4) with 3. lia.
    - change ((4 - Z.pos (Pos.of_succ_nat 1)) mod 4) with 2. lia. }
  rewrite Hrem.
  destruct k as [|[|[|k]]]; try lia.
  - change ((4 - Z.of_nat 0) mod 4) with 0. cbn [Z.eqb Z.gtb Z.compare repeat].
    now rewrite app_nil_r.
  - change ((4 - Z.of_nat 1) mod 4) with 3. reflexivity.
  - change ((4 - Z.of_nat 2) mod 4) with 2. reflexivity.
Qed.

(** X4: [atob] undoes [btoa]: for a string of characters up to U+00FF,
    [btoa] returns a string that [atob] decodes back to it. *)
Theorem atob_btoa :
  forall s,
    Forall (fun c => 0 <= c <= 0xff) s ->
    exists b64, btoa s = Ok b64 /\ atob b64 = Ok s.
Proof.
  intros s Hs. unfold btoa. rewrite btoa_loop_spec.
  assert (Hex : existsb (fun c => c >? 0xff) s = false).
  { induction Hs as [|c s Hc Hs IH]; [reflexivity|].
    cbn [existsb]. rewrite IH. destruct (Z.gtb_spec c 0xff); [lia | reflexivity]. }
  rewrite Hex. cbn [app bind]. eexists. split; [reflexivity|].
  set (bytes := Uint8Array_from s).
  destruct (fromByteArray_body bytes) as [body [Hb [Hatob Hlen]]].
  pose proof (base64_round_trip_any bytes) as Hrt.
  rewrite Hb in Hrt |- *.
  destruct (pad_arith (List.length bytes)) as [Hpad [Hsum Hzero]].
  rewrite atob_padded; try assumption.
  - rewrite Hrt. cbn [bind]. f_equal. unfold bytes, Uint8Array_from, fromCharCode.
    rewrite !map_map. rewrite <- (map_id s) at 2. apply map_ext_in.
    intros c Hc. rewrite Forall_forall in Hs. specialize (Hs c Hc). cbv beta in Hs.
    rewrite byteZ_ToUint8 by assumption. unfold ToUint16. apply Z.mod_small. lia.
  - rewrite Hlen, Hsum, Nat2Z.inj_mul, Z.mul_comm. apply Z.mod_mul. lia.
  - intros ->. apply Hzero. rewrite <- Hlen. reflexivity.
Qed.

Lemma atob_btoa_witness :
  Forall (fun c => 0 <= c <= 0xff) [104; 105; 255]
  /\ exists b64, btoa [104; 105; 255] = Ok b64 /\ atob b64 = Ok [104; 105; 255].
Proof.
  assert (H : Forall (fun c => 0 <= c <= 0xff) [104; 105; 255])
    by (repeat constructor; lia).
  split; [exact H|]. exact (atob_btoa [104; 105; 255] H).
Defined.

(** X5: the padding is optional for [atob], and nothing else is accepted
    in its place: after characters of the alphabet that leave a group of
    two or three, the one or two [=] that complete the group change
    nothing, and a single [=] after a group of two is refused. *)
Theorem atob_padding_optional :
  forall s,
    forallb is_atob_char s = true ->
    (Z.of_nat (List.length s) mod 4 = 2 ->
     atob (s ++ [EQ; EQ]) = atob s /\ atob (s ++ [EQ]) = Err InvalidCharacterError)
    /\ (Z.of_nat (List.length s) mod 4 = 3 -> atob (s ++ [EQ]) = atob s).
Proof.
  intros s Hs.
  assert (Hplain : forall r, Z.of_nat (List.length s) mod 4 = r -> r <> 0 -> r <> 1 ->
             atob s = byteArray <- toByteArray (s ++ repeat EQ (Z.to_nat (4 - r))) ;;
                      Ok (fromCharCode (map byteZ byteArray))).
  { intros r Hr Hr0 Hr1. unfold atob, atob_normalize.
    pose proof (filter_no_space s 0 Hs) as Hf. cbn [repeat] in Hf.
    rewrite !app_nil_r in Hf. rewrite Hf, Hr.
    rewrite (proj2 (Z.eqb_neq r 0)) by assumption. rewrite Hr.
    rewrite (proj2 (Z.eqb_neq r 1)) by assumption.
    rewrite existsb_not_atob by assumption. cbn [orb].
    pose proof (Z.mod_pos_bound (Z.of_nat (List.length s)) 4 ltac:(lia)).
    rewrite (proj2 (Z.gtb_lt r 0)) by lia. reflexivity. }
  assert (Hne : Z.of_nat (List.length s) mod 4 <> 0 -> s <> []).
  { intros H ->. now apply H. }
  split.
  - intros H2. split.
    + rewrite (Hplain 2 H2) by lia.
      apply (atob_padded s 2 Hs); [lia| |].
      * rewrite Nat2Z.inj_add.
        pose proof (Z.div_mod (Z.of_nat (List.length s)) 4 ltac:(lia)).
        replace (Z.of_nat (List.length s) + Z.of_nat 2)
          with ((Z.of_nat (List.length s) / 4 + 1) * 4) by lia.
        apply Z.mod_mul. lia.
      * intros ->. discriminate.
    + unfold atob, atob_normalize.
      pose proof (filter_no_space s 1 Hs) as Hf. cbn [repeat] in Hf. rewrite Hf.
      rewrite length_app. cbn [List.length].
      assert (H3 : Z.of_nat (List.length s + 1) mod 4 = 3).
      { rewrite Nat2Z.inj_add.
        pose proof (Z.div_mod (Z.of_nat (List.length s)) 4 ltac:(lia)).
        replace (Z.of_nat (List.length s) + Z.of_nat 1)
          with (3 + (Z.of_nat (List.length s) / 4) * 4) by lia.
        rewrite Z.mod_add by lia. reflexivity. }
      rewrite H3. cbn [Z.eqb]. rewrite length_app. cbn [List.length]. rewrite H3.
      cbn [Z.eqb Pos.eqb orb]. rewrite existsb_app. cbn. now rewrite orb_true_r.
  - intros H3. rewrite (Hplain 3 H3) by lia.
    apply (atob_padded s 1 Hs); [lia| |].
    + rewrite Nat2Z.inj_add.
      pose proof (Z.div_mod (Z.of_nat (List.length s)) 4 ltac:(lia)).
      replace (Z.of_nat (List.length s) + Z.of_nat 1)
        with ((Z.of_nat (List.length s) / 4 + 1) * 4) by lia.
      apply Z.mod_mul. lia.
    + intros ->. discriminate.
Qed.

Lemma atob_padding_optional_witness :
  forallb is_atob_char [89; 81] = true
  /\ (Z.of_nat (List.length [89; 81]) mod 4 = 2 ->
      atob ([89; 81] ++ [EQ; EQ]) = atob [89; 81]
      /\ atob ([89; 81] ++ [EQ]) = Err InvalidCharacterError)
  /\ (Z.of_nat (List.length [89; 81]) mod 4 = 3 ->
      atob ([89; 81] ++ [EQ]) = atob [89; 81]).
Proof.
  assert (H : forallb is_atob_char [89; 81] = true) by reflexivity.
  split; [exact H|]. exact (atob_padding_optional [89; 81] H).
Defined.

(** ** The length of what atob returns *)

Lemma getLens_padded body k :
  (forall x, In x body -> x <> EQ) ->
  Z.of_nat (List.length body + k) mod 4 = 0 ->
  getLens (body ++ repeat EQ k)
  = Ok (Z.of_nat (List.length body),
        if Z.of_nat k =? 0 then 0 else 4 - Z.of_nat (List.length body) mod 4).
Proof.
  intros Hno Hmod. unfold getLens. rewrite length_app, repeat_length, Hmod.
  cbn [Z.gtb Z.compare].
  destruct k as [|k].
  - cbn [repeat]. rewrite app_nil_r, indexOf_notin by assumption.
    cbn [Z.eqb Z.of_nat]. rewrite Nat.add_0_r, Z.eqb_refl. reflexivity.
  - rewrite indexOf_app_repeat by assumption.
    rewrite (proj2 (Z.eqb_neq _ (-1))) by lia.
    rewrite (proj2 (Z.eqb_neq (Z.of_nat (List.length body)) _)) by lia.
    rewrite (proj2 (Z.eqb_neq (Z.of_nat (S k)) 0)) by lia. reflexivity.
Qed.

(** X22: what [atob] returns has three characters for every four of its
    argument that are neither white space nor padding, rounded down, and
    each of them is at most U+00FF. *)
Theorem atob_length :
  forall s,
    match atob s with
    | Ok r =>
        Z.of_nat (List.length r) = 3 * Z.of_nat (List.length (atob_normalize s)) / 4
        /\ Forall (fun c => 0 <= c <= 0xff) r
    | Err e => e = InvalidCharacterError
    end.
Proof.
  intros s. unfold atob. set (s' := atob_normalize s).
  set (n := Z.of_nat (List.length s')).
  destruct (Z.eqb_spec (n mod 4) 1) as [H1|H1]; cbn [orb]; [reflexivity|].
  destruct (existsb (fun c => negb (is_atob_char c)) s') eqn:Hex; [reflexivity|].
  assert (Hatob : forall x, In x s' -> is_atob_char x = true).
  { intros x Hx. destruct (is_atob_char x) eqn:E; [reflexivity|].
    assert (Ht : existsb (fun c => negb (is_atob_char c)) s' = true)
      by (apply existsb_exists; exists x; split; [assumption | now rewrite E]).
    congruence. }
  assert (Hno : forall x, In x s' -> x <> EQ)
    by (intros x Hx; apply is_atob_char_not_EQ; auto).
  pose proof (Z.mod_pos_bound n 4 ltac:(lia)) as Hr.
  pose proof (Z.div_mod n 4 ltac:(lia)) as Hdm.
  set (k := if n mod 4 >? 0 then Z.to_nat (4 - n mod 4) else 0%nat).
  assert (Hpad : (if n mod 4 >? 0 then s' ++ repeat EQ (Z.to_nat (4 - n mod 4)) else s')
                 = s' ++ repeat EQ k).
  { unfold k. destruct (n mod 4 >? 0); [reflexivity|]. cbn [repeat]. now rewrite app_nil_r. }
  rewrite Hpad.
  assert (Hk : Z.of_nat k = (4 - n mod 4) mod 4).
  { unfold k. destruct (Z.gtb_spec (n mod 4) 0) as [Hg|Hg].
    - rewrite Z2Nat.id by lia. symmetry. apply Z.mod_small. lia.
    - replace (n mod 4) with 0 by lia. reflexivity. }
  assert (Hmod : Z.of_nat (List.length s' + k) mod 4 = 0).
  { rewrite Nat2Z.inj_add. fold n. rewrite Hk.
    rewrite Z.add_mod_idemp_r by lia.
    replace (n + (4 - n mod 4)) with ((n / 4 + 1) * 4) by lia.
    apply Z.mod_mul. lia. }
  pose proof (getLens_padded s' k Hno Hmod) as Hlens. fold n in Hlens.
  destruct (toByteArray (s' ++ repeat EQ k)) as [arr|e] eqn:Hto; cbn [bind].
  - pose proof (toByteArray_arr_length _ _ _ _ Hlens Hto) as Hlen.
    split.
    + unfold fromCharCode. rewrite !length_map, Hlen. unfold _byteLength.
      destruct (Z.eqb_spec (Z.of_nat k) 0) as [Hk0|Hk0].
      * rewrite Z.add_0_r, Z.sub_0_r. f_equal. lia.
      * assert (Hn4 : n mod 4 = 2 \/ n mod 4 = 3).
        { rewrite Hk in Hk0. destruct (Z.eq_dec (n mod 4) 0) as [E|E];
            [rewrite E in Hk0; now destruct Hk0 | lia]. }
        replace ((n + (4 - n mod 4)) * 3) with ((3 * (n / 4) + 3) * 4) by lia.
        rewrite Z.div_mul by lia.
        destruct Hn4 as [E|E]; rewrite E in *.
        -- replace (3 * n) with (2 + (3 * (n / 4) + 1) * 4) by lia.
           rewrite Z.div_add by lia. change (2 / 4) with 0. lia.
        -- replace (3 * n) with (1 + (3 * (n / 4) + 2) * 4) by lia.
           rewrite Z.div_add by lia. change (1 / 4) with 0. lia.
    + apply Forall_forall. intros c Hc. unfold fromCharCode in Hc.
      rewrite map_map in Hc. apply in_map_iff in Hc. destruct Hc as [b [<- _]].
      pose proof (byteZ_range b). unfold ToUint16. rewrite Z.mod_small; lia.
  - exfalso. pose proof (toByteArray_cases (s' ++ repeat EQ k)) as Hb.
    cbv zeta in Hb. rewrite Hto in Hb. destruct Hb as [[_ Hb]|[_ [_ [rest Hb]]]].
    + rewrite length_app, repeat_length in Hb. contradiction.
    + destruct s' as [|c s0].
      * cbn [List.length] in *. unfold k, n in *. cbn in Hb. discriminate.
      * injection Hb as Hc _. apply (Hno c); [now left | assumption].
Qed.

(** ** URL-safe characters *)

Lemma toByteArray_loop_ext a b len n :
  (forall i, rev_at a i = rev_at b i) ->
  forall st, (Z.to_nat (len - b64_i st) <= n)%nat ->
    toByteArray_loop a len st = toByteArray_loop b len st.
Proof.
  intros Hrev. induction n as [|n IH]; intros st Hn;
    rewrite (toByteArray_loop_eq a), (toByteArray_loop_eq b);
    destruct (Z.ltb_spec (b64_i st) len) as [Hlt|Hge]; try reflexivity; try lia.
  assert (Hiter : toByteArray_iter a st = toByteArray_iter b st)
    by (unfold toByteArray_iter; now rewrite !Hrev).
  rewrite Hiter. apply IH. unfold toByteArray_iter. cbn [b64_i]. lia.
Qed.

Lemma toByteArray_ext a b :
  List.length a = List.length b ->
  indexOf a EQ = indexOf b EQ ->
  (forall i, rev_at a i = rev_at b i) ->
  toByteArray a = toByteArray b.
Proof.
  intros Hlen Hidx Hrev. unfold toByteArray, getLens. rewrite Hlen, Hidx.
  destruct (_ >? 0); [reflexivity|]. cbn [bind].
  destruct (Uint8Array_new _) as [arr|e]; [|reflexivity]. cbn [bind].
  rewrite (toByteArray_loop_ext a b _ _ Hrev _ (le_n _)). now rewrite !Hrev.
Qed.

Lemma url_safe_EQ c : (url_safe c =? EQ) = (c =? EQ).
Proof.
  unfold url_safe, EQ.
  destruct (Z.eqb_spec c 43) as [->|]; [reflexivity|].
  destruct (Z.eqb_spec c 47) as [->|]; reflexivity.
Qed.

Lemma url_safe_revLookup c :
  sparse_get revLookup (url_safe c) = sparse_get revLookup c.
Proof.
  unfold url_safe.
  destruct (Z.eqb_spec c 43) as [->|]; [reflexivity|].
  destruct (Z.eqb_spec c 47) as [->|]; reflexivity.
Qed.

(** X23: [toByteArray] reads the URL-safe alphabet as it reads the
    standard one: writing [-] for [+] and [_] for [/] anywhere in its
    argument changes nothing to what it answers. *)
Theorem toByteArray_url_safe :
  forall b64, toByteArray (map url_safe b64) = toByteArray b64.
Proof.
  intros b64. apply toByteArray_ext.
  - apply length_map.
  - unfold indexOf. generalize 0.
    induction b64 as [|c rest IH]; intros i; cbn [map indexOf_from]; [reflexivity|].
    rewrite url_safe_EQ. destruct (c =? EQ); [reflexivity | apply IH].
  - intros i. unfold rev_at, charCodeAt. destruct (i <? 0); [reflexivity|].
    rewrite nth_error_map. destruct (nth_error b64 (Z.to_nat i)) as [c|]; [|reflexivity].
    cbn [option_map]. now rewrite url_safe_revLookup.
Qed.

(** * Strings and code points *)

Lemma stringToCodePoints_cons c rest :
  stringToCodePoints (c :: rest) =
  match rest with
  | d :: rest' =>
      if inRange c 0xD800 0xDBFF && inRange d 0xDC00 0xDFFF
      then ((c - 0xD800) * 0x400 + (d - 0xDC00) + 0x10000) :: stringToCodePoints rest'
      else c :: stringToCodePoints rest
  | [] => [c]
  end.
Proof. destruct rest; reflexivity. Qed.

(** Induction on a string, a code point at a time. *)
Lemma string_ind2 (P : list Z -> Prop) :
  P [] ->
  (forall c d rest,
      inRange c 0xD800 0xDBFF && inRange d 0xDC00 0xDFFF = true ->
      P rest -> P (c :: d :: rest)) ->
  (forall c rest,
      match rest with
      | d :: _ => inRange c 0xD800 0xDBFF && inRange d 0xDC00 0xDFFF = false
      | [] => True
      end ->
      P rest -> P (c :: rest)) ->
  forall s, P s.
Proof.
  intros Hnil Hpair Hone s.
  assert (H : forall n s, (List.length s <= n)%nat -> P s).
  { induction n as [|n IH]; intros s' Hn.
    - destruct s'; [exact Hnil | cbn in Hn; lia].
    - destruct s' as [|c [|d rest]]; [exact Hnil | |].
      + apply Hone; [exact I | exact Hnil].
      + destruct (inRange c 0xD800 0xDBFF && inRange d 0xDC00 0xDFFF) eqn:Hp.
        * apply Hpair; [assumption|]. apply IH. cbn in Hn. lia.
        * apply Hone; [assumption|]. apply IH. cbn in Hn |- *. lia. }
  exact (H (List.length s) s (le_n _)).
Qed.

Lemma fromCodePoint_pair c d :
  inRange c 0xD800 0xDBFF && inRange d 0xDC00 0xDFFF = true ->
  fromCodePoint ((c - 0xD800) * 0x400 + (d - 0xDC00) + 0x10000) = Some [c; d].
Proof.
  unfold inRange. intros H.
  repeat (apply andb_true_iff in H; destruct H as [H ?]).
  repeat match goal with H : (_ <=? _) = true |- _ => apply Z.leb_le in H end.
  unfold fromCodePoint, inRange.
  rewrite (proj2 (Z.leb_le 0 _)), (proj2 (Z.leb_le _ 1114111)) by lia. cbn [andb].
  rewrite (proj2 (Z.leb_gt _ _)) by lia.
  rewrite Z.shiftr_div_pow2, land_1023 by lia. change (2 ^ 10) with 1024.
  do 2 f_equal; [|f_equal]; Z.div_mod_to_equations; lia.
Qed.

Lemma fromCodePoint_unit c : code_unit c -> fromCodePoint c = Some [c].
Proof.
  unfold code_unit, fromCodePoint, inRange. intros H.
  rewrite (proj2 (Z.leb_le 0 c)), (proj2 (Z.leb_le c 1114111)) by lia. cbn [andb].
  now rewrite (proj2 (Z.leb_le c 65535)) by lia.
Qed.

Lemma codePointsToString_stringToCodePoints s :
  Forall code_unit s -> codePointsToString (stringToCodePoints s) = Ok s.
Proof.
  induction s as [|c d rest Hp IH|c rest Hp IH] using string_ind2; intros Hs.
  - reflexivity.
  - rewrite stringToCodePoints_cons, Hp. cbn [codePointsToString].
    rewrite fromCodePoint_pair by assumption.
    inversion Hs as [|? ? _ Hs']; subst. inversion Hs' as [|? ? _ Hs'']; subst.
    rewrite IH by assumption. reflexivity.
  - inversion Hs as [|? ? Hc Hs']; subst.
    assert (Hgo : stringToCodePoints (c :: rest) = c :: stringToCodePoints rest).
    { rewrite stringToCodePoints_cons. destruct rest as [|d rest']; [reflexivity|].
      now rewrite Hp. }
    rewrite Hgo. cbn [codePointsToString]. rewrite fromCodePoint_unit by assumption.
    rewrite IH by assumption. reflexivity.
Qed.

Lemma stringToCodePoints_scalars cps :
  Forall scalar_value cps ->
  exists s, codePointsToString cps = Ok s
            /\ Forall code_unit s
            /\ stringToCodePoints s = cps.
Proof.
  induction 1 as [|cp cps [Hcp Hns] Hcps [s [Hs [Hunits Hback]]]].
  - exists []. repeat split. constructor.
  - cbn [codePointsToString]. unfold fromCodePoint, inRange.
    rewrite (proj2 (Z.leb_le 0 cp)), (proj2 (Z.leb_le cp 1114111)) by lia. cbn [andb].
    rewrite Hs. cbn [bind].
    destruct (Z.leb_spec cp 0xFFFF) as [Hbmp|Hsup].
    + exists (cp :: s). split; [reflexivity|]. split.
      * constructor; [unfold code_unit; lia | assumption].
      * rewrite stringToCodePoints_cons. destruct s as [|d s'].
        -- cbn in Hback. now rewrite <- Hback.
        -- unfold inRange at 1.
           destruct (Z.leb_spec 0xD800 cp); destruct (Z.leb_spec cp 0xDBFF);
             cbn [andb]; try (now rewrite Hback); lia.
    + rewrite Z.shiftr_div_pow2, land_1023 by lia. change (2 ^ 10) with 1024.
      eexists. split; [reflexivity|]. split.
      * cbn [app]. constructor; [|constructor; [|assumption]];
          unfold code_unit; Z.div_mod_to_equations; lia.
      * cbn [app]. rewrite stringToCodePoints_cons. unfold inRange.
        rewrite (proj2 (Z.leb_le 55296 _)), (proj2 (Z.leb_le _ 56319)),
          (proj2 (Z.leb_le 56320 _)), (proj2 (Z.leb_le _ 57343))
          by (Z.div_mod_to_equations; lia).
        cbn [andb]. rewrite Hback. f_equal. Z.div_mod_to_equations. lia.
Qed.

(** X6: [codePointsToString] undoes [stringToCodePoints] on every string,
    unpaired surrogates included; [stringToCodePoints] undoes
    [codePointsToString] on code points that are not surrogates, and
    [codePointsToString] fails exactly when a code point is outside
    0..0x10FFFF. *)
Theorem codePoints_round_trip :
  (forall s, Forall code_unit s -> codePointsToString (stringToCodePoints s) = Ok s)
  /\ (forall cps,
         Forall scalar_value cps ->
         exists s, codePointsToString cps = Ok s /\ stringToCodePoints s = cps)
  /\ (forall cps,
         codePointsToString cps = Err InvalidCodePoint
         <-> exists cp, In cp cps /\ ~ (0 <= cp <= 0x10FFFF)).
Proof.
  split; [exact codePointsToString_stringToCodePoints|]. split.
  - intros cps H. destruct (stringToCodePoints_scalars cps H) as [s [Hs [_ Hb]]]. eauto.
  - induction cps as [|cp cps IH]; cbn [codePointsToString].
    + split; [discriminate | intros [cp [[] _]]].
    + unfold fromCodePoint, inRange.
      destruct (Z.leb_spec 0 cp); destruct (Z.leb_spec cp 1114111); cbn [andb];
        try (split; [intros _; exists cp; split; [now left | lia] | reflexivity]).
      assert (Hgo : forall units,
                 (s <- codePointsToString cps ;; Ok (units ++ s)) = Err InvalidCodePoint
                 <-> exists cp0, In cp0 (cp :: cps) /\ ~ (0 <= cp0 <= 1114111)).
      { intros units. destruct (codePointsToString cps) as [s|e]; cbn [bind].
        - split; [discriminate|]. intros [cp0 [[<-|Hin] Hcp0]]; [lia|].
          assert (He : Ok s = Err InvalidCodePoint) by (apply (proj2 IH); eauto).
          discriminate.
        - split.
          + intros [= ->]. destruct (proj1 IH eq_refl) as [cp0 [Hin Hcp0]].
            exists cp0. split; [now right | assumption].
          + intros [cp0 [[<-|Hin] Hcp0]]; [lia|].
            apply (proj2 IH). eauto. }
      destruct (cp <=? 65535); apply Hgo.
Qed.

(** * The UTF-8 encoder on whole strings *)

Lemma encode_loop_tokens tokens :
  forall output,
    encode_loop (Stream_new tokens) output = encode_tokens tokens output.
Proof.
  induction tokens as [|token rest IH]; intros output; rewrite encode_loop_eq.
  - reflexivity.
  - rewrite Stream_read_new. cbn [encode_tokens].
    destruct (UTF8Encoder_handler token) as [[res|]|e]; cbn [bind];
      [apply IH | reflexivity | reflexivity].
Qed.

Lemma encode_tokens_code_points cps :
  Forall (fun cp => 0 <= cp <= 0x10FFFF) cps ->
  forall output,
    encode_tokens cps output = Ok (output ++ List.concat (map utf8_bytes cps)).
Proof.
  induction 1 as [|cp cps Hcp Hcps IH]; intros output; cbn [encode_tokens map List.concat].
  - now rewrite app_nil_r.
  - rewrite UTF8Encoder_handler_bytes by assumption. cbn [bind].
    rewrite IH, <- app_assoc. reflexivity.
Qed.

Lemma stringToCodePoints_range s :
  Forall code_unit s -> Forall (fun cp => 0 <= cp <= 0x10FFFF) (stringToCodePoints s).
Proof.
  induction s as [|c d rest Hp IH|c rest Hp IH] using string_ind2; intros Hs.
  - constructor.
  - rewrite stringToCodePoints_cons, Hp.
    inversion Hs as [|? ? _ Hs']; subst. inversion Hs' as [|? ? _ Hs'']; subst.
    constructor; [|now apply IH].
    unfold inRange in Hp.
    repeat (apply andb_true_iff in Hp; destruct Hp as [Hp ?]).
    repeat match goal with H : (_ <=? _) = true |- _ => apply Z.leb_le in H end. lia.
  - inversion Hs as [|? ? Hc Hs']; subst.
    assert (Hgo : stringToCodePoints (c :: rest) = c :: stringToCodePoints rest).
    { rewrite stringToCodePoints_cons. destruct rest as [|d rest']; [reflexivity|].
      now rewrite Hp. }
    rewrite Hgo. constructor; [unfold code_unit in Hc; lia | now apply IH].
Qed.

Lemma UTF8_encode_string s :
  Forall code_unit s -> UTF8_encode s = Ok (utf8_of_string s).
Proof.
  intros Hs. unfold UTF8_encode. rewrite encode_loop_tokens.
  rewrite encode_tokens_code_points by now apply stringToCodePoints_range.
  reflexivity.
Qed.

Lemma utf8_bytes_length cp :
  List.length (utf8_bytes cp)
  = if cp <=? 0x7f then 1%nat else if cp <=? 0x7ff then 2%nat
    else if cp <=? 0xffff then 3%nat else 4%nat.
Proof.
  unfold utf8_bytes.
  destruct (cp <=? 127); [reflexivity|]. destruct (cp <=? 2047); [reflexivity|].
  destruct (cp <=? 65535); reflexivity.
Qed.

Lemma utf8_of_string_length s :
  Forall code_unit s ->
  (List.length s <= List.length (utf8_of_string s) <= 3 * List.length s)%nat.
Proof.
  unfold utf8_of_string, Uint8Array_from. rewrite length_map.
  induction s as [|c d rest Hp IH|c rest Hp IH] using string_ind2; intros Hs.
  - cbn. lia.
  - rewrite stringToCodePoints_cons, Hp.
    inversion Hs as [|? ? _ Hs']; subst. inversion Hs' as [|? ? _ Hs'']; subst.
    specialize (IH Hs''). cbn [map List.concat List.length].
    rewrite length_app, utf8_bytes_length.
    unfold inRange in Hp.
    repeat (apply andb_true_iff in Hp; destruct Hp as [Hp ?]).
    repeat match goal with H : (_ <=? _) = true |- _ => apply Z.leb_le in H end.
    rewrite !(proj2 (Z.leb_gt _ _)) by lia. lia.
  - inversion Hs as [|? ? Hc Hs']; subst. specialize (IH Hs').
    assert (Hgo : stringToCodePoints (c :: rest) = c :: stringToCodePoints rest).
    { rewrite stringToCodePoints_cons. destruct rest as [|d rest']; [reflexivity|].
      now rewrite Hp. }
    rewrite Hgo. cbn [map List.concat List.length].
    rewrite length_app, utf8_bytes_length. unfold code_unit in Hc.
    destruct (c <=? 127); [lia|]. destruct (c <=? 2047); [lia|].
    rewrite (proj2 (Z.leb_le c 65535)) by lia. lia.
Qed.

(** X7: the encoder loop of [TextEncoder] accepts every string, unpaired
    surrogates included, and yields between one and three bytes for each
    code unit of the string. *)
Theorem UTF8_encode_total :
  forall s,
    Forall code_unit s ->
    exists bytes,
      UTF8_encode s = Ok bytes
      /\ (List.length s <= List.length bytes <= 3 * List.length s)%nat.
Proof.
  intros s Hs. exists (utf8_of_string s).
  split; [now apply UTF8_encode_string | now apply utf8_of_string_length].
Qed.

Lemma UTF8_encode_total_witness :
  Forall code_unit [0x61; 0xD800; 0x4E2D]
  /\ exists bytes,
      UTF8_encode [0x61; 0xD800; 0x4E2D] = Ok bytes
      /\ (List.length [0x61; 0xD800; 0x4E2D]%Z <= List.length bytes
          <= 3 * List.length [0x61; 0xD800; 0x4E2D]%Z)%nat.
Proof.
  assert (H : Forall code_unit [0x61; 0xD800; 0x4E2D])
    by (repeat constructor; unfold code_unit; lia).
  split; [exact H|]. exact (UTF8_encode_total _ H).
Defined.

(** * decodeUtf8 on the encoding of a string *)

Lemma abs_loop_app fatal a : forall b st,
  abs_loop fatal (a ++ b) st = st' <- abs_loop fatal a st ;; abs_loop fatal b st'.
Proof.
  induction a as [|x a IH]; intros b st; cbn [app abs_loop bind]; [reflexivity|].
  destruct (abs_iter fatal st (byteZ x)) as [st1|e]; cbn [bind]; [apply IH | reflexivity].
Qed.

Lemma abs_step_shift pre st b : abs_step (abs_shift pre st) b = abs_shift pre (abs_step st b).
Proof.
  unfold abs_step, abs_shift. cbn [a_out a_state a_codepoint]. cbv zeta.
  destruct (negb (utf8_next (a_state st) (utf8_type b) =? 0)); [reflexivity|].
  destruct (_ >? 65535); unfold abs_put; cbn [a_out a_state a_codepoint];
    now rewrite <- !app_assoc.
Qed.

Lemma abs_iter_shift fatal pre st b :
  abs_iter fatal (abs_shift pre st) b
  = st' <- abs_iter fatal st b ;; Ok (abs_shift pre st').
Proof.
  unfold abs_iter. cbn [abs_shift a_out a_state a_codepoint].
  destruct (utf8_bad (a_state st) b); [destruct fatal|]; cbn [bind]; try reflexivity.
  - f_equal. rewrite <- abs_step_shift. unfold abs_shift. cbn [a_out a_state a_codepoint].
    now rewrite <- app_assoc.
  - f_equal. now rewrite <- abs_step_shift.
Qed.

Lemma abs_loop_shift fatal pre bytes : forall st,
  abs_loop fatal bytes (abs_shift pre st)
  = st' <- abs_loop fatal bytes st ;; Ok (abs_shift pre st').
Proof.
  induction bytes as [|b bytes IH]; intros st; cbn [abs_loop bind]; [reflexivity|].
  rewrite abs_iter_shift. destruct (abs_iter fatal st (byteZ b)) as [st1|e]; cbn [bind];
    [apply IH | reflexivity].
Qed.

(** In state 0 the code point left from the sequence before plays no part. *)
Lemma abs_iter_state0 fatal out c0 c1 b :
  abs_iter fatal (mk_abs out 0 c0) b = abs_iter fatal (mk_abs out 0 c1) b.
Proof. reflexivity. Qed.

Lemma abs_finish_loop_state0 fatal bytes out c0 c1 :
  (st <- abs_loop fatal bytes (mk_abs out 0 c0) ;; abs_finish fatal st)
  = (st <- abs_loop fatal bytes (mk_abs out 0 c1) ;; abs_finish fatal st).
Proof.
  destruct bytes as [|b bytes]; [reflexivity|]. cbn [abs_loop].
  now rewrite (abs_iter_state0 fatal out c0 c1).
Qed.

Lemma utf8_bytes_nonempty cp : exists b rest, utf8_bytes cp = b :: rest.
Proof.
  unfold utf8_bytes. destruct (cp <=? 127); [eauto|]. destruct (cp <=? 2047); [eauto|].
  destruct (cp <=? 65535); eauto.
Qed.

(** The bytes of a scalar value decode to it, whatever comes before and
    after. *)
Lemma abs_loop_scalar fatal cp text rest out c0 :
  scalar_value cp -> fromCodePoint cp = Some text ->
  abs_loop fatal (Uint8Array_from (utf8_bytes cp) ++ rest) (mk_abs out 0 c0)
  = abs_loop fatal rest (mk_abs (out ++ text) 0 cp).
Proof.
  intros [Hcp Hns] Htext. rewrite abs_loop_app.
  assert (H0 : abs_loop fatal (Uint8Array_from (utf8_bytes cp)) (mk_abs out 0 c0)
               = abs_loop fatal (Uint8Array_from (utf8_bytes cp))
                          (abs_shift out (mk_abs [] 0 0))).
  { destruct (utf8_bytes_nonempty cp) as [b [r ->]]. unfold Uint8Array_from.
    cbn [map abs_loop]. unfold abs_shift. cbn [a_out a_state a_codepoint].
    rewrite app_nil_r. now rewrite (abs_iter_state0 fatal out c0 0). }
  rewrite H0, abs_loop_shift, (abs_loop_utf8_bytes fatal cp text Hcp Hns Htext).
  reflexivity.
Qed.

Lemma abs_loop_scalars fatal cps :
  Forall scalar_value cps ->
  forall rest out c0,
  exists s c1,
    codePointsToString cps = Ok s
    /\ abs_loop fatal (Uint8Array_from (List.concat (map utf8_bytes cps)) ++ rest)
                (mk_abs out 0 c0)
       = abs_loop fatal rest (mk_abs (out ++ s) 0 c1).
Proof.
  induction 1 as [|cp cps Hcp Hcps IH]; intros rest out c0.
  - exists [], c0. split; [reflexivity|]. cbn. now rewrite app_nil_r.
  - cbn [map List.concat codePointsToString]. unfold Uint8Array_from.
    rewrite map_app, <- app_assoc. fold (Uint8Array_from (utf8_bytes cp)).
    fold (Uint8Array_from (List.concat (map utf8_bytes cps))).
    destruct (fromCodePoint cp) as [text|] eqn:Htext.
    2:{ exfalso. destruct Hcp as [Hcp _]. unfold fromCodePoint, inRange in Htext.
        rewrite (proj2 (Z.leb_le 0 cp)), (proj2 (Z.leb_le cp 1114111)) in Htext by lia.
        cbn [andb] in Htext. destruct (cp <=? 65535); discriminate. }
    rewrite (abs_loop_scalar fatal cp text _ out c0 Hcp Htext).
    destruct (IH rest (out ++ text) cp) as [s [c1 [Hs Hloop]]].
    exists (text ++ s), c1. rewrite Hs. cbn [bind]. split; [reflexivity|].
    rewrite Hloop, <- app_assoc. reflexivity.
Qed.

(** ** Strings without unpaired surrogates *)

Lemma wf_utf16_scalars s :
  Forall code_unit s ->
  (wf_utf16_units s <-> Forall scalar_value (stringToCodePoints s)).
Proof.
  induction s as [|c d rest Hp IH|c rest Hp IH] using string_ind2; intros Hs.
  - split; constructor.
  - inversion Hs as [|? ? Hc Hs']; subst. inversion Hs' as [|? ? Hd Hs'']; subst.
    rewrite stringToCodePoints_cons, Hp. specialize (IH Hs'').
    pose proof Hp as Hp'. unfold inRange in Hp'.
    repeat (apply andb_true_iff in Hp'; destruct Hp' as [Hp' ?]).
    repeat match goal with H : (_ <=? _) = true |- _ => apply Z.leb_le in H end.
    split.
    + intros Hw. inversion Hw; subst; [lia|].
      constructor; [unfold scalar_value; lia | now apply IH].
    + intros Hw. inversion Hw; subst. apply wf16_pair; [lia | lia | now apply IH].
  - inversion Hs as [|? ? Hc Hs']; subst. specialize (IH Hs').
    assert (Hgo : stringToCodePoints (c :: rest) = c :: stringToCodePoints rest).
    { rewrite stringToCodePoints_cons. destruct rest as [|d rest']; [reflexivity|].
      now rewrite Hp. }
    rewrite Hgo. unfold code_unit in Hc. split.
    + intros Hw. inversion Hw; subst.
      * constructor; [unfold scalar_value; lia | now apply IH].
      * exfalso. unfold inRange in Hp.
        rewrite (proj2 (Z.leb_le 55296 c)), (proj2 (Z.leb_le c 56319)),
          (proj2 (Z.leb_le 56320 l)), (proj2 (Z.leb_le l 57343)) in Hp by lia.
        discriminate.
    + intros Hw. inversion Hw as [|? ? [_ Hns] Hrest]; subst.
      apply wf16_one; [assumption | now apply IH].
Qed.

(** ** The encoding of a code point at the head of well-formed bytes *)

Ltac wf8_inv H :=
  inversion H; subst; clear H;
  try (exfalso; unfold utf8_second3, utf8_second4, bcont in *; lia).

Lemma wf_utf8_bytes_cons cp rest :
  0 <= cp <= 0x10FFFF ->
  (wf_utf8 (Uint8Array_from (utf8_bytes cp) ++ rest)
   <-> ~ (0xD800 <= cp <= 0xDFFF) /\ wf_utf8 rest).
Proof.
  intros Hcp. unfold utf8_bytes, Uint8Array_from.
  destruct (Z.leb_spec cp 127) as [L1|L1].
  { cbn [map app].
    assert (E0 : byteZ (ToUint8 cp) = cp) by (apply byteZ_ToUint8; lia).
    remember (ToUint8 cp) as b0 eqn:Hb0. clear Hb0. split.
    - intros Hw. wf8_inv Hw. split; [lia | assumption].
    - intros [_ Hw]. apply wf8_1; [lia | assumption]. }
  destruct (Z.leb_spec cp 2047) as [L2|L2].
  { cbn [map app].
    assert (E0 : byteZ (ToUint8 (cp / 64 + 192)) = cp / 64 + 192)
      by (apply byteZ_ToUint8; Z.div_mod_to_equations; lia).
    assert (E1 : byteZ (ToUint8 (128 + cp mod 64)) = 128 + cp mod 64)
      by (apply byteZ_ToUint8; Z.div_mod_to_equations; lia).
    assert (R0 : 0xC2 <= cp / 64 + 192 <= 0xDF) by (Z.div_mod_to_equations; lia).
    assert (R1 : 0x80 <= 128 + cp mod 64 <= 0xBF) by (Z.div_mod_to_equations; lia).
    remember (ToUint8 (cp / 64 + 192)) as b0 eqn:Hb0. clear Hb0.
    remember (ToUint8 (128 + cp mod 64)) as b1 eqn:Hb1. clear Hb1.
    rewrite <- E0 in R0. rewrite <- E1 in R1. split.
    - intros Hw. wf8_inv Hw. split; [lia | assumption].
    - intros [_ Hw]. apply wf8_2; [lia | exact R1 | assumption]. }
  destruct (Z.leb_spec cp 65535) as [L3|L3].
  { cbn [map app].
    assert (E0 : byteZ (ToUint8 (cp / 4096 + 224)) = cp / 4096 + 224)
      by (apply byteZ_ToUint8; Z.div_mod_to_equations; lia).
    assert (E1 : byteZ (ToUint8 (128 + (cp / 64) mod 64)) = 128 + (cp / 64) mod 64)
      by (apply byteZ_ToUint8; Z.div_mod_to_equations; lia).
    assert (E2 : byteZ (ToUint8 (128 + cp mod 64)) = 128 + cp mod 64)
      by (apply byteZ_ToUint8; Z.div_mod_to_equations; lia).
    assert (R2 : 0x80 <= 128 + cp mod 64 <= 0xBF) by (Z.div_mod_to_equations; lia).
    assert (R01 : utf8_second3 (cp / 4096 + 224) (128 + (cp / 64) mod 64)
                  <-> ~ (0xD800 <= cp <= 0xDFFF)).
    { unfold utf8_second3. Z.div_mod_to_equations. lia. }
    assert (R0 : 0xE0 <= cp / 4096 + 224 <= 0xEF) by (Z.div_mod_to_equations; lia).
    remember (ToUint8 (cp / 4096 + 224)) as b0 eqn:Hb0. clear Hb0.
    remember (ToUint8 (128 + (cp / 64) mod 64)) as b1 eqn:Hb1. clear Hb1.
    remember (ToUint8 (128 + cp mod 64)) as b2 eqn:Hb2. clear Hb2.
    rewrite <- E0, <- E1 in R01. rewrite <- E0 in R0. rewrite <- E2 in R2.
    clear E0 E1 E2. split.
    - intros Hw. inversion Hw; subst; clear Hw;
        try (exfalso; unfold utf8_second4, bcont in *; lia).
      split; [now apply R01 | assumption].
    - intros [Hns Hw]. apply wf8_3; [now apply R01 | exact R2 | assumption]. }
  cbn [map app].
  assert (E0 : byteZ (ToUint8 (cp / 262144 + 240)) = cp / 262144 + 240)
    by (apply byteZ_ToUint8; Z.div_mod_to_equations; lia).
  assert (E1 : byteZ (ToUint8 (128 + (cp / 4096) mod 64)) = 128 + (cp / 4096) mod 64)
    by (apply byteZ_ToUint8; Z.div_mod_to_equations; lia).
  assert (E2 : byteZ (ToUint8 (128 + (cp / 64) mod 64)) = 128 + (cp / 64) mod 64)
    by (apply byteZ_ToUint8; Z.div_mod_to_equations; lia).
  assert (E3 : byteZ (ToUint8 (128 + cp mod 64)) = 128 + cp mod 64)
    by (apply byteZ_ToUint8; Z.div_mod_to_equations; lia).
  assert (R2 : 0x80 <= 128 + (cp / 64) mod 64 <= 0xBF) by (Z.div_mod_to_equations; lia).
  assert (R3 : 0x80 <= 128 + cp mod 64 <= 0xBF) by (Z.div_mod_to_equations; lia).
  assert (R01 : utf8_second4 (cp / 262144 + 240) (128 + (cp / 4096) mod 64)).
  { unfold utf8_second4. Z.div_mod_to_equations. lia. }
  assert (R0 : 0xF0 <= cp / 262144 + 240 <= 0xF4) by (Z.div_mod_to_equations; lia).
  remember (ToUint8 (cp / 262144 + 240)) as b0 eqn:Hb0. clear Hb0.
  remember (ToUint8 (128 + (cp / 4096) mod 64)) as b1 eqn:Hb1. clear Hb1.
  remember (ToUint8 (128 + (cp / 64) mod 64)) as b2 eqn:Hb2. clear Hb2.
  remember (ToUint8 (128 + cp mod 64)) as b3 eqn:Hb3. clear Hb3.
  rewrite <- E0, <- E1 in R01. rewrite <- E0 in R0. rewrite <- E2 in R2.
  rewrite <- E3 in R3. clear E0 E1 E2 E3. split.
  - intros Hw. inversion Hw; subst; clear Hw;
      try (exfalso; unfold utf8_second3, bcont in *; lia).
    split; [lia | assumption].
  - intros [Hns Hw]. apply wf8_4; [exact R01 | exact R2 | exact R3 | assumption].
Qed.

Lemma wf_utf8_code_points cps :
  Forall (fun cp => 0 <= cp <= 0x10FFFF) cps ->
  (wf_utf8 (Uint8Array_from (List.concat (map utf8_bytes cps)))
   <-> Forall scalar_value cps).
Proof.
  induction 1 as [|cp cps Hcp Hcps IH]; cbn [map List.concat].
  - split; constructor.
  - unfold Uint8Array_from. rewrite map_app.
    fold (Uint8Array_from (utf8_bytes cp)).
    fold (Uint8Array_from (List.concat (map utf8_bytes cps))).
    rewrite (wf_utf8_bytes_cons cp _ Hcp), IH. split.
    + intros [Hns H]. constructor; [split; assumption | assumption].
    + intros H. inversion H as [|? ? [_ Hns] Hrest]; subst. auto.
Qed.

(** The encoding of a string is well formed exactly when the string has no
    unpaired surrogate. *)
Lemma wf_utf8_of_string s :
  Forall code_unit s -> (wf_utf8 (utf8_of_string s) <-> wf_utf16_units s).
Proof.
  intros Hs. unfold utf8_of_string.
  rewrite (wf_utf8_code_points _ (stringToCodePoints_range s Hs)).
  symmetry. now apply wf_utf16_scalars.
Qed.

Lemma utf8_skip_bom_cons cp rest :
  0 <= cp <= 0x10ffff -> cp <> 0xFEFF ->
  utf8_skip_bom (Uint8Array_from (utf8_bytes cp) ++ rest) false
  = Uint8Array_from (utf8_bytes cp) ++ rest.
Proof.
  intros Hcp Hne. unfold utf8_skip_bom. cbn [negb andb].
  match goal with
  | |- skipn (if ?c then _ else _) _ = _ =>
      assert (Hc : c = false); [|rewrite Hc; reflexivity]
  end.
  unfold utf8_bytes, Uint8Array_from.
  destruct (Z.leb_spec cp 127) as [L1|L1].
  { cbn [map app]. change (Uint8_at (?a :: _) 0) with (Some (byteZ a)).
    rewrite byteZ_ToUint8 by lia. cbn [opt_eqb].
    now rewrite (proj2 (Z.eqb_neq cp 239)) by lia. }
  destruct (Z.leb_spec cp 2047) as [L2|L2].
  { cbn [map app]. change (Uint8_at (?a :: _) 0) with (Some (byteZ a)).
    rewrite byteZ_ToUint8 by (Z.div_mod_to_equations; lia). cbn [opt_eqb].
    now rewrite (proj2 (Z.eqb_neq _ 239)) by (Z.div_mod_to_equations; lia). }
  destruct (Z.leb_spec cp 65535) as [L3|L3]; cbn [map app].
  - change (Uint8_at (?a :: _) 0) with (Some (byteZ a)).
    change (Uint8_at (_ :: ?a :: _) 1) with (Some (byteZ a)).
    change (Uint8_at (_ :: _ :: ?a :: _) 2) with (Some (byteZ a)).
    rewrite !byteZ_ToUint8 by (Z.div_mod_to_equations; lia).
    cbn [opt_eqb].
    destruct (Z.eqb_spec (cp / 4096 + 224) 239); [|reflexivity].
    destruct (Z.eqb_spec (128 + (cp / 64) mod 64) 187); [|reflexivity].
    destruct (Z.eqb_spec (128 + cp mod 64) 191); [|reflexivity].
    exfalso. apply Hne. Z.div_mod_to_equations. lia.
  - change (Uint8_at (?a :: _) 0) with (Some (byteZ a)).
    rewrite byteZ_ToUint8 by (Z.div_mod_to_equations; lia).
    cbn [opt_eqb].
    now rewrite (proj2 (Z.eqb_neq _ 239)) by (Z.div_mod_to_equations; lia).
Qed.

Lemma stringToCodePoints_head c rest :
  ~ (0xD800 <= c <= 0xDBFF) ->
  stringToCodePoints (c :: rest) = c :: stringToCodePoints rest.
Proof.
  intros Hc. rewrite stringToCodePoints_cons. destruct rest as [|d rest']; [reflexivity|].
  unfold inRange at 1.
  destruct (Z.leb_spec 55296 c); destruct (Z.leb_spec c 56319); cbn [andb];
    try reflexivity; lia.
Qed.

(** What [decodeUtf8] is left with once the byte-order mark of the
    encoding of a string is skipped. *)
Lemma utf8_skip_bom_string s :
  Forall code_unit s ->
  utf8_skip_bom (utf8_of_string s) false = utf8_of_string (strip_BOM s).
Proof.
  intros Hs. destruct s as [|c rest]; [reflexivity|].
  cbn [strip_BOM]. destruct (Z.eqb_spec c 0xfeff) as [->|Hne].
  - unfold utf8_of_string. rewrite stringToCodePoints_head by lia. reflexivity.
  - pose proof (stringToCodePoints_range _ Hs) as Hr.
    unfold utf8_of_string.
    destruct (stringToCodePoints (c :: rest)) as [|cp cps] eqn:Hcps; [reflexivity|].
    inversion Hr as [|? ? Hcp _]; subst.
    cbn [map List.concat]. unfold Uint8Array_from. rewrite map_app.
    apply utf8_skip_bom_cons; [assumption|].
    inversion Hs as [|? ? Hc _]; subst. unfold code_unit in Hc.
    rewrite stringToCodePoints_cons in Hcps. destruct rest as [|d rest'].
    + injection Hcps as <- _. assumption.
    + destruct (inRange c 55296 56319 && inRange d 56320 57343) eqn:Hp.
      * injection Hcps as <- _. unfold inRange in Hp.
        repeat (apply andb_true_iff in Hp; destruct Hp as [Hp ?]).
        repeat match goal with H : (_ <=? _) = true |- _ => apply Z.leb_le in H end.
        lia.
      * injection Hcps as <- _. assumption.
Qed.

Lemma decodeUtf8_of_string s fatal :
  Forall code_unit s -> wf_utf16_units s ->
  decodeUtf8 (utf8_of_string s) fatal true = Ok s.
Proof.
  intros Hs Hw. rewrite decodeUtf8_abs.
  change (utf8_skip_bom (utf8_of_string s) true) with (utf8_of_string s).
  pose proof (proj1 (wf_utf16_scalars s Hs) Hw) as Hsc.
  destruct (abs_loop_scalars fatal _ Hsc [] [] 0) as [s' [c1 [Hs' Hloop]]].
  rewrite app_nil_r in Hloop. unfold utf8_of_string. rewrite Hloop.
  rewrite codePointsToString_stringToCodePoints in Hs' by assumption.
  injection Hs' as <-. reflexivity.
Qed.

Lemma wf_utf16_strip_BOM s : wf_utf16_units s -> wf_utf16_units (strip_BOM s).
Proof.
  intros H. destruct s as [|c rest]; [assumption|]. cbn [strip_BOM].
  destruct (Z.eqb_spec c 0xfeff) as [->|Hne]; [|assumption].
  inversion H; subst; [assumption | lia].
Qed.

Lemma code_unit_strip_BOM s : Forall code_unit s -> Forall code_unit (strip_BOM s).
Proof.
  intros H. destruct s as [|c rest]; [assumption|]. cbn [strip_BOM].
  destruct (c =? 0xfeff); [now inversion H | assumption].
Qed.

(** X8: a string without unpaired surrogates survives the encoder and
    [decodeUtf8]: the encoding is well-formed UTF-8 and decodes, in either
    mode, to the string, less a leading U+FEFF unless [ignoreBOM] is set. *)
Theorem utf8_string_round_trip :
  forall s fatal ignoreBOM,
    Forall code_unit s -> wf_utf16_units s ->
    exists bytes,
      UTF8_encode s = Ok bytes
      /\ wf_utf8 bytes
      /\ decodeUtf8 bytes fatal ignoreBOM = Ok (if ignoreBOM then s else strip_BOM s).
Proof.
  intros s fatal ignoreBOM Hs Hw. exists (utf8_of_string s).
  split; [now apply UTF8_encode_string|].
  split; [now apply wf_utf8_of_string|].
  destruct ignoreBOM; [now apply decodeUtf8_of_string|].
  rewrite decodeUtf8_abs, utf8_skip_bom_string by assumption.
  pose proof (decodeUtf8_of_string (strip_BOM s) fatal (code_unit_strip_BOM s Hs)
                (wf_utf16_strip_BOM s Hw)) as H.
  rewrite decodeUtf8_abs in H. exact H.
Qed.

Lemma utf8_string_round_trip_witness :
  Forall code_unit [0xFEFF; 0x61; 0x4E2D; 0xD83D; 0xDE00]
  /\ wf_utf16_units [0xFEFF; 0x61; 0x4E2D; 0xD83D; 0xDE00]
  /\ exists bytes,
      UTF8_encode [0xFEFF; 0x61; 0x4E2D; 0xD83D; 0xDE00] = Ok bytes
      /\ wf_utf8 bytes
      /\ decodeUtf8 bytes true false
         = Ok (if false then [0xFEFF; 0x61; 0x4E2D; 0xD83D; 0xDE00]
               else strip_BOM [0xFEFF; 0x61; 0x4E2D; 0xD83D; 0xDE00]).
Proof.
  assert (H1 : Forall code_unit [0xFEFF; 0x61; 0x4E2D; 0xD83D; 0xDE00])
    by (repeat constructor; unfold code_unit; lia).
  assert (H2 : wf_utf16_units [0xFEFF; 0x61; 0x4E2D; 0xD83D; 0xDE00]).
  { apply wf16_one; [lia|]. apply wf16_one; [lia|]. apply wf16_one; [lia|].
    apply wf16_pair; [lia | lia | constructor]. }
  split; [exact H1|]. split; [exact H2|].
  exact (utf8_string_round_trip _ true false H1 H2).
Defined.

(** X9: a string with an unpaired surrogate does not survive: the encoder
    accepts it, but its encoding is not well-formed UTF-8, so that
    [decodeUtf8] throws in fatal mode and answers a text with U+FFFD
    otherwise. *)
Theorem utf8_unpaired_surrogate :
  forall s ignoreBOM,
    Forall code_unit s -> ~ wf_utf16_units s ->
    exists bytes,
      UTF8_encode s = Ok bytes
      /\ ~ wf_utf8 bytes
      /\ decodeUtf8 bytes true ignoreBOM = Err DecoderError
      /\ exists text, decodeUtf8 bytes false ignoreBOM = Ok text /\ In 0xfffd text.
Proof.
  intros s ignoreBOM Hs Hw. exists (utf8_of_string s).
  split; [now apply UTF8_encode_string|].
  assert (Hbytes : ~ wf_utf8 (utf8_of_string s)).
  { intros H. apply Hw. now apply wf_utf8_of_string. }
  split; [assumption|].
  pose proof (decodeUtf8_fatal (utf8_of_string s) ignoreBOM) as Hf.
  destruct (decodeUtf8_nonfatal (utf8_of_string s) ignoreBOM) as [text [Ht Hrel]].
  destruct (decodeUtf8 (utf8_of_string s) true ignoreBOM) as [s'|e].
  - contradiction.
  - destruct Hf as [-> _]. split; [reflexivity|]. eauto.
Qed.

Lemma utf8_unpaired_surrogate_witness :
  Forall code_unit [0x61; 0xDC00]
  /\ ~ wf_utf16_units [0x61; 0xDC00]
  /\ exists bytes,
      UTF8_encode [0x61; 0xDC00] = Ok bytes
      /\ ~ wf_utf8 bytes
      /\ decodeUtf8 bytes true false = Err DecoderError
      /\ exists text, decodeUtf8 bytes false false = Ok text /\ In 0xfffd text.
Proof.
  assert (H1 : Forall code_unit [0x61; 0xDC00])
    by (repeat constructor; unfold code_unit; lia).
  assert (H2 : ~ wf_utf16_units [0x61; 0xDC00]).
  { intros H. inversion H as [|? ? _ H'|]; subst; [|lia].
    inversion H'; subst; lia. }
  split; [exact H1|]. split; [exact H2|].
  exact (utf8_unpaired_surrogate _ false H1 H2).
Defined.

(** ** Well-formed bytes are the encoding of a string *)

Lemma wf_utf8_scalars bytes :
  wf_utf8 bytes ->
  exists cps,
    Forall scalar_value cps
    /\ bytes = Uint8Array_from (List.concat (map utf8_bytes cps)).
Proof.
  induction 1 as [|b rest Hb Hrest [cps [Hcps ->]]
                  |b0 b1 rest Hb0 Hb1 Hrest [cps [Hcps ->]]
                  |b0 b1 b2 rest Hb01 Hb2 Hrest [cps [Hcps ->]]
                  |b0 b1 b2 b3 rest Hb01 Hb2 Hb3 Hrest [cps [Hcps ->]]].
  - exists []. split; [constructor | reflexivity].
  - pose proof (byteZ_range b) as Rb.
    exists (byteZ b :: cps). split; [constructor; [unfold scalar_value; lia | assumption]|].
    cbn [map List.concat]. unfold Uint8Array_from, utf8_bytes.
    rewrite (proj2 (Z.leb_le _ _) Hb). cbn [app map]. now rewrite ToUint8_byteZ.
  - unfold bcont in *.
    set (cp := (byteZ b0 - 0xC0) * 64 + (byteZ b1 - 0x80)).
    assert (Hcp : 0x80 <= cp <= 0x7FF) by (unfold cp; lia).
    exists (cp :: cps). split; [constructor; [unfold scalar_value; lia | assumption]|].
    cbn [map List.concat]. unfold Uint8Array_from, utf8_bytes.
    rewrite (proj2 (Z.leb_gt cp 127)), (proj2 (Z.leb_le cp 2047)) by lia.
    cbn [app map].
    replace (cp / 64 + 192) with (byteZ b0) by (unfold cp; Z.div_mod_to_equations; lia).
    replace (128 + cp mod 64) with (byteZ b1) by (unfold cp; Z.div_mod_to_equations; lia).
    now rewrite !ToUint8_byteZ.
  - unfold bcont, utf8_second3 in *.
    set (cp := ((byteZ b0 - 0xE0) * 64 + (byteZ b1 - 0x80)) * 64 + (byteZ b2 - 0x80)).
    assert (Hcp : 0x800 <= cp <= 0xFFFF /\ ~ (0xD800 <= cp <= 0xDFFF)) by (unfold cp; lia).
    exists (cp :: cps). split; [constructor; [unfold scalar_value; lia | assumption]|].
    cbn [map List.concat]. unfold Uint8Array_from, utf8_bytes.
    rewrite (proj2 (Z.leb_gt cp 127)), (proj2 (Z.leb_gt cp 2047)),
      (proj2 (Z.leb_le cp 65535)) by lia.
    cbn [app map].
    replace (cp / 4096 + 224) with (byteZ b0)
      by (unfold cp; Z.div_mod_to_equations; lia).
    replace (128 + (cp / 64) mod 64) with (byteZ b1)
      by (unfold cp; Z.div_mod_to_equations; lia).
    replace (128 + cp mod 64) with (byteZ b2) by (unfold cp; Z.div_mod_to_equations; lia).
    now rewrite !ToUint8_byteZ.
  - unfold bcont, utf8_second4 in *.
    set (cp := (((byteZ b0 - 0xF0) * 64 + (byteZ b1 - 0x80)) * 64 + (byteZ b2 - 0x80)) * 64
               + (byteZ b3 - 0x80)).
    assert (Hcp : 0x10000 <= cp <= 0x10FFFF) by (unfold cp; lia).
    exists (cp :: cps). split; [constructor; [unfold scalar_value; lia | assumption]|].
    cbn [map List.concat]. unfold Uint8Array_from, utf8_bytes.
    rewrite (proj2 (Z.leb_gt cp 127)), (proj2 (Z.leb_gt cp 2047)),
      (proj2 (Z.leb_gt cp 65535)) by lia.
    cbn [app map].
    replace (cp / 262144 + 240) with (byteZ b0)
      by (unfold cp; Z.div_mod_to_equations; lia).
    replace (128 + (cp / 4096) mod 64) with (byteZ b1)
      by (unfold cp; Z.div_mod_to_equations; lia).
    replace (128 + (cp / 64) mod 64) with (byteZ b2)
      by (unfold cp; Z.div_mod_to_equations; lia).
    replace (128 + cp mod 64) with (byteZ b3) by (unfold cp; Z.div_mod_to_equations; lia).
    now rewrite !ToUint8_byteZ.
Qed.

(** X10: well-formed UTF-8 bytes decode, in either mode and with the
    byte-order mark kept, to a string without unpaired surrogates whose
    encoding is the bytes again. *)
Theorem utf8_bytes_round_trip :
  forall bytes fatal,
    wf_utf8 bytes ->
    exists s,
      decodeUtf8 bytes fatal true = Ok s
      /\ Forall code_unit s
      /\ wf_utf16_units s
      /\ UTF8_encode s = Ok bytes.
Proof.
  intros bytes fatal Hw.
  destruct (wf_utf8_scalars bytes Hw) as [cps [Hcps ->]].
  destruct (stringToCodePoints_scalars cps Hcps) as [s [Hs [Hunits Hback]]].
  exists s.
  assert (Hbytes : Uint8Array_from (List.concat (map utf8_bytes cps)) = utf8_of_string s)
    by (unfold utf8_of_string; now rewrite Hback).
  assert (Hwf : wf_utf16_units s).
  { apply (wf_utf16_scalars s Hunits). now rewrite Hback. }
  rewrite Hbytes. split; [now apply decodeUtf8_of_string|].
  split; [assumption|]. split; [assumption | now apply UTF8_encode_string].
Qed.

Lemma utf8_bytes_round_trip_witness :
  wf_utf8 [x61; xe4; xb8; xad]
  /\ exists s,
      decodeUtf8 [x61; xe4; xb8; xad] false true = Ok s
      /\ Forall code_unit s
      /\ wf_utf16_units s
      /\ UTF8_encode s = Ok [x61; xe4; xb8; xad].
Proof.
  assert (H : wf_utf8 [x61; xe4; xb8; xad]).
  { apply wf8_1; [vm_compute; discriminate|].
    apply wf8_3; [|unfold bcont; vm_compute; split; discriminate | constructor].
    right. left. vm_compute. repeat split; discriminate. }
  split; [exact H|]. exact (utf8_bytes_round_trip _ false H).
Defined.

(** * decodeUtf8: prefixes, the byte-order mark, the length of the text *)

Lemma abs_finish_shift fatal pre st :
  abs_finish fatal (abs_shift pre st) = s <- abs_finish fatal st ;; Ok (pre ++ s).
Proof.
  unfold abs_finish, abs_shift. cbn [a_out a_state a_codepoint].
  destruct (negb (a_state st =? 0)); [destruct fatal|]; cbn [bind]; try reflexivity.
  now rewrite <- app_assoc.
Qed.

Lemma decodeUtf8_keep input fatal :
  decodeUtf8 input fatal true
  = st <- abs_loop fatal input (mk_abs [] 0 0) ;; abs_finish fatal st.
Proof. now rewrite decodeUtf8_abs. Qed.

Lemma decodeUtf8_app a b fatal :
  wf_utf8 a ->
  decodeUtf8 (a ++ b) fatal true
  = sa <- decodeUtf8 a fatal true ;; sb <- decodeUtf8 b fatal true ;; Ok (sa ++ sb).
Proof.
  intros Hw. destruct (wf_utf8_scalars a Hw) as [cps [Hcps ->]].
  rewrite !decodeUtf8_keep.
  destruct (abs_loop_scalars fatal cps Hcps b [] 0) as [s [c1 [Hs Hloop]]].
  destruct (abs_loop_scalars fatal cps Hcps [] [] 0) as [s' [c1' [Hs' Hloop']]].
  rewrite Hs in Hs'. injection Hs' as <-. rewrite app_nil_r in Hloop'.
  rewrite Hloop, Hloop'. cbn [abs_loop app bind].
  change (abs_finish fatal (mk_abs s 0 c1')) with (@Ok (list Z) s). cbn [bind].
  rewrite (abs_finish_loop_state0 fatal b s c1 0).
  pose proof (abs_loop_shift fatal s b (mk_abs [] 0 0)) as Hsh.
  unfold abs_shift at 1 in Hsh. cbn [a_out a_state a_codepoint] in Hsh.
  rewrite app_nil_r in Hsh. rewrite Hsh.
  destruct (abs_loop fatal b (mk_abs [] 0 0)) as [st|e]; cbn [bind]; [|reflexivity].
  apply abs_finish_shift.
Qed.

(** X11: a well-formed prefix can be decoded on its own: with the
    byte-order mark kept, the text of [a ++ b] is the text of [a] followed
    by the text of [b], and the decoding of [a ++ b] fails exactly when
    that of [b] does. *)
Theorem decodeUtf8_prefix :
  forall a b fatal,
    wf_utf8 a ->
    decodeUtf8 (a ++ b) fatal true
    = sa <- decodeUtf8 a fatal true ;; sb <- decodeUtf8 b fatal true ;; Ok (sa ++ sb).
Proof. exact decodeUtf8_app. Qed.

Lemma decodeUtf8_prefix_witness :
  wf_utf8 [xc3; xa9]
  /\ decodeUtf8 ([xc3; xa9] ++ [x41; xff]) false true
     = sa <- decodeUtf8 [xc3; xa9] false true ;;
       sb <- decodeUtf8 [x41; xff] false true ;; Ok (sa ++ sb).
Proof.
  assert (H : wf_utf8 [xc3; xa9]).
  { apply wf8_2; [vm_compute; split; discriminate
                 | unfold bcont; vm_compute; split; discriminate | constructor]. }
  split; [exact H|]. exact (decodeUtf8_prefix [xc3; xa9] [x41; xff] false H).
Defined.

(** X12: the byte-order mark EF BB BF at the head of the input is skipped
    once, and only when [ignoreBOM] is unset: what follows is decoded as
    with [ignoreBOM] set, so that a second mark comes out as U+FEFF; with
    [ignoreBOM] set the mark itself comes out as U+FEFF. *)
Theorem decodeUtf8_BOM :
  forall rest fatal,
    decodeUtf8 (xef :: xbb :: xbf :: rest) fatal false = decodeUtf8 rest fatal true
    /\ decodeUtf8 (xef :: xbb :: xbf :: rest) fatal true
       = s <- decodeUtf8 rest fatal true ;; Ok (0xFEFF :: s).
Proof.
  intros rest fatal. split.
  - now rewrite !decodeUtf8_abs.
  - change (xef :: xbb :: xbf :: rest) with ([xef; xbb; xbf] ++ rest).
    rewrite decodeUtf8_app by (apply wf_utf8_bom; constructor).
    replace (decodeUtf8 [xef; xbb; xbf] fatal true) with (@Ok (list Z) [0xFEFF])
      by (destruct fatal; vm_compute; reflexivity).
    reflexivity.
Qed.

Lemma abs_step_weight st b :
  0 <= b < 256 ->
  abs_weight (abs_step st b) <= abs_weight st + 1.
Proof.
  intros Hb. unfold abs_step, abs_weight. cbv zeta.
  destruct (Z.eqb_spec (utf8_next (a_state st) (utf8_type b)) 0) as [H0|H0];
    cbn [negb].
  2:{ cbn [a_out a_state]. rewrite (proj2 (Z.eqb_neq _ _) H0).
      destruct (a_state st =? 0); lia. }
  destruct (Z.eqb_spec (a_state st) 0) as [Hs|Hs]; cbn [negb].
  - assert (Hle : Z.land (Z.shiftr 255 (utf8_type b)) b <= 0xffff).
    { apply Z.leb_le.
      exact (forall_below (fun b => Z.land (Z.shiftr 255 (utf8_type b)) b <=? 0xffff)
                          256 ltac:(vm_compute; reflexivity) b Hb). }
    rewrite Z.gtb_ltb, (proj2 (Z.ltb_ge _ _) Hle).
    unfold abs_put. cbn [a_out a_state]. rewrite H0, length_app. cbn. lia.
  - destruct (_ >? 65535); unfold abs_put; cbn [a_out a_state];
      rewrite H0, ?length_app; cbn [List.length Z.eqb]; lia.
Qed.

Lemma abs_loop_weight fatal bytes :
  forall st st',
    abs_loop fatal bytes st = Ok st' ->
    abs_weight st' <= abs_weight st + Z.of_nat (List.length bytes).
Proof.
  induction bytes as [|b bytes IH]; intros st st'; cbn [abs_loop List.length].
  - intros [= <-]. lia.
  - unfold abs_iter. pose proof (byteZ_range b) as Hb.
    destruct (utf8_bad (a_state st) (byteZ b)) eqn:Hbad; [destruct fatal|];
      cbn [bind]; try discriminate; intros H; apply IH in H.
    + pose proof (abs_step_weight (mk_abs (a_out st ++ [65533]) 0 (a_codepoint st))
                                  (byteZ b) Hb) as Hstep.
      assert (Hne : a_state st <> 0).
      { unfold utf8_bad in Hbad. intros E. rewrite E in Hbad. discriminate. }
      unfold abs_weight at 2 in Hstep. cbn [a_out a_state Z.eqb] in Hstep.
      rewrite length_app in Hstep. cbn [List.length] in Hstep.
      unfold abs_weight at 2. rewrite (proj2 (Z.eqb_neq _ _) Hne). lia.
    + pose proof (abs_step_weight st (byteZ b) Hb). lia.
Qed.

Lemma utf8_skip_bom_length input ignoreBOM :
  (List.length (utf8_skip_bom input ignoreBOM) <= List.length input)%nat.
Proof. unfold utf8_skip_bom. rewrite length_skipn. lia. Qed.

(** X13: the text [decodeUtf8] returns is never longer, in code units,
    than its input in bytes; in non-fatal mode it always returns one. *)
Theorem decodeUtf8_length :
  forall input fatal ignoreBOM,
    match decodeUtf8 input fatal ignoreBOM with
    | Ok s => (List.length s <= List.length input)%nat
    | Err e => fatal = true /\ e = DecoderError
    end.
Proof.
  intros input fatal ignoreBOM. rewrite decodeUtf8_abs.
  pose proof (utf8_skip_bom_length input ignoreBOM) as Hskip.
  pose proof (abs_loop_weight fatal (utf8_skip_bom input ignoreBOM) (mk_abs [] 0 0))
    as Hw.
  destruct (abs_loop fatal (utf8_skip_bom input ignoreBOM) (mk_abs [] 0 0))
    as [st|e] eqn:Hloop; cbn [bind].
  - specialize (Hw st eq_refl). unfold abs_weight in Hw.
    cbn [a_out a_state List.length Z.eqb Z.of_nat] in Hw.
    unfold abs_finish.
    destruct (Z.eqb_spec (a_state st) 0) as [H0|H0]; cbn [negb].
    + lia.
    + destruct fatal; [auto|]. rewrite length_app. cbn [List.length]. lia.
  - destruct fatal.
    + split; [reflexivity|].
      pose proof (decodeUtf8_fatal input ignoreBOM) as Hf.
      rewrite decodeUtf8_abs, Hloop in Hf. cbn [bind] in Hf. tauto.
    + destruct (abs_loop_nonfatal_ok (utf8_skip_bom input ignoreBOM) (mk_abs [] 0 0))
        as [st' Hst']. congruence.
Qed.

(** * TextEncoder.encodeInto *)

Lemma encodeInto_loop_eq inputStream st :
  encodeInto_loop inputStream st =
  let (item, inputStream') := Stream_read inputStream in
  match UTF8Encoder_handler item with
  | Err e => inl (Thrown_by_handler e)
  | Ok None => inr st
  | Ok (Some result) =>
      if Z.of_nat (List.length (ei_dest st)) - ei_written st
         >=? Z.of_nat (List.length result)
      then match Uint8Array_set (ei_dest st) result (ei_written st) with
           | None => inl Thrown_by_set
           | Some dest =>
               let read := ei_read st + 1 in
               let read := if item >? 0xFFFF then read + 1 else read in
               encodeInto_loop inputStream'
                 (mk_encodeInto read (ei_written st + Z.of_nat (List.length result))
                                dest)
           end
      else inr st
  end.
Proof.
  on_lhs ltac:(simp encodeInto_loop).
  generalize (inspect (Stream_read inputStream)).
  intros [[item inputStream'] Hread]. rewrite_rhs Hread.
  cbn -[inspect encodeInto_loop].
  generalize (inspect (UTF8Encoder_handler item)).
  intros [[[res|]|e] Hres]; rewrite_rhs Hres; cbn -[inspect encodeInto_loop];
    try reflexivity.
  destruct (Z_ge_dec (Z.of_nat (List.length (ei_dest st)) - ei_written st)
                     (Z.of_nat (List.length res))) as [Hge|Hlt];
    cbn -[inspect encodeInto_loop].
  - rewrite (proj2 (Z.geb_le _ _)) by lia.
    destruct (Uint8Array_set (ei_dest st) res (ei_written st)); reflexivity.
  - destruct (Z.geb_spec (Z.of_nat (List.length (ei_dest st)) - ei_written st)
                         (Z.of_nat (List.length res))); [lia | reflexivity].
Qed.

Lemma encodeInto_loop_tokens tokens :
  forall st, encodeInto_loop (Stream_new tokens) st = encodeInto_tokens tokens st.
Proof.
  induction tokens as [|item rest IH]; intros st; rewrite encodeInto_loop_eq.
  - reflexivity.
  - rewrite Stream_read_new. cbn [encodeInto_tokens].
    destruct (UTF8Encoder_handler item) as [[res|]|e]; try reflexivity.
    destruct (_ >=? _); [|reflexivity].
    destruct (Uint8Array_set _ _ _); [apply IH | reflexivity].
Qed.

Lemma Uint8Array_set_fits dest source (w : nat) :
  (w + List.length source <= List.length dest)%nat ->
  Uint8Array_set dest source (Z.of_nat w)
  = Some (firstn w dest ++ map ToUint8 source ++ skipn (w + List.length source) dest).
Proof.
  intros H. unfold Uint8Array_set.
  rewrite (proj2 (Z.ltb_ge _ _)) by lia. rewrite (proj2 (Z.ltb_ge _ _)) by lia.
  cbn [orb]. now rewrite Nat2Z.id.
Qed.

(** Writing [B] at [w], then [B'] after it. *)
Lemma splice_twice (d : list byte) w B B' :
  (w + List.length B <= List.length d)%nat ->
  let d' := firstn w d ++ B ++ skipn (w + List.length B) d in
  List.length d' = List.length d
  /\ firstn (w + List.length B) d' ++ B' ++ skipn (w + List.length B + List.length B') d'
     = firstn w d ++ (B ++ B') ++ skipn (w + List.length (B ++ B')) d.
Proof.
  intros H d'.
  assert (Hf : List.length (firstn w d) = w) by (rewrite length_firstn; lia).
  split.
  - unfold d'. rewrite !length_app, Hf, length_skipn. lia.
  - unfold d'. rewrite (app_assoc (firstn w d) B).
    assert (Hl : List.length (firstn w d ++ B) = (w + List.length B)%nat)
      by (rewrite length_app; lia).
    rewrite firstn_app, Hl, Nat.sub_diag, firstn_O, app_nil_r.
    rewrite <- Hl at 1. rewrite firstn_all.
    rewrite skipn_app, Hl.
    rewrite (skipn_all2 (firstn w d ++ B)) by (rewrite Hl; lia).
    cbn [app]. rewrite skipn_skipn, length_app.
    replace (w + List.length B + List.length B' - (w + List.length B)
             + (w + List.length B))%nat
      with (w + (List.length B + List.length B'))%nat by lia.
    now rewrite <- !app_assoc.
Qed.

Lemma firstn_pair n c d rest :
  inRange c 0xD800 0xDBFF && inRange d 0xDC00 0xDFFF = true ->
  stringToCodePoints (c :: d :: firstn n rest)
  = ((c - 0xD800) * 0x400 + (d - 0xDC00) + 0x10000) :: stringToCodePoints (firstn n rest).
Proof. intros Hp. now rewrite stringToCodePoints_cons, Hp. Qed.

Lemma firstn_one n c rest :
  match rest with
  | d :: _ => inRange c 0xD800 0xDBFF && inRange d 0xDC00 0xDFFF = false
  | [] => True
  end ->
  stringToCodePoints (c :: firstn n rest) = c :: stringToCodePoints (firstn n rest).
Proof.
  intros Hp. rewrite stringToCodePoints_cons.
  destruct rest as [|d rest']; [now rewrite firstn_nil|].
  destruct n as [|n]; [reflexivity|]. cbn [firstn]. now rewrite Hp.
Qed.

Lemma encodeInto_tokens_spec s :
  Forall code_unit s ->
  forall r (w : nat) d,
    (w <= List.length d)%nat ->
    exists (n : nat) (bytes : list byte),
      encodeInto_tokens (stringToCodePoints s) (mk_encodeInto r (Z.of_nat w) d)
      = inr (mk_encodeInto (r + Z.of_nat n) (Z.of_nat (w + List.length bytes))
                           (firstn w d ++ bytes ++ skipn (w + List.length bytes) d))
      /\ (n <= List.length s)%nat
      /\ (w + List.length bytes <= List.length d)%nat
      /\ bytes = utf8_of_string (firstn n s)
      /\ (n = List.length s \/ (List.length d - (w + List.length bytes) < 4)%nat)
      /\ (3 * List.length s <= List.length d - w -> n = List.length s)%nat.
Proof.
  induction s as [|c d0 rest Hp IH|c rest Hp IH] using string_ind2; intros Hs r w d Hw.
  - exists O, []. cbn [stringToCodePoints encodeInto_tokens List.length firstn app].
    rewrite Z.add_0_r, !Nat.add_0_r, firstn_skipn.
    repeat split; auto.
  - inversion Hs as [|? ? Hc Hs']; subst. inversion Hs' as [|? ? Hd Hs'']; subst.
    rewrite stringToCodePoints_cons, Hp. set (cp := (c - 55296) * 1024 + (d0 - 56320) + 65536).
    pose proof Hp as Hp'. unfold inRange in Hp'.
    repeat (apply andb_true_iff in Hp'; destruct Hp' as [Hp' ?]).
    repeat match goal with H : (_ <=? _) = true |- _ => apply Z.leb_le in H end.
    assert (Hcp : 0x10000 <= cp <= 0x10FFFF) by (unfold cp; lia).
    cbn [encodeInto_tokens ei_dest ei_written ei_read].
    rewrite UTF8Encoder_handler_bytes by lia.
    assert (Hlen : List.length (utf8_bytes cp) = 4%nat).
    { rewrite utf8_bytes_length. now rewrite !(proj2 (Z.leb_gt _ _)) by lia. }
    rewrite Hlen.
    destruct (Z.geb_spec (Z.of_nat (List.length d) - Z.of_nat w) (Z.of_nat 4))
      as [Hfit|Hno].
    + rewrite Uint8Array_set_fits by (rewrite Hlen; lia). rewrite Hlen.
      rewrite (proj2 (Z.gtb_lt cp 65535)) by lia.
      set (B := map ToUint8 (utf8_bytes cp)).
      assert (HB : List.length B = 4%nat) by (unfold B; now rewrite length_map).
      destruct (splice_twice d w B [] ltac:(lia)) as [Hd' _]. rewrite HB in Hd'.
      set (d' := firstn w d ++ B ++ skipn (w + 4) d) in *.
      replace (Z.of_nat w + Z.of_nat 4) with (Z.of_nat (w + 4)) by lia.
      destruct (IH Hs'' (r + 1 + 1) (w + 4)%nat d' ltac:(lia))
        as [n [bytes [Hrun [Hn [Hroom [Hbytes [Hmax Hall]]]]]]].
      exists (2 + n)%nat, (B ++ bytes). rewrite Hrun.
      destruct (splice_twice d w B bytes ltac:(lia)) as [_ Hsp]. rewrite HB in Hsp.
      fold d' in Hsp. rewrite Hsp. rewrite length_app, HB.
      split; [do 2 f_equal; lia|].
      split; [cbn [List.length]; lia|].
      split; [rewrite Hd' in Hroom; lia|].
      split.
      { cbn [firstn Nat.add]. unfold utf8_of_string. rewrite firstn_pair by assumption.
        cbn [map List.concat]. unfold Uint8Array_from. rewrite map_app.
        fold cp. fold B. f_equal. exact Hbytes. }
      split.
      { rewrite Hd' in Hmax. cbn [List.length]. destruct Hmax as [->|Hmax]; [left|right]; lia. }
      cbn [List.length]. rewrite Hd' in Hall. lia.
    + exists O, []. cbn [List.length firstn app].
      rewrite Z.add_0_r, !Nat.add_0_r, firstn_skipn.
      repeat split; auto; try lia.
  - inversion Hs as [|? ? Hc Hs']; subst. unfold code_unit in Hc.
    assert (Hgo : stringToCodePoints (c :: rest) = c :: stringToCodePoints rest).
    { rewrite stringToCodePoints_cons. destruct rest as [|d1 rest']; [reflexivity|].
      now rewrite Hp. }
    rewrite Hgo. cbn [encodeInto_tokens ei_dest ei_written ei_read].
    rewrite UTF8Encoder_handler_bytes by lia.
    assert (Hlen : (1 <= List.length (utf8_bytes c) <= 3)%nat).
    { rewrite utf8_bytes_length. destruct (c <=? 127); [lia|].
      destruct (c <=? 2047); [lia|]. rewrite (proj2 (Z.leb_le c 65535)) by lia. lia. }
    destruct (Z.geb_spec (Z.of_nat (List.length d) - Z.of_nat w)
                         (Z.of_nat (List.length (utf8_bytes c)))) as [Hfit|Hno].
    + rewrite Uint8Array_set_fits by lia.
      rewrite Z.gtb_ltb, (proj2 (Z.ltb_ge _ _)) by lia.
      set (B := map ToUint8 (utf8_bytes c)).
      assert (HB : List.length B = List.length (utf8_bytes c))
        by (unfold B; now rewrite length_map).
      rewrite <- HB in *.
      destruct (splice_twice d w B [] ltac:(lia)) as [Hd' _].
      set (d' := firstn w d ++ B ++ skipn (w + List.length B) d) in *.
      replace (Z.of_nat w + Z.of_nat (List.length B))
        with (Z.of_nat (w + List.length B)) by lia.
      destruct (IH Hs' (r + 1) (w + List.length B)%nat d' ltac:(lia))
        as [n [bytes [Hrun [Hn [Hroom [Hbytes [Hmax Hall]]]]]]].
      exists (1 + n)%nat, (B ++ bytes). rewrite Hrun.
      destruct (splice_twice d w B bytes ltac:(lia)) as [_ Hsp].
      fold d' in Hsp. rewrite Hsp. rewrite length_app.
      split; [do 2 f_equal; lia|].
      split; [cbn [List.length]; lia|].
      split; [rewrite Hd' in Hroom; lia|].
      split.
      { cbn [firstn Nat.add]. unfold utf8_of_string. rewrite firstn_one by assumption.
        cbn [map List.concat]. unfold Uint8Array_from. rewrite map_app.
        fold B. f_equal. exact Hbytes. }
      split.
      { rewrite Hd' in Hmax. cbn [List.length]. destruct Hmax as [->|Hmax]; [left|right]; lia. }
      cbn [List.length]. rewrite Hd' in Hall. lia.
    + exists O, []. cbn [List.length firstn app].
      rewrite Z.add_0_r, !Nat.add_0_r, firstn_skipn.
      repeat split; auto; try lia.
Qed.

Lemma encodeInto_spec input dest :
  Forall code_unit input ->
  exists (n : nat) (bytes : list byte),
    encodeInto input dest
    = inr (mk_encodeInto (Z.of_nat n) (Z.of_nat (List.length bytes))
                         (bytes ++ skipn (List.length bytes) dest))
    /\ (n <= List.length input)%nat
    /\ (List.length bytes <= List.length dest)%nat
    /\ bytes = utf8_of_string (firstn n input)
    /\ (n = List.length input \/ (List.length dest - List.length bytes < 4)%nat)
    /\ (3 * List.length input <= List.length dest -> n = List.length input)%nat.
Proof.
  intros Hs. unfold encodeInto. rewrite encodeInto_loop_tokens.
  destruct (encodeInto_tokens_spec input Hs 0 0%nat dest ltac:(lia))
    as [n [bytes [Hrun [Hn [Hroom [Hbytes [Hmax Hall]]]]]]].
  exists n, bytes. cbn [Z.of_nat Nat.add firstn app] in *.
  rewrite Nat.sub_0_r in Hall. repeat split; assumption.
Qed.

Lemma code_unit_firstn n s : Forall code_unit s -> Forall code_unit (firstn n s).
Proof.
  intros H. revert n. induction H as [|c s Hc Hs IH]; intros [|n]; cbn [firstn];
    constructor; auto.
Qed.

(** X14: [encodeInto] never throws on a string and never writes past
    [dest]: it returns with [written] bytes of [dest] replaced by the
    encoding of the first [read] code units of the input, the other bytes
    of [dest] being as they were. *)
Theorem encodeInto_prefix :
  forall input dest,
    Forall code_unit input ->
    exists read written dest',
      encodeInto input dest = inr (mk_encodeInto read written dest')
      /\ 0 <= read <= Z.of_nat (List.length input)
      /\ 0 <= written <= Z.of_nat (List.length dest)
      /\ List.length dest' = List.length dest
      /\ skipn (Z.to_nat written) dest' = skipn (Z.to_nat written) dest
      /\ UTF8_encode (firstn (Z.to_nat read) input)
         = Ok (firstn (Z.to_nat written) dest').
Proof.
  intros input dest Hs.
  destruct (encodeInto_spec input dest Hs)
    as [n [bytes [Hrun [Hn [Hroom [Hbytes [Hmax Hall]]]]]]].
  eexists _, _, _. split; [exact Hrun|]. rewrite !Nat2Z.id.
  split; [lia|]. split; [lia|].
  split; [rewrite length_app, length_skipn; lia|].
  split.
  - rewrite skipn_app, skipn_all, Nat.sub_diag. reflexivity.
  - rewrite firstn_app, firstn_all, Nat.sub_diag, firstn_O, app_nil_r.
    rewrite Hbytes. apply UTF8_encode_string. now apply code_unit_firstn.
Qed.

Lemma encodeInto_prefix_witness :
  Forall code_unit [0x61; 0x4E2D; 0x62]
  /\ exists read written dest',
      encodeInto [0x61; 0x4E2D; 0x62] [x00; x00; x00] = inr (mk_encodeInto read written dest')
      /\ 0 <= read <= Z.of_nat (List.length [0x61; 0x4E2D; 0x62])
      /\ 0 <= written <= Z.of_nat (List.length [x00; x00; x00])
      /\ List.length dest' = List.length [x00; x00; x00]
      /\ skipn (Z.to_nat written) dest' = skipn (Z.to_nat written) [x00; x00; x00]
      /\ UTF8_encode (firstn (Z.to_nat read) [0x61; 0x4E2D; 0x62])
         = Ok (firstn (Z.to_nat written) dest').
Proof.
  assert (H : Forall code_unit [0x61; 0x4E2D; 0x62])
    by (repeat constructor; unfold code_unit; lia).
  split; [exact H|]. exact (encodeInto_prefix _ [x00; x00; x00] H).
Defined.

(** X15: [encodeInto] stops short of the end of the string only when
    fewer than four bytes of [dest] are left, and a [dest] of three bytes
    for each code unit takes the whole string. *)
Theorem encodeInto_room :
  forall input dest,
    Forall code_unit input ->
    exists read written dest',
      encodeInto input dest = inr (mk_encodeInto read written dest')
      /\ (read = Z.of_nat (List.length input)
          \/ Z.of_nat (List.length dest) - written < 4)
      /\ (3 * Z.of_nat (List.length input) <= Z.of_nat (List.length dest) ->
          read = Z.of_nat (List.length input)
          /\ UTF8_encode input = Ok (firstn (Z.to_nat written) dest')).
Proof.
  intros input dest Hs.
  destruct (encodeInto_spec input dest Hs)
    as [n [bytes [Hrun [Hn [Hroom [Hbytes [Hmax Hall]]]]]]].
  eexists _, _, _. split; [exact Hrun|]. rewrite !Nat2Z.id.
  split; [destruct Hmax as [->|Hmax]; [now left | right; lia]|].
  intros Hbig. rewrite Hall in * by lia. split; [reflexivity|].
  rewrite firstn_app, firstn_all, Nat.sub_diag, firstn_O, app_nil_r.
  rewrite Hbytes, firstn_all. now apply UTF8_encode_string.
Qed.

Lemma encodeInto_room_witness :
  Forall code_unit [0x61; 0x4E2D; 0x62]
  /\ exists read written dest',
      encodeInto [0x61; 0x4E2D; 0x62] [x00; x00; x00] = inr (mk_encodeInto read written dest')
      /\ (read = Z.of_nat (List.length [0x61; 0x4E2D; 0x62])
          \/ Z.of_nat (List.length [x00; x00; x00]) - written < 4)
      /\ (3 * Z.of_nat (List.length [0x61; 0x4E2D; 0x62])
          <= Z.of_nat (List.length [x00; x00; x00]) ->
          read = Z.of_nat (List.length [0x61; 0x4E2D; 0x62])
          /\ UTF8_encode [0x61; 0x4E2D; 0x62] = Ok (firstn (Z.to_nat written) dest')).
Proof.
  assert (H : Forall code_unit [0x61; 0x4E2D; 0x62])
    by (repeat constructor; unfold code_unit; lia).
  split; [exact H|]. exact (encodeInto_room _ [x00; x00; x00] H).
Defined.

(** * UTF-16: what well-formed input decodes to *)

Lemma Utf16_codeUnit_range be b1 b2 :
  code_unit (Utf16_codeUnit be (byteZ b1) (byteZ b2)).
Proof.
  pose proof (byteZ_range b1). pose proof (byteZ_range b2).
  unfold code_unit, Utf16_codeUnit. rewrite !Z.shiftl_mul_pow2 by lia.
  change (2 ^ 8) with 256. destruct be; lia.
Qed.

Lemma utf16_units_range be bytes : forall units,
  utf16_units be bytes = Some units -> Forall code_unit units.
Proof.
  assert (H : forall n bytes units, (List.length bytes <= n)%nat ->
                utf16_units be bytes = Some units -> Forall code_unit units).
  { induction n as [|n IH]; intros bs units Hn.
    - destruct bs; [|cbn in Hn; lia]. intros [= <-]. constructor.
    - destruct bs as [|b1 [|b2 rest]]; cbn [utf16_units].
      + intros [= <-]. constructor.
      + discriminate.
      + destruct (utf16_units be rest) as [us|] eqn:Hus; cbn [option_map]; [|discriminate].
        intros [= <-]. constructor; [apply Utf16_codeUnit_range|].
        apply (IH rest); [cbn in Hn; lia | assumption]. }
  intros units. apply (H (List.length bytes)). lia.
Qed.

Lemma Utf16_accepted be fatal ignoreBOM n :
  forall bytes leadSurrogate result,
    (List.length bytes <= n)%nat ->
    utf16_accepts be ignoreBOM leadSurrogate bytes ->
    exists units,
      utf16_units be bytes = Some units
      /\ (st <- Utf16_loop be fatal ignoreBOM bytes (mk_utf16 None leadSurrogate result) ;;
          Utf16_finish fatal st)
         = Ok (result ++ match leadSurrogate with Some h => [h] | None => [] end
                      ++ filter (utf16_kept ignoreBOM) units).
Proof.
  induction n as [|n IH]; intros bytes ls res Hn Hacc.
  { destruct bytes; [|cbn in Hn; lia]. destruct Hacc as [units [[= <-] Hneed]].
    exists []. split; [reflexivity|]. destruct ls as [h|].
    - cbn in Hneed. destruct Hneed as [l [r [H _]]]. discriminate.
    - cbn. now rewrite app_nil_r. }
  destruct bytes as [|b1 [|b2 rest]].
  - destruct Hacc as [units [[= <-] Hneed]].
    exists []. split; [reflexivity|]. destruct ls as [h|].
    + cbn in Hneed. destruct Hneed as [l [r [H _]]]. discriminate.
    + cbn. now rewrite app_nil_r.
  - destruct Hacc as [units [H _]]. discriminate.
  - assert (Hrest : (List.length rest <= n)%nat) by (cbn in Hn; lia).
    apply utf16_accepts_cons in Hacc.
    set (u := Utf16_codeUnit be (byteZ b1) (byteZ b2)) in *.
    destruct Hacc as [units0 [Hu0 Hneed]].
    exists (u :: units0). split; [cbn [utf16_units]; fold u; now rewrite Hu0|].
    assert (Hgo : forall ls' res',
               need16 ls' (filter (utf16_kept ignoreBOM) units0) ->
               (st <- Utf16_loop be fatal ignoreBOM rest (mk_utf16 None ls' res') ;;
                Utf16_finish fatal st)
               = Ok (res' ++ match ls' with Some h => [h] | None => [] end
                          ++ filter (utf16_kept ignoreBOM) units0)).
    { intros ls' res' Hneed'.
      destruct (IH rest ls' res' Hrest (ex_intro _ units0 (conj Hu0 Hneed')))
        as [units [Hu Hrun]].
      rewrite Hu0 in Hu. injection Hu as <-. exact Hrun. }
    cbn [Utf16_loop]. unfold Utf16_iter at 1.
    cbn [u16_leadByte u16_leadSurrogate u16_result bind].
    unfold Utf16_iter at 1. cbn [u16_leadByte u16_leadSurrogate u16_result].
    fold u. cbn [filter] in Hneed |- *.
    unfold utf16_kept at 1 in Hneed. unfold utf16_kept at 1.
    destruct ((u =? 65279) && negb ignoreBOM) eqn:Hdrop; cbn [negb bind] in Hneed |- *.
    { now apply Hgo. }
    destruct ls as [h|].
    + cbn [need16] in Hneed. destruct Hneed as [l [r [Heq [Hl Hr]]]].
      injection Heq as <- <-.
      unfold inRange. rewrite (proj2 (Z.leb_le 56320 u)), (proj2 (Z.leb_le u 57343)) by lia.
      cbn [andb bind]. rewrite (Hgo None (res ++ [h; u])) by exact Hr.
      cbn [app]. rewrite <- app_assoc. reflexivity.
    + cbn [need16] in Hneed. unfold inRange.
      destruct (Z.leb_spec 55296 u) as [H1|H1]; destruct (Z.leb_spec u 56319) as [H2|H2];
        cbn [andb]; try lia.
      * apply wf16_cons_high in Hneed; [|lia]. cbn [bind].
        rewrite (Hgo (Some u) res) by exact Hneed. reflexivity.
      * destruct (Z.leb_spec 56320 u) as [H3|H3]; destruct (Z.leb_spec u 57343) as [H4|H4];
          cbn [andb bind]; try lia.
        -- exfalso. now apply (wf16_cons_low u (filter (utf16_kept ignoreBOM) units0)).
        -- apply wf16_cons_other in Hneed; [|lia].
           rewrite (Hgo None (res ++ [u])) by exact Hneed.
           cbn [app]. rewrite <- app_assoc. reflexivity.
      * destruct (Z.leb_spec 56320 u) as [H3|H3]; destruct (Z.leb_spec u 57343) as [H4|H4];
          cbn [andb bind]; try lia.
        apply wf16_cons_other in Hneed; [|lia].
        rewrite (Hgo None (res ++ [u])) by exact Hneed.
        cbn [app]. rewrite <- app_assoc. reflexivity.
Qed.

Lemma fromCharCode_units units : Forall code_unit units -> fromCharCode units = units.
Proof.
  intros H. unfold fromCharCode. rewrite <- (map_id units) at 2. apply map_ext_in.
  intros c Hc. rewrite Forall_forall in H. specialize (H c Hc). unfold code_unit in H.
  unfold ToUint16. apply Z.mod_small. lia.
Qed.

Lemma code_unit_filter (f : Z -> bool) units :
  Forall code_unit units -> Forall code_unit (filter f units).
Proof.
  induction 1 as [|c units Hc Hunits IH]; cbn [filter]; [constructor|].
  destruct (f c); [constructor|]; assumption.
Qed.

Lemma TextDecoder_new_utf16 (be : bool) fatal ignoreBOM :
  TextDecoder_new (if be then "utf-16be" else "utf-16le")%string fatal ignoreBOM
  = Ok (mk_TextDecoder (if be then "utf-16be" else "utf-16le")%string fatal ignoreBOM).
Proof. destruct be; vm_compute; reflexivity. Qed.

Lemma Decode_utf16 core_decode more_arguments bytes (be : bool) fatal ignoreBOM :
  Decode core_decode more_arguments bytes (if be then "utf-16be" else "utf-16le")%string fatal ignoreBOM
  = res <- Utf16ByteDecoder bytes be fatal ignoreBOM ;;
    fromCharCode_apply more_arguments fromCharCode res.
Proof.
  unfold Decode. rewrite TextDecoder_new_utf16. cbn [bind].
  unfold TextDecoder_decode. cbn [td_encoding td_fatal td_ignoreBOM].
  destruct be; reflexivity.
Qed.

(** X16: well-formed UTF-16 input decodes, in either mode, to its code
    units less every unit U+FEFF, wherever it stands, unless [ignoreBOM]
    is set; when there are more of them than the engine takes as the
    arguments of a call, [String.fromCharCode.apply] throws its
    [RangeError] instead. *)
Theorem Decode_utf16_well_formed :
  forall core_decode more_arguments bytes (be : bool) fatal ignoreBOM units,
    utf16_units be bytes = Some units ->
    wf_utf16_units (filter (utf16_kept ignoreBOM) units) ->
    Decode core_decode more_arguments bytes
           (if be then "utf-16be" else "utf-16le")%string fatal ignoreBOM
    = if Z.of_nat (List.length (filter (utf16_kept ignoreBOM) units))
         >? max_arguments more_arguments
      then Err TooManyArguments
      else Ok (filter (utf16_kept ignoreBOM) units).
Proof.
  intros core_decode more_arguments bytes be fatal ignoreBOM units Hunits Hwf.
  rewrite Decode_utf16, Utf16ByteDecoder_eq.
  destruct (Utf16_accepted be fatal ignoreBOM (List.length bytes) bytes None []
              (le_n _) (ex_intro _ units (conj Hunits Hwf))) as [units' [Hu Hrun]].
  rewrite Hunits in Hu. injection Hu as <-. rewrite Hrun. cbn [app bind].
  unfold fromCharCode_apply.
  destruct (_ >? _); [reflexivity|].
  f_equal. apply fromCharCode_units, code_unit_filter.
  exact (utf16_units_range be bytes units Hunits).
Qed.

Lemma Decode_utf16_well_formed_witness :
  utf16_units false [xff; xfe; x41; x00; xff; xfe; x3d; xd8; x00; xde]
  = Some [0xFEFF; 0x41; 0xFEFF; 0xD83D; 0xDE00]
  /\ wf_utf16_units (filter (utf16_kept false) [0xFEFF; 0x41; 0xFEFF; 0xD83D; 0xDE00])
  /\ Decode (fun _ => []) 0%nat [xff; xfe; x41; x00; xff; xfe; x3d; xd8; x00; xde]
            (if false then "utf-16be" else "utf-16le")%string true false
     = if Z.of_nat (List.length (filter (utf16_kept false)
                                        [0xFEFF; 0x41; 0xFEFF; 0xD83D; 0xDE00]))
          >? max_arguments 0
       then Err TooManyArguments
       else Ok (filter (utf16_kept false) [0xFEFF; 0x41; 0xFEFF; 0xD83D; 0xDE00]).
Proof.
  assert (H1 : utf16_units false [xff; xfe; x41; x00; xff; xfe; x3d; xd8; x00; xde]
               = Some [0xFEFF; 0x41; 0xFEFF; 0xD83D; 0xDE00]) by reflexivity.
  assert (H2 : wf_utf16_units
                 (filter (utf16_kept false) [0xFEFF; 0x41; 0xFEFF; 0xD83D; 0xDE00])).
  { cbn. apply wf16_one; [lia|]. apply wf16_pair; [lia | lia | constructor]. }
  split; [exact H1|]. split; [exact H2|].
  exact (Decode_utf16_well_formed (fun _ => []) 0%nat _ false true false _ H1 H2).
Defined.

(** * Single-byte encodings: one code unit for each byte *)

Lemma encodingIndexes_bmp :
  forallb (fun entry : string * list (option Z) =>
             String.eqb (fst entry) "big5" || index_bmp (snd entry))
          encodingIndexes = true.
Proof. vm_compute. reflexivity. Qed.

Lemma single_char_bmp index b :
  index_bmp index = true ->
  0 <= single_char index b <= 0xFFFF /\ single_char index b <> 0xFEFF.
Proof.
  intros Hok. pose proof (byteZ_range b) as Hb. unfold single_char.
  destruct (isASCIIByte (byteZ b)) eqn:Hascii.
  - unfold isASCIIByte, inRange in Hascii. lia.
  - unfold index_get. destruct (byteZ b - 128 <? 0); [lia|].
    destruct (nth_error index (Z.to_nat (byteZ b - 128))) as [[c|]|] eqn:Hnth; try lia.
    apply nth_error_In in Hnth. unfold index_bmp in Hok.
    rewrite forallb_forall in Hok. specialize (Hok _ Hnth). cbn in Hok.
    unfold inRange in Hok. lia.
Qed.

Lemma SingleByteDecoder_handler_char index b :
  SingleByteDecoder_handler (mk_single index false) (byteZ b) = Ok (single_char index b).
Proof.
  pose proof (byteZ_range b) as Hb.
  unfold SingleByteDecoder_handler, single_char, END_OF_STREAM. cbn [sb_index sb_fatal].
  rewrite (proj2 (Z.eqb_neq _ _)) by lia.
  destruct (isASCIIByte (byteZ b)); [reflexivity|].
  destruct (index_get index (byteZ b - 128)); reflexivity.
Qed.

Lemma decode_tokens_chars index bytes :
  index_bmp index = true ->
  forall output,
    decode_tokens (mk_single index false) (map byteZ bytes) output
    = Ok (output ++ map (single_char index) bytes).
Proof.
  intros Hok. induction bytes as [|b rest IH]; intros output; cbn [map decode_tokens].
  - now rewrite app_nil_r.
  - rewrite SingleByteDecoder_handler_char. cbn [bind].
    destruct (single_char_bmp index b Hok) as [Hr _].
    rewrite (proj2 (Z.eqb_neq _ FINISHED)) by (unfold FINISHED; lia).
    rewrite IH, <- app_assoc. reflexivity.
Qed.

Lemma codePointsToString_units units :
  Forall code_unit units -> codePointsToString units = Ok units.
Proof.
  induction 1 as [|c units Hc Hunits IH]; cbn [codePointsToString]; [reflexivity|].
  rewrite fromCodePoint_unit by assumption. now rewrite IH.
Qed.

Lemma decode_single_chars index bytes :
  index_bmp index = true ->
  decode_single index bytes false false = Ok (map (single_char index) bytes).
Proof.
  intros Hok. unfold decode_single, SingleByteDecoder_new. cbn [bind].
  rewrite decode_loop_tokens, decode_tokens_chars by assumption. cbn [app bind].
  assert (Hstrip : strip_BOM (map (single_char index) bytes)
                   = map (single_char index) bytes).
  { destruct bytes as [|b rest]; [reflexivity|]. cbn [map strip_BOM].
    destruct (single_char_bmp index b Hok) as [_ Hne].
    now rewrite (proj2 (Z.eqb_neq _ _) Hne). }
  rewrite Hstrip. apply codePointsToString_units.
  apply Forall_forall. intros c Hc. apply in_map_iff in Hc. destruct Hc as [b [<- _]].
  exact (proj1 (single_char_bmp index b Hok)).
Qed.

Lemma index_bmp_ok index : index_bmp index = true -> index_ok index = true.
Proof.
  unfold index_bmp, index_ok. rewrite !forallb_forall. intros H e He.
  specialize (H e He). destruct e as [c|]; [|reflexivity].
  unfold inRange in *. lia.
Qed.

Lemma decode_single_modes index bytes fatal :
  index_bmp index = true ->
  fatal = false \/ wf_single index bytes ->
  decode_single index bytes fatal false = Ok (map (single_char index) bytes).
Proof.
  intros Hok Hmode. pose proof (decode_single_chars index bytes Hok) as Hn.
  destruct fatal; [|assumption]. destruct Hmode as [|Hw]; [discriminate|].
  destruct (decode_single_nonfatal index bytes (index_bmp_ok index Hok))
    as [s [Hs Hrel]].
  rewrite Hn in Hs. injection Hs as <-.
  destruct (decode_single index bytes true false) as [s'|e].
  - destruct Hrel as [-> _]. reflexivity.
  - destruct Hrel as [_ [_ Hno]]. contradiction.
Qed.

Lemma encodingIndexes_single encoding index :
  Map_get encodingIndexes encoding = Some index ->
  String.eqb encoding "big5" = false ->
  index_bmp index = true.
Proof.
  intros Hget H5. apply Map_get_In in Hget.
  pose proof encodingIndexes_bmp as Hok. rewrite forallb_forall in Hok.
  specialize (Hok _ Hget). cbn [fst snd] in Hok. now rewrite H5 in Hok.
Qed.

(** X17: a single-byte decoder answers one code unit for each byte: the
    byte itself below 0x80, its entry in the index of the encoding
    otherwise, U+FFFD in non-fatal mode for a byte without an entry; no
    index holds U+FEFF, so that nothing is ever stripped at the head. *)
Theorem Decode_single_byte :
  forall core_decode more_arguments bytes label encoding index fatal,
    Resolve label = Ok encoding ->
    takes_ignoreBOM encoding = false ->
    String.eqb encoding "big5" = false ->
    Map_get encodingIndexes encoding = Some index ->
    fatal = false \/ wf_single index bytes ->
    Decode core_decode more_arguments bytes label fatal false = Ok (map (single_char index) bytes).
Proof.
  intros core_decode more_arguments bytes label encoding index fatal Hres Htakes H5 Hget Hmode.
  destruct (Decode_cases core_decode more_arguments bytes label encoding fatal false Hres) as [-> _].
  unfold takes_ignoreBOM in Htakes.
  apply orb_false_iff in Htakes. destruct Htakes as [Htakes Hbe].
  apply orb_false_iff in Htakes. destruct Htakes as [H8 Hle].
  rewrite H8, Hle, Hbe, H5, Hget.
  apply decode_single_modes; [|assumption].
  exact (encodingIndexes_single encoding index Hget H5).
Qed.

Lemma Decode_single_byte_witness :
  Resolve "latin1" = Ok "windows-1252"%string
  /\ takes_ignoreBOM "windows-1252" = false
  /\ String.eqb "windows-1252" "big5" = false
  /\ Map_get encodingIndexes "windows-1252" = Some index_windows_1252
  /\ (false = false \/ wf_single index_windows_1252 [x41; xe9; x80])
  /\ Decode (fun _ => []) 0%nat [x41; xe9; x80] "latin1" false false
     = Ok (map (single_char index_windows_1252) [x41; xe9; x80]).
Proof.
  assert (H1 : Resolve "latin1" = Ok "windows-1252"%string) by (vm_compute; reflexivity).
  assert (H2 : takes_ignoreBOM "windows-1252" = false) by reflexivity.
  assert (H3 : String.eqb "windows-1252" "big5" = false) by reflexivity.
  assert (H4 : Map_get encodingIndexes "windows-1252" = Some index_windows_1252)
    by reflexivity.
  assert (H5 : false = false \/ wf_single index_windows_1252 [x41; xe9; x80])
    by (left; reflexivity).
  repeat (split; [assumption|]).
  exact (Decode_single_byte (fun _ => []) 0%nat [x41; xe9; x80] "latin1"%string
                            "windows-1252"%string index_windows_1252 false
                            H1 H2 H3 H4 H5).
Defined.

(** * ASCII bytes decode to themselves *)

Lemma ascii_utf8_of_string bytes :
  ascii_bytes bytes -> utf8_of_string (map byteZ bytes) = bytes.
Proof.
  induction 1 as [|b rest Hb Hrest IH]; [reflexivity|].
  pose proof (byteZ_range b) as Rb. cbn [map].
  unfold utf8_of_string in *. rewrite stringToCodePoints_head by lia.
  cbn [map List.concat]. unfold utf8_bytes at 1.
  rewrite (proj2 (Z.leb_le _ _) Hb). cbn [app]. unfold Uint8Array_from in *.
  cbn [map]. now rewrite ToUint8_byteZ, IH.
Qed.

Lemma ascii_string bytes :
  ascii_bytes bytes ->
  Forall code_unit (map byteZ bytes)
  /\ wf_utf16_units (map byteZ bytes)
  /\ strip_BOM (map byteZ bytes) = map byteZ bytes.
Proof.
  intros H. split; [|split].
  - induction H as [|b rest Hb Hrest IH]; constructor; [|assumption].
    pose proof (byteZ_range b). unfold code_unit. lia.
  - induction H as [|b rest Hb Hrest IH]; [constructor|].
    cbn [map]. apply wf16_one; [lia | assumption].
  - destruct H as [|b rest Hb Hrest]; [reflexivity|]. cbn [map strip_BOM].
    now rewrite (proj2 (Z.eqb_neq _ _)) by lia.
Qed.

Lemma decodeUtf8_ascii bytes fatal ignoreBOM :
  ascii_bytes bytes -> decodeUtf8 bytes fatal ignoreBOM = Ok (map byteZ bytes).
Proof.
  intros H. destruct (ascii_string bytes H) as [Hunits [Hwf Hstrip]].
  pose proof (decodeUtf8_of_string (map byteZ bytes) fatal Hunits Hwf) as Hkeep.
  rewrite ascii_utf8_of_string in Hkeep by assumption.
  destruct ignoreBOM; [assumption|].
  rewrite decodeUtf8_abs in Hkeep |- *.
  pose proof (utf8_skip_bom_string (map byteZ bytes) Hunits) as Hskip.
  rewrite Hstrip, ascii_utf8_of_string in Hskip by assumption.
  now rewrite Hskip.
Qed.

Lemma Big5_loop_ascii big5 bytes fatal n :
  ascii_bytes bytes ->
  forall i res,
    0 <= i <= Z.of_nat (List.length bytes) ->
    Z.of_nat (List.length bytes) - i <= Z.of_nat n ->
    Big5_loop big5 bytes fatal (mk_big5 i 0 res)
    = Ok (mk_big5 (Z.of_nat (List.length bytes)) 0
                  (res ++ map (fun b => JNum (byteZ b)) (skipn (Z.to_nat i) bytes))).
Proof.
  intros Hascii. induction n as [|n IH]; intros i res Hi Hn; rewrite Big5_loop_eq;
    cbn [b5_i].
  - rewrite (proj2 (Z.ltb_ge _ _)) by lia.
    rewrite skipn_all2 by lia. cbn [map]. rewrite app_nil_r. do 2 f_equal. lia.
  - destruct (Z.ltb_spec i (Z.of_nat (List.length bytes))) as [Hlt|Hge].
    + destruct (Uint8_at_skipn bytes i ltac:(lia)) as [b [Hb Hskip]].
      assert (Hin : In b bytes).
      { rewrite <- (firstn_skipn (Z.to_nat i) bytes). apply in_or_app. right.
        rewrite Hskip. now left. }
      unfold ascii_bytes in Hascii. rewrite Forall_forall in Hascii.
      specialize (Hascii b Hin). pose proof (byteZ_range b) as Rb.
      rewrite (Big5_iter_ascii big5 bytes fatal i res (byteZ b) Hb)
        by (unfold isASCIIByte, inRange; lia).
      cbn [bind]. rewrite IH by lia. rewrite Hskip. cbn [map].
      now rewrite <- app_assoc.
    + rewrite skipn_all2 by lia. cbn [map]. rewrite app_nil_r. do 2 f_equal. lia.
Qed.

Lemma Big5Decoder_ascii big5 bytes fatal :
  ascii_bytes bytes ->
  Big5Decoder big5 bytes fatal false = Ok (map (fun b => JNum (byteZ b)) bytes).
Proof.
  intros H. rewrite Big5Decoder_eq.
  rewrite (Big5_loop_ascii big5 bytes fatal (List.length bytes) H 0 []) by lia.
  reflexivity.
Qed.

Lemma single_char_ascii index bytes :
  ascii_bytes bytes ->
  map (single_char index) bytes = map byteZ bytes /\ wf_single index bytes.
Proof.
  induction 1 as [|b rest Hb Hrest [IH1 IH2]]; [split; [reflexivity | constructor]|].
  pose proof (byteZ_range b) as Rb.
  assert (Ha : isASCIIByte (byteZ b) = true) by (unfold isASCIIByte, inRange; lia).
  split.
  - cbn [map]. unfold single_char at 1. now rewrite Ha, IH1.
  - constructor; [now left | assumption].
Qed.

(** X18: every decoder but those of UTF-16 leaves ASCII alone: bytes
    below 0x80 decode, in either mode, to the code units of the same
    values ([TextDecoder] hands non-fatal UTF-8 to the host, of which
    nothing is said here). *)
Theorem Decode_ascii :
  forall core_decode more_arguments bytes label encoding fatal,
    Resolve label = Ok encoding ->
    String.eqb encoding "utf-16le" = false ->
    String.eqb encoding "utf-16be" = false ->
    fatal = true \/ String.eqb encoding "utf-8" = false ->
    ascii_bytes bytes ->
    Decode core_decode more_arguments bytes label fatal false
    = if String.eqb encoding "big5"
         && (Z.of_nat (List.length bytes) >? max_arguments more_arguments)
      then Err TooManyArguments
      else Ok (map byteZ bytes).
Proof.
  intros core_decode more_arguments bytes label encoding fatal Hres Hle Hbe Hmode Hascii.
  destruct (Decode_cases core_decode more_arguments bytes label encoding fatal false Hres)
    as [-> Hindex].
  rewrite Hle, Hbe.
  destruct (String.eqb encoding "utf-8") eqn:H8.
  { destruct Hmode as [->|]; [|discriminate]. cbn [negb andb].
    apply String.eqb_eq in H8. subst encoding. cbn [String.eqb Ascii.eqb Bool.eqb andb].
    now apply decodeUtf8_ascii. }
  destruct (String.eqb encoding "big5") eqn:H5; cbn [andb].
  { rewrite Big5Decoder_ascii by assumption. cbn [bind].
    unfold fromCharCode_apply. rewrite length_map.
    destruct (_ >? _); [reflexivity|]. f_equal.
    unfold fromCharCode_vals. rewrite map_map. apply map_ext.
    intros b. cbn [charCodeOf]. pose proof (byteZ_range b).
    unfold ToUint16. apply Z.mod_small. lia. }
  destruct Hindex as [index [Hget Hok]].
  { unfold takes_ignoreBOM. now rewrite H8, Hle, Hbe. }
  { reflexivity. }
  rewrite Hget.
  destruct (single_char_ascii index bytes Hascii) as [Hmap Hwf].
  rewrite <- Hmap. apply decode_single_modes; [|now right].
  exact (encodingIndexes_single encoding index Hget H5).
Qed.

Lemma Decode_ascii_witness :
  Resolve "big5-hkscs" = Ok "big5"%string
  /\ String.eqb "big5" "utf-16le" = false
  /\ String.eqb "big5" "utf-16be" = false
  /\ (true = true \/ String.eqb "big5" "utf-8" = false)
  /\ ascii_bytes [x68; x69]
  /\ Decode (fun _ => []) 0%nat [x68; x69] "big5-hkscs" true false
     = if String.eqb "big5" "big5"
          && (Z.of_nat (List.length [x68; x69]) >? max_arguments 0)
       then Err TooManyArguments
       else Ok (map byteZ [x68; x69]).
Proof.
  assert (H1 : Resolve "big5-hkscs" = Ok "big5"%string) by (vm_compute; reflexivity).
  assert (H2 : String.eqb "big5" "utf-16le" = false) by reflexivity.
  assert (H3 : String.eqb "big5" "utf-16be" = false) by reflexivity.
  assert (H4 : true = true \/ String.eqb "big5" "utf-8" = false) by (left; reflexivity).
  assert (H5 : ascii_bytes [x68; x69])
    by (repeat constructor; vm_compute; discriminate).
  repeat (split; [assumption|]).
  exact (Decode_ascii (fun _ => []) 0%nat [x68; x69] "big5-hkscs"%string "big5"%string true
                      H1 H2 H3 H4 H5).
Defined.

(** * Big5: what well-formed input decodes to *)

Lemma Big5_values_cons big5 b rest :
  Big5_values big5 (b :: rest) =
  if isASCIIByte (byteZ b) then JNum (byteZ b) :: Big5_values big5 rest
  else match rest with
       | trail :: rest' =>
           Big5_pair big5 (byteZ b) (byteZ trail) :: Big5_values big5 rest'
       | [] => []
       end.
Proof. destruct rest; reflexivity. Qed.

Lemma Big5_accepted big5 bytes fatal n :
  forall i lead res,
    0 <= i ->
    Z.of_nat (List.length bytes) - i <= Z.of_nat n ->
    need_big5 big5 lead (skipn (Z.to_nat i) bytes) ->
    (st' <- Big5_loop big5 bytes fatal (mk_big5 i lead res) ;; Big5_finish fatal st')
    = Ok (res ++ Big5_pending big5 lead (skipn (Z.to_nat i) bytes)).
Proof.
  induction n as [|n IH]; intros i lead res Hi Hn Hneed; rewrite Big5_loop_eq;
    cbn [b5_i b5_lead b5_res].
  all: destruct (Z.ltb_spec i (Z.of_nat (List.length bytes))) as [Hlt|Hge]; try lia.
  1,3: rewrite skipn_all2 in Hneed |- * by lia; cbn [bind];
    unfold Big5_finish, need_big5, Big5_pending in *; cbn [b5_lead b5_res];
    destruct (lead =? 0); cbn [negb Big5_values];
    [now rewrite app_nil_r | destruct Hneed as [t [r [Ht _]]]; discriminate].
  destruct (Uint8_at_skipn bytes i (conj Hi Hlt)) as [b [Hb Hskip]].
  rewrite Hskip in Hneed |- *. unfold Big5_iter. cbn [b5_i b5_lead b5_res]. rewrite Hb.
  assert (IH' : forall lead' res',
             need_big5 big5 lead' (skipn (Z.to_nat (i + 1)) bytes) ->
             (st' <- Big5_loop big5 bytes fatal (mk_big5 (i + 1) lead' res') ;;
              Big5_finish fatal st')
             = Ok (res' ++ Big5_pending big5 lead' (skipn (Z.to_nat (i + 1)) bytes))).
  { intros lead' res' Hneed'. apply IH; [lia | lia | assumption]. }
  set (rest := skipn (Z.to_nat (i + 1)) bytes) in *.
  destruct (Z.eqb_spec lead 0) as [->|Hlead]; cbn [negb].
  - unfold need_big5 in Hneed. cbn [Z.eqb] in Hneed.
    unfold Big5_pending at 1. cbn [Z.eqb]. rewrite Big5_values_cons.
    destruct (isASCIIByte (byteZ b)) eqn:Hascii.
    { cbn [bind]. apply wf_big5_ascii in Hneed; [|assumption].
      rewrite (IH' 0) by exact Hneed. unfold Big5_pending. cbn [Z.eqb].
      now rewrite <- app_assoc. }
    destruct (inRange (byteZ b) 129 254) eqn:Hrange.
    { cbn [bind]. apply wf_big5_lead in Hneed; [|assumption].
      rewrite (IH' (byteZ b)) by exact Hneed. unfold Big5_pending.
      assert (Hne : (byteZ b =? 0) = false) by (unfold inRange in Hrange; lia).
      now rewrite Hne. }
    exfalso. now apply (wf_big5_other big5 b rest).
  - apply need_big5_cons in Hneed; [|assumption].
    destruct Hneed as [[p [Hp Hmapped]] Hwf].
    unfold Big5_pending at 1. rewrite (proj2 (Z.eqb_neq _ _) Hlead).
    unfold Big5_pair. rewrite Hp. cbn [pointer_eqb Big5_code].
    assert (Hgo : forall v,
               (st' <- Big5_loop big5 bytes fatal (mk_big5 (i + 1) 0 (res ++ [v])) ;;
                Big5_finish fatal st')
               = Ok (res ++ v :: Big5_values big5 rest)).
    { intros v. rewrite (IH' 0) by exact Hwf. unfold Big5_pending. cbn [Z.eqb].
      now rewrite <- app_assoc. }
    destruct (Z.eqb_spec p 1133); [cbn [orb bind]; apply Hgo|].
    destruct (Z.eqb_spec p 1135); [cbn [orb bind]; apply Hgo|].
    destruct (Z.eqb_spec p 1164); [cbn [orb bind]; apply Hgo|].
    destruct (Z.eqb_spec p 1166); [cbn [orb bind]; apply Hgo|].
    cbn [orb].
    destruct Hmapped as [Hs|Hcode]; [unfold Big5_special in Hs; lia|].
    destruct (index_get big5 p) eqn:Hget; cbn [is_null andb bind];
      [apply Hgo | now destruct Hcode | apply Hgo].
Qed.

(** X24: well-formed Big5 input decodes, in either mode, to one value for
    each ASCII byte, the byte itself, and one for each pair of a lead and
    a trail byte: U+00CA or U+00EA at the four pointers set apart, the
    entry of the index elsewhere; [TextDecoder] makes a string of them,
    unless there are more than the engine takes as the arguments of a
    call, when [String.fromCharCode.apply] throws its [RangeError]. *)
Theorem Big5_well_formed :
  forall core_decode more_arguments bytes fatal,
    wf_big5 index_big5 bytes ->
    Big5Decoder index_big5 bytes fatal false = Ok (Big5_values index_big5 bytes)
    /\ Decode core_decode more_arguments bytes "big5" fatal false
       = if Z.of_nat (List.length (Big5_values index_big5 bytes))
            >? max_arguments more_arguments
         then Err TooManyArguments
         else Ok (fromCharCode_vals (Big5_values index_big5 bytes)).
Proof.
  intros core_decode more_arguments bytes fatal Hwf.
  assert (H : Big5Decoder index_big5 bytes fatal false
              = Ok (Big5_values index_big5 bytes)).
  { rewrite Big5Decoder_eq.
    exact (Big5_accepted index_big5 bytes fatal (List.length bytes) 0 0 []
                         (Z.le_refl 0) ltac:(cbn; lia) Hwf). }
  split; [exact H|]. rewrite Decode_big5, H. reflexivity.
Qed.

Lemma Big5_well_formed_witness :
  wf_big5 index_big5 [x41; x88; x62; xa4; x40]
  /\ Big5Decoder index_big5 [x41; x88; x62; xa4; x40] true false
     = Ok (Big5_values index_big5 [x41; x88; x62; xa4; x40])
  /\ Decode (fun _ => []) 0%nat [x41; x88; x62; xa4; x40] "big5" true false
     = if Z.of_nat (List.length (Big5_values index_big5 [x41; x88; x62; xa4; x40]))
          >? max_arguments 0
       then Err TooManyArguments
       else Ok (fromCharCode_vals (Big5_values index_big5 [x41; x88; x62; xa4; x40])).
Proof.
  assert (H : wf_big5 index_big5 [x41; x88; x62; xa4; x40]).
  { apply wfb_ascii; [reflexivity|].
    apply wfb_pair; [reflexivity | exists 1133; split; [reflexivity|];
                                   left; unfold Big5_special; lia |].
    apply wfb_pair; [reflexivity | | constructor].
    eexists. split; [vm_compute; reflexivity|]. right. vm_compute. discriminate. }
  split; [exact H|]. exact (Big5_well_formed (fun _ => []) 0%nat _ true H).
Defined.

(** * The labels of encodingMap *)

Lemma resolves_to_spec r key :
  resolves_to r key = true ->
  r = if String.eqb key "gbk" || String.eqb key "gb18030"
      then Err DecoderNotFound else Ok key.
Proof.
  unfold resolves_to. destruct r as [encoding|e].
  - destruct (String.eqb key "gbk" || String.eqb key "gb18030"); [discriminate|].
    cbn [negb andb]. intros H. apply String.eqb_eq in H. now subst.
  - destruct e; try discriminate. now intros ->.
Qed.

Lemma encodingMap_resolves :
  forallb (fun entry : string * list string =>
             forallb (fun label => resolves_to (Resolve label) (fst entry)) (snd entry))
          encodingMap = true.
Proof. vm_compute. reflexivity. Qed.

Lemma encodings_canonical :
  forallb (fun kv : string * string =>
             String.eqb (snd kv) "gbk" || String.eqb (snd kv) "gb18030"
             || resolves_to (Resolve (snd kv)) (snd kv))
          encodings = true.
Proof. vm_compute. reflexivity. Qed.

(** X19: every label listed in [encodingMap] resolves to the encoding it
    is listed under, or is refused for want of a decoder when that is gbk
    or gb18030; and the name of an encoding a label resolves to is itself
    a label of that encoding. *)
Theorem encodingMap_labels :
  (forall key labels label,
      In (key, labels) encodingMap -> In label labels ->
      Resolve label = if String.eqb key "gbk" || String.eqb key "gb18030"
                      then Err DecoderNotFound else Ok key)
  /\ (forall label encoding, Resolve label = Ok encoding -> Resolve encoding = Ok encoding).
Proof.
  split.
  - intros key labels label Hentry Hlabel.
    pose proof encodingMap_resolves as H. rewrite forallb_forall in H.
    specialize (H _ Hentry). cbn [fst snd] in H. rewrite forallb_forall in H.
    exact (resolves_to_spec _ _ (H label Hlabel)).
  - intros label encoding Hres.
    pose proof Hres as Hres'. unfold Resolve in Hres'. rewrite TextDecoder_new_spec in Hres'.
    destruct (Map_get encodings (toLowerCase (spec_trim label))) as [enc|] eqn:Hget;
      [|discriminate].
    destruct (String.eqb enc "gbk" || String.eqb enc "gb18030") eqn:Hgb; [discriminate|].
    cbn [bind td_encoding] in Hres'. injection Hres' as <-.
    apply Map_get_In in Hget.
    pose proof encodings_canonical as H. rewrite forallb_forall in H.
    specialize (H _ Hget). cbn [snd] in H. rewrite Hgb in H. cbn [orb] in H.
    apply resolves_to_spec in H. now rewrite Hgb in H.
Qed.

Lemma encodingMap_labels_witness :
  In ("utf-16le"%string, ["csunicode"; "iso-10646-ucs-2"; "ucs-2"; "unicode"; "unicodefeff"; "utf-16"; "utf-16le"]%string) encodingMap
  /\ In "utf-16"%string ["csunicode"; "iso-10646-ucs-2"; "ucs-2"; "unicode"; "unicodefeff"; "utf-16"; "utf-16le"]%string
  /\ Resolve "utf-16"
     = (if String.eqb "utf-16le" "gbk" || String.eqb "utf-16le" "gb18030"
        then Err DecoderNotFound else Ok "utf-16le"%string)
  /\ Resolve "utf-16le" = Ok "utf-16le"%string.
Proof.
  assert (H1 : In ("utf-16le"%string, ["csunicode"; "iso-10646-ucs-2"; "ucs-2"; "unicode"; "unicodefeff"; "utf-16"; "utf-16le"]%string) encodingMap).
  { unfold encodingMap. repeat (first [left; reflexivity | right]). }
  assert (H2 : In "utf-16"%string
                  ["csunicode"; "iso-10646-ucs-2"; "ucs-2"; "unicode"; "unicodefeff"; "utf-16"; "utf-16le"]%string)
    by (cbn; tauto).
  pose proof (proj1 encodingMap_labels _ _ _ H1 H2) as H3.
  split; [exact H1|]. split; [exact H2|]. split; [exact H3|].
  exact (proj2 encodingMap_labels "utf-16"%string "utf-16le"%string H3).
Defined.

(** * trimAsciiWhitespace *)

(** X20: [trimAsciiWhitespace] takes the ASCII white space off both ends
    of a label that holds another character, and returns a label of
    white space alone, the empty label included, as it is. *)
Theorem trimAsciiWhitespace_result :
  forall label,
    trimAsciiWhitespace label = if all_ws label then label else spec_trim label.
Proof.
  intros label. destruct (all_ws label) eqn:Hws.
  - now apply trimAsciiWhitespace_all_ws.
  - now apply trimAsciiWhitespace_spec.
Qed.

(** * Stream *)

(** X21: a [Stream] hands out the tokens it was built from in their
    order and END_OF_STREAM from then on; [prepend] puts the tokens of an
    array in front of those still to be read, [push] behind them, in their
    order. *)
Theorem Stream_order :
  (forall token tokens,
      Stream_read (Stream_new (token :: tokens)) = (token, Stream_new tokens))
  /\ Stream_read (Stream_new []) = (END_OF_STREAM, Stream_new [])
  /\ (forall tokens front,
         Stream_prepend (Stream_new tokens) front = Stream_new (front ++ tokens))
  /\ (forall tokens back,
         Stream_push (Stream_new tokens) back = Stream_new (tokens ++ back))
  /\ (forall tokens, Stream_endOfStream (Stream_new tokens) = true <-> tokens = []).
Proof.
  split; [exact Stream_read_new|]. split; [reflexivity|]. split; [|split].
  - intros tokens front. unfold Stream_prepend, Stream_new. now rewrite rev_app_distr.
  - intros tokens back. unfold Stream_push, Stream_new. now rewrite rev_app_distr.
  - intros tokens. unfold Stream_new, Stream_endOfStream. split.
    + destruct (rev tokens) eqn:H; [|discriminate]. intros _.
      rewrite <- (rev_involutive tokens), H. reflexivity.
    + intros ->. reflexivity.
Qed.

(** * btoa: the encoding of RFC 4648 *)

Lemma b64char_digit d : 0 <= d < 64 -> b64char d = base64_digit d.
Proof.
  intros Hd.
  pose proof (forall_below (fun d => b64char d =? base64_digit d) 64
                           ltac:(vm_compute; reflexivity) d Hd) as H.
  now apply Z.eqb_eq in H.
Qed.

Lemma enc_triple_digits a b c :
  let n := byteZ a * 65536 + byteZ b * 256 + byteZ c in
  enc_triple (a, b, c)
  = [base64_digit (n / 262144); base64_digit (n / 4096 mod 64);
     base64_digit (n / 64 mod 64); base64_digit (n mod 64)].
Proof.
  intros n. rewrite enc_triple_chars. cbv zeta. rewrite triple_tmp_val. fold n.
  pose proof (byteZ_range a) as Ha. pose proof (byteZ_range b) as Hb.
  pose proof (byteZ_range c) as Hc.
  assert (Hn : 0 <= n < 16777216) by (unfold n; lia).
  rewrite !land_63, !shiftr_div by lia.
  change (2 ^ 18) with 262144. change (2 ^ 12) with 4096. change (2 ^ 6) with 64.
  assert (Hq : 0 <= n / 262144 < 64)
    by (split; [apply Z.div_pos; lia | apply Z.div_lt_upper_bound; lia]).
  rewrite (Z.mod_small (n / 262144)) by lia.
  rewrite !b64char_digit by (try lia; apply Z.mod_pos_bound; lia).
  reflexivity.
Qed.

Lemma enc_tail_digits tl :
  (List.length tl < 3)%nat -> enc_tail tl = base64_encoding tl.
Proof.
  intros Htl. destruct tl as [|x [|y [|z tl]]]; cbn [List.length] in Htl; try lia.
  - reflexivity.
  - assert (H : forallb (fun x => if list_eq_dec Z.eq_dec (enc_tail [x])
                                                 (base64_encoding [x])
                                  then true else false) all_bytes = true)
      by (vm_compute; reflexivity).
    rewrite forallb_forall in H. specialize (H x (all_bytes_In x)).
    now destruct (list_eq_dec Z.eq_dec (enc_tail [x]) (base64_encoding [x])).
  - assert (H : forallb (fun x => forallb (fun y =>
                           if list_eq_dec Z.eq_dec (enc_tail [x; y])
                                          (base64_encoding [x; y])
                           then true else false) all_bytes) all_bytes = true)
      by (vm_compute; reflexivity).
    rewrite forallb_forall in H. specialize (H x (all_bytes_In x)).
    rewrite forallb_forall in H. specialize (H y (all_bytes_In y)).
    now destruct (list_eq_dec Z.eq_dec (enc_tail [x; y]) (base64_encoding [x; y])).
Qed.

Lemma fromByteArray_base64 bytes : fromByteArray bytes = base64_encoding bytes.
Proof.
  destruct (bytes_triples bytes) as [ts [tl [-> Htl]]].
  rewrite fromByteArray_triples by assumption.
  induction ts as [|[[a b] c] ts IH]; cbn [map List.concat flatten3 app].
  - now apply enc_tail_digits.
  - rewrite enc_triple_digits. cbv zeta. cbn [app base64_encoding]. now rewrite IH.
Qed.

(** C9: [btoa] throws its TypeError exactly when some char code of the
    input exceeds 0xFF; otherwise every char code is one byte, and the
    result is the Base64 encoding of these bytes as RFC 4648 defines it. *)
Theorem btoa_latin1 :
  forall s,
    (btoa s = Err Latin1RangeError <-> exists c, In c s /\ 0xff < c)
    /\ ((forall c, In c s -> c <= 0xff) ->
        btoa s = Ok (base64_encoding (Uint8Array_from s)))
    /\ ((forall c, In c s -> 0 <= c <= 0xff) ->
        map byteZ (Uint8Array_from s) = s).
Proof.
  intros s. unfold btoa. rewrite btoa_loop_spec. cbn [app].
  destruct (existsb (fun c => c >? 255) s) eqn:Hex; cbn [bind].
  - apply existsb_exists in Hex. destruct Hex as [c [Hin Hc]].
    apply Z.gtb_lt in Hc.
    split; [split; [intros _; exists c; auto | reflexivity]|].
    split; [intros H; specialize (H c Hin); lia|].
    intros H. specialize (H c Hin). lia.
  - split; [split; [discriminate|]|].
    + intros [c [Hin Hc]].
      assert (existsb (fun c => c >? 255) s = true)
        by (apply existsb_exists; exists c; split; [assumption | now apply Z.gtb_lt]).
      congruence.
    + split; [intros _; now rewrite fromByteArray_base64|].
      intros H. unfold Uint8Array_from. rewrite map_map.
      rewrite <- (map_id s) at 2. apply map_ext_in.
      intros c Hin. apply byteZ_ToUint8. auto.
Qed.

Lemma btoa_latin1_witness :
  (forall c, In c (codeUnits "hi") -> c <= 0xff)
  /\ btoa (codeUnits "hi") = Ok (base64_encoding (Uint8Array_from (codeUnits "hi")))
  /\ base64_encoding (Uint8Array_from (codeUnits "hi")) = codeUnits "aGk=".
Proof.
  assert (H : forall c, In c (codeUnits "hi") -> c <= 0xff)
    by (cbn; intros c [<- | [<- | []]]; lia).
  split; [exact H|].
  split; [exact (proj1 (proj2 (btoa_latin1 (codeUnits "hi"))) H) | reflexivity].
Defined.

(** * Single-byte encodings read with replacement *)


(** * Big5 read with replacement *)





(** * UTF-8 read with replacement *)


Lemma abs_run_state0 bytes out c0 c1 :
  abs_run bytes (mk_abs out 0 c0) = abs_run bytes (mk_abs out 0 c1).
Proof. apply abs_finish_loop_state0. Qed.



Lemma utf8_bad_12 b : utf8_bad 12 b = true.
Proof. reflexivity. Qed.













(** * UTF-16 read with replacement *)









(** * TextDecoder.decode: errors and replacement *)













